(** * projeto-solid: the in-memory bank of [OriginalClasses.py] and
    [RefactoredClasses.py]

    A shallow embedding of the two variants of the bank (the monolithic
    [original/OriginalClasses.py] and the refactored
    [solid/RefactoredClasses.py]) and the properties of the ledger:
    balances against the transaction history, transfers, money
    normalisation, customer registration and statements.

    Layout:
    - [Dec] and [DecStr]: the part of Python's [decimal] module the program
      uses, under the context the program sets ([getcontext().prec = 28],
      default rounding ROUND_HALF_EVEN, InvalidOperation trapped);
    - the exception classes, the state-and-exception monad, the
      insertion-ordered dictionary;
    - [Original] and [Refatorado]: the classes of the two files, and the
      programs that use a bank through its public methods;
    - [Efetivada], [Objetos], [Variantes]: what a transfer leaves, the list
      objects handed to callers, the two variants side by side;
    - [PassosOriginal] and [PassosRefatorado]: the steps that a call takes
      a bank along, and what every bank in use keeps;
    - the properties, each for both variants. *)

From Stdlib Require Import ZArith NArith List String Ascii Bool Lia Permutation.
From Stdlib Require Import DecimalString DecimalPos DecimalZ.
Import ListNotations.
Open Scope Z_scope.

(** ** Python's [decimal] module, as far as the program uses it *)

Module Dec.

(** A [Decimal] is a sign, a coefficient and an exponent, or one of the
    special values.  The diagnostic payload of a NaN is not kept: the
    program never reads it. *)
Inductive Decimal : Type :=
| Fin (neg : bool) (coef : N) (exp : Z)   (* (-1)^neg * coef * 10^exp *)
| Inf (neg : bool)
| NaN (neg : bool) (sinal : bool).        (* sinal = true: signalling NaN *)

(** [getcontext().prec = 28] *)
Definition prec : Z := 28.

(** What an operation of the module does: it returns a value, or it signals
    InvalidOperation, which the default context traps, so that
    [decimal.InvalidOperation] is raised. *)
Inductive sinalizado (A : Type) : Type :=
| Valor (a : A)
| InvalidOperation.
Arguments Valor {A} a.
Arguments InvalidOperation {A}.

Definition com_sinal (neg : bool) (c : N) : Z :=
  if neg then - Z.of_N c else Z.of_N c.

(** [len(self._int)]: the number of decimal digits of the coefficient
    (1 for 0), counted by dividing by ten; a number has no more digits than
    bits, which bounds the count. *)
Fixpoint conta_digitos (n : nat) (c : N) : Z :=
  match n with
  | O => 1
  | S n' => if (c <? 10)%N then 1 else 1 + conta_digitos n' (c / 10)%N
  end.

Definition ndigitos (c : N) : Z :=
  conta_digitos (N.to_nat (N.size c)) c.

(** ROUND_HALF_EVEN: drop the [k] low digits of [c]. *)
Definition arredonda (c : Z) (k : Z) : Z :=
  let p := 10 ^ k in
  let q := c / p in
  let r := c mod p in
  if 2 * r <? p then q
  else if p <? 2 * r then q + 1
  else if Z.even q then q else q + 1.

(** [Decimal._fix]: round the coefficient to [prec] digits.  The exponent
    limits Emax and Emin of the context are never reached by the program
    (amounts are quantized to cents) and are left out. *)
Definition _fix (neg : bool) (c : Z) (e : Z) : Decimal :=
  if c <? 10 ^ prec then Fin neg (Z.to_N c) e
  else
    let k := ndigitos (Z.to_N c) - prec in
    let q := arredonda c k in
    if q <? 10 ^ prec then Fin neg (Z.to_N q) (e + k)
    else Fin neg (Z.to_N (q / 10)) (e + k + 1).

(** The integer [d / 10^e0] of a finite decimal whose exponent is at least
    [e0]. *)
Definition alinhado (neg : bool) (c : N) (e e0 : Z) : Z :=
  com_sinal neg c * 10 ^ (e - e0).

(** [Decimal.__add__] *)
Definition add (a b : Decimal) : sinalizado Decimal :=
  match a, b with
  | NaN _ true, _ => InvalidOperation
  | _, NaN _ true => InvalidOperation
  | NaN n false, _ => Valor (NaN n false)
  | _, NaN n false => Valor (NaN n false)
  | Inf n1, Inf n2 => if Bool.eqb n1 n2 then Valor (Inf n1) else InvalidOperation
  | Inf n1, Fin _ _ _ => Valor (Inf n1)
  | Fin _ _ _, Inf n2 => Valor (Inf n2)
  | Fin n1 c1 e1, Fin n2 c2 e2 =>
      let e0 := Z.min e1 e2 in
      let z := alinhado n1 c1 e1 e0 + alinhado n2 c2 e2 e0 in
      let neg := if z =? 0 then n1 && n2 else z <? 0 in
      Valor (_fix neg (Z.abs z) e0)
  end.

(** [Decimal.copy_negate] *)
Definition negate (a : Decimal) : Decimal :=
  match a with
  | Fin n c e => Fin (negb n) c e
  | Inf n => Inf (negb n)
  | NaN n s => NaN (negb n) s
  end.

(** [Decimal.__sub__]: [self + other.copy_negate()], NaNs checked first. *)
Definition sub (a b : Decimal) : sinalizado Decimal :=
  match a, b with
  | NaN _ true, _ => InvalidOperation
  | _, NaN _ true => InvalidOperation
  | NaN n false, _ => Valor (NaN n false)
  | _, NaN n false => Valor (NaN n false)
  | _, _ => add a (negate b)
  end.

(** [Decimal._cmp] on values that are not NaN. *)
Definition cmp (a b : Decimal) : comparison :=
  match a, b with
  | Fin n1 c1 e1, Fin n2 c2 e2 =>
      let e0 := Z.min e1 e2 in
      Z.compare (alinhado n1 c1 e1 e0) (alinhado n2 c2 e2 e0)
  | Inf n1, Inf n2 =>
      if Bool.eqb n1 n2 then Eq else if n1 then Lt else Gt
  | Inf n1, _ => if n1 then Lt else Gt
  | _, Inf n2 => if n2 then Gt else Lt
  | _, _ => Eq
  end.

Definition is_nan (a : Decimal) : bool :=
  match a with NaN _ _ => true | _ => false end.

(** [Decimal.__le__] and [Decimal.__lt__]: an ordering comparison that
    involves a NaN signals InvalidOperation. *)
Definition le (a b : Decimal) : sinalizado bool :=
  if is_nan a || is_nan b then InvalidOperation
  else Valor (match cmp a b with Gt => false | _ => true end).

Definition lt (a b : Decimal) : sinalizado bool :=
  if is_nan a || is_nan b then InvalidOperation
  else Valor (match cmp a b with Lt => true | _ => false end).

(** [Decimal(0)], the right operand of [valor <= 0]. *)
Definition zero_int : Decimal := Fin false 0 0.

(** [Decimal.quantize(Decimal("0.01"))]: rescale to the exponent -2 with
    ROUND_HALF_EVEN; the result must fit in [prec] digits. *)
Definition quantize_centavos (a : Decimal) : sinalizado Decimal :=
  match a with
  | NaN _ true => InvalidOperation
  | NaN n false => Valor (NaN n false)
  | Inf _ => InvalidOperation
  | Fin n c e =>
      let c' := if -2 <=? e then Z.of_N c * 10 ^ (e + 2)
                else arredonda (Z.of_N c) (- 2 - e) in
      if c' <? 10 ^ prec then Valor (Fin n (Z.to_N c') (-2))
      else InvalidOperation
  end.

End Dec.

(** ** [Decimal(str)]: the constructor from a string

    A Python [str] is a sequence of code points, and a [string] holds it
    here in UTF-8 (a lone surrogate as its three bytes), so that the
    literals of the two files are written as they are there.  The
    constructor is the one of [_decimal], the C implementation that CPython
    loads, on a 64-bit build: white space is stripped at both ends,
    underscores are dropped, a decimal digit of any script stands for its
    ASCII digit, and what remains must match the grammar (case-insensitive):
    an optional sign, then a number (digits with an optional fraction and an
    optional exponent), an infinity, or a NaN.  The value is taken exactly,
    in the widest context that the module has: a number that this context
    would round or clamp is refused like a string outside the grammar.  The
    white space and the decimal digits are those of Unicode 14.0, the
    tables of Python 3.11. *)

Module DecStr.
Import Dec.

Definition cod (c : ascii) : N := N_of_ascii c.

(** A byte that continues a UTF-8 sequence. *)
Definition seguinte (b : N) : bool := ((128 <=? b) && (b <=? 191))%N.

(** The code points of a UTF-8 byte sequence, each in its shortest form;
    [None] for bytes that hold no [str]. *)
Fixpoint pontos (l : list N) : option (list N) :=
  match l with
  | [] => Some []
  | b :: l1 =>
      if (b <? 128)%N then option_map (cons b) (pontos l1)
      else if (b <? 194)%N then None
      else if (b <? 224)%N then
        match l1 with
        | b1 :: l2 =>
            if seguinte b1
            then option_map (cons ((b - 192) * 64 + (b1 - 128))%N)
                            (pontos l2)
            else None
        | _ => None
        end
      else if (b <? 240)%N then
        match l1 with
        | b1 :: b2 :: l3 =>
            let p := ((b - 224) * 4096 + (b1 - 128) * 64 + (b2 - 128))%N in
            if seguinte b1 && seguinte b2 && (2048 <=? p)%N
            then option_map (cons p) (pontos l3)
            else None
        | _ => None
        end
      else if (b <? 245)%N then
        match l1 with
        | b1 :: b2 :: b3 :: l4 =>
            let p := ((b - 240) * 262144 + (b1 - 128) * 4096
                      + (b2 - 128) * 64 + (b3 - 128))%N in
            if seguinte b1 && seguinte b2 && seguinte b3
               && (65536 <=? p)%N && (p <=? 1114111)%N
            then option_map (cons p) (pontos l4)
            else None
        | _ => None
        end
      else None
  end.

(** [Py_UNICODE_ISSPACE], which is [str.isspace] on one code point. *)
Definition espaco (p : N) : bool :=
  ((9 <=? p) && (p <=? 13) || (28 <=? p) && (p <=? 32)
   || (p =? 133) || (p =? 160) || (p =? 5760)
   || (8192 <=? p) && (p <=? 8202) || (p =? 8232) || (p =? 8233)
   || (p =? 8239) || (p =? 8287) || (p =? 12288))%N.

(** The code points of the digit zero of every script; the other nine
    digits of a script follow its zero. *)
Definition zeros : list N :=
  [48; 1632; 1776; 1984; 2406; 2534; 2662; 2790; 2918; 3046; 3174; 3302;
   3430; 3558; 3664; 3792; 3872; 4160; 4240; 6112; 6160; 6470; 6608; 6784;
   6800; 6992; 7088; 7232; 7248; 42528; 43216; 43264; 43472; 43504; 43600;
   44016; 65296; 66720; 68912; 69734; 69872; 69942; 70096; 70384; 70736;
   70864; 71248; 71360; 71472; 71904; 72016; 72784; 73040; 73120; 92768;
   92864; 93008; 120782; 120792; 120802; 120812; 120822; 123200; 123632;
   125264; 130032]%N.

(** [Py_UNICODE_TODECIMAL] *)
Definition algarismo (p : N) : option N :=
  match find (fun z => (z <=? p) && (p <? z + 10))%N zeros with
  | Some z => Some (p - z)%N
  | None => None
  end.

Fixpoint lstrip (l : list N) : list N :=
  match l with
  | p :: l' => if espaco p then lstrip l' else l
  | [] => []
  end.

Definition strip (l : list N) : list N :=
  rev (lstrip (rev (lstrip l))).

(** [numeric_as_ascii], after the strip: underscores are dropped, ASCII is
    kept (the character 0 is none), white space becomes a blank, a decimal
    digit its ASCII digit; any other code point refuses the string. *)
Fixpoint em_ascii (l : list N) : option (list ascii) :=
  match l with
  | [] => Some []
  | p :: l' =>
      if (p =? 95)%N then em_ascii l'
      else
        match (if ((0 <? p) && (p <=? 127))%N then Some (ascii_of_N p)
               else if espaco p then Some " "%char
               else option_map (fun d => ascii_of_N (48 + d)) (algarismo p))
        with
        | Some c => option_map (cons c) (em_ascii l')
        | None => None
        end
  end.

Definition minuscula (c : ascii) : ascii :=
  let n := cod c in
  if ((65 <=? n) && (n <=? 90))%N then ascii_of_N (n + 32) else c.

Definition digito (c : ascii) : option N :=
  let n := cod c in
  if ((48 <=? n) && (n <=? 57))%N then Some (n - 48)%N else None.

(** The longest prefix of digits, and the rest. *)
Fixpoint digitos (l : list ascii) : list N * list ascii :=
  match l with
  | c :: l' =>
      match digito c with
      | Some d => let (ds, r) := digitos l' in (d :: ds, r)
      | None => ([], l)
      end
  | [] => ([], [])
  end.

(** [int(...)] of a string of digits. *)
Definition inteiro (ds : list N) : N :=
  fold_left (fun acc d => (10 * acc + d)%N) ds 0%N.

(** An optional sign. *)
Definition sinal (l : list ascii) : bool * list ascii :=
  match l with
  | "-"%char :: l' => (true, l')
  | "+"%char :: l' => (false, l')
  | _ => (false, l)
  end.

(** The exponent part, after the number: nothing, or [E], an optional sign
    and at least one digit, up to the end of the string. *)
Definition expoente (l : list ascii) : option Z :=
  match l with
  | [] => Some 0
  | "e"%char :: l' =>
      let (neg, l'') := sinal l' in
      match digitos l'' with
      | ((_ :: _) as ds, []) => Some (com_sinal neg (inteiro ds))
      | _ => None
      end
  | _ => None
  end.

Definition numero (neg : bool) (l : list ascii) : option Decimal :=
  let (ip, r) := digitos l in
  let (fp, r') :=
    match r with
    | "."%char :: r1 => digitos r1
    | _ => ([], r)
    end in
  match ip ++ fp with
  | [] => None
  | ds =>
      match expoente r' with
      | Some e => Some (Fin neg (inteiro ds) (e - Z.of_nat (List.length fp)))
      | None => None
      end
  end.

Definition so_digitos (l : list ascii) : bool :=
  match digitos l with (_, []) => true | _ => false end.

Definition especial (neg : bool) (l : list ascii) : option Decimal :=
  match l with
  | ["i"; "n"; "f"]%char => Some (Inf neg)
  | ["i"; "n"; "f"; "i"; "n"; "i"; "t"; "y"]%char => Some (Inf neg)
  | "n"%char :: "a"%char :: "n"%char :: d =>
      if so_digitos d then Some (NaN neg false) else None
  | "s"%char :: "n"%char :: "a"%char :: "n"%char :: d =>
      if so_digitos d then Some (NaN neg true) else None
  | _ => None
  end.

(** The limits of the widest context: [MAX_EMAX], [MIN_ETINY] and
    [MAX_PREC] of the module. *)
Definition MAX_EMAX : Z := 999999999999999999.
Definition MIN_ETINY : Z := -1999999999999999997.
Definition MAX_PREC : Z := 999999999999999999.

(** A number that the widest context takes as it is written: the exponent
    is not below [MIN_ETINY]; the exponent of a zero, and of the first
    digit of any other number, is not above [MAX_EMAX]; the coefficient has
    no more than [MAX_PREC] digits. *)
Definition cabe (d : Decimal) : bool :=
  match d with
  | Fin _ c e =>
      (MIN_ETINY <=? e)
      && (if (c =? 0)%N then e <=? MAX_EMAX
          else (e + ndigitos c - 1 <=? MAX_EMAX)
               && (ndigitos c <=? MAX_PREC))
  | _ => true
  end.

(** [Decimal(s)] for a string [s]: [None] is the ConversionSyntax
    condition, or the InvalidOperation of a number that does not fit; both
    raise [decimal.InvalidOperation]. *)
Definition Decimal_de_str (s : string) : option Decimal :=
  match pontos (map cod (list_ascii_of_string s)) with
  | None => None
  | Some ps =>
      match em_ascii (strip ps) with
      | None => None
      | Some l =>
          let (neg, r) := sinal l in
          let r := map minuscula r in
          match numero neg r with
          | Some d => if cabe d then Some d else None
          | None => especial neg r
          end
      end
  end.

End DecStr.

(** ** Exceptions, effects and dictionaries *)

(** The exception classes of both files ([ErroBanco] and its three
    subclasses), and [decimal.InvalidOperation], which is not an
    [ErroBanco].  [ReferenciaSemObjeto] does not exist in Python, where a
    reference always has its object: it is the answer of the store below
    when a key holds no account, and [na_conta_viva] shows that a reference
    obtained from [buscar_conta] never gives it. *)
Inductive Excecao : Type :=
| ValorInvalido (msg : string)
| SaldoInsuficiente (msg : string)
| EntidadeNaoEncontrada (msg : string)
| DecimalInvalidOperation
| ReferenciaSemObjeto.

Inductive Classe : Type :=
| CValorInvalido | CSaldoInsuficiente | CEntidadeNaoEncontrada
| CDecimalInvalidOperation | CReferenciaSemObjeto.

(** [type(e)] *)
Definition classe (e : Excecao) : Classe :=
  match e with
  | ValorInvalido _ => CValorInvalido
  | SaldoInsuficiente _ => CSaldoInsuficiente
  | EntidadeNaoEncontrada _ => CEntidadeNaoEncontrada
  | DecimalInvalidOperation => CDecimalInvalidOperation
  | ReferenciaSemObjeto => CReferenciaSemObjeto
  end.

(** [isinstance(e, ErroBanco)] *)
Definition ErroBanco (e : Excecao) : bool :=
  match e with
  | ValorInvalido _ | SaldoInsuficiente _ | EntidadeNaoEncontrada _ => true
  | _ => false
  end.

(** A call returns or raises. *)
Inductive Res (A : Type) : Type :=
| Retorna (a : A)
| Levanta (e : Excecao).
Arguments Retorna {A} a.
Arguments Levanta {A} e.

(** Code that mutates an object of type [S]: the state it leaves is
    returned also when it raises, so that a mutation made before a [raise]
    stays visible. *)
Definition M (S A : Type) : Type := S -> S * Res A.

Definition ret {S A} (a : A) : M S A := fun s => (s, Retorna a).

Definition bind {S A B} (m : M S A) (k : A -> M S B) : M S B :=
  fun s =>
    match m s with
    | (s', Retorna a) => k a s'
    | (s', Levanta e) => (s', Levanta e)
    end.

Definition levanta {S A} (e : Excecao) : M S A := fun s => (s, Levanta e).

Definition estado {S} : M S S := fun s => (s, Retorna s).

Definition modifica {S} (f : S -> S) : M S unit := fun s => (f s, Retorna tt).

(** An operation of the [decimal] module inside the program: the signal
    becomes the exception. *)
Definition decimal {S A} (x : Dec.sinalizado A) : M S A :=
  match x with
  | Dec.Valor a => ret a
  | Dec.InvalidOperation => levanta DecimalInvalidOperation
  end.

Declare Scope m_scope.
Delimit Scope m_scope with m.
Notation "x <- m ;; k" := (bind m (fun x => k))
  (at level 61, m at next level, right associativity) : m_scope.
Notation "m ;; k" := (bind m (fun _ => k))
  (at level 61, right associativity) : m_scope.

(** A Python [dict] with [str] keys: insertion-ordered, one entry per key. *)
Section Dict.
Context {V : Type}.

Definition dict : Type := list (string * V).

(** [d.get(k)] *)
Fixpoint dict_get (k : string) (d : dict) : option V :=
  match d with
  | [] => None
  | (k', v) :: d' => if String.eqb k k' then Some v else dict_get k d'
  end.

(** [d[k] = v]: in place when the key is there, at the end otherwise. *)
Fixpoint dict_set (k : string) (v : V) (d : dict) : dict :=
  match d with
  | [] => [(k, v)]
  | (k', v') :: d' =>
      if String.eqb k k' then (k', v) :: d' else (k', v') :: dict_set k v d'
  end.

(** [d.values()] *)
Definition dict_values (d : dict) : list V := map snd d.

(** [d.keys()] *)
Definition dict_keys (d : dict) : list string := map fst d.

End Dict.
Arguments dict V : clear implicits.

(** [datetime]: an instant, as a number. *)
Definition datetime : Type := Z.

(** [str(n)] for an [int]. *)
Definition str_int (n : Z) : string := NilZero.string_of_int (Z.to_int n).

(** An account number that [abrir_conta] has given out: [str] of a value
    that [_seq_conta] has passed. *)
Definition numerada (seq : Z) (k : string) : Prop :=
  exists z, k = str_int z /\ z < seq.

(** The argument [valor] of the bank's methods: a [Decimal], or any other
    object, which the program only reads through [str(valor)]. *)
Inductive Bruto : Type :=
| BDecimal (d : Dec.Decimal)
| BOutro (str : string).

(** [Decimal(str(valor))].  For a [Decimal], [str] writes the sign, every
    digit of the coefficient and the exponent, and the constructor reads
    the same value back.  A string that the constructor refuses raises
    [decimal.InvalidOperation]. *)
Definition Decimal_str {S} (valor : Bruto) : M S Dec.Decimal :=
  match valor with
  | BDecimal d => ret d
  | BOutro s =>
      match DecStr.Decimal_de_str s with
      | Some d => ret d
      | None => levanta DecimalInvalidOperation
      end
  end.

(** [try: m  except InvalidOperation: h] *)
Definition tente {S A} (m h : M S A) : M S A :=
  fun s =>
    match m s with
    | (s', Levanta DecimalInvalidOperation) => h s'
    | r => r
    end.

(** The two dataclasses that both files declare with the same fields. *)
Record Cliente : Type := {
  id : Z;
  nome : string;
  cpf : string
}.

Record Transacao : Type := {
  momento : datetime;
  tipo : string;
  valor : Dec.Decimal;
  descricao : string;
  origem : string;
  destino : string
}.

Open Scope string_scope.
Open Scope m_scope.

(** ** The balance that a history accounts for

    The effect of a log entry on the balance, in the arithmetic of the
    program: a DEPOSITO adds its amount, a SAQUE subtracts it, and a
    TRANSFERENCIA entry, which comes after the SAQUE or the DEPOSITO of the
    same transfer, adds nothing. *)
Definition efeito (s : Dec.sinalizado Dec.Decimal) (t : Transacao)
    : Dec.sinalizado Dec.Decimal :=
  match s with
  | Dec.InvalidOperation => Dec.InvalidOperation
  | Dec.Valor s =>
      if String.eqb (tipo t) "DEPOSITO" then Dec.add s (valor t)
      else if String.eqb (tipo t) "SAQUE" then Dec.sub s (valor t)
      else Dec.Valor s
  end.

(** From [Decimal("0.00")], the entries in order. *)
Definition saldo_do_historico (h : list Transacao) : Dec.sinalizado Dec.Decimal :=
  fold_left efeito h (Dec.Valor (Dec.Fin false 0 (-2))).

(** A balance that is a number, not negative, with no digit below the
    cent. *)
Definition saldo_ok (d : Dec.Decimal) : Prop :=
  exists c e, d = Dec.Fin false c e /\ -2 <= e.

(** What [_to_money] returns: a finite decimal with two places, or a quiet
    NaN. *)
Definition dinheiro (v : Dec.Decimal) : Prop :=
  match v with
  | Dec.Fin _ _ e => e = -2
  | Dec.NaN _ false => True
  | _ => False
  end.

(** The whole number of cents of a finite decimal that has no digit below
    the cent. *)
Definition centavos (d : Dec.Decimal) : Z :=
  match d with
  | Dec.Fin n c e => Dec.alinhado n c e (-2)
  | _ => 0
  end.

(** The cents of the entries of one kind in a history. *)
Definition total (kind : string) (h : list Transacao) : Z :=
  fold_right Z.add 0
    (map (fun t => if String.eqb (tipo t) kind then centavos (valor t) else 0) h).

(** The balance [s] is, to the cent, the deposits of the history [h] less
    its withdrawals, as long as the deposits total less than [10^28] cents,
    which the 28 digits of the context hold. *)
Definition exato (h : list Transacao) (s : Dec.Decimal) : Prop :=
  0 <= total "SAQUE" h
  /\ (total "DEPOSITO" h < 10 ^ 28 ->
      centavos s = total "DEPOSITO" h - total "SAQUE" h).

(** A call of a public method of [Banco], and a program that uses the bank:
    the calls it makes, each with the clock readings it meets. *)
Inductive Chamada : Type :=
| Ch_criar_cliente (nome cpf : string)
| Ch_abrir_conta (cpf : string)
| Ch_buscar_conta (numero : string)
| Ch_depositar (numero : string) (valor : Bruto)
| Ch_sacar (numero : string) (valor : Bruto)
| Ch_transferir (origem destino : string) (valor : Bruto)
| Ch_extrato (numero : string)
| Ch_listar_clientes_e_contas.

Definition Passo : Type := (nat -> datetime) * Chamada.

(** ** [original/OriginalClasses.py] *)

Module Original.

Record Conta : Type := {
  numero : string;
  cliente : Cliente;
  saldo : Dec.Decimal;
  historico : list Transacao
}.

Definition com_saldo (s : Dec.Decimal) (self : Conta) : Conta :=
  {| numero := numero self; cliente := cliente self; saldo := s;
     historico := historico self |}.

(** [self.historico.append(t)] *)
Definition historico_append (t : Transacao) (self : Conta) : Conta :=
  {| numero := numero self; cliente := cliente self; saldo := saldo self;
     historico := (historico self ++ [t])%list |}.

(** [Conta(numero, cliente)]: [saldo = Decimal("0.00")], an empty
    [historico] of its own. *)
Definition Conta_nova (numero : string) (cliente : Cliente) : Conta :=
  {| numero := numero; cliente := cliente; saldo := Dec.Fin false 0 (-2);
     historico := [] |}.

(** The methods of [Conta]; [agora] is what [datetime.utcnow()] answers. *)
Module Conta.

Definition depositar (agora : datetime) (valor : Dec.Decimal)
    (descricao : string) : M Conta unit :=
  nao_positivo <- decimal (Dec.le valor Dec.zero_int) ;;
  if nao_positivo : bool then levanta (ValorInvalido "valor deve ser positivo")
  else
    self <- estado ;;
    soma <- decimal (Dec.add (saldo self) valor) ;;
    modifica (com_saldo soma) ;;
    modifica (historico_append
      {| momento := agora; tipo := "DEPOSITO"; valor := valor;
         descricao := descricao; origem := ""; destino := numero self |}).

Definition sacar (agora : datetime) (valor : Dec.Decimal)
    (descricao : string) : M Conta unit :=
  nao_positivo <- decimal (Dec.le valor Dec.zero_int) ;;
  if nao_positivo : bool then levanta (ValorInvalido "valor deve ser positivo")
  else
    self <- estado ;;
    falta <- decimal (Dec.lt (saldo self) valor) ;;
    if falta : bool then levanta (SaldoInsuficiente "saldo insuficiente")
    else
      resto <- decimal (Dec.sub (saldo self) valor) ;;
      modifica (com_saldo resto) ;;
      modifica (historico_append
        {| momento := agora; tipo := "SAQUE"; valor := valor;
           descricao := descricao; origem := numero self; destino := "" |}).

End Conta.

Record Banco : Type := {
  _clientes_por_cpf : dict Cliente;
  _contas_por_numero : dict Conta;
  _seq_cliente : Z;
  _seq_conta : Z
}.

(** [Banco()] *)
Definition Banco_novo : Banco :=
  {| _clientes_por_cpf := []; _contas_por_numero := [];
     _seq_cliente := 1; _seq_conta := 1001 |}.

(** A reference to a [Conta] object: the objects live in
    [_contas_por_numero], one per key, and are never removed, so the key
    stands for the object. *)
Definition Ref : Type := string.

(** Run a method on the object behind a reference; the object keeps what
    the method did to it, also when the method raises. *)
Definition com_contas (d : dict Conta) (self : Banco) : Banco :=
  {| _clientes_por_cpf := _clientes_por_cpf self;
     _contas_por_numero := d;
     _seq_cliente := _seq_cliente self;
     _seq_conta := _seq_conta self |}.

Definition na_conta {A} (r : Ref) (m : M Conta A) : M Banco A :=
  fun self =>
    match dict_get r (_contas_por_numero self) with
    | Some c =>
        let (c', x) := m c in
        (com_contas (dict_set r c' (_contas_por_numero self)) self, x)
    | None => (self, Levanta ReferenciaSemObjeto)
    end.

(** The methods of [Banco]; [relogio k] is the answer of the [k]-th call of
    [datetime.utcnow()] made during the method. *)
Module Banco.

Definition criar_cliente (nome cpf : string) : M Banco Cliente :=
  self <- estado ;;
  match dict_get cpf (_clientes_por_cpf self) with
  | Some c => ret c
  | None =>
      let c := {| id := _seq_cliente self; nome := nome; cpf := cpf |} in
      modifica (fun self =>
        {| _clientes_por_cpf := dict_set cpf c (_clientes_por_cpf self);
           _contas_por_numero := _contas_por_numero self;
           _seq_cliente := _seq_cliente self;
           _seq_conta := _seq_conta self |}) ;;
      modifica (fun self =>
        {| _clientes_por_cpf := _clientes_por_cpf self;
           _contas_por_numero := _contas_por_numero self;
           _seq_cliente := _seq_cliente self + 1;
           _seq_conta := _seq_conta self |}) ;;
      ret c
  end.

Definition abrir_conta (cpf : string) : M Banco Ref :=
  self <- estado ;;
  match dict_get cpf (_clientes_por_cpf self) with
  | None => levanta (EntidadeNaoEncontrada "cliente não encontrado")
  | Some cliente =>
      let numero := str_int (_seq_conta self) in
      let conta := Conta_nova numero cliente in
      modifica (fun self =>
        {| _clientes_por_cpf := _clientes_por_cpf self;
           _contas_por_numero := dict_set numero conta (_contas_por_numero self);
           _seq_cliente := _seq_cliente self;
           _seq_conta := _seq_conta self |}) ;;
      modifica (fun self =>
        {| _clientes_por_cpf := _clientes_por_cpf self;
           _contas_por_numero := _contas_por_numero self;
           _seq_cliente := _seq_cliente self;
           _seq_conta := _seq_conta self + 1 |}) ;;
      ret numero
  end.

Definition buscar_conta (numero : string) : M Banco Ref :=
  self <- estado ;;
  match dict_get numero (_contas_por_numero self) with
  | None => levanta (EntidadeNaoEncontrada "conta não encontrada")
  | Some _ => ret numero
  end.

Definition _to_money (valor : Bruto) : M Banco Dec.Decimal :=
  v <- match valor with
       | BDecimal d => ret d
       | BOutro _ =>
           tente (Decimal_str valor) (levanta (ValorInvalido "valor inválido"))
       end ;;
  decimal (Dec.quantize_centavos v).

Definition depositar (relogio : nat -> datetime) (numero : string)
    (valor : Bruto) : M Banco unit :=
  conta <- buscar_conta numero ;;
  v <- _to_money valor ;;
  na_conta conta (Conta.depositar (relogio 0%nat) v "depósito").

Definition sacar (relogio : nat -> datetime) (numero : string)
    (valor : Bruto) : M Banco unit :=
  conta <- buscar_conta numero ;;
  v <- _to_money valor ;;
  na_conta conta (Conta.sacar (relogio 0%nat) v "saque").

Definition transferir (relogio : nat -> datetime) (origem destino : string)
    (valor : Bruto) : M Banco unit :=
  if String.eqb origem destino then levanta (ValorInvalido "contas iguais")
  else
    v <- _to_money valor ;;
    co <- buscar_conta origem ;;
    cd <- buscar_conta destino ;;
    na_conta co (Conta.sacar (relogio 0%nat) v ("transferência para " ++ destino)) ;;
    na_conta cd (Conta.depositar (relogio 1%nat) v ("transferência de " ++ origem)) ;;
    let t := {| momento := relogio 2%nat; tipo := "TRANSFERENCIA"; valor := v;
                descricao := "transferência";
                origem := origem; destino := destino |} in
    na_conta co (modifica (historico_append t)) ;;
    na_conta cd (modifica (historico_append t)).

(** [m.setdefault(conta.cliente.cpf, []).append(conta)] *)
Definition agrupa (m : dict (list Conta)) (conta : Conta) : dict (list Conta) :=
  let k := cpf (cliente conta) in
  match dict_get k m with
  | Some l => dict_set k (l ++ [conta])%list m
  | None => dict_set k [conta] m
  end.

Definition listar_clientes_e_contas : M Banco (list (Cliente * list Conta)) :=
  self <- estado ;;
  let m := fold_left agrupa (dict_values (_contas_por_numero self)) [] in
  ret (map (fun '(cpf, cliente) =>
              (cliente, match dict_get cpf m with Some l => l | None => [] end))
           (_clientes_por_cpf self)).

(** [list(self.buscar_conta(numero).historico)]: the entries, in a list of
    their own. *)
Definition extrato (numero : string) : M Banco (list Transacao) :=
  conta <- buscar_conta numero ;;
  na_conta conta (self <- estado ;; ret (historico self)).

End Banco.

(** What a call gives back. *)
Inductive Resposta : Type :=
| RCliente (c : Cliente)
| RConta (r : Ref)
| RNone
| RExtrato (l : list Transacao)
| RLista (l : list (Cliente * list Conta)).

Definition responde {A} (f : A -> Resposta) (m : M Banco A) : M Banco Resposta :=
  a <- m ;; ret (f a).

Definition executa (p : Passo) : M Banco Resposta :=
  let (relogio, ch) := p in
  match ch with
  | Ch_criar_cliente nome cpf => responde RCliente (Banco.criar_cliente nome cpf)
  | Ch_abrir_conta cpf => responde RConta (Banco.abrir_conta cpf)
  | Ch_buscar_conta numero => responde RConta (Banco.buscar_conta numero)
  | Ch_depositar numero valor =>
      responde (fun _ => RNone) (Banco.depositar relogio numero valor)
  | Ch_sacar numero valor =>
      responde (fun _ => RNone) (Banco.sacar relogio numero valor)
  | Ch_transferir origem destino valor =>
      responde (fun _ => RNone) (Banco.transferir relogio origem destino valor)
  | Ch_extrato numero => responde RExtrato (Banco.extrato numero)
  | Ch_listar_clientes_e_contas => responde RLista Banco.listar_clientes_e_contas
  end.

(** The caller goes on after an exception: the bank is as the failed call
    left it. *)
Fixpoint corre (ps : list Passo) (b : Banco) : Banco * list (Res Resposta) :=
  match ps with
  | [] => (b, [])
  | p :: ps' =>
      let (b1, r) := executa p b in
      let (b2, rs) := corre ps' b1 in
      (b2, r :: rs)
  end.

(** The states of a bank that starts as [Banco()] and is used through its
    public methods. *)
Definition alcancavel (b : Banco) : Prop :=
  exists ps, b = fst (corre ps Banco_novo).

(** What [_to_money] answers; the bank has no part in it. *)
Definition normaliza (valor : Bruto) : Res Dec.Decimal :=
  snd (Banco._to_money valor Banco_novo).

(** The log of an account. *)
Definition registro (c : Conta) : list Transacao := historico c.

(** What holds of every account of a bank in use: it is stored under its
    number, its balance is a number that is not negative, and its history
    accounts for its balance, to the cent within 28 digits. *)
Definition conta_ok (k : string) (c : Conta) : Prop :=
  numero c = k /\ saldo_ok (saldo c)
  /\ saldo_do_historico (registro c) = Dec.Valor (saldo c)
  /\ exato (registro c) (saldo c).

Definition inv (b : Banco) : Prop :=
  Forall (fun kc => conta_ok (fst kc) (snd kc)
                    /\ numerada (_seq_conta b) (fst kc))
         (_contas_por_numero b)
  /\ Forall (fun kc => cpf (snd kc) = fst kc) (_clientes_por_cpf b).

End Original.

(** ** [solid/RefactoredClasses.py] *)

Module Refatorado.

Record RegistroTransacoes : Type := {
  _historico : list Transacao
}.

Module RegistroTransacoes.

Definition registrar (transacao : Transacao) : M RegistroTransacoes unit :=
  modifica (fun self => {| _historico := (_historico self ++ [transacao])%list |}).

(** [list(self._historico)]: the entries, in a list of their own. *)
Definition listar : M RegistroTransacoes (list Transacao) :=
  self <- estado ;; ret (_historico self).

End RegistroTransacoes.

(** [transacoes] is a [RegistroTransacoes] of the account's own
    ([default_factory]); it is kept inside the account. *)
Record Conta : Type := {
  numero : string;
  cliente : Cliente;
  saldo : Dec.Decimal;
  transacoes : RegistroTransacoes
}.

Definition com_saldo (s : Dec.Decimal) (self : Conta) : Conta :=
  {| numero := numero self; cliente := cliente self; saldo := s;
     transacoes := transacoes self |}.

(** Run a method of [self.transacoes]. *)
Definition nas_transacoes {A} (m : M RegistroTransacoes A) : M Conta A :=
  fun self =>
    let (r, x) := m (transacoes self) in
    ({| numero := numero self; cliente := cliente self; saldo := saldo self;
        transacoes := r |}, x).

(** [Conta(numero, cliente)] *)
Definition Conta_nova (numero : string) (cliente : Cliente) : Conta :=
  {| numero := numero; cliente := cliente; saldo := Dec.Fin false 0 (-2);
     transacoes := {| _historico := [] |} |}.

(** The account after [self.transacoes.registrar(t)]. *)
Definition registra (t : Transacao) (self : Conta) : Conta :=
  {| numero := numero self; cliente := cliente self; saldo := saldo self;
     transacoes := {| _historico := (_historico (transacoes self) ++ [t])%list |} |}.

Module Conta.

Definition depositar (agora : datetime) (valor : Dec.Decimal)
    (descricao : string) : M Conta unit :=
  nao_positivo <- decimal (Dec.le valor Dec.zero_int) ;;
  if nao_positivo : bool then levanta (ValorInvalido "valor deve ser positivo")
  else
    self <- estado ;;
    soma <- decimal (Dec.add (saldo self) valor) ;;
    modifica (com_saldo soma) ;;
    nas_transacoes (RegistroTransacoes.registrar
      {| momento := agora; tipo := "DEPOSITO"; valor := valor;
         descricao := descricao; origem := ""; destino := numero self |}).

Definition sacar (agora : datetime) (valor : Dec.Decimal)
    (descricao : string) : M Conta unit :=
  nao_positivo <- decimal (Dec.le valor Dec.zero_int) ;;
  if nao_positivo : bool then levanta (ValorInvalido "valor deve ser positivo")
  else
    self <- estado ;;
    falta <- decimal (Dec.lt (saldo self) valor) ;;
    if falta : bool then levanta (SaldoInsuficiente "saldo insuficiente")
    else
      resto <- decimal (Dec.sub (saldo self) valor) ;;
      modifica (com_saldo resto) ;;
      nas_transacoes (RegistroTransacoes.registrar
        {| momento := agora; tipo := "SAQUE"; valor := valor;
           descricao := descricao; origem := numero self; destino := "" |}).

End Conta.

(** [Banco()]: the bank with the default classes [Cliente] and [Conta] for
    [cliente_cls] and [conta_cls]. *)
Record Banco : Type := {
  _clientes_por_cpf : dict Cliente;
  _contas_por_numero : dict Conta;
  _seq_cliente : Z;
  _seq_conta : Z
}.

Definition Banco_novo : Banco :=
  {| _clientes_por_cpf := []; _contas_por_numero := [];
     _seq_cliente := 1; _seq_conta := 1001 |}.

(** A reference to a [Conta] object, as in [Original]. *)
Definition Ref : Type := string.

Definition com_contas (d : dict Conta) (self : Banco) : Banco :=
  {| _clientes_por_cpf := _clientes_por_cpf self;
     _contas_por_numero := d;
     _seq_cliente := _seq_cliente self;
     _seq_conta := _seq_conta self |}.

Definition na_conta {A} (r : Ref) (m : M Conta A) : M Banco A :=
  fun self =>
    match dict_get r (_contas_por_numero self) with
    | Some c =>
        let (c', x) := m c in
        (com_contas (dict_set r c' (_contas_por_numero self)) self, x)
    | None => (self, Levanta ReferenciaSemObjeto)
    end.

(** [conta.numero] through a reference. *)
Definition numero_de (r : Ref) : M Banco string :=
  na_conta r (self <- estado ;; ret (numero self)).

(** The dataclass [Transferencia] and its method. *)
Module Transferencia.

Record Transferencia : Type := {
  origem : Ref;
  destino : Ref;
  valor : Dec.Decimal
}.

Definition executar (relogio : nat -> datetime) (self : Transferencia)
    : M Banco unit :=
  no <- numero_de (origem self) ;;
  nd <- numero_de (destino self) ;;
  if String.eqb no nd then levanta (ValorInvalido "contas iguais")
  else
    nd <- numero_de (destino self) ;;
    na_conta (origem self)
      (Conta.sacar (relogio 0%nat) (valor self) ("Transferência para " ++ nd)) ;;
    no <- numero_de (origem self) ;;
    na_conta (destino self)
      (Conta.depositar (relogio 1%nat) (valor self) ("Transferência de " ++ no)) ;;
    no <- numero_de (origem self) ;;
    nd <- numero_de (destino self) ;;
    let transacao :=
      Build_Transacao (relogio 2%nat) "TRANSFERENCIA" (valor self)
        "Transferência" no nd in
    na_conta (origem self)
      (nas_transacoes (RegistroTransacoes.registrar transacao)) ;;
    na_conta (destino self)
      (nas_transacoes (RegistroTransacoes.registrar transacao)).

End Transferencia.

Module Banco.

Definition criar_cliente (nome cpf : string) : M Banco Cliente :=
  self <- estado ;;
  match dict_get cpf (_clientes_por_cpf self) with
  | Some c => ret c
  | None =>
      let c := {| id := _seq_cliente self; nome := nome; cpf := cpf |} in
      modifica (fun self =>
        {| _clientes_por_cpf := dict_set cpf c (_clientes_por_cpf self);
           _contas_por_numero := _contas_por_numero self;
           _seq_cliente := _seq_cliente self;
           _seq_conta := _seq_conta self |}) ;;
      modifica (fun self =>
        {| _clientes_por_cpf := _clientes_por_cpf self;
           _contas_por_numero := _contas_por_numero self;
           _seq_cliente := _seq_cliente self + 1;
           _seq_conta := _seq_conta self |}) ;;
      ret c
  end.

Definition abrir_conta (cpf : string) : M Banco Ref :=
  self <- estado ;;
  match dict_get cpf (_clientes_por_cpf self) with
  | None => levanta (EntidadeNaoEncontrada "cliente não encontrado")
  | Some cliente =>
      let numero := str_int (_seq_conta self) in
      let conta := Conta_nova numero cliente in
      modifica (fun self =>
        {| _clientes_por_cpf := _clientes_por_cpf self;
           _contas_por_numero := dict_set numero conta (_contas_por_numero self);
           _seq_cliente := _seq_cliente self;
           _seq_conta := _seq_conta self |}) ;;
      modifica (fun self =>
        {| _clientes_por_cpf := _clientes_por_cpf self;
           _contas_por_numero := _contas_por_numero self;
           _seq_cliente := _seq_cliente self;
           _seq_conta := _seq_conta self + 1 |}) ;;
      ret numero
  end.

Definition buscar_conta (numero : string) : M Banco Ref :=
  self <- estado ;;
  match dict_get numero (_contas_por_numero self) with
  | None => levanta (EntidadeNaoEncontrada "conta não encontrada")
  | Some _ => ret numero
  end.

Definition _to_money (valor : Bruto) : M Banco Dec.Decimal :=
  tente (v <- Decimal_str valor ;; decimal (Dec.quantize_centavos v))
        (levanta (ValorInvalido "valor inválido")).

Definition depositar (relogio : nat -> datetime) (numero : string)
    (valor : Bruto) : M Banco unit :=
  conta <- buscar_conta numero ;;
  v <- _to_money valor ;;
  na_conta conta (Conta.depositar (relogio 0%nat) v "Depósito").

Definition sacar (relogio : nat -> datetime) (numero : string)
    (valor : Bruto) : M Banco unit :=
  conta <- buscar_conta numero ;;
  v <- _to_money valor ;;
  na_conta conta (Conta.sacar (relogio 0%nat) v "Saque").

Definition transferir (relogio : nat -> datetime) (origem destino : string)
    (valor : Bruto) : M Banco unit :=
  co <- buscar_conta origem ;;
  cd <- buscar_conta destino ;;
  v <- _to_money valor ;;
  let op := {| Transferencia.origem := co; Transferencia.destino := cd;
               Transferencia.valor := v |} in
  Transferencia.executar relogio op.

Definition extrato (numero : string) : M Banco (list Transacao) :=
  conta <- buscar_conta numero ;;
  na_conta conta (nas_transacoes RegistroTransacoes.listar).

Definition agrupa (m : dict (list Conta)) (conta : Conta) : dict (list Conta) :=
  let k := cpf (cliente conta) in
  match dict_get k m with
  | Some l => dict_set k (l ++ [conta])%list m
  | None => dict_set k [conta] m
  end.

Definition listar_clientes_e_contas : M Banco (list (Cliente * list Conta)) :=
  self <- estado ;;
  let m := fold_left agrupa (dict_values (_contas_por_numero self)) [] in
  ret (map (fun cliente =>
              (cliente,
               match dict_get (cpf cliente) m with Some l => l | None => [] end))
           (dict_values (_clientes_por_cpf self))).

End Banco.

Inductive Resposta : Type :=
| RCliente (c : Cliente)
| RConta (r : Ref)
| RNone
| RExtrato (l : list Transacao)
| RLista (l : list (Cliente * list Conta)).

Definition responde {A} (f : A -> Resposta) (m : M Banco A) : M Banco Resposta :=
  a <- m ;; ret (f a).

Definition executa (p : Passo) : M Banco Resposta :=
  let (relogio, ch) := p in
  match ch with
  | Ch_criar_cliente nome cpf => responde RCliente (Banco.criar_cliente nome cpf)
  | Ch_abrir_conta cpf => responde RConta (Banco.abrir_conta cpf)
  | Ch_buscar_conta numero => responde RConta (Banco.buscar_conta numero)
  | Ch_depositar numero valor =>
      responde (fun _ => RNone) (Banco.depositar relogio numero valor)
  | Ch_sacar numero valor =>
      responde (fun _ => RNone) (Banco.sacar relogio numero valor)
  | Ch_transferir origem destino valor =>
      responde (fun _ => RNone) (Banco.transferir relogio origem destino valor)
  | Ch_extrato numero => responde RExtrato (Banco.extrato numero)
  | Ch_listar_clientes_e_contas => responde RLista Banco.listar_clientes_e_contas
  end.

Fixpoint corre (ps : list Passo) (b : Banco) : Banco * list (Res Resposta) :=
  match ps with
  | [] => (b, [])
  | p :: ps' =>
      let (b1, r) := executa p b in
      let (b2, rs) := corre ps' b1 in
      (b2, r :: rs)
  end.

Definition alcancavel (b : Banco) : Prop :=
  exists ps, b = fst (corre ps Banco_novo).

(** What [_to_money] answers; the bank has no part in it. *)
Definition normaliza (valor : Bruto) : Res Dec.Decimal :=
  snd (Banco._to_money valor Banco_novo).

(** The log of an account. *)
Definition registro (c : Conta) : list Transacao := _historico (transacoes c).

(** What holds of every account of a bank in use: it is stored under its
    number, its balance is a number that is not negative, and its history
    accounts for its balance, to the cent within 28 digits. *)
Definition conta_ok (k : string) (c : Conta) : Prop :=
  numero c = k /\ saldo_ok (saldo c)
  /\ saldo_do_historico (registro c) = Dec.Valor (saldo c)
  /\ exato (registro c) (saldo c).

Definition inv (b : Banco) : Prop :=
  Forall (fun kc => conta_ok (fst kc) (snd kc)
                    /\ numerada (_seq_conta b) (fst kc))
         (_contas_por_numero b)
  /\ Forall (fun kc => cpf (snd kc) = fst kc) (_clientes_por_cpf b).

End Refatorado.

(** [criar_dados_mock()], the demonstration data of both files. *)
Definition D (s : string) : Bruto :=
  match DecStr.Decimal_de_str s with
  | Some d => BDecimal d
  | None => BOutro s
  end.

Definition tique : nat -> datetime := fun k => Z.of_nat k.

Definition criar_dados_mock : list Passo :=
  map (pair tique)
    [Ch_criar_cliente "Ana" "11111111111";
     Ch_criar_cliente "Bruno" "22222222222";
     Ch_criar_cliente "Carla" "33333333333";
     Ch_abrir_conta "11111111111";
     Ch_abrir_conta "22222222222";
     Ch_abrir_conta "33333333333";
     Ch_depositar "1001" (D "1500");
     Ch_depositar "1002" (D "800");
     Ch_depositar "1003" (D "2500");
     Ch_transferir "1003" "1001" (D "300");
     Ch_sacar "1002" (D "100")].

(** ** A transfer that went through

    [b'] is [b] after the transfer of [valor] from [o] to [d]: the amount
    was normalised to [v], positive and covered by the balance of the
    source; the source has the balance [saldo - v] and two more entries, the
    SAQUE and the TRANSFERENCIA; the destination has the balance
    [saldo + v] and two more entries, the DEPOSITO and the same
    TRANSFERENCIA; nothing else in the bank has changed. *)
Module Efetivada.

Definition original (relogio : nat -> datetime) (o d : string) (v : Dec.Decimal)
    (b b' : Original.Banco) : Prop :=
  exists co cd resto soma,
    o <> d
    /\ dict_get o (Original._contas_por_numero b) = Some co
    /\ dict_get d (Original._contas_por_numero b) = Some cd
    /\ Dec.le v Dec.zero_int = Dec.Valor false
    /\ Dec.lt (Original.saldo co) v = Dec.Valor false
    /\ Dec.sub (Original.saldo co) v = Dec.Valor resto
    /\ Dec.add (Original.saldo cd) v = Dec.Valor soma
    /\ let t := Build_Transacao (relogio 2%nat) "TRANSFERENCIA" v
                  "transferência" o d in
       dict_get o (Original._contas_por_numero b') =
         Some (Original.Build_Conta (Original.numero co) (Original.cliente co)
                 resto
                 (Original.historico co ++
                  [Build_Transacao (relogio 0%nat) "SAQUE" v
                     ("transferência para " ++ d) (Original.numero co) "";
                   t])%list)
       /\ dict_get d (Original._contas_por_numero b') =
         Some (Original.Build_Conta (Original.numero cd) (Original.cliente cd)
                 soma
                 (Original.historico cd ++
                  [Build_Transacao (relogio 1%nat) "DEPOSITO" v
                     ("transferência de " ++ o) "" (Original.numero cd);
                   t])%list)
    /\ (forall k, k <> o -> k <> d ->
          dict_get k (Original._contas_por_numero b') =
          dict_get k (Original._contas_por_numero b))
    /\ dict_keys (Original._contas_por_numero b') =
       dict_keys (Original._contas_por_numero b)
    /\ Original._clientes_por_cpf b' = Original._clientes_por_cpf b
    /\ Original._seq_cliente b' = Original._seq_cliente b
    /\ Original._seq_conta b' = Original._seq_conta b.

Definition refatorado (relogio : nat -> datetime) (o d : string) (v : Dec.Decimal)
    (b b' : Refatorado.Banco) : Prop :=
  exists co cd resto soma,
    o <> d
    /\ dict_get o (Refatorado._contas_por_numero b) = Some co
    /\ dict_get d (Refatorado._contas_por_numero b) = Some cd
    /\ Dec.le v Dec.zero_int = Dec.Valor false
    /\ Dec.lt (Refatorado.saldo co) v = Dec.Valor false
    /\ Dec.sub (Refatorado.saldo co) v = Dec.Valor resto
    /\ Dec.add (Refatorado.saldo cd) v = Dec.Valor soma
    /\ let t := Build_Transacao (relogio 2%nat) "TRANSFERENCIA" v
                  "Transferência" o d in
       dict_get o (Refatorado._contas_por_numero b') =
         Some (Refatorado.Build_Conta (Refatorado.numero co)
                 (Refatorado.cliente co) resto
                 (Refatorado.Build_RegistroTransacoes
                    (Refatorado.registro co ++
                     [Build_Transacao (relogio 0%nat) "SAQUE" v
                        ("Transferência para " ++ d) (Refatorado.numero co) "";
                      t])%list))
       /\ dict_get d (Refatorado._contas_por_numero b') =
         Some (Refatorado.Build_Conta (Refatorado.numero cd)
                 (Refatorado.cliente cd) soma
                 (Refatorado.Build_RegistroTransacoes
                    (Refatorado.registro cd ++
                     [Build_Transacao (relogio 1%nat) "DEPOSITO" v
                        ("Transferência de " ++ o) "" (Refatorado.numero cd);
                      t])%list))
    /\ (forall k, k <> o -> k <> d ->
          dict_get k (Refatorado._contas_por_numero b') =
          dict_get k (Refatorado._contas_por_numero b))
    /\ dict_keys (Refatorado._contas_por_numero b') =
       dict_keys (Refatorado._contas_por_numero b)
    /\ Refatorado._clientes_por_cpf b' = Refatorado._clientes_por_cpf b
    /\ Refatorado._seq_cliente b' = Refatorado._seq_cliente b
    /\ Refatorado._seq_conta b' = Refatorado._seq_conta b.

End Efetivada.

(** ** List objects

    [extrato] hands a list object to its caller.  A list object is the log
    of an account, or a list that [list(...)] has made; the caller may
    change the object it holds in place ([append], [pop], [clear],
    [reverse], an item assignment).  [Extratos] is what the world below
    needs from a bank: the log object of an account, read and changed in
    place, and the method [buscar_conta]. *)
Class Extratos (B : Type) : Type := {
  historico_de : string -> B -> option (list Transacao);
  historico_muta : string -> (list Transacao -> list Transacao) -> B -> B;
  buscar_conta_de : string -> M B string
}.

#[global] Instance Extratos_original : Extratos Original.Banco := {
  historico_de k b :=
    option_map Original.historico (dict_get k (Original._contas_por_numero b));
  historico_muta k f b :=
    match dict_get k (Original._contas_por_numero b) with
    | Some c =>
        Original.com_contas
          (dict_set k
             (Original.Build_Conta (Original.numero c) (Original.cliente c)
                (Original.saldo c) (f (Original.historico c)))
             (Original._contas_por_numero b)) b
    | None => b
    end;
  buscar_conta_de := Original.Banco.buscar_conta
}.

#[global] Instance Extratos_refatorado : Extratos Refatorado.Banco := {
  historico_de k b :=
    option_map Refatorado.registro
      (dict_get k (Refatorado._contas_por_numero b));
  historico_muta k f b :=
    match dict_get k (Refatorado._contas_por_numero b) with
    | Some c =>
        Refatorado.com_contas
          (dict_set k
             (Refatorado.Build_Conta (Refatorado.numero c)
                (Refatorado.cliente c) (Refatorado.saldo c)
                (Refatorado.Build_RegistroTransacoes
                   (f (Refatorado.registro c))))
             (Refatorado._contas_por_numero b)) b
    | None => b
    end;
  buscar_conta_de := Refatorado.Banco.buscar_conta
}.

Module Objetos.

(** A reference to a list object. *)
Inductive RefLista : Type :=
| HistoricoDe (conta : string)     (* the log of the account stored under [conta] *)
| Lista (i : nat).                 (* the [i]-th list made by [list(...)] *)

(** The bank and the lists that the calls of [list(...)] have made. *)
Record Mundo (B : Type) : Type := {
  banco : B;
  listas : list (list Transacao)
}.
Arguments banco {B} _.
Arguments listas {B} _.

Section ComBanco.
Context {B : Type} `{Extratos B}.

(** A method of the bank, in the world. *)
Definition no_banco {A} (m : M B A) : M (Mundo B) A :=
  fun w =>
    let (b', x) := m (banco w) in
    ({| banco := b'; listas := listas w |}, x).

(** The entries of a list object. *)
Definition le_lista (r : RefLista) (w : Mundo B) : option (list Transacao) :=
  match r with
  | HistoricoDe k => historico_de k (banco w)
  | Lista i => nth_error (listas w) i
  end.

(** [list(r)]: a new list object with the entries of [r]. *)
Definition list_ (r : RefLista) : M (Mundo B) RefLista :=
  fun w =>
    match le_lista r w with
    | Some l =>
        ({| banco := banco w; listas := (listas w ++ [l])%list |},
         Retorna (Lista (List.length (listas w))))
    | None => (w, Levanta ReferenciaSemObjeto)
    end.

Fixpoint muta_nth {A} (i : nat) (f : A -> A) (l : list A) : list A :=
  match l, i with
  | [], _ => []
  | x :: l', O => f x :: l'
  | x :: l', S i' => x :: muta_nth i' f l'
  end.

(** The caller changes, in place, the list object it holds: its entries
    [l] become [f l]. *)
Definition muta_lista (r : RefLista) (f : list Transacao -> list Transacao)
    (w : Mundo B) : Mundo B :=
  match r with
  | HistoricoDe k =>
      {| banco := historico_muta k f (banco w); listas := listas w |}
  | Lista i =>
      {| banco := banco w; listas := muta_nth i f (listas w) |}
  end.

(** [extrato(numero)], with the object it returns:
    [list(self.buscar_conta(numero).historico)] in the original variant, and
    in the refactored one [self.buscar_conta(numero).transacoes.listar()],
    which is [list(self._historico)]. *)
Definition extrato (numero : string) : M (Mundo B) RefLista :=
  conta <- no_banco (buscar_conta_de numero) ;;
  list_ (HistoricoDe conta).

(** What it is for [extrato] to hand out a copy, in the world [w]: the bank
    is as it was, the list returned holds the entries of the log, and
    whatever the caller does to that list, the bank stays as it is and a
    later [extrato] returns a list with the same entries. *)
Definition extrato_copia (numero : string) (w : Mundo B) : Prop :=
  forall w1 r,
    extrato numero w = (w1, Retorna r) ->
    banco w1 = banco w
    /\ le_lista r w1 = historico_de numero (banco w)
    /\ forall f,
         banco (muta_lista r f w1) = banco w1
         /\ exists w2 r2,
              extrato numero (muta_lista r f w1) = (w2, Retorna r2)
              /\ le_lista r2 w2 = le_lista r w1.

End ComBanco.

End Objetos.

(** ** The two variants side by side

    The refactored variant writes its descriptions with a capital
    ("Depósito" for "depósito", "Transferência para ..." for
    "transferência para ..."); [banco_R] is the bank of the refactored
    variant that holds what a bank of the original variant holds, with the
    descriptions so written. *)
Module Variantes.

Definition maiuscula (c : ascii) : ascii :=
  let n := N_of_ascii c in
  if ((97 <=? n) && (n <=? 122))%N then ascii_of_N (n - 32) else c.

Definition maiuscula_inicial (s : string) : string :=
  match s with
  | String c s' => String (maiuscula c) s'
  | EmptyString => EmptyString
  end.

Definition transacao_R (t : Transacao) : Transacao :=
  {| momento := momento t; tipo := tipo t; valor := valor t;
     descricao := maiuscula_inicial (descricao t);
     origem := origem t; destino := destino t |}.

Definition conta_R (c : Original.Conta) : Refatorado.Conta :=
  {| Refatorado.numero := Original.numero c;
     Refatorado.cliente := Original.cliente c;
     Refatorado.saldo := Original.saldo c;
     Refatorado.transacoes :=
       {| Refatorado._historico := map transacao_R (Original.historico c) |} |}.

(** The same keys in the same order, each value through [f]. *)
Definition dict_map {V W} (f : V -> W) (d : dict V) : dict W :=
  map (fun kv => (fst kv, f (snd kv))) d.

Definition banco_R (b : Original.Banco) : Refatorado.Banco :=
  {| Refatorado._clientes_por_cpf := Original._clientes_por_cpf b;
     Refatorado._contas_por_numero :=
       dict_map conta_R (Original._contas_por_numero b);
     Refatorado._seq_cliente := Original._seq_cliente b;
     Refatorado._seq_conta := Original._seq_conta b |}.

Definition resposta_R (r : Original.Resposta) : Refatorado.Resposta :=
  match r with
  | Original.RCliente c => Refatorado.RCliente c
  | Original.RConta k => Refatorado.RConta k
  | Original.RNone => Refatorado.RNone
  | Original.RExtrato l => Refatorado.RExtrato (map transacao_R l)
  | Original.RLista l =>
      Refatorado.RLista (map (fun x => (fst x, map conta_R (snd x))) l)
  end.

(** The same result, or exceptions of the same class. *)
Definition mesma_resposta (ro : Res Original.Resposta)
    (rr : Res Refatorado.Resposta) : Prop :=
  match ro, rr with
  | Retorna x, Retorna y => y = resposta_R x
  | Levanta e, Levanta e' => classe e = classe e'
  | _, _ => False
  end.

(** The same for two calls that return values of one type. *)
Definition mesmo_retorno {A} (ro rr : Res A) : Prop :=
  match ro, rr with
  | Retorna x, Retorna y => y = x
  | Levanta e, Levanta e' => classe e = classe e'
  | _, _ => False
  end.

(** [quantize] does not signal on the amount: in the original variant the
    signal escapes [_to_money] as [decimal.InvalidOperation], in the
    refactored variant it becomes [ValorInvalido]. *)
Definition quantiza (valor : Bruto) : bool :=
  match Original.normaliza valor with
  | Levanta DecimalInvalidOperation => false
  | _ => true
  end.

Definition registrada (n : string) (b : Original.Banco) : bool :=
  match dict_get n (Original._contas_por_numero b) with
  | Some _ => true
  | None => false
  end.

(** The calls, on the bank [b], that are none of these: a deposit, a
    withdrawal or a transfer on accounts that exist, with an amount on
    which [quantize] signals; a transfer in which an account is missing and
    the original variant gets to raise [ValorInvalido] before it looks the
    accounts up: the same number twice, or an amount that [_to_money]
    refuses. *)
Definition concorda (b : Original.Banco) (ch : Chamada) : bool :=
  match ch with
  | Ch_depositar n valor | Ch_sacar n valor =>
      negb (registrada n b) || quantiza valor
  | Ch_transferir o d valor =>
      if String.eqb o d then registrada o b
      else if registrada o b && registrada d b then quantiza valor
      else match Original.normaliza valor with
           | Retorna _ => true
           | Levanta _ => false
           end
  | _ => true
  end.

(** Every call of the program passes [concorda] on the bank that the
    original variant has reached. *)
Fixpoint concordam (ps : list Passo) (b : Original.Banco) : bool :=
  match ps with
  | [] => true
  | p :: ps' => concorda b (snd p) && concordam ps' (fst (Original.executa p b))
  end.

(** A call returns in both variants, or raises exceptions of the same
    class in both. *)
Definition mesmo_desfecho (ro : Res Original.Resposta)
    (rr : Res Refatorado.Resposta) : Prop :=
  match ro, rr with
  | Retorna _, Retorna _ => True
  | Levanta e, Levanta e' => classe e = classe e'
  | _, _ => False
  end.

End Variantes.

(** ** What the specification says and the code does not do, as the
    specification words it *)

(** The signed amount of a log entry for the account [numero], with the
    TRANSFERENCIA entries counted too: a credit when the account is the
    destination, a debit when it is the source. *)
Definition quantia_assinada (numero : string) (t : Transacao) : Z :=
  if String.eqb (tipo t) "DEPOSITO" then centavos (valor t)
  else if String.eqb (tipo t) "SAQUE" then - centavos (valor t)
  else if String.eqb (tipo t) "TRANSFERENCIA" then
    if String.eqb (destino t) numero then centavos (valor t)
    else if String.eqb (origem t) numero then - centavos (valor t)
    else 0
  else 0.

Definition soma_assinada (numero : string) (h : list Transacao) : Z :=
  fold_right Z.add 0 (map (quantia_assinada numero) h).

(** The same sum with the TRANSFERENCIA entries left out, the credit and
    the debit of a transfer being its DEPOSITO and its SAQUE. *)
Definition quantia_sem_resumo (t : Transacao) : Z :=
  if String.eqb (tipo t) "DEPOSITO" then centavos (valor t)
  else if String.eqb (tipo t) "SAQUE" then - centavos (valor t)
  else 0.

Definition soma_sem_resumo (numero : string) (h : list Transacao) : Z :=
  fold_right Z.add 0 (map quantia_sem_resumo h).

(** [saldo < 0] is false. *)
Definition nao_negativo (d : Dec.Decimal) : Prop :=
  Dec.lt d Dec.zero_int = Dec.Valor false.

(** "The balance equals the sum of signed amounts of the transactions in
    its log (deposits and transfer-credits positive, withdrawals and
    transfer-debits negative), and is never negative", for a way [soma] of
    taking the sum. *)
Definition saldo_e_soma (soma : string -> list Transacao -> Z) : Prop :=
  forall (ps : list Passo) (n : string) (c : Original.Conta),
    dict_get n (Original._contas_por_numero
                  (fst (Original.corre ps Original.Banco_novo))) = Some c ->
    centavos (Original.saldo c) = soma n (Original.registro c)
    /\ nao_negativo (Original.saldo c).

(** "For every successful transfer of amount v from account A to a distinct
    account B with A.balance >= v > 0: A's balance decreases by exactly v,
    B's balance increases by exactly v", with the log entries of
    [Efetivada.original]. *)
Definition transferencia_exata : Prop :=
  forall (ps : list Passo) (relogio : nat -> datetime) (o d : string)
         (valor : Bruto) (v : Dec.Decimal) (co cd : Original.Conta),
    let b := fst (Original.corre ps Original.Banco_novo) in
    o <> d ->
    dict_get o (Original._contas_por_numero b) = Some co ->
    dict_get d (Original._contas_por_numero b) = Some cd ->
    Original.normaliza valor = Retorna v ->
    Dec.le v Dec.zero_int = Dec.Valor false ->
    Dec.lt (Original.saldo co) v = Dec.Valor false ->
    exists b' co' cd',
      Original.Banco.transferir relogio o d valor b = (b', Retorna tt)
      /\ Efetivada.original relogio o d v b b'
      /\ dict_get o (Original._contas_por_numero b') = Some co'
      /\ dict_get d (Original._contas_por_numero b') = Some cd'
      /\ centavos (Original.saldo co') = centavos (Original.saldo co) - centavos v
      /\ centavos (Original.saldo cd') = centavos (Original.saldo cd) + centavos v.

(** A bank with two accounts: 1001 holds 1.00 and 1002 holds
    99999999999999999999999999.99. *)
Definition contas_no_limite : list Passo :=
  map (pair tique)
    [Ch_criar_cliente "Ana" "11111111111";
     Ch_criar_cliente "Bruno" "22222222222";
     Ch_abrir_conta "11111111111";
     Ch_abrir_conta "22222222222";
     Ch_depositar "1001" (BOutro "1.00");
     Ch_depositar "1002" (BOutro "99999999999999999999999999.99")].

(** "A transfer whose source and destination are the same account fails
    with the InvalidOperation error kind (distinguishable from
    InvalidAmount, InsufficientFunds and NotFound), regardless of the
    account's balance, and no mutation occurs."  In the code InvalidAmount
    is [ValorInvalido], InsufficientFunds is [SaldoInsuficiente] and
    NotFound is [EntidadeNaoEncontrada]. *)
Definition transferencia_propria_distinta : Prop :=
  forall (ps : list Passo) (relogio : nat -> datetime) (n : string)
         (valor : Bruto),
    let b := fst (Original.corre ps Original.Banco_novo) in
    exists e,
      Original.Banco.transferir relogio n n valor b = (b, Levanta e)
      /\ classe e <> CValorInvalido
      /\ classe e <> CSaldoInsuficiente
      /\ classe e <> CEntidadeNaoEncontrada.

(** "For every sequence of public ledger calls with the same arguments,
    both variants return the same results, raise the same error kinds, and
    leave equivalent observable state": here, no more than that each call
    returns in both or raises the same class of exception in both. *)
Definition variantes_identicas : Prop :=
  forall ps : list Passo,
    Forall2 Variantes.mesmo_desfecho
      (snd (Original.corre ps Original.Banco_novo))
      (snd (Refatorado.corre ps Refatorado.Banco_novo)).

(** ** Banks in use, step by step

    What the further properties speak of: the numbers that the counters
    give out, the accounts that a call names, the shape of a log, the money
    that a bank holds. *)

(** [a, a + 1, ..., a + n - 1] *)
Fixpoint intervalo (a : Z) (n : nat) : list Z :=
  match n with
  | O => []
  | S n' => a :: intervalo (a + 1) n'
  end.

(** The accounts that a call names. *)
Definition nomeia (ch : Chamada) (n : string) : bool :=
  match ch with
  | Ch_depositar numero _ | Ch_sacar numero _ => String.eqb numero n
  | Ch_transferir origem destino _ => String.eqb origem n || String.eqb destino n
  | _ => false
  end.

(** The amount that a call carries. *)
Definition quantia (ch : Chamada) : option Bruto :=
  match ch with
  | Ch_depositar _ valor | Ch_sacar _ valor | Ch_transferir _ _ valor => Some valor
  | _ => None
  end.

(** An amount that [depositar] and [sacar] take: a positive number of
    cents, with two places. *)
Definition positivo (v : Dec.Decimal) : Prop :=
  dinheiro v /\ Dec.le v Dec.zero_int = Dec.Valor false.

(** The log entries that the methods write for the account [n]. *)
Definition e_deposito (n : string) (t : Transacao) : Prop :=
  tipo t = "DEPOSITO" /\ origem t = "" /\ destino t = n /\ positivo (valor t).

Definition e_saque (n : string) (t : Transacao) : Prop :=
  tipo t = "SAQUE" /\ origem t = n /\ destino t = "" /\ positivo (valor t).

Definition e_resumo (t : Transacao) : Prop :=
  tipo t = "TRANSFERENCIA" /\ origem t <> destino t /\ positivo (valor t).

(** The shape of the log of the account [n]: deposits, withdrawals, and
    for each transfer the SAQUE of the sender or the DEPOSITO of the
    receiver followed at once by the TRANSFERENCIA entry of the same
    amount. *)
Inductive bem_formado (n : string) : list Transacao -> Prop :=
| BF_vazio : bem_formado n []
| BF_deposito h t :
    bem_formado n h -> e_deposito n t -> bem_formado n (h ++ [t])
| BF_saque h t :
    bem_formado n h -> e_saque n t -> bem_formado n (h ++ [t])
| BF_enviada h s t :
    bem_formado n h -> e_saque n s -> e_resumo t ->
    origem t = n -> valor t = valor s ->
    bem_formado n (h ++ [s; t])
| BF_recebida h s t :
    bem_formado n h -> e_deposito n s -> e_resumo t ->
    destino t = n -> valor t = valor s ->
    bem_formado n (h ++ [s; t]).

(** [_to_money] rounds to the nearest cent, and to the even cent when the
    amount is half way: the finite decimal of coefficient [c] and exponent
    [e] against the [c'] cents of the result. *)
Definition ao_centavo (c : N) (e : Z) (c' : N) : Prop :=
  if (-2 <=? e)%Z then Z.of_N c' = Z.of_N c * 10 ^ (e + 2)
  else
    let p := 10 ^ (- 2 - e) in
    2 * Z.abs (Z.of_N c - Z.of_N c' * p) <= p
    /\ (2 * Z.abs (Z.of_N c - Z.of_N c' * p) = p -> Z.even (Z.of_N c') = true).

Module PassosOriginal.
Import Original.

(** What a call can have done to a bank in use: nothing; a customer or an
    account added at the end of its dictionary, with the next number; a
    deposit, a withdrawal or a transfer on accounts that are there. *)
Inductive transicao (b : Banco) : Banco -> Prop :=
| T_nada : transicao b b
| T_cliente nm cp :
    dict_get cp (_clientes_por_cpf b) = None ->
    transicao b
      {| _clientes_por_cpf :=
           (_clientes_por_cpf b
            ++ [(cp, Build_Cliente (_seq_cliente b) nm cp)])%list;
         _contas_por_numero := _contas_por_numero b;
         _seq_cliente := _seq_cliente b + 1;
         _seq_conta := _seq_conta b |}
| T_conta cp cl :
    dict_get cp (_clientes_por_cpf b) = Some cl ->
    dict_get (str_int (_seq_conta b)) (_contas_por_numero b) = None ->
    transicao b
      {| _clientes_por_cpf := _clientes_por_cpf b;
         _contas_por_numero :=
           (_contas_por_numero b
            ++ [(str_int (_seq_conta b),
                 Conta_nova (str_int (_seq_conta b)) cl)])%list;
         _seq_cliente := _seq_cliente b;
         _seq_conta := _seq_conta b + 1 |}
| T_deposito n c agora v desc soma :
    dict_get n (_contas_por_numero b) = Some c ->
    positivo v -> Dec.add (saldo c) v = Dec.Valor soma ->
    transicao b
      (com_contas
         (dict_set n
            (historico_append (Build_Transacao agora "DEPOSITO" v desc "" n)
               (com_saldo soma c))
            (_contas_por_numero b)) b)
| T_saque n c agora v desc resto :
    dict_get n (_contas_por_numero b) = Some c ->
    positivo v -> Dec.lt (saldo c) v = Dec.Valor false ->
    Dec.sub (saldo c) v = Dec.Valor resto ->
    transicao b
      (com_contas
         (dict_set n
            (historico_append (Build_Transacao agora "SAQUE" v desc n "")
               (com_saldo resto c))
            (_contas_por_numero b)) b)
| T_transferencia o d co cd t0 t1 t2 v desc0 desc1 desc2 resto soma :
    o <> d ->
    dict_get o (_contas_por_numero b) = Some co ->
    dict_get d (_contas_por_numero b) = Some cd ->
    positivo v -> Dec.lt (saldo co) v = Dec.Valor false ->
    Dec.sub (saldo co) v = Dec.Valor resto ->
    Dec.add (saldo cd) v = Dec.Valor soma ->
    transicao b
      (com_contas
         (dict_set d
            (historico_append (Build_Transacao t2 "TRANSFERENCIA" v desc2 o d)
               (historico_append (Build_Transacao t1 "DEPOSITO" v desc1 "" d)
                  (com_saldo soma cd)))
            (dict_set o
               (historico_append (Build_Transacao t2 "TRANSFERENCIA" v desc2 o d)
                  (historico_append (Build_Transacao t0 "SAQUE" v desc0 o "")
                     (com_saldo resto co)))
               (_contas_por_numero b))) b).

(** The money that the bank holds, in cents. *)
Definition total_banco (b : Banco) : Z :=
  fold_right Z.add 0
    (map (fun c => centavos (saldo c)) (dict_values (_contas_por_numero b))).

(** The accounts of a customer, in the order of the bank. *)
Definition contas_de (cl : Cliente) (b : Banco) : list Conta :=
  filter (fun c => String.eqb (cpf (cliente c)) (cpf cl))
    (dict_values (_contas_por_numero b)).

(** What every bank in use keeps: the account numbers are [str] of 1001,
    1002, ... in the order of the dictionary, and the counter is the next
    one; the customers have the ids 1, 2, ... in the order of the
    dictionary, and the counter is the next one; the owner of every account
    is the customer that the bank has under the owner's cpf; every log has
    the shape [bem_formado]. *)
Definition numeros_em_sequencia (b : Banco) : Prop :=
  dict_keys (_contas_por_numero b)
  = map str_int (intervalo 1001 (List.length (_contas_por_numero b)))
  /\ _seq_conta b = 1001 + Z.of_nat (List.length (_contas_por_numero b)).

Definition clientes_em_sequencia (b : Banco) : Prop :=
  map (fun kc => id (snd kc)) (_clientes_por_cpf b)
  = intervalo 1 (List.length (_clientes_por_cpf b))
  /\ _seq_cliente b = 1 + Z.of_nat (List.length (_clientes_por_cpf b)).

Definition donos_registrados (b : Banco) : Prop :=
  Forall (fun kc => dict_get (cpf (cliente (snd kc))) (_clientes_por_cpf b)
                    = Some (cliente (snd kc)))
         (_contas_por_numero b).

Definition registros_bem_formados (b : Banco) : Prop :=
  Forall (fun kc => bem_formado (fst kc) (registro (snd kc)))
         (_contas_por_numero b).

(** A TRANSFERENCIA entry in the log of an account names that account as
    its source or its destination, and is in the logs of both. *)
Definition resumos_nos_dois (b : Banco) : Prop :=
  forall k c t,
    dict_get k (_contas_por_numero b) = Some c ->
    In t (registro c) -> tipo t = "TRANSFERENCIA" ->
    (k = origem t \/ k = destino t)
    /\ exists co cd,
         dict_get (origem t) (_contas_por_numero b) = Some co
         /\ dict_get (destino t) (_contas_por_numero b) = Some cd
         /\ In t (registro co) /\ In t (registro cd).

(** A balance is a number that is not negative, with no digit below the
    cent and no more than the 28 digits of the context. *)
Definition saldos_em_28_digitos (b : Banco) : Prop :=
  Forall (fun kc => exists c e,
                      saldo (snd kc) = Dec.Fin false c e
                      /\ -2 <= e /\ Z.of_N c < 10 ^ 28)
         (_contas_por_numero b).

(** The bank [b'] is the bank [b] some calls later: the accounts and the
    customers of [b] are there, in their places, each account with its
    number, its owner and a log that begins as it did; the counters have
    not gone back. *)
Definition continua (b b' : Banco) : Prop :=
  (forall n c,
     dict_get n (_contas_por_numero b) = Some c ->
     exists c' novos,
       dict_get n (_contas_por_numero b') = Some c'
       /\ numero c' = numero c /\ cliente c' = cliente c
       /\ registro c' = (registro c ++ novos)%list)
  /\ (forall cp cl,
        dict_get cp (_clientes_por_cpf b) = Some cl ->
        dict_get cp (_clientes_por_cpf b') = Some cl)
  /\ (exists novas,
        dict_keys (_contas_por_numero b')
        = (dict_keys (_contas_por_numero b) ++ novas)%list)
  /\ (exists novos,
        dict_values (_clientes_por_cpf b')
        = (dict_values (_clientes_por_cpf b) ++ novos)%list)
  /\ _seq_conta b <= _seq_conta b' /\ _seq_cliente b <= _seq_cliente b'.

End PassosOriginal.

Module PassosRefatorado.
Import Refatorado.

(** What a call can have done to a bank in use: nothing; a customer or an
    account added at the end of its dictionary, with the next number; a
    deposit, a withdrawal or a transfer on accounts that are there. *)
Inductive transicao (b : Banco) : Banco -> Prop :=
| T_nada : transicao b b
| T_cliente nm cp :
    dict_get cp (_clientes_por_cpf b) = None ->
    transicao b
      {| _clientes_por_cpf :=
           (_clientes_por_cpf b
            ++ [(cp, Build_Cliente (_seq_cliente b) nm cp)])%list;
         _contas_por_numero := _contas_por_numero b;
         _seq_cliente := _seq_cliente b + 1;
         _seq_conta := _seq_conta b |}
| T_conta cp cl :
    dict_get cp (_clientes_por_cpf b) = Some cl ->
    dict_get (str_int (_seq_conta b)) (_contas_por_numero b) = None ->
    transicao b
      {| _clientes_por_cpf := _clientes_por_cpf b;
         _contas_por_numero :=
           (_contas_por_numero b
            ++ [(str_int (_seq_conta b),
                 Conta_nova (str_int (_seq_conta b)) cl)])%list;
         _seq_cliente := _seq_cliente b;
         _seq_conta := _seq_conta b + 1 |}
| T_deposito n c agora v desc soma :
    dict_get n (_contas_por_numero b) = Some c ->
    positivo v -> Dec.add (saldo c) v = Dec.Valor soma ->
    transicao b
      (com_contas
         (dict_set n
            (registra (Build_Transacao agora "DEPOSITO" v desc "" n)
               (com_saldo soma c))
            (_contas_por_numero b)) b)
| T_saque n c agora v desc resto :
    dict_get n (_contas_por_numero b) = Some c ->
    positivo v -> Dec.lt (saldo c) v = Dec.Valor false ->
    Dec.sub (saldo c) v = Dec.Valor resto ->
    transicao b
      (com_contas
         (dict_set n
            (registra (Build_Transacao agora "SAQUE" v desc n "")
               (com_saldo resto c))
            (_contas_por_numero b)) b)
| T_transferencia o d co cd t0 t1 t2 v desc0 desc1 desc2 resto soma :
    o <> d ->
    dict_get o (_contas_por_numero b) = Some co ->
    dict_get d (_contas_por_numero b) = Some cd ->
    positivo v -> Dec.lt (saldo co) v = Dec.Valor false ->
    Dec.sub (saldo co) v = Dec.Valor resto ->
    Dec.add (saldo cd) v = Dec.Valor soma ->
    transicao b
      (com_contas
         (dict_set d
            (registra (Build_Transacao t2 "TRANSFERENCIA" v desc2 o d)
               (registra (Build_Transacao t1 "DEPOSITO" v desc1 "" d)
                  (com_saldo soma cd)))
            (dict_set o
               (registra (Build_Transacao t2 "TRANSFERENCIA" v desc2 o d)
                  (registra (Build_Transacao t0 "SAQUE" v desc0 o "")
                     (com_saldo resto co)))
               (_contas_por_numero b))) b).

(** The money that the bank holds, in cents. *)
Definition total_banco (b : Banco) : Z :=
  fold_right Z.add 0
    (map (fun c => centavos (saldo c)) (dict_values (_contas_por_numero b))).

(** The accounts of a customer, in the order of the bank. *)
Definition contas_de (cl : Cliente) (b : Banco) : list Conta :=
  filter (fun c => String.eqb (cpf (cliente c)) (cpf cl))
    (dict_values (_contas_por_numero b)).

(** What every bank in use keeps: the account numbers are [str] of 1001,
    1002, ... in the order of the dictionary, and the counter is the next
    one; the customers have the ids 1, 2, ... in the order of the
    dictionary, and the counter is the next one; the owner of every account
    is the customer that the bank has under the owner's cpf; every log has
    the shape [bem_formado]. *)
Definition numeros_em_sequencia (b : Banco) : Prop :=
  dict_keys (_contas_por_numero b)
  = map str_int (intervalo 1001 (List.length (_contas_por_numero b)))
  /\ _seq_conta b = 1001 + Z.of_nat (List.length (_contas_por_numero b)).

Definition clientes_em_sequencia (b : Banco) : Prop :=
  map (fun kc => id (snd kc)) (_clientes_por_cpf b)
  = intervalo 1 (List.length (_clientes_por_cpf b))
  /\ _seq_cliente b = 1 + Z.of_nat (List.length (_clientes_por_cpf b)).

Definition donos_registrados (b : Banco) : Prop :=
  Forall (fun kc => dict_get (cpf (cliente (snd kc))) (_clientes_por_cpf b)
                    = Some (cliente (snd kc)))
         (_contas_por_numero b).

Definition registros_bem_formados (b : Banco) : Prop :=
  Forall (fun kc => bem_formado (fst kc) (registro (snd kc)))
         (_contas_por_numero b).

(** A TRANSFERENCIA entry in the log of an account names that account as
    its source or its destination, and is in the logs of both. *)
Definition resumos_nos_dois (b : Banco) : Prop :=
  forall k c t,
    dict_get k (_contas_por_numero b) = Some c ->
    In t (registro c) -> tipo t = "TRANSFERENCIA" ->
    (k = origem t \/ k = destino t)
    /\ exists co cd,
         dict_get (origem t) (_contas_por_numero b) = Some co
         /\ dict_get (destino t) (_contas_por_numero b) = Some cd
         /\ In t (registro co) /\ In t (registro cd).

(** A balance is a number that is not negative, with no digit below the
    cent and no more than the 28 digits of the context. *)
Definition saldos_em_28_digitos (b : Banco) : Prop :=
  Forall (fun kc => exists c e,
                      saldo (snd kc) = Dec.Fin false c e
                      /\ -2 <= e /\ Z.of_N c < 10 ^ 28)
         (_contas_por_numero b).

(** The bank [b'] is the bank [b] some calls later: the accounts and the
    customers of [b] are there, in their places, each account with its
    number, its owner and a log that begins as it did; the counters have
    not gone back. *)
Definition continua (b b' : Banco) : Prop :=
  (forall n c,
     dict_get n (_contas_por_numero b) = Some c ->
     exists c' novos,
       dict_get n (_contas_por_numero b') = Some c'
       /\ numero c' = numero c /\ cliente c' = cliente c
       /\ registro c' = (registro c ++ novos)%list)
  /\ (forall cp cl,
        dict_get cp (_clientes_por_cpf b) = Some cl ->
        dict_get cp (_clientes_por_cpf b') = Some cl)
  /\ (exists novas,
        dict_keys (_contas_por_numero b')
        = (dict_keys (_contas_por_numero b) ++ novas)%list)
  /\ (exists novos,
        dict_values (_clientes_por_cpf b')
        = (dict_values (_clientes_por_cpf b) ++ novos)%list)
  /\ _seq_conta b <= _seq_conta b' /\ _seq_cliente b <= _seq_cliente b'.

End PassosRefatorado.

(** * Properties *)

Open Scope Z_scope.

(** ** The string constructor on sample inputs *)

Example Decimal_de_str_ex :
  map DecStr.Decimal_de_str
    ["10"; "10.00"; "10.001"; " -1_000.5e+3 "; ".5"; "5."; "."; "abc"; "1e";
     "Infinity"; "-inf"; "sNaN12"; "NaN"; ""; "1 0"; "+.5E-2"]%string
  = [Some (Dec.Fin false 10 0); Some (Dec.Fin false 1000 (-2));
     Some (Dec.Fin false 10001 (-3)); Some (Dec.Fin true 10005 2);
     Some (Dec.Fin false 5 (-1)); Some (Dec.Fin false 5 0); None; None; None;
     Some (Dec.Inf false); Some (Dec.Inf true); Some (Dec.NaN false true);
     Some (Dec.NaN false false); None; None; Some (Dec.Fin false 5 (-3))].
Proof. vm_compute. reflexivity. Qed.

(** Digits and spaces of other scripts (full-width digits, Arabic-Indic
    digits, an ideographic space), and letters that are no digits. *)
Example Decimal_de_str_unicode :
  map DecStr.Decimal_de_str
    ["１０"; "١٠.٥"; "　10　"; "1e１０"; "é"; "1　0"; "½"]%string
  = [Some (Dec.Fin false 10 0); Some (Dec.Fin false 105 (-1));
     Some (Dec.Fin false 10 0); Some (Dec.Fin false 1 10); None; None; None].
Proof. vm_compute. reflexivity. Qed.

(** Exponents at the limits of the widest context. *)
Example Decimal_de_str_limites :
  map DecStr.Decimal_de_str
    ["1e999999999999999999"; "1e1000000000000000000";
     "10e999999999999999998"; "10e999999999999999999";
     "1e-1999999999999999997"; "1e-1999999999999999998";
     "0e999999999999999999"; "0e1000000000000000000"]%string
  = [Some (Dec.Fin false 1 999999999999999999); None;
     Some (Dec.Fin false 10 999999999999999998); None;
     Some (Dec.Fin false 1 (-1999999999999999997)); None;
     Some (Dec.Fin false 0 999999999999999999); None].
Proof. vm_compute. reflexivity. Qed.

(** ** Facts about the decimal arithmetic *)

Module DecFacts.
Import Dec.

Lemma conta_digitos_pos (n : nat) : forall c : N, 0 < conta_digitos n c.
Proof.
  induction n as [|n IH]; intros c; cbn [conta_digitos]; [lia|].
  destruct (_ <? _)%N; [lia|]. specialize (IH (c / 10)%N). lia.
Qed.

Lemma conta_digitos_sup (n : nat) : forall c : N,
  (c < 2 ^ N.of_nat n)%N -> Z.of_N c < 10 ^ conta_digitos n c.
Proof.
  induction n as [|n IH]; intros c Hc.
  - cbn [conta_digitos]. change (2 ^ N.of_nat 0)%N with 1%N in Hc. lia.
  - cbn [conta_digitos]. destruct (N.ltb_spec c 10) as [H|H]; [lia|].
    assert (Hd : (c / 10 < 2 ^ N.of_nat n)%N).
    { apply N.Div0.div_lt_upper_bound.
      rewrite Nnat.Nat2N.inj_succ, N.pow_succ_r' in Hc.
      clear IH. generalize dependent (2 ^ N.of_nat n)%N. intros; lia. }
    specialize (IH _ Hd).
    pose proof (conta_digitos_pos n (c / 10)%N) as Hp.
    replace (1 + conta_digitos n (c / 10)%N)
      with (Z.succ (conta_digitos n (c / 10)%N)) by lia.
    rewrite Z.pow_succ_r by lia.
    rewrite N2Z.inj_div in IH. change (Z.of_N 10) with 10 in IH.
    pose proof (Z.div_mod (Z.of_N c) 10 ltac:(lia)).
    pose proof (Z.mod_pos_bound (Z.of_N c) 10 ltac:(lia)). lia.
Qed.

(** A coefficient is below ten to the number of its digits. *)
Lemma ndigitos_sup (c : N) : Z.of_N c < 10 ^ ndigitos c.
Proof.
  apply conta_digitos_sup. rewrite Nnat.N2Nat.id.
  destruct c as [|p]; [reflexivity|]. apply N.size_gt.
Qed.

Lemma dez_pos (k : Z) : 0 <= k -> 0 < 10 ^ k.
Proof. intros. apply Z.pow_pos_nonneg; lia. Qed.

Lemma arredonda_nonneg (c k : Z) : 0 <= c -> 0 <= k -> 0 <= arredonda c k.
Proof.
  intros Hc Hk. unfold arredonda. cbv zeta.
  pose proof (dez_pos k Hk) as Hp.
  assert (0 <= c / 10 ^ k) by (apply Z.div_pos; lia).
  repeat destruct (_ <? _); try destruct (Z.even _); lia.
Qed.

(** [_fix] keeps the sign, is finite and never lowers the exponent. *)
Lemma _fix_forma (neg : bool) (c e : Z) :
  0 <= c -> exists c' e', _fix neg c e = Fin neg c' e' /\ e <= e'.
Proof.
  intros Hc. unfold _fix.
  destruct (Z.ltb_spec c (10 ^ prec)) as [H|H].
  - eexists _, _. split; [reflexivity|lia].
  - pose proof (ndigitos_sup (Z.to_N c)) as Hn. rewrite Z2N.id in Hn by lia.
    assert (Hk : 0 < ndigitos (Z.to_N c) - prec).
    { destruct (Z.le_gt_cases (ndigitos (Z.to_N c)) prec) as [Hle|Hgt]; [|lia].
      exfalso. assert (10 ^ ndigitos (Z.to_N c) <= 10 ^ prec).
      { apply Z.pow_le_mono_r; [lia|exact Hle]. }
      lia. }
    destruct (_ <? _); eexists _, _; (split; [reflexivity|lia]).
Qed.

(** Below [10^prec] nothing is rounded. *)
Lemma _fix_exato (neg : bool) (c e : Z) :
  c < 10 ^ prec -> _fix neg c e = Fin neg (Z.to_N c) e.
Proof.
  intros H. unfold _fix. destruct (Z.ltb_spec c (10 ^ prec)); [reflexivity|lia].
Qed.

Lemma com_sinal_false (c : N) : com_sinal false c = Z.of_N c.
Proof. reflexivity. Qed.

(** [valor <= 0] on a finite decimal looks at the sign and the
    coefficient only. *)
Lemma le_zero_fin (n : bool) (c : N) (e : Z) :
  le (Fin n c e) zero_int = Valor (com_sinal n c <=? 0).
Proof.
  unfold le, cmp, zero_int, alinhado. cbn [is_nan orb]. f_equal.
  set (e0 := Z.min e 0).
  assert (Hp : 0 < 10 ^ (e - e0)) by (apply dez_pos; lia).
  change (com_sinal false 0) with 0. rewrite Z.mul_0_l.
  destruct (Z.compare_spec (com_sinal n c * 10 ^ (e - e0)) 0) as [H|H|H];
    destruct (Z.leb_spec (com_sinal n c) 0); try reflexivity; nia.
Qed.

(** What passes the test [valor <= 0] of [depositar] and [sacar]. *)
Lemma positivo_fin (n : bool) (c : N) (e : Z) :
  le (Fin n c e) zero_int = Valor false -> n = false /\ (0 < c)%N.
Proof.
  rewrite le_zero_fin. intros H. injection H as H.
  apply Z.leb_gt in H. destruct n; unfold com_sinal in H; split; lia || reflexivity.
Qed.

Lemma add_nao_negativos (c1 c2 : N) (e1 e2 : Z) :
  exists c e,
    add (Fin false c1 e1) (Fin false c2 e2) = Valor (Fin false c e)
    /\ Z.min e1 e2 <= e.
Proof.
  cbn [add]. set (e0 := Z.min e1 e2). unfold alinhado. cbn [com_sinal].
  set (z := Z.of_N c1 * 10 ^ (e1 - e0) + Z.of_N c2 * 10 ^ (e2 - e0)).
  assert (H1 : 0 < 10 ^ (e1 - e0)) by (apply dez_pos; lia).
  assert (H2 : 0 < 10 ^ (e2 - e0)) by (apply dez_pos; lia).
  assert (Hz : 0 <= z) by (unfold z; nia).
  assert (Hs : (if z =? 0 then false && false else z <? 0) = false).
  { destruct (Z.eqb_spec z 0); [reflexivity|]. apply Z.ltb_ge. lia. }
  rewrite Hs.
  destruct (_fix_forma false (Z.abs z) e0 ltac:(lia)) as (c & e & Hf & He).
  exists c, e. rewrite Hf. split; [reflexivity|exact He].
Qed.

(** [saldo < valor] being false, the difference is not negative. *)
Lemma sub_nao_negativos (c1 c2 : N) (e1 e2 : Z) :
  lt (Fin false c1 e1) (Fin false c2 e2) = Valor false ->
  exists c e,
    sub (Fin false c1 e1) (Fin false c2 e2) = Valor (Fin false c e)
    /\ Z.min e1 e2 <= e.
Proof.
  unfold lt. cbn [is_nan orb cmp sub negate negb add].
  set (e0 := Z.min e1 e2). unfold alinhado. cbn [com_sinal].
  intros H.
  set (z := Z.of_N c1 * 10 ^ (e1 - e0) + - Z.of_N c2 * 10 ^ (e2 - e0)).
  assert (Hz : 0 <= z).
  { unfold z.
    destruct (Z.compare_spec (Z.of_N c1 * 10 ^ (e1 - e0))
                             (Z.of_N c2 * 10 ^ (e2 - e0))); try discriminate; lia. }
  assert (Hs : (if z =? 0 then false && true else z <? 0) = false).
  { destruct (Z.eqb_spec z 0); [reflexivity|]. apply Z.ltb_ge. lia. }
  rewrite Hs.
  destruct (_fix_forma false (Z.abs z) e0 ltac:(lia)) as (c & e & Hf & He).
  exists c, e. rewrite Hf. split; [reflexivity|exact He].
Qed.

End DecFacts.

(** ** Facts about dictionaries *)

Section DictFacts.
Context {V : Type}.
Implicit Types (d : dict V) (k : string) (v : V).

Lemma dict_get_In k d v : dict_get k d = Some v -> In (k, v) d.
Proof.
  induction d as [|[k' v'] d IH]; cbn [dict_get]; [discriminate|].
  destruct (String.eqb_spec k k') as [->|Hne].
  - intros [= ->]. left; reflexivity.
  - intros H. right. exact (IH H).
Qed.

Lemma dict_get_set_eq k v d : dict_get k (dict_set k v d) = Some v.
Proof.
  induction d as [|[k' v'] d IH]; cbn [dict_get dict_set].
  - rewrite String.eqb_refl. reflexivity.
  - destruct (String.eqb_spec k k') as [->|Hne]; cbn [dict_get].
    + rewrite String.eqb_refl. reflexivity.
    + destruct (String.eqb_spec k k'); [contradiction|exact IH].
Qed.

Lemma dict_get_set_ne k k' v d :
  k <> k' -> dict_get k (dict_set k' v d) = dict_get k d.
Proof.
  intros Hne. induction d as [|[k1 v1] d IH]; cbn [dict_get dict_set].
  - destruct (String.eqb_spec k k'); [contradiction|reflexivity].
  - destruct (String.eqb_spec k' k1) as [->|H1]; cbn [dict_get].
    + destruct (String.eqb_spec k k1); [contradiction|reflexivity].
    + destruct (String.eqb_spec k k1); [reflexivity|exact IH].
Qed.

(** Storing what is already there changes nothing. *)
Lemma dict_set_get_id k v d : dict_get k d = Some v -> dict_set k v d = d.
Proof.
  induction d as [|[k' v'] d IH]; cbn [dict_get dict_set]; [discriminate|].
  destruct (String.eqb_spec k k') as [->|Hne].
  - intros [= ->]. reflexivity.
  - intros H. rewrite (IH H). reflexivity.
Qed.

(** Replacing the value of a key that is there keeps the keys and their
    order. *)
Lemma dict_keys_set k v v0 d :
  dict_get k d = Some v0 -> dict_keys (dict_set k v d) = dict_keys d.
Proof.
  induction d as [|[k' v'] d IH]; cbn [dict_get dict_set]; [discriminate|].
  destruct (String.eqb_spec k k') as [->|Hne]; cbn [dict_keys map fst].
  - reflexivity.
  - intros H. f_equal. exact (IH H).
Qed.

Lemma Forall_dict_set (P : string * V -> Prop) k v d :
  Forall P d -> P (k, v) -> Forall P (dict_set k v d).
Proof.
  intros Hd Hv. induction Hd as [|[k' v'] d Hx Hd IH]; cbn [dict_set].
  - constructor; [exact Hv|constructor].
  - destruct (String.eqb_spec k k') as [->|Hne]; constructor; assumption.
Qed.

Lemma Forall_dict_get (P : string * V -> Prop) k v d :
  Forall P d -> dict_get k d = Some v -> P (k, v).
Proof.
  intros Hd Hg. rewrite Forall_forall in Hd. apply Hd, dict_get_In, Hg.
Qed.

End DictFacts.

(** ** The history and the balance *)

Lemma saldo_do_historico_app (h : list Transacao) (t : Transacao) :
  saldo_do_historico (h ++ [t]) = efeito (saldo_do_historico h) t.
Proof. unfold saldo_do_historico. rewrite fold_left_app. reflexivity. Qed.

(** ** Exact cents

    As long as a balance stays below [10^28] cents, the 28 digits of the
    context hold it to the cent and nothing is rounded. *)

Lemma add_exato (s v r : Dec.Decimal) :
  saldo_ok s -> dinheiro v -> Dec.le v Dec.zero_int = Dec.Valor false ->
  Dec.add s v = Dec.Valor r ->
  centavos s + centavos v < 10 ^ 28 ->
  centavos r = centavos s + centavos v.
Proof.
  intros (cs & es & -> & Hes) Hv Hle.
  destruct v as [n cv ev|n|n [|]]; try contradiction; try discriminate.
  cbn in Hv. subst ev.
  destruct (DecFacts.positivo_fin _ _ _ Hle) as [-> Hcv].
  cbn [Dec.add centavos]. rewrite Z.min_r by lia.
  unfold Dec.alinhado. cbn [Dec.com_sinal].
  replace (-2 - -2) with 0 by lia. replace (es - -2) with (es + 2) by lia.
  rewrite Z.pow_0_r, Z.mul_1_r.
  assert (Hp : 0 < 10 ^ (es + 2)) by (apply DecFacts.dez_pos; lia).
  set (z := Z.of_N cs * 10 ^ (es + 2) + Z.of_N cv).
  assert (Hz : 0 < z) by (unfold z; nia).
  intros Hr Hlim.
  replace (if z =? 0 then false && false else z <? 0) with false in Hr.
  2:{ destruct (Z.eqb_spec z 0); [lia|]. symmetry. apply Z.ltb_ge. lia. }
  rewrite Z.abs_eq in Hr by lia.
  rewrite DecFacts._fix_exato in Hr by exact Hlim.
  injection Hr as <-. cbn [centavos]. unfold Dec.alinhado. cbn [Dec.com_sinal].
  rewrite Z2N.id by lia. replace (-2 - -2) with 0 by lia.
  rewrite Z.pow_0_r. lia.
Qed.

Lemma sub_exato (s v r : Dec.Decimal) :
  saldo_ok s -> dinheiro v -> Dec.le v Dec.zero_int = Dec.Valor false ->
  Dec.lt s v = Dec.Valor false ->
  Dec.sub s v = Dec.Valor r ->
  centavos s < 10 ^ 28 ->
  centavos r = centavos s - centavos v.
Proof.
  intros (cs & es & -> & Hes) Hv Hle.
  destruct v as [n cv ev|n|n [|]]; try contradiction; try discriminate.
  cbn in Hv. subst ev.
  destruct (DecFacts.positivo_fin _ _ _ Hle) as [-> Hcv].
  unfold Dec.lt. cbn [Dec.is_nan orb Dec.cmp Dec.sub Dec.negate negb Dec.add centavos].
  rewrite Z.min_r by lia.
  unfold Dec.alinhado. cbn [Dec.com_sinal].
  replace (-2 - -2) with 0 by lia. replace (es - -2) with (es + 2) by lia.
  rewrite Z.pow_0_r, !Z.mul_1_r.
  assert (Hp : 0 < 10 ^ (es + 2)) by (apply DecFacts.dez_pos; lia).
  set (z := Z.of_N cs * 10 ^ (es + 2) + - Z.of_N cv).
  intros Hlt Hr Hlim.
  assert (Hz : 0 <= z).
  { unfold z.
    destruct (Z.compare_spec (Z.of_N cs * 10 ^ (es + 2)) (Z.of_N cv));
      try discriminate; lia. }
  replace (if z =? 0 then false && true else z <? 0) with false in Hr.
  2:{ destruct (Z.eqb_spec z 0); [reflexivity|]. symmetry. apply Z.ltb_ge. lia. }
  rewrite Z.abs_eq in Hr by lia.
  rewrite DecFacts._fix_exato in Hr by (unfold z, Dec.prec; lia).
  injection Hr as <-. cbn [centavos]. unfold Dec.alinhado. cbn [Dec.com_sinal].
  rewrite Z2N.id by lia. replace (-2 - -2) with 0 by lia.
  rewrite Z.pow_0_r. unfold z. lia.
Qed.


Lemma centavos_positivo (v : Dec.Decimal) :
  dinheiro v -> Dec.le v Dec.zero_int = Dec.Valor false -> 0 < centavos v.
Proof.
  intros Hv Hle.
  destruct v as [n cv ev|n|n [|]]; try contradiction; try discriminate.
  cbn in Hv. subst ev.
  destruct (DecFacts.positivo_fin _ _ _ Hle) as [-> Hcv].
  cbn [centavos]. unfold Dec.alinhado. cbn [Dec.com_sinal].
  replace (-2 - -2) with 0 by lia. rewrite Z.pow_0_r. lia.
Qed.

Lemma total_app (kind : string) (h : list Transacao) (t : Transacao) :
  total kind (h ++ [t])
  = total kind h + (if String.eqb (tipo t) kind then centavos (valor t) else 0).
Proof.
  unfold total. induction h as [|x h IH]; cbn [app map fold_right]; [lia|].
  rewrite IH. lia.
Qed.

Lemma exato_deposito h s v r agora desc o d :
  saldo_ok s -> dinheiro v -> Dec.le v Dec.zero_int = Dec.Valor false ->
  Dec.add s v = Dec.Valor r ->
  exato h s -> exato (h ++ [Build_Transacao agora "DEPOSITO" v desc o d]) r.
Proof.
  intros Hs Hv Hle Ha [Hw Hx].
  pose proof (centavos_positivo _ Hv Hle) as Hp.
  split; rewrite !total_app; cbn [tipo valor String.eqb Ascii.eqb Bool.eqb]; [lia|].
  intros Hd. rewrite (add_exato _ _ _ Hs Hv Hle Ha); [rewrite Hx; lia|].
  rewrite Hx; lia.
Qed.

Lemma exato_saque h s v r agora desc o d :
  saldo_ok s -> dinheiro v -> Dec.le v Dec.zero_int = Dec.Valor false ->
  Dec.lt s v = Dec.Valor false -> Dec.sub s v = Dec.Valor r ->
  exato h s -> exato (h ++ [Build_Transacao agora "SAQUE" v desc o d]) r.
Proof.
  intros Hs Hv Hle Hlt Ha [Hw Hx].
  pose proof (centavos_positivo _ Hv Hle) as Hp.
  split; rewrite !total_app; cbn [tipo valor String.eqb Ascii.eqb Bool.eqb]; [lia|].
  intros Hd. rewrite (sub_exato _ _ _ Hs Hv Hle Hlt Ha); [rewrite Hx; lia|].
  rewrite Hx; lia.
Qed.

Lemma exato_transferencia h s v agora desc o d :
  exato h s -> exato (h ++ [Build_Transacao agora "TRANSFERENCIA" v desc o d]) s.
Proof.
  intros [Hw Hx].
  split; rewrite !total_app; cbn [tipo valor String.eqb Ascii.eqb Bool.eqb]; [lia|].
  intros Hd. rewrite Hx; lia.
Qed.

(** Unfolding of the monad, for proofs by cases on the code. *)
Ltac desmonta :=
  cbv beta iota zeta delta
    [bind ret levanta estado modifica decimal tente Decimal_str].

Ltac desmonta_em H :=
  cbv beta iota zeta delta
    [bind ret levanta estado modifica decimal tente Decimal_str] in H.

(** ** [Original]: the methods of [Conta] *)

Module OriginalFacts.
Import Original.

(** [depositar] and [sacar], case by case. *)
Lemma depositar_eq agora v desc (self : Conta) :
  Conta.depositar agora v desc self =
  match Dec.le v Dec.zero_int with
  | Dec.InvalidOperation => (self, Levanta DecimalInvalidOperation)
  | Dec.Valor true =>
      (self, Levanta (ValorInvalido "valor deve ser positivo"))
  | Dec.Valor false =>
      match Dec.add (saldo self) v with
      | Dec.InvalidOperation => (self, Levanta DecimalInvalidOperation)
      | Dec.Valor soma =>
          (historico_append
             (Build_Transacao agora "DEPOSITO" v desc "" (numero self))
             (com_saldo soma self), Retorna tt)
      end
  end.
Proof.
  unfold Conta.depositar. desmonta.
  destruct (Dec.le v Dec.zero_int) as [[|]|]; try reflexivity.
  destruct (Dec.add (saldo self) v); reflexivity.
Qed.

Lemma sacar_eq agora v desc (self : Conta) :
  Conta.sacar agora v desc self =
  match Dec.le v Dec.zero_int with
  | Dec.InvalidOperation => (self, Levanta DecimalInvalidOperation)
  | Dec.Valor true =>
      (self, Levanta (ValorInvalido "valor deve ser positivo"))
  | Dec.Valor false =>
      match Dec.lt (saldo self) v with
      | Dec.InvalidOperation => (self, Levanta DecimalInvalidOperation)
      | Dec.Valor true =>
          (self, Levanta (SaldoInsuficiente "saldo insuficiente"))
      | Dec.Valor false =>
          match Dec.sub (saldo self) v with
          | Dec.InvalidOperation => (self, Levanta DecimalInvalidOperation)
          | Dec.Valor resto =>
              (historico_append
                 (Build_Transacao agora "SAQUE" v desc (numero self) "")
                 (com_saldo resto self), Retorna tt)
          end
      end
  end.
Proof.
  unfold Conta.sacar. desmonta.
  destruct (Dec.le v Dec.zero_int) as [[|]|]; try reflexivity.
  destruct (Dec.lt (saldo self) v) as [[|]|]; try reflexivity.
  destruct (Dec.sub (saldo self) v); reflexivity.
Qed.

Lemma com_contas_id (b : Banco) : com_contas (_contas_por_numero b) b = b.
Proof. destruct b; reflexivity. Qed.

(** An object that a method leaves as it was leaves the bank as it was. *)
Lemma com_contas_mesma r c (b : Banco) :
  dict_get r (_contas_por_numero b) = Some c ->
  com_contas (dict_set r c (_contas_por_numero b)) b = b.
Proof. intros H. rewrite (dict_set_get_id _ _ _ H). apply com_contas_id. Qed.

Lemma na_conta_eq {A} r (m : M Conta A) (b : Banco) :
  na_conta r m b =
  match dict_get r (_contas_por_numero b) with
  | Some c => (com_contas (dict_set r (fst (m c)) (_contas_por_numero b)) b,
               snd (m c))
  | None => (b, Levanta ReferenciaSemObjeto)
  end.
Proof.
  unfold na_conta. destruct (dict_get r _); [|reflexivity].
  destruct (m c); reflexivity.
Qed.

Lemma _to_money_eq valor (b : Banco) :
  Banco._to_money valor b = (b, normaliza valor).
Proof.
  unfold normaliza, Banco._to_money. desmonta.
  destruct valor as [d|s].
  - destruct (Dec.quantize_centavos d); reflexivity.
  - destruct (DecStr.Decimal_de_str s) as [d|]; [|reflexivity].
    destruct (Dec.quantize_centavos d); reflexivity.
Qed.

Lemma quantize_dinheiro d v :
  Dec.quantize_centavos d = Dec.Valor v -> dinheiro v.
Proof.
  destruct d as [n c e|n|n [|]]; cbn [Dec.quantize_centavos]; try discriminate.
  - destruct (_ <? _); [|discriminate]. intros [= <-]. reflexivity.
  - intros [= <-]. exact I.
Qed.

Lemma normaliza_dinheiro valor v : normaliza valor = Retorna v -> dinheiro v.
Proof.
  unfold normaliza, Banco._to_money. desmonta.
  destruct valor as [d|s].
  - destruct (Dec.quantize_centavos d) eqn:E; [|discriminate].
    intros [= <-]. cbn. eapply quantize_dinheiro, E.
  - destruct (DecStr.Decimal_de_str s) as [d|]; [|discriminate].
    destruct (Dec.quantize_centavos d) eqn:E; [|discriminate].
    intros [= <-]. eapply quantize_dinheiro, E.
Qed.

Lemma buscar_conta_eq numero (b : Banco) :
  Banco.buscar_conta numero b =
  match dict_get numero (_contas_por_numero b) with
  | Some _ => (b, Retorna numero)
  | None => (b, Levanta (EntidadeNaoEncontrada "conta não encontrada"))
  end.
Proof.
  unfold Banco.buscar_conta. desmonta. destruct (dict_get _ _); reflexivity.
Qed.

(** A method that raises leaves the account as it was. *)
Lemma depositar_falha agora v desc (c : Conta) e :
  snd (Conta.depositar agora v desc c) = Levanta e ->
  fst (Conta.depositar agora v desc c) = c.
Proof.
  rewrite depositar_eq.
  destruct (Dec.le v Dec.zero_int) as [[|]|]; try reflexivity.
  destruct (Dec.add (saldo c) v); [discriminate|reflexivity].
Qed.

Lemma sacar_falha agora v desc (c : Conta) e :
  snd (Conta.sacar agora v desc c) = Levanta e ->
  fst (Conta.sacar agora v desc c) = c.
Proof.
  rewrite sacar_eq.
  destruct (Dec.le v Dec.zero_int) as [[|]|]; try reflexivity.
  destruct (Dec.lt (saldo c) v) as [[|]|]; try reflexivity.
  destruct (Dec.sub (saldo c) v); [discriminate|reflexivity].
Qed.

(** The methods keep [conta_ok]. *)
Lemma depositar_conta_ok k agora v desc (c : Conta) :
  dinheiro v -> conta_ok k c ->
  conta_ok k (fst (Conta.depositar agora v desc c)).
Proof.
  intros Hv (Hk & (cs & es & Hs & Hes) & Hh & Hx). rewrite depositar_eq.
  destruct (Dec.le v Dec.zero_int) as [[|]|] eqn:Hle;
    try (split; [exact Hk|split; [exists cs, es; auto|split; [exact Hh|exact Hx]]]).
  assert (Hso : saldo_ok (saldo c)) by (exists cs, es; auto).
  destruct (Dec.add (saldo c) v) as [r|] eqn:Ha.
  2:{ split; [exact Hk|split; [exact Hso|split; [exact Hh|exact Hx]]]. }
  cbn [fst]. split; [exact Hk|]. split; [|split].
  - destruct v as [n cv ev|n|n [|]]; try contradiction; try discriminate.
    destruct (DecFacts.positivo_fin _ _ _ Hle) as [-> Hcv]. rewrite Hs in Ha.
    destruct (DecFacts.add_nao_negativos cs cv es ev) as (c' & e' & Ha' & He).
    cbn in Hv. subst ev. rewrite Ha' in Ha. injection Ha as <-.
    exists c', e'. split; [reflexivity|lia].
  - cbn [registro historico historico_append com_saldo saldo].
    rewrite saldo_do_historico_app. unfold registro in Hh. rewrite Hh.
    cbn [efeito tipo valor]. cbn. exact Ha.
  - cbn [registro historico historico_append com_saldo saldo].
    exact (exato_deposito _ _ _ _ _ _ _ _ Hso Hv Hle Ha Hx).
Qed.

Lemma sacar_conta_ok k agora v desc (c : Conta) :
  dinheiro v -> conta_ok k c ->
  conta_ok k (fst (Conta.sacar agora v desc c)).
Proof.
  intros Hv (Hk & (cs & es & Hs & Hes) & Hh & Hx). rewrite sacar_eq.
  destruct (Dec.le v Dec.zero_int) as [[|]|] eqn:Hle;
    try (split; [exact Hk|split; [exists cs, es; auto|split; [exact Hh|exact Hx]]]).
  destruct (Dec.lt (saldo c) v) as [[|]|] eqn:Hlt;
    try (split; [exact Hk|split; [exists cs, es; auto|split; [exact Hh|exact Hx]]]).
  assert (Hso : saldo_ok (saldo c)) by (exists cs, es; auto).
  destruct (Dec.sub (saldo c) v) as [r|] eqn:Ha.
  2:{ split; [exact Hk|split; [exact Hso|split; [exact Hh|exact Hx]]]. }
  cbn [fst]. split; [exact Hk|]. split; [|split].
  - destruct v as [n cv ev|n|n [|]]; try contradiction; try discriminate.
    destruct (DecFacts.positivo_fin _ _ _ Hle) as [-> Hcv]. rewrite Hs in Ha, Hlt.
    destruct (DecFacts.sub_nao_negativos cs cv es ev Hlt) as (c' & e' & Ha' & He).
    cbn in Hv. subst ev. rewrite Ha' in Ha. injection Ha as <-.
    exists c', e'. split; [reflexivity|lia].
  - cbn [registro historico historico_append com_saldo saldo].
    rewrite saldo_do_historico_app. unfold registro in Hh. rewrite Hh.
    cbn [efeito tipo valor]. cbn. exact Ha.
  - cbn [registro historico historico_append com_saldo saldo].
    exact (exato_saque _ _ _ _ _ _ _ _ Hso Hv Hle Hlt Ha Hx).
Qed.

Lemma transferencia_conta_ok k agora v desc o d (c : Conta) :
  conta_ok k c ->
  conta_ok k (historico_append (Build_Transacao agora "TRANSFERENCIA" v desc o d) c).
Proof.
  intros (Hk & Hs & Hh & Hx). split; [exact Hk|]. split; [exact Hs|]. split.
  - cbn [registro historico historico_append saldo].
    rewrite saldo_do_historico_app. unfold registro in Hh. rewrite Hh.
    reflexivity.
  - cbn [registro historico historico_append saldo].
    apply exato_transferencia. exact Hx.
Qed.

(** The money methods of [Banco], case by case. *)
Lemma Banco_depositar_eq relogio numero valor (b : Banco) :
  Banco.depositar relogio numero valor b =
  match dict_get numero (_contas_por_numero b) with
  | None => (b, Levanta (EntidadeNaoEncontrada "conta não encontrada"))
  | Some c =>
      match normaliza valor with
      | Levanta e => (b, Levanta e)
      | Retorna v =>
          let r := Conta.depositar (relogio 0%nat) v "depósito" c in
          (com_contas (dict_set numero (fst r) (_contas_por_numero b)) b, snd r)
      end
  end.
Proof.
  unfold Banco.depositar. unfold bind at 1. rewrite buscar_conta_eq.
  destruct (dict_get numero _) as [c|] eqn:Hc; [|reflexivity].
  unfold bind. rewrite _to_money_eq.
  destruct (normaliza valor) as [v|e]; [|reflexivity].
  rewrite na_conta_eq, Hc. reflexivity.
Qed.

Lemma Banco_sacar_eq relogio numero valor (b : Banco) :
  Banco.sacar relogio numero valor b =
  match dict_get numero (_contas_por_numero b) with
  | None => (b, Levanta (EntidadeNaoEncontrada "conta não encontrada"))
  | Some c =>
      match normaliza valor with
      | Levanta e => (b, Levanta e)
      | Retorna v =>
          let r := Conta.sacar (relogio 0%nat) v "saque" c in
          (com_contas (dict_set numero (fst r) (_contas_por_numero b)) b, snd r)
      end
  end.
Proof.
  unfold Banco.sacar. unfold bind at 1. rewrite buscar_conta_eq.
  destruct (dict_get numero _) as [c|] eqn:Hc; [|reflexivity].
  unfold bind. rewrite _to_money_eq.
  destruct (normaliza valor) as [v|e]; [|reflexivity].
  rewrite na_conta_eq, Hc. reflexivity.
Qed.

Lemma contas_com_contas D (b : Banco) : _contas_por_numero (com_contas D b) = D.
Proof. reflexivity. Qed.

Lemma com_contas_com_contas D1 D2 (b : Banco) :
  com_contas D2 (com_contas D1 b) = com_contas D2 b.
Proof. reflexivity. Qed.

Lemma transferir_eq relogio o d valor (b : Banco) :
  Banco.transferir relogio o d valor b =
  let D := _contas_por_numero b in
  if String.eqb o d then (b, Levanta (ValorInvalido "contas iguais"))
  else
    match normaliza valor with
    | Levanta e => (b, Levanta e)
    | Retorna v =>
    match dict_get o D with
    | None => (b, Levanta (EntidadeNaoEncontrada "conta não encontrada"))
    | Some co =>
    match dict_get d D with
    | None => (b, Levanta (EntidadeNaoEncontrada "conta não encontrada"))
    | Some cd =>
      let r1 := Conta.sacar (relogio 0%nat) v ("transferência para " ++ d) co in
      match snd r1 with
      | Levanta e => (com_contas (dict_set o (fst r1) D) b, Levanta e)
      | Retorna _ =>
        let r2 := Conta.depositar (relogio 1%nat) v ("transferência de " ++ o) cd in
        let D1 := dict_set d (fst r2) (dict_set o (fst r1) D) in
        match snd r2 with
        | Levanta e => (com_contas D1 b, Levanta e)
        | Retorna _ =>
          let t := Build_Transacao (relogio 2%nat) "TRANSFERENCIA" v
                     "transferência" o d in
          (com_contas
             (dict_set d (historico_append t (fst r2))
                (dict_set o (historico_append t (fst r1)) D1)) b,
           Retorna tt)
        end
      end
    end end end.
Proof.
  cbv zeta. unfold Banco.transferir.
  destruct (String.eqb_spec o d) as [->|Hod]; [reflexivity|].
  unfold bind at 1. rewrite _to_money_eq.
  destruct (normaliza valor) as [v|e]; [|reflexivity].
  unfold bind at 1. rewrite buscar_conta_eq.
  destruct (dict_get o _) as [co|] eqn:Ho; [|reflexivity].
  unfold bind at 1. rewrite buscar_conta_eq.
  destruct (dict_get d _) as [cd|] eqn:Hd; [|reflexivity].
  unfold bind at 1. rewrite na_conta_eq, Ho.
  destruct (snd (Conta.sacar _ _ _ co)) as [[]|e]; [|reflexivity].
  unfold bind at 1. rewrite na_conta_eq, contas_com_contas.
  rewrite (dict_get_set_ne d o) by congruence. rewrite Hd.
  rewrite com_contas_com_contas.
  destruct (snd (Conta.depositar _ _ _ cd)) as [[]|e]; [|reflexivity].
  unfold bind at 1. rewrite na_conta_eq, contas_com_contas.
  rewrite (dict_get_set_ne o d) by congruence. rewrite dict_get_set_eq.
  rewrite com_contas_com_contas.
  unfold modifica at 1 2. cbn [fst snd].
  rewrite na_conta_eq, contas_com_contas.
  rewrite (dict_get_set_ne d o) by congruence. rewrite dict_get_set_eq.
  rewrite com_contas_com_contas. unfold modifica. cbn [fst snd].
  reflexivity.
Qed.

(** *** The invariant of the bank *)

Lemma criar_cliente_eq nome cpf (b : Banco) :
  Banco.criar_cliente nome cpf b =
  match dict_get cpf (_clientes_por_cpf b) with
  | Some c => (b, Retorna c)
  | None =>
      let c := Build_Cliente (_seq_cliente b) nome cpf in
      ({| _clientes_por_cpf := dict_set cpf c (_clientes_por_cpf b);
          _contas_por_numero := _contas_por_numero b;
          _seq_cliente := _seq_cliente b + 1;
          _seq_conta := _seq_conta b |}, Retorna c)
  end.
Proof.
  unfold Banco.criar_cliente. desmonta.
  destruct (dict_get cpf _); reflexivity.
Qed.

Lemma abrir_conta_eq cpf (b : Banco) :
  Banco.abrir_conta cpf b =
  match dict_get cpf (_clientes_por_cpf b) with
  | None => (b, Levanta (EntidadeNaoEncontrada "cliente não encontrado"))
  | Some cliente =>
      let numero := str_int (_seq_conta b) in
      ({| _clientes_por_cpf := _clientes_por_cpf b;
          _contas_por_numero :=
            dict_set numero (Conta_nova numero cliente) (_contas_por_numero b);
          _seq_cliente := _seq_cliente b;
          _seq_conta := _seq_conta b + 1 |}, Retorna numero)
  end.
Proof.
  unfold Banco.abrir_conta. desmonta.
  destruct (dict_get cpf _); reflexivity.
Qed.

Lemma extrato_eq numero (b : Banco) :
  Banco.extrato numero b =
  match dict_get numero (_contas_por_numero b) with
  | Some c => (b, Retorna (historico c))
  | None => (b, Levanta (EntidadeNaoEncontrada "conta não encontrada"))
  end.
Proof.
  unfold Banco.extrato. unfold bind at 1. rewrite buscar_conta_eq.
  destruct (dict_get numero _) as [c|] eqn:Hc; [|reflexivity].
  rewrite na_conta_eq, Hc. desmonta. cbn [fst snd].
  rewrite (com_contas_mesma _ _ _ Hc). reflexivity.
Qed.

Lemma inv_novo : inv Banco_novo.
Proof. split; constructor. Qed.

Lemma conta_nova_ok numero cliente : conta_ok numero (Conta_nova numero cliente).
Proof.
  split; [reflexivity|]. split; [|split; [reflexivity|]].
  - exists 0%N, (-2). split; [reflexivity|lia].
  - split; [cbn; lia|]. intros _. reflexivity.
Qed.

Lemma inv_conta (b : Banco) k c :
  inv b -> dict_get k (_contas_por_numero b) = Some c -> conta_ok k c.
Proof.
  intros [H _] Hg.
  exact (proj1 (Forall_dict_get _ _ _ _ H Hg)).
Qed.

Lemma inv_numerada (b : Banco) k c :
  inv b -> dict_get k (_contas_por_numero b) = Some c ->
  numerada (_seq_conta b) k.
Proof.
  intros [H _] Hg.
  exact (proj2 (Forall_dict_get _ _ _ _ H Hg)).
Qed.

Lemma inv_com_contas D (b : Banco) :
  inv b ->
  Forall (fun kc => conta_ok (fst kc) (snd kc)
                    /\ numerada (_seq_conta b) (fst kc)) D ->
  inv (com_contas D b).
Proof. intros [_ Hc] HD. split; assumption. Qed.

Lemma inv_na_conta (b : Banco) k c c' :
  inv b -> dict_get k (_contas_por_numero b) = Some c -> conta_ok k c' ->
  inv (com_contas (dict_set k c' (_contas_por_numero b)) b).
Proof.
  intros Hb Hg Hc. apply inv_com_contas; [exact Hb|].
  apply Forall_dict_set; [exact (proj1 Hb)|].
  split; [exact Hc|exact (inv_numerada _ _ _ Hb Hg)].
Qed.

Lemma transferir_inv relogio o d valor (b : Banco) :
  inv b -> inv (fst (Banco.transferir relogio o d valor b)).
Proof.
  intros Hb. rewrite transferir_eq. cbv zeta.
  destruct (String.eqb o d); [exact Hb|].
  destruct (normaliza valor) as [v|e] eqn:Hv; [|exact Hb].
  pose proof (normaliza_dinheiro _ _ Hv) as Hdin.
  destruct (dict_get o _) as [co|] eqn:Ho; [|exact Hb].
  destruct (dict_get d _) as [cd|] eqn:Hd; [|exact Hb].
  pose proof (inv_conta _ _ _ Hb Ho) as Hco.
  pose proof (inv_conta _ _ _ Hb Hd) as Hcd.
  pose proof (inv_numerada _ _ _ Hb Ho) as Hno.
  pose proof (inv_numerada _ _ _ Hb Hd) as Hnd.
  pose proof (sacar_conta_ok o (relogio 0%nat) v
                ("transferência para " ++ d)%string co Hdin Hco) as H1.
  pose proof (depositar_conta_ok d (relogio 1%nat) v
                ("transferência de " ++ o)%string cd Hdin Hcd) as H2.
  destruct (snd (Conta.sacar _ _ _ co));
    [|eapply inv_na_conta; eassumption].
  assert (Hf : Forall (fun kc => conta_ok (fst kc) (snd kc)
                                 /\ numerada (_seq_conta b) (fst kc))
                 (dict_set d (fst (Conta.depositar (relogio 1%nat) v
                                     ("transferência de " ++ o)%string cd))
                    (dict_set o (fst (Conta.sacar (relogio 0%nat) v
                                     ("transferência para " ++ d)%string co))
                       (_contas_por_numero b)))).
  { apply Forall_dict_set; [|split; [exact H2|exact Hnd]].
    apply Forall_dict_set; [exact (proj1 Hb)|split; [exact H1|exact Hno]]. }
  destruct (snd (Conta.depositar _ _ _ cd)); cbn [fst];
    apply inv_com_contas; try exact Hb; [|exact Hf].
  apply Forall_dict_set;
    [|split; [apply transferencia_conta_ok; exact H2|exact Hnd]].
  apply Forall_dict_set;
    [exact Hf|split; [apply transferencia_conta_ok; exact H1|exact Hno]].
Qed.

Lemma executa_inv (p : Passo) (b : Banco) : inv b -> inv (fst (executa p b)).
Proof.
  intros Hb. destruct p as [relogio ch]. unfold executa, responde.
  destruct ch as [nm cp|cp|nu|nu vl|nu vl|og ds vl|nu|]; unfold bind.
  - rewrite criar_cliente_eq.
    destruct (dict_get cp _) eqn:E; [exact Hb|]. cbn [fst ret].
    split; [exact (proj1 Hb)|]. cbn.
    apply Forall_dict_set; [exact (proj2 Hb)|reflexivity].
  - rewrite abrir_conta_eq.
    destruct (dict_get cp _) eqn:E; [|exact Hb]. cbn [fst ret].
    split; [|exact (proj2 Hb)]. cbn [_contas_por_numero _seq_conta].
    apply Forall_dict_set.
    + eapply Forall_impl; [|exact (proj1 Hb)].
      intros kc [Hc (z & Hz & Hlt)]. split; [exact Hc|].
      exists z. split; [exact Hz|lia].
    + split; [apply conta_nova_ok|].
      exists (_seq_conta b). split; [reflexivity|lia].
  - rewrite buscar_conta_eq. destruct (dict_get nu _); exact Hb.
  - rewrite Banco_depositar_eq.
    destruct (dict_get nu _) as [c|] eqn:Hc; [|exact Hb].
    destruct (normaliza vl) as [v|e] eqn:Hv; [|exact Hb]. cbv zeta.
    assert (inv (com_contas (dict_set nu
                   (fst (Conta.depositar (relogio 0%nat) v "depósito" c))
                   (_contas_por_numero b)) b)).
    { eapply inv_na_conta; [exact Hb|exact Hc|].
      apply depositar_conta_ok;
        [exact (normaliza_dinheiro _ _ Hv)|exact (inv_conta _ _ _ Hb Hc)]. }
    destruct (snd (Conta.depositar _ _ _ c)); assumption.
  - rewrite Banco_sacar_eq.
    destruct (dict_get nu _) as [c|] eqn:Hc; [|exact Hb].
    destruct (normaliza vl) as [v|e] eqn:Hv; [|exact Hb]. cbv zeta.
    assert (inv (com_contas (dict_set nu
                   (fst (Conta.sacar (relogio 0%nat) v "saque" c))
                   (_contas_por_numero b)) b)).
    { eapply inv_na_conta; [exact Hb|exact Hc|].
      apply sacar_conta_ok;
        [exact (normaliza_dinheiro _ _ Hv)|exact (inv_conta _ _ _ Hb Hc)]. }
    destruct (snd (Conta.sacar _ _ _ c)); assumption.
  - pose proof (transferir_inv relogio og ds vl b Hb) as H.
    destruct (Banco.transferir _ _ _ _ b) as [b' [[]|e]]; exact H.
  - rewrite extrato_eq. destruct (dict_get nu _); exact Hb.
  - exact Hb.
Qed.

Lemma corre_inv (ps : list Passo) : forall b : Banco, inv b -> inv (fst (corre ps b)).
Proof.
  induction ps as [|p ps IH]; intros b Hb; [exact Hb|].
  cbn [corre]. pose proof (executa_inv p b Hb) as H1.
  destruct (executa p b) as [b1 r]. specialize (IH b1 H1).
  destruct (corre ps b1) as [b2 rs]. exact IH.
Qed.

(** Every bank in use satisfies the invariant. *)
Lemma alcancavel_inv (b : Banco) : alcancavel b -> inv b.
Proof. intros [ps ->]. apply corre_inv, inv_novo. Qed.

End OriginalFacts.
(** ** [Refatorado]: the same facts for the refactored classes *)

Module RefatoradoFacts.
Import Refatorado.

(** [depositar] and [sacar], case by case. *)
Lemma depositar_eq_R agora v desc (self : Conta) :
  Conta.depositar agora v desc self =
  match Dec.le v Dec.zero_int with
  | Dec.InvalidOperation => (self, Levanta DecimalInvalidOperation)
  | Dec.Valor true =>
      (self, Levanta (ValorInvalido "valor deve ser positivo"))
  | Dec.Valor false =>
      match Dec.add (saldo self) v with
      | Dec.InvalidOperation => (self, Levanta DecimalInvalidOperation)
      | Dec.Valor soma =>
          (registra
             (Build_Transacao agora "DEPOSITO" v desc "" (numero self))
             (com_saldo soma self), Retorna tt)
      end
  end.
Proof.
  unfold Conta.depositar, nas_transacoes, RegistroTransacoes.registrar. desmonta.
  destruct (Dec.le v Dec.zero_int) as [[|]|]; try reflexivity.
  destruct (Dec.add (saldo self) v); reflexivity.
Qed.

Lemma sacar_eq_R agora v desc (self : Conta) :
  Conta.sacar agora v desc self =
  match Dec.le v Dec.zero_int with
  | Dec.InvalidOperation => (self, Levanta DecimalInvalidOperation)
  | Dec.Valor true =>
      (self, Levanta (ValorInvalido "valor deve ser positivo"))
  | Dec.Valor false =>
      match Dec.lt (saldo self) v with
      | Dec.InvalidOperation => (self, Levanta DecimalInvalidOperation)
      | Dec.Valor true =>
          (self, Levanta (SaldoInsuficiente "saldo insuficiente"))
      | Dec.Valor false =>
          match Dec.sub (saldo self) v with
          | Dec.InvalidOperation => (self, Levanta DecimalInvalidOperation)
          | Dec.Valor resto =>
              (registra
                 (Build_Transacao agora "SAQUE" v desc (numero self) "")
                 (com_saldo resto self), Retorna tt)
          end
      end
  end.
Proof.
  unfold Conta.sacar, nas_transacoes, RegistroTransacoes.registrar. desmonta.
  destruct (Dec.le v Dec.zero_int) as [[|]|]; try reflexivity.
  destruct (Dec.lt (saldo self) v) as [[|]|]; try reflexivity.
  destruct (Dec.sub (saldo self) v); reflexivity.
Qed.

Lemma com_contas_id_R (b : Banco) : com_contas (_contas_por_numero b) b = b.
Proof. destruct b; reflexivity. Qed.

(** An object that a method leaves as it was leaves the bank as it was. *)
Lemma com_contas_mesma_R r c (b : Banco) :
  dict_get r (_contas_por_numero b) = Some c ->
  com_contas (dict_set r c (_contas_por_numero b)) b = b.
Proof. intros H. rewrite (dict_set_get_id _ _ _ H). apply com_contas_id_R. Qed.

Lemma na_conta_eq_R {A} r (m : M Conta A) (b : Banco) :
  na_conta r m b =
  match dict_get r (_contas_por_numero b) with
  | Some c => (com_contas (dict_set r (fst (m c)) (_contas_por_numero b)) b,
               snd (m c))
  | None => (b, Levanta ReferenciaSemObjeto)
  end.
Proof.
  unfold na_conta. destruct (dict_get r _); [|reflexivity].
  destruct (m c); reflexivity.
Qed.

Lemma _to_money_eq_R valor (b : Banco) :
  Banco._to_money valor b = (b, normaliza valor).
Proof.
  unfold normaliza, Banco._to_money. desmonta.
  destruct valor as [d|s].
  - destruct (Dec.quantize_centavos d); reflexivity.
  - destruct (DecStr.Decimal_de_str s) as [d|]; [|reflexivity].
    destruct (Dec.quantize_centavos d); reflexivity.
Qed.

Lemma quantize_dinheiro_R d v :
  Dec.quantize_centavos d = Dec.Valor v -> dinheiro v.
Proof. exact (OriginalFacts.quantize_dinheiro d v). Qed.

Lemma normaliza_dinheiro_R valor v : normaliza valor = Retorna v -> dinheiro v.
Proof.
  unfold normaliza, Banco._to_money. desmonta.
  destruct valor as [d|s].
  - destruct (Dec.quantize_centavos d) eqn:E; [|discriminate].
    intros [= <-]. eapply quantize_dinheiro_R, E.
  - destruct (DecStr.Decimal_de_str s) as [d|]; [|discriminate].
    destruct (Dec.quantize_centavos d) eqn:E; [|discriminate].
    intros [= <-]. eapply quantize_dinheiro_R, E.
Qed.

Lemma buscar_conta_eq_R numero (b : Banco) :
  Banco.buscar_conta numero b =
  match dict_get numero (_contas_por_numero b) with
  | Some _ => (b, Retorna numero)
  | None => (b, Levanta (EntidadeNaoEncontrada "conta não encontrada"))
  end.
Proof.
  unfold Banco.buscar_conta. desmonta. destruct (dict_get _ _); reflexivity.
Qed.

(** A method that raises leaves the account as it was. *)
Lemma depositar_falha_R agora v desc (c : Conta) e :
  snd (Conta.depositar agora v desc c) = Levanta e ->
  fst (Conta.depositar agora v desc c) = c.
Proof.
  rewrite depositar_eq_R.
  destruct (Dec.le v Dec.zero_int) as [[|]|]; try reflexivity.
  destruct (Dec.add (saldo c) v); [discriminate|reflexivity].
Qed.

Lemma sacar_falha_R agora v desc (c : Conta) e :
  snd (Conta.sacar agora v desc c) = Levanta e ->
  fst (Conta.sacar agora v desc c) = c.
Proof.
  rewrite sacar_eq_R.
  destruct (Dec.le v Dec.zero_int) as [[|]|]; try reflexivity.
  destruct (Dec.lt (saldo c) v) as [[|]|]; try reflexivity.
  destruct (Dec.sub (saldo c) v); [discriminate|reflexivity].
Qed.

(** The methods keep [conta_ok]. *)
Lemma depositar_conta_ok_R k agora v desc (c : Conta) :
  dinheiro v -> conta_ok k c ->
  conta_ok k (fst (Conta.depositar agora v desc c)).
Proof.
  intros Hv (Hk & (cs & es & Hs & Hes) & Hh & Hx). rewrite depositar_eq_R.
  destruct (Dec.le v Dec.zero_int) as [[|]|] eqn:Hle;
    try (split; [exact Hk|split; [exists cs, es; auto|split; [exact Hh|exact Hx]]]).
  assert (Hso : saldo_ok (saldo c)) by (exists cs, es; auto).
  destruct (Dec.add (saldo c) v) as [r|] eqn:Ha.
  2:{ split; [exact Hk|split; [exact Hso|split; [exact Hh|exact Hx]]]. }
  cbn [fst]. split; [exact Hk|]. split; [|split].
  - destruct v as [n cv ev|n|n [|]]; try contradiction; try discriminate.
    destruct (DecFacts.positivo_fin _ _ _ Hle) as [-> Hcv]. rewrite Hs in Ha.
    destruct (DecFacts.add_nao_negativos cs cv es ev) as (c' & e' & Ha' & He).
    cbn in Hv. subst ev. rewrite Ha' in Ha. injection Ha as <-.
    exists c', e'. split; [reflexivity|lia].
  - cbn [registro transacoes _historico registra com_saldo saldo].
    rewrite saldo_do_historico_app. unfold registro in Hh. rewrite Hh.
    cbn [efeito tipo valor]. cbn. exact Ha.
  - cbn [registro transacoes _historico registra com_saldo saldo].
    exact (exato_deposito _ _ _ _ _ _ _ _ Hso Hv Hle Ha Hx).
Qed.

Lemma sacar_conta_ok_R k agora v desc (c : Conta) :
  dinheiro v -> conta_ok k c ->
  conta_ok k (fst (Conta.sacar agora v desc c)).
Proof.
  intros Hv (Hk & (cs & es & Hs & Hes) & Hh & Hx). rewrite sacar_eq_R.
  destruct (Dec.le v Dec.zero_int) as [[|]|] eqn:Hle;
    try (split; [exact Hk|split; [exists cs, es; auto|split; [exact Hh|exact Hx]]]).
  destruct (Dec.lt (saldo c) v) as [[|]|] eqn:Hlt;
    try (split; [exact Hk|split; [exists cs, es; auto|split; [exact Hh|exact Hx]]]).
  assert (Hso : saldo_ok (saldo c)) by (exists cs, es; auto).
  destruct (Dec.sub (saldo c) v) as [r|] eqn:Ha.
  2:{ split; [exact Hk|split; [exact Hso|split; [exact Hh|exact Hx]]]. }
  cbn [fst]. split; [exact Hk|]. split; [|split].
  - destruct v as [n cv ev|n|n [|]]; try contradiction; try discriminate.
    destruct (DecFacts.positivo_fin _ _ _ Hle) as [-> Hcv]. rewrite Hs in Ha, Hlt.
    destruct (DecFacts.sub_nao_negativos cs cv es ev Hlt) as (c' & e' & Ha' & He).
    cbn in Hv. subst ev. rewrite Ha' in Ha. injection Ha as <-.
    exists c', e'. split; [reflexivity|lia].
  - cbn [registro transacoes _historico registra com_saldo saldo].
    rewrite saldo_do_historico_app. unfold registro in Hh. rewrite Hh.
    cbn [efeito tipo valor]. cbn. exact Ha.
  - cbn [registro transacoes _historico registra com_saldo saldo].
    exact (exato_saque _ _ _ _ _ _ _ _ Hso Hv Hle Hlt Ha Hx).
Qed.

Lemma transferencia_conta_ok_R k agora v desc o d (c : Conta) :
  conta_ok k c ->
  conta_ok k (registra (Build_Transacao agora "TRANSFERENCIA" v desc o d) c).
Proof.
  intros (Hk & Hs & Hh & Hx). split; [exact Hk|]. split; [exact Hs|]. split.
  - cbn [registro transacoes _historico registra saldo].
    rewrite saldo_do_historico_app. unfold registro in Hh. rewrite Hh.
    reflexivity.
  - cbn [registro transacoes _historico registra saldo].
    apply exato_transferencia. exact Hx.
Qed.

(** The money methods of [Banco], case by case. *)
Lemma Banco_depositar_eq_R relogio numero valor (b : Banco) :
  Banco.depositar relogio numero valor b =
  match dict_get numero (_contas_por_numero b) with
  | None => (b, Levanta (EntidadeNaoEncontrada "conta não encontrada"))
  | Some c =>
      match normaliza valor with
      | Levanta e => (b, Levanta e)
      | Retorna v =>
          let r := Conta.depositar (relogio 0%nat) v "Depósito" c in
          (com_contas (dict_set numero (fst r) (_contas_por_numero b)) b, snd r)
      end
  end.
Proof.
  unfold Banco.depositar. unfold bind at 1. rewrite buscar_conta_eq_R.
  destruct (dict_get numero _) as [c|] eqn:Hc; [|reflexivity].
  unfold bind. rewrite _to_money_eq_R.
  destruct (normaliza valor) as [v|e]; [|reflexivity].
  rewrite na_conta_eq_R, Hc. reflexivity.
Qed.

Lemma Banco_sacar_eq_R relogio numero valor (b : Banco) :
  Banco.sacar relogio numero valor b =
  match dict_get numero (_contas_por_numero b) with
  | None => (b, Levanta (EntidadeNaoEncontrada "conta não encontrada"))
  | Some c =>
      match normaliza valor with
      | Levanta e => (b, Levanta e)
      | Retorna v =>
          let r := Conta.sacar (relogio 0%nat) v "Saque" c in
          (com_contas (dict_set numero (fst r) (_contas_por_numero b)) b, snd r)
      end
  end.
Proof.
  unfold Banco.sacar. unfold bind at 1. rewrite buscar_conta_eq_R.
  destruct (dict_get numero _) as [c|] eqn:Hc; [|reflexivity].
  unfold bind. rewrite _to_money_eq_R.
  destruct (normaliza valor) as [v|e]; [|reflexivity].
  rewrite na_conta_eq_R, Hc. reflexivity.
Qed.

Lemma contas_com_contas_R D (b : Banco) : _contas_por_numero (com_contas D b) = D.
Proof. reflexivity. Qed.

Lemma com_contas_com_contas_R D1 D2 (b : Banco) :
  com_contas D2 (com_contas D1 b) = com_contas D2 b.
Proof. reflexivity. Qed.

Lemma numero_de_eq_R r (b : Banco) c :
  dict_get r (_contas_por_numero b) = Some c ->
  numero_de r b = (b, Retorna (numero c)).
Proof.
  intros H. unfold numero_de. rewrite na_conta_eq_R, H. desmonta. cbn [fst snd].
  rewrite (com_contas_mesma_R _ _ _ H). reflexivity.
Qed.

Lemma numero_sacar_R agora v desc (c : Conta) :
  numero (fst (Conta.sacar agora v desc c)) = numero c.
Proof.
  rewrite sacar_eq_R.
  destruct (Dec.le v Dec.zero_int) as [[|]|]; try reflexivity.
  destruct (Dec.lt (saldo c) v) as [[|]|]; try reflexivity.
  destruct (Dec.sub (saldo c) v); reflexivity.
Qed.

Lemma numero_depositar_R agora v desc (c : Conta) :
  numero (fst (Conta.depositar agora v desc c)) = numero c.
Proof.
  rewrite depositar_eq_R.
  destruct (Dec.le v Dec.zero_int) as [[|]|]; try reflexivity.
  destruct (Dec.add (saldo c) v); reflexivity.
Qed.

Lemma transferir_eq_R relogio o d valor (b : Banco) :
  Banco.transferir relogio o d valor b =
  let D := _contas_por_numero b in
  match dict_get o D with
  | None => (b, Levanta (EntidadeNaoEncontrada "conta não encontrada"))
  | Some co =>
  match dict_get d D with
  | None => (b, Levanta (EntidadeNaoEncontrada "conta não encontrada"))
  | Some cd =>
  match normaliza valor with
  | Levanta e => (b, Levanta e)
  | Retorna v =>
    if String.eqb (numero co) (numero cd)
    then (b, Levanta (ValorInvalido "contas iguais"))
    else
      let r1 := Conta.sacar (relogio 0%nat) v
                  ("Transferência para " ++ numero cd) co in
      match snd r1 with
      | Levanta e => (com_contas (dict_set o (fst r1) D) b, Levanta e)
      | Retorna _ =>
        let r2 := Conta.depositar (relogio 1%nat) v
                    ("Transferência de " ++ numero co) cd in
        let D1 := dict_set d (fst r2) (dict_set o (fst r1) D) in
        match snd r2 with
        | Levanta e => (com_contas D1 b, Levanta e)
        | Retorna _ =>
          let t := Build_Transacao (relogio 2%nat) "TRANSFERENCIA" v
                     "Transferência" (numero co) (numero cd) in
          (com_contas
             (dict_set d (registra t (fst r2))
                (dict_set o (registra t (fst r1)) D1)) b,
           Retorna tt)
        end
      end
  end end end.
Proof.
  cbv zeta. unfold Banco.transferir.
  unfold bind at 1. rewrite buscar_conta_eq_R.
  destruct (dict_get o _) as [co|] eqn:Ho; [|reflexivity].
  unfold bind at 1. rewrite buscar_conta_eq_R.
  destruct (dict_get d _) as [cd|] eqn:Hd; [|reflexivity].
  unfold bind at 1. rewrite _to_money_eq_R.
  destruct (normaliza valor) as [v|e]; [|reflexivity].
  unfold Transferencia.executar.
  cbn [Transferencia.origem Transferencia.destino Transferencia.valor].
  unfold bind at 1. rewrite (numero_de_eq_R _ _ _ Ho).
  unfold bind at 1. rewrite (numero_de_eq_R _ _ _ Hd).
  destruct (String.eqb_spec (numero co) (numero cd)) as [Heq|Hne]; [reflexivity|].
  assert (Hod : o <> d).
  { intros ->. rewrite Ho in Hd. injection Hd as ->. contradiction. }
  unfold bind at 1. rewrite (numero_de_eq_R _ _ _ Hd).
  unfold bind at 1. rewrite na_conta_eq_R, Ho.
  destruct (snd (Conta.sacar _ _ _ co)) as [[]|e]; [|reflexivity].
  set (co1 := fst (Conta.sacar _ _ _ co)).
  assert (Ho1 : dict_get o (dict_set o co1 (_contas_por_numero b)) = Some co1)
    by apply dict_get_set_eq.
  unfold bind at 1.
  rewrite (numero_de_eq_R o (com_contas _ b) co1 Ho1).
  unfold bind at 1. rewrite na_conta_eq_R, contas_com_contas_R.
  rewrite (dict_get_set_ne d o) by congruence. rewrite Hd.
  rewrite com_contas_com_contas_R.
  replace (numero co1) with (numero co) by (symmetry; apply numero_sacar_R).
  destruct (snd (Conta.depositar _ _ _ cd)) as [[]|e]; [|reflexivity].
  set (cd1 := fst (Conta.depositar _ _ _ cd)).
  set (D1 := dict_set d cd1 (dict_set o co1 (_contas_por_numero b))).
  assert (Ho2 : dict_get o D1 = Some co1).
  { unfold D1. rewrite (dict_get_set_ne o d) by congruence. exact Ho1. }
  assert (Hd2 : dict_get d D1 = Some cd1) by apply dict_get_set_eq.
  unfold bind at 1. rewrite (numero_de_eq_R o (com_contas D1 b) co1 Ho2).
  unfold bind at 1. rewrite (numero_de_eq_R d (com_contas D1 b) cd1 Hd2).
  replace (numero co1) with (numero co) by (symmetry; apply numero_sacar_R).
  replace (numero cd1) with (numero cd) by (symmetry; apply numero_depositar_R).
  unfold bind at 1. rewrite na_conta_eq_R, contas_com_contas_R, Ho2.
  rewrite com_contas_com_contas_R.
  unfold nas_transacoes, RegistroTransacoes.registrar, modifica. cbn [fst snd].
  rewrite na_conta_eq_R, contas_com_contas_R.
  rewrite (dict_get_set_ne d o) by congruence. rewrite Hd2.
  rewrite com_contas_com_contas_R. reflexivity.
Qed.

(** *** The invariant of the bank *)

Lemma criar_cliente_eq_R nome cpf (b : Banco) :
  Banco.criar_cliente nome cpf b =
  match dict_get cpf (_clientes_por_cpf b) with
  | Some c => (b, Retorna c)
  | None =>
      let c := Build_Cliente (_seq_cliente b) nome cpf in
      ({| _clientes_por_cpf := dict_set cpf c (_clientes_por_cpf b);
          _contas_por_numero := _contas_por_numero b;
          _seq_cliente := _seq_cliente b + 1;
          _seq_conta := _seq_conta b |}, Retorna c)
  end.
Proof.
  unfold Banco.criar_cliente. desmonta.
  destruct (dict_get cpf _); reflexivity.
Qed.

Lemma abrir_conta_eq_R cpf (b : Banco) :
  Banco.abrir_conta cpf b =
  match dict_get cpf (_clientes_por_cpf b) with
  | None => (b, Levanta (EntidadeNaoEncontrada "cliente não encontrado"))
  | Some cliente =>
      let numero := str_int (_seq_conta b) in
      ({| _clientes_por_cpf := _clientes_por_cpf b;
          _contas_por_numero :=
            dict_set numero (Conta_nova numero cliente) (_contas_por_numero b);
          _seq_cliente := _seq_cliente b;
          _seq_conta := _seq_conta b + 1 |}, Retorna numero)
  end.
Proof.
  unfold Banco.abrir_conta. desmonta.
  destruct (dict_get cpf _); reflexivity.
Qed.

Lemma extrato_eq_R nu (b : Banco) :
  Banco.extrato nu b =
  match dict_get nu (_contas_por_numero b) with
  | Some c => (b, Retorna (_historico (transacoes c)))
  | None => (b, Levanta (EntidadeNaoEncontrada "conta não encontrada"))
  end.
Proof.
  unfold Banco.extrato. unfold bind at 1. rewrite buscar_conta_eq_R.
  destruct (dict_get nu _) as [c|] eqn:Hc; [|reflexivity].
  rewrite na_conta_eq_R, Hc.
  unfold nas_transacoes, RegistroTransacoes.listar. desmonta. cbn [fst snd].
  replace {| numero := numero c; cliente := cliente c; saldo := saldo c;
             transacoes := transacoes c |} with c by (destruct c; reflexivity).
  rewrite (com_contas_mesma_R _ _ _ Hc). reflexivity.
Qed.

Lemma inv_novo_R : inv Banco_novo.
Proof. split; constructor. Qed.

Lemma conta_nova_ok_R numero cliente : conta_ok numero (Conta_nova numero cliente).
Proof.
  split; [reflexivity|]. split; [|split; [reflexivity|]].
  - exists 0%N, (-2). split; [reflexivity|lia].
  - split; [cbn; lia|]. intros _. reflexivity.
Qed.

Lemma inv_conta_R (b : Banco) k c :
  inv b -> dict_get k (_contas_por_numero b) = Some c -> conta_ok k c.
Proof.
  intros [H _] Hg.
  exact (proj1 (Forall_dict_get _ _ _ _ H Hg)).
Qed.

Lemma inv_numerada_R (b : Banco) k c :
  inv b -> dict_get k (_contas_por_numero b) = Some c ->
  numerada (_seq_conta b) k.
Proof.
  intros [H _] Hg.
  exact (proj2 (Forall_dict_get _ _ _ _ H Hg)).
Qed.

Lemma inv_com_contas_R D (b : Banco) :
  inv b ->
  Forall (fun kc => conta_ok (fst kc) (snd kc)
                    /\ numerada (_seq_conta b) (fst kc)) D ->
  inv (com_contas D b).
Proof. intros [_ Hc] HD. split; assumption. Qed.

Lemma inv_na_conta_R (b : Banco) k c c' :
  inv b -> dict_get k (_contas_por_numero b) = Some c -> conta_ok k c' ->
  inv (com_contas (dict_set k c' (_contas_por_numero b)) b).
Proof.
  intros Hb Hg Hc. apply inv_com_contas_R; [exact Hb|].
  apply Forall_dict_set; [exact (proj1 Hb)|].
  split; [exact Hc|exact (inv_numerada_R _ _ _ Hb Hg)].
Qed.

Lemma transferir_inv_R relogio o d valor (b : Banco) :
  inv b -> inv (fst (Banco.transferir relogio o d valor b)).
Proof.
  intros Hb. rewrite transferir_eq_R. cbv zeta.
  destruct (dict_get o _) as [co|] eqn:Ho; [|exact Hb].
  destruct (dict_get d _) as [cd|] eqn:Hd; [|exact Hb].
  destruct (normaliza valor) as [v|e] eqn:Hv; [|exact Hb].
  pose proof (normaliza_dinheiro_R _ _ Hv) as Hdin.
  destruct (String.eqb (numero co) (numero cd)); [exact Hb|].
  pose proof (inv_conta_R _ _ _ Hb Ho) as Hco.
  pose proof (inv_conta_R _ _ _ Hb Hd) as Hcd.
  pose proof (inv_numerada_R _ _ _ Hb Ho) as Hno.
  pose proof (inv_numerada_R _ _ _ Hb Hd) as Hnd.
  pose proof (sacar_conta_ok_R o (relogio 0%nat) v
                ("Transferência para " ++ numero cd)%string co Hdin Hco) as H1.
  pose proof (depositar_conta_ok_R d (relogio 1%nat) v
                ("Transferência de " ++ numero co)%string cd Hdin Hcd) as H2.
  destruct (snd (Conta.sacar _ _ _ co));
    [|eapply inv_na_conta_R; eassumption].
  assert (Hf : Forall (fun kc => conta_ok (fst kc) (snd kc)
                                 /\ numerada (_seq_conta b) (fst kc))
                 (dict_set d (fst (Conta.depositar (relogio 1%nat) v
                                     ("Transferência de " ++ numero co)%string cd))
                    (dict_set o (fst (Conta.sacar (relogio 0%nat) v
                                     ("Transferência para " ++ numero cd)%string co))
                       (_contas_por_numero b)))).
  { apply Forall_dict_set; [|split; [exact H2|exact Hnd]].
    apply Forall_dict_set; [exact (proj1 Hb)|split; [exact H1|exact Hno]]. }
  destruct (snd (Conta.depositar _ _ _ cd)); cbn [fst];
    apply inv_com_contas_R; try exact Hb; [|exact Hf].
  apply Forall_dict_set;
    [|split; [apply transferencia_conta_ok_R; exact H2|exact Hnd]].
  apply Forall_dict_set;
    [exact Hf|split; [apply transferencia_conta_ok_R; exact H1|exact Hno]].
Qed.

Lemma executa_inv_R (p : Passo) (b : Banco) : inv b -> inv (fst (executa p b)).
Proof.
  intros Hb. destruct p as [relogio ch]. unfold executa, responde.
  destruct ch as [nm cp|cp|nu|nu vl|nu vl|og ds vl|nu|]; unfold bind.
  - rewrite criar_cliente_eq_R.
    destruct (dict_get cp _) eqn:E; [exact Hb|]. cbn [fst ret].
    split; [exact (proj1 Hb)|]. cbn.
    apply Forall_dict_set; [exact (proj2 Hb)|reflexivity].
  - rewrite abrir_conta_eq_R.
    destruct (dict_get cp _) eqn:E; [|exact Hb]. cbn [fst ret].
    split; [|exact (proj2 Hb)]. cbn [_contas_por_numero _seq_conta].
    apply Forall_dict_set.
    + eapply Forall_impl; [|exact (proj1 Hb)].
      intros kc [Hc (z & Hz & Hlt)]. split; [exact Hc|].
      exists z. split; [exact Hz|lia].
    + split; [apply conta_nova_ok_R|].
      exists (_seq_conta b). split; [reflexivity|lia].
  - rewrite buscar_conta_eq_R. destruct (dict_get nu _); exact Hb.
  - rewrite Banco_depositar_eq_R.
    destruct (dict_get nu _) as [c|] eqn:Hc; [|exact Hb].
    destruct (normaliza vl) as [v|e] eqn:Hv; [|exact Hb]. cbv zeta.
    assert (inv (com_contas (dict_set nu
                   (fst (Conta.depositar (relogio 0%nat) v "Depósito" c))
                   (_contas_por_numero b)) b)).
    { eapply inv_na_conta_R; [exact Hb|exact Hc|].
      apply depositar_conta_ok_R;
        [exact (normaliza_dinheiro_R _ _ Hv)|exact (inv_conta_R _ _ _ Hb Hc)]. }
    destruct (snd (Conta.depositar _ _ _ c)); assumption.
  - rewrite Banco_sacar_eq_R.
    destruct (dict_get nu _) as [c|] eqn:Hc; [|exact Hb].
    destruct (normaliza vl) as [v|e] eqn:Hv; [|exact Hb]. cbv zeta.
    assert (inv (com_contas (dict_set nu
                   (fst (Conta.sacar (relogio 0%nat) v "Saque" c))
                   (_contas_por_numero b)) b)).
    { eapply inv_na_conta_R; [exact Hb|exact Hc|].
      apply sacar_conta_ok_R;
        [exact (normaliza_dinheiro_R _ _ Hv)|exact (inv_conta_R _ _ _ Hb Hc)]. }
    destruct (snd (Conta.sacar _ _ _ c)); assumption.
  - pose proof (transferir_inv_R relogio og ds vl b Hb) as H.
    destruct (Banco.transferir _ _ _ _ b) as [b' [[]|e]]; exact H.
  - rewrite extrato_eq_R. destruct (dict_get nu _); exact Hb.
  - exact Hb.
Qed.

Lemma corre_inv_R (ps : list Passo) : forall b : Banco, inv b -> inv (fst (corre ps b)).
Proof.
  induction ps as [|p ps IH]; intros b Hb; [exact Hb|].
  cbn [corre]. pose proof (executa_inv_R p b Hb) as H1.
  destruct (executa p b) as [b1 r]. specialize (IH b1 H1).
  destruct (corre ps b1) as [b2 rs]. exact IH.
Qed.

(** Every bank in use satisfies the invariant. *)
Lemma alcancavel_inv_R (b : Banco) : alcancavel b -> inv b.
Proof. intros [ps ->]. apply corre_inv_R, inv_novo_R. Qed.

End RefatoradoFacts.

(** ** The balance and the history *)

Lemma saldo_ok_nao_negativo (d : Dec.Decimal) : saldo_ok d -> nao_negativo d.
Proof.
  intros (c & e & -> & _). unfold nao_negativo, Dec.lt, Dec.cmp, Dec.zero_int.
  cbn [Dec.is_nan orb]. unfold Dec.alinhado.
  change (Dec.com_sinal false c) with (Z.of_N c).
  change (Dec.com_sinal false 0) with 0. rewrite Z.mul_0_l.
  set (e0 := Z.min e 0).
  assert (0 < 10 ^ (e - e0)) by (apply DecFacts.dez_pos; lia).
  destruct (Z.compare_spec (Z.of_N c * 10 ^ (e - e0)) 0);
    try reflexivity. nia.
Qed.

(** C1 (as the code has it): after every sequence of calls of the bank's
    methods, in both variants, the balance of every account is what its
    history accounts for in the arithmetic of the program, a DEPOSITO entry
    added, a SAQUE entry subtracted and a TRANSFERENCIA entry skipped; the
    balance is not negative; and as long as the deposits in the history
    total less than [10^28] cents, the balance is to the cent the deposits
    less the withdrawals. *)
Theorem saldo_segue_historico (ps : list Passo) :
  (forall n c,
     dict_get n (Original._contas_por_numero
                   (fst (Original.corre ps Original.Banco_novo))) = Some c ->
     saldo_do_historico (Original.registro c) = Dec.Valor (Original.saldo c)
     /\ nao_negativo (Original.saldo c)
     /\ (total "DEPOSITO" (Original.registro c) < 10 ^ 28 ->
         centavos (Original.saldo c)
         = total "DEPOSITO" (Original.registro c)
           - total "SAQUE" (Original.registro c)))
  /\
  (forall n c,
     dict_get n (Refatorado._contas_por_numero
                   (fst (Refatorado.corre ps Refatorado.Banco_novo))) = Some c ->
     saldo_do_historico (Refatorado.registro c) = Dec.Valor (Refatorado.saldo c)
     /\ nao_negativo (Refatorado.saldo c)
     /\ (total "DEPOSITO" (Refatorado.registro c) < 10 ^ 28 ->
         centavos (Refatorado.saldo c)
         = total "DEPOSITO" (Refatorado.registro c)
           - total "SAQUE" (Refatorado.registro c))).
Proof.
  split; intros n c Hc.
  - pose proof (OriginalFacts.corre_inv ps _ OriginalFacts.inv_novo) as Hi.
    destruct (OriginalFacts.inv_conta _ _ _ Hi Hc) as (_ & Hs & Hh & _ & Hx).
    split; [exact Hh|]. split; [exact (saldo_ok_nao_negativo _ Hs)|exact Hx].
  - pose proof (RefatoradoFacts.corre_inv_R ps _ RefatoradoFacts.inv_novo_R) as Hi.
    destruct (RefatoradoFacts.inv_conta_R _ _ _ Hi Hc) as (_ & Hs & Hh & _ & Hx).
    split; [exact Hh|]. split; [exact (saldo_ok_nao_negativo _ Hs)|exact Hx].
Qed.

(** After [criar_dados_mock()] the account 1003 holds 2200.00: 2500.00
    deposited, 300.00 withdrawn by the transfer. *)
Lemma saldo_segue_historico_mock :
  exists co cr,
    dict_get "1003" (Original._contas_por_numero
      (fst (Original.corre criar_dados_mock Original.Banco_novo))) = Some co
    /\ dict_get "1003" (Refatorado._contas_por_numero
      (fst (Refatorado.corre criar_dados_mock Refatorado.Banco_novo))) = Some cr
    /\ (saldo_do_historico (Original.registro co) = Dec.Valor (Original.saldo co)
        /\ nao_negativo (Original.saldo co)
        /\ centavos (Original.saldo co) = 250000 - 30000)
    /\ (saldo_do_historico (Refatorado.registro cr) = Dec.Valor (Refatorado.saldo cr)
        /\ nao_negativo (Refatorado.saldo cr)
        /\ centavos (Refatorado.saldo cr) = 250000 - 30000).
Proof.
  eexists. eexists.
  split; [vm_compute; reflexivity|].
  split; [vm_compute; reflexivity|].
  split.
  - edestruct (proj1 (saldo_segue_historico criar_dados_mock) "1003"%string)
      as (Hh & Hn & Hx); [vm_compute; reflexivity|].
    split; [exact Hh|]. split; [exact Hn|].
    apply Hx. vm_compute. reflexivity.
  - edestruct (proj2 (saldo_segue_historico criar_dados_mock) "1003"%string)
      as (Hh & Hn & Hx); [vm_compute; reflexivity|].
    split; [exact Hh|]. split; [exact Hn|].
    apply Hx. vm_compute. reflexivity.
Defined.

(** The sum is not the balance.  With the TRANSFERENCIA entries counted,
    every transfer counts twice: after [criar_dados_mock()] the account 1003
    holds 2200.00, and its log (DEPOSITO 2500.00, SAQUE 300.00,
    TRANSFERENCIA 300.00 from 1003) sums to 1900.00.  With them left out,
    the sum is exact and the balance has 28 digits: after deposits of
    99999999999999999999999999.99 and of 0.02 the account 1002 holds
    100000000000000000000000000.0, one cent less than the sum. *)
Lemma saldo_nao_e_soma :
  ~ saldo_e_soma soma_assinada /\ ~ saldo_e_soma soma_sem_resumo.
Proof.
  split; intros H.
  - edestruct (H criar_dados_mock "1003"%string) as [Hs _];
      [vm_compute; reflexivity|].
    vm_compute in Hs. discriminate Hs.
  - edestruct (H (contas_no_limite
                  ++ [(tique, Ch_depositar "1002" (BOutro "0.02"))])%list
                 "1002"%string) as [Hs _];
      [vm_compute; reflexivity|].
    vm_compute in Hs. discriminate Hs.
Qed.

(** ** Transfers *)

Module TransferenciaOriginal.
Import Original OriginalFacts.

Lemma sacar_sucesso agora v desc (c : Conta) :
  snd (Conta.sacar agora v desc c) = Retorna tt ->
  Dec.le v Dec.zero_int = Dec.Valor false
  /\ Dec.lt (saldo c) v = Dec.Valor false
  /\ exists resto,
       Dec.sub (saldo c) v = Dec.Valor resto
       /\ fst (Conta.sacar agora v desc c) =
          historico_append (Build_Transacao agora "SAQUE" v desc (numero c) "")
            (com_saldo resto c).
Proof.
  rewrite sacar_eq.
  destruct (Dec.le v Dec.zero_int) as [[|]|]; try discriminate.
  destruct (Dec.lt (saldo c) v) as [[|]|]; try discriminate.
  destruct (Dec.sub (saldo c) v) as [resto|]; try discriminate.
  intros _. split; [reflexivity|]. split; [reflexivity|].
  exists resto. split; reflexivity.
Qed.

(** Once the amount has passed the tests of [sacar], [depositar] goes
    through on an account of the bank. *)
Lemma depositar_sucesso agora v desc (c : Conta) :
  Dec.le v Dec.zero_int = Dec.Valor false -> dinheiro v -> saldo_ok (saldo c) ->
  exists soma,
    Dec.add (saldo c) v = Dec.Valor soma
    /\ Conta.depositar agora v desc c =
       (historico_append (Build_Transacao agora "DEPOSITO" v desc "" (numero c))
          (com_saldo soma c), Retorna tt).
Proof.
  intros Hle Hv (cs & es & Hs & _). rewrite depositar_eq, Hle.
  destruct v as [n cv ev|n|n [|]]; try contradiction; try discriminate.
  rewrite Hs.
  destruct (DecFacts.positivo_fin _ _ _ Hle) as [-> _].
  destruct (DecFacts.add_nao_negativos cs cv es ev) as (c' & e' & Ha & _).
  rewrite Ha. exists (Dec.Fin false c' e'). split; reflexivity.
Qed.

(** A transfer on a bank in use raises and leaves the bank as it was, or
    returns and has gone through. *)
Lemma transferir_atomica relogio o d valor (b : Banco) :
  inv b ->
  match Banco.transferir relogio o d valor b with
  | (b', Levanta _) => b' = b
  | (b', Retorna _) =>
      exists v, normaliza valor = Retorna v
                /\ Efetivada.original relogio o d v b b'
  end.
Proof.
  intros Hb. rewrite transferir_eq. cbv zeta.
  destruct (String.eqb_spec o d) as [->|Hod]; [reflexivity|].
  destruct (normaliza valor) as [v|e] eqn:Hv; [|reflexivity].
  pose proof (normaliza_dinheiro _ _ Hv) as Hdin.
  destruct (dict_get o _) as [co|] eqn:Ho; [|reflexivity].
  destruct (dict_get d _) as [cd|] eqn:Hd; [|reflexivity].
  destruct (snd (Conta.sacar _ _ _ co)) as [[]|e] eqn:H1.
  2:{ rewrite (sacar_falha _ _ _ _ _ H1). apply (com_contas_mesma _ _ _ Ho). }
  destruct (sacar_sucesso _ _ _ _ H1) as (Hle & Hlt & resto & Hsub & Hco1).
  destruct (inv_conta _ _ _ Hb Hd) as (_ & Hscd & _).
  destruct (depositar_sucesso (relogio 1%nat) v ("transferência de " ++ o)%string
              cd Hle Hdin Hscd) as (soma & Hadd & Hdep).
  rewrite Hdep. cbn [fst snd]. rewrite Hco1.
  exists v. split; [reflexivity|].
  exists co, cd, resto, soma.
  repeat (split; [assumption|]). cbn [_contas_por_numero com_contas].
  split; [|split; [|split; [|split; [|repeat split]]]].
  - rewrite (dict_get_set_ne o d) by congruence. rewrite dict_get_set_eq.
    unfold historico_append, com_saldo. cbn [numero cliente saldo historico].
    rewrite <- app_assoc. reflexivity.
  - rewrite dict_get_set_eq.
    unfold historico_append, com_saldo. cbn [numero cliente saldo historico].
    rewrite <- app_assoc. reflexivity.
  - intros k Hko Hkd.
    repeat rewrite dict_get_set_ne by congruence. reflexivity.
  - erewrite dict_keys_set.
    2:{ rewrite (dict_get_set_ne d o) by congruence. apply dict_get_set_eq. }
    erewrite dict_keys_set.
    2:{ rewrite (dict_get_set_ne o d) by congruence. apply dict_get_set_eq. }
    erewrite dict_keys_set.
    2:{ rewrite (dict_get_set_ne d o) by congruence. exact Hd. }
    erewrite dict_keys_set by exact Ho. reflexivity.
Qed.

End TransferenciaOriginal.

Module TransferenciaRefatorado.
Import Refatorado RefatoradoFacts.

Lemma sacar_sucesso_R agora v desc (c : Conta) :
  snd (Conta.sacar agora v desc c) = Retorna tt ->
  Dec.le v Dec.zero_int = Dec.Valor false
  /\ Dec.lt (saldo c) v = Dec.Valor false
  /\ exists resto,
       Dec.sub (saldo c) v = Dec.Valor resto
       /\ fst (Conta.sacar agora v desc c) =
          registra (Build_Transacao agora "SAQUE" v desc (numero c) "")
            (com_saldo resto c).
Proof.
  rewrite sacar_eq_R.
  destruct (Dec.le v Dec.zero_int) as [[|]|]; try discriminate.
  destruct (Dec.lt (saldo c) v) as [[|]|]; try discriminate.
  destruct (Dec.sub (saldo c) v) as [resto|]; try discriminate.
  intros _. split; [reflexivity|]. split; [reflexivity|].
  exists resto. split; reflexivity.
Qed.

Lemma depositar_sucesso_R agora v desc (c : Conta) :
  Dec.le v Dec.zero_int = Dec.Valor false -> dinheiro v -> saldo_ok (saldo c) ->
  exists soma,
    Dec.add (saldo c) v = Dec.Valor soma
    /\ Conta.depositar agora v desc c =
       (registra (Build_Transacao agora "DEPOSITO" v desc "" (numero c))
          (com_saldo soma c), Retorna tt).
Proof.
  intros Hle Hv (cs & es & Hs & _). rewrite depositar_eq_R, Hle.
  destruct v as [n cv ev|n|n [|]]; try contradiction; try discriminate.
  rewrite Hs.
  destruct (DecFacts.positivo_fin _ _ _ Hle) as [-> _].
  destruct (DecFacts.add_nao_negativos cs cv es ev) as (c' & e' & Ha & _).
  rewrite Ha. exists (Dec.Fin false c' e'). split; reflexivity.
Qed.

Lemma transferir_atomica_R relogio o d valor (b : Banco) :
  inv b ->
  match Banco.transferir relogio o d valor b with
  | (b', Levanta _) => b' = b
  | (b', Retorna _) =>
      exists v, normaliza valor = Retorna v
                /\ Efetivada.refatorado relogio o d v b b'
  end.
Proof.
  intros Hb. rewrite transferir_eq_R. cbv zeta.
  destruct (dict_get o _) as [co|] eqn:Ho; [|reflexivity].
  destruct (dict_get d _) as [cd|] eqn:Hd; [|reflexivity].
  destruct (normaliza valor) as [v|e] eqn:Hv; [|reflexivity].
  pose proof (normaliza_dinheiro_R _ _ Hv) as Hdin.
  destruct (inv_conta_R _ _ _ Hb Ho) as (Hno & _ & _).
  destruct (inv_conta_R _ _ _ Hb Hd) as (Hnd & Hscd & _).
  rewrite Hno, Hnd.
  destruct (String.eqb_spec o d) as [->|Hod]; [reflexivity|].
  destruct (snd (Conta.sacar _ _ _ co)) as [[]|e] eqn:H1.
  2:{ rewrite (sacar_falha_R _ _ _ _ _ H1). apply (com_contas_mesma_R _ _ _ Ho). }
  destruct (sacar_sucesso_R _ _ _ _ H1) as (Hle & Hlt & resto & Hsub & Hco1).
  destruct (depositar_sucesso_R (relogio 1%nat) v ("Transferência de " ++ o)%string
              cd Hle Hdin Hscd) as (soma & Hadd & Hdep).
  rewrite Hdep. cbn [fst snd]. rewrite Hco1.
  exists v. split; [reflexivity|].
  exists co, cd, resto, soma.
  repeat (split; [assumption|]). cbn [_contas_por_numero com_contas].
  split; [|split; [|split; [|split; [|repeat split]]]].
  - rewrite (dict_get_set_ne o d) by congruence. rewrite dict_get_set_eq.
    unfold registra, com_saldo, registro.
    cbn [numero cliente saldo transacoes _historico].
    rewrite <- app_assoc. reflexivity.
  - rewrite dict_get_set_eq.
    unfold registra, com_saldo, registro.
    cbn [numero cliente saldo transacoes _historico].
    rewrite <- app_assoc. reflexivity.
  - intros k Hko Hkd.
    repeat rewrite dict_get_set_ne by congruence. reflexivity.
  - erewrite dict_keys_set.
    2:{ rewrite (dict_get_set_ne d o) by congruence. apply dict_get_set_eq. }
    erewrite dict_keys_set.
    2:{ rewrite (dict_get_set_ne o d) by congruence. apply dict_get_set_eq. }
    erewrite dict_keys_set.
    2:{ rewrite (dict_get_set_ne d o) by congruence. exact Hd. }
    erewrite dict_keys_set by exact Ho. reflexivity.
Qed.

End TransferenciaRefatorado.

(** C2: on a bank in use, in both variants, a transfer that raises, for
    whatever reason, leaves every account, and the whole bank, as it was;
    a transfer that returns has gone through: both balances updated and the
    three records appended. *)
Theorem transferencia_tudo_ou_nada (ps : list Passo) (relogio : nat -> datetime)
    (o d : string) (valor : Bruto) :
  (let b := fst (Original.corre ps Original.Banco_novo) in
   match Original.Banco.transferir relogio o d valor b with
   | (b', Levanta _) => b' = b
   | (b', Retorna _) =>
       exists v, Original.normaliza valor = Retorna v
                 /\ Efetivada.original relogio o d v b b'
   end)
  /\
  (let b := fst (Refatorado.corre ps Refatorado.Banco_novo) in
   match Refatorado.Banco.transferir relogio o d valor b with
   | (b', Levanta _) => b' = b
   | (b', Retorna _) =>
       exists v, Refatorado.normaliza valor = Retorna v
                 /\ Efetivada.refatorado relogio o d v b b'
   end).
Proof.
  split; cbv zeta.
  - apply TransferenciaOriginal.transferir_atomica.
    apply OriginalFacts.corre_inv, OriginalFacts.inv_novo.
  - apply TransferenciaRefatorado.transferir_atomica_R.
    apply RefatoradoFacts.corre_inv_R, RefatoradoFacts.inv_novo_R.
Qed.

Module SucessoOriginal.
Import Original OriginalFacts TransferenciaOriginal.

Lemma sacar_coberto agora v desc (c : Conta) :
  saldo_ok (saldo c) -> dinheiro v ->
  Dec.le v Dec.zero_int = Dec.Valor false ->
  Dec.lt (saldo c) v = Dec.Valor false ->
  snd (Conta.sacar agora v desc c) = Retorna tt.
Proof.
  intros (cs & es & Hs & _) Hv Hle Hlt. rewrite sacar_eq, Hle, Hlt.
  destruct v as [n cv ev|n|n [|]]; try contradiction; try discriminate.
  destruct (DecFacts.positivo_fin _ _ _ Hle) as [-> _].
  rewrite Hs in *.
  destruct (DecFacts.sub_nao_negativos cs cv es ev Hlt) as (c' & e' & Ha & _).
  rewrite Ha. reflexivity.
Qed.

Lemma transferir_sucesso relogio o d valor v co cd (b : Banco) :
  inv b -> o <> d ->
  dict_get o (_contas_por_numero b) = Some co ->
  dict_get d (_contas_por_numero b) = Some cd ->
  normaliza valor = Retorna v ->
  Dec.le v Dec.zero_int = Dec.Valor false ->
  Dec.lt (saldo co) v = Dec.Valor false ->
  snd (Banco.transferir relogio o d valor b) = Retorna tt.
Proof.
  intros Hb Hod Ho Hd Hv Hle Hlt. rewrite transferir_eq. cbv zeta.
  destruct (String.eqb_spec o d); [contradiction|].
  rewrite Hv, Ho, Hd.
  pose proof (normaliza_dinheiro _ _ Hv) as Hdin.
  destruct (inv_conta _ _ _ Hb Ho) as (_ & Hsco & _).
  destruct (inv_conta _ _ _ Hb Hd) as (_ & Hscd & _).
  rewrite (sacar_coberto _ _ _ _ Hsco Hdin Hle Hlt).
  destruct (depositar_sucesso (relogio 1%nat) v ("transferência de " ++ o)%string
              cd Hle Hdin Hscd) as (soma & _ & Hdep).
  rewrite Hdep. reflexivity.
Qed.

Lemma transferir_efetivada relogio o d valor v co cd (b : Banco) :
  inv b -> o <> d ->
  dict_get o (_contas_por_numero b) = Some co ->
  dict_get d (_contas_por_numero b) = Some cd ->
  normaliza valor = Retorna v ->
  Dec.le v Dec.zero_int = Dec.Valor false ->
  Dec.lt (saldo co) v = Dec.Valor false ->
  exists b',
    Banco.transferir relogio o d valor b = (b', Retorna tt)
    /\ Efetivada.original relogio o d v b b'
    /\ (centavos (saldo co) < 10 ^ 28 ->
        centavos (saldo cd) + centavos v < 10 ^ 28 ->
        exists co' cd',
          dict_get o (_contas_por_numero b') = Some co'
          /\ dict_get d (_contas_por_numero b') = Some cd'
          /\ centavos (saldo co') = centavos (saldo co) - centavos v
          /\ centavos (saldo cd') = centavos (saldo cd) + centavos v).
Proof.
  intros Hb Hod Ho Hd Hv Hle Hlt.
  pose proof (transferir_sucesso relogio _ _ _ _ _ _ _ Hb Hod Ho Hd Hv Hle Hlt) as Hs.
  pose proof (transferir_atomica relogio o d valor b Hb) as Ha.
  destruct (Banco.transferir relogio o d valor b) as [b' r].
  cbn [snd] in Hs. subst r.
  destruct Ha as (v' & Hv' & He). rewrite Hv in Hv'. injection Hv' as <-.
  exists b'. split; [reflexivity|]. split; [exact He|].
  intros Hlo Hld.
  destruct He as (co0 & cd0 & resto & soma & _ & Ho0 & Hd0 & _ & _ & Hsub & Hadd
                  & Hgo & Hgd & _).
  cbv zeta in Hgo.
  rewrite Ho in Ho0. injection Ho0 as <-. rewrite Hd in Hd0. injection Hd0 as <-.
  pose proof (normaliza_dinheiro _ _ Hv) as Hdin.
  destruct (inv_conta _ _ _ Hb Ho) as (_ & Hsco & _).
  destruct (inv_conta _ _ _ Hb Hd) as (_ & Hscd & _).
  eexists _, _. split; [exact Hgo|]. split; [exact Hgd|]. cbn [saldo]. split.
  - exact (sub_exato _ _ _ Hsco Hdin Hle Hlt Hsub Hlo).
  - exact (add_exato _ _ _ Hscd Hdin Hle Hadd Hld).
Qed.

End SucessoOriginal.

Module SucessoRefatorado.
Import Refatorado RefatoradoFacts TransferenciaRefatorado.

Lemma sacar_coberto_R agora v desc (c : Conta) :
  saldo_ok (saldo c) -> dinheiro v ->
  Dec.le v Dec.zero_int = Dec.Valor false ->
  Dec.lt (saldo c) v = Dec.Valor false ->
  snd (Conta.sacar agora v desc c) = Retorna tt.
Proof.
  intros (cs & es & Hs & _) Hv Hle Hlt. rewrite sacar_eq_R, Hle, Hlt.
  destruct v as [n cv ev|n|n [|]]; try contradiction; try discriminate.
  destruct (DecFacts.positivo_fin _ _ _ Hle) as [-> _].
  rewrite Hs in *.
  destruct (DecFacts.sub_nao_negativos cs cv es ev Hlt) as (c' & e' & Ha & _).
  rewrite Ha. reflexivity.
Qed.

Lemma transferir_sucesso_R relogio o d valor v co cd (b : Banco) :
  inv b -> o <> d ->
  dict_get o (_contas_por_numero b) = Some co ->
  dict_get d (_contas_por_numero b) = Some cd ->
  normaliza valor = Retorna v ->
  Dec.le v Dec.zero_int = Dec.Valor false ->
  Dec.lt (saldo co) v = Dec.Valor false ->
  snd (Banco.transferir relogio o d valor b) = Retorna tt.
Proof.
  intros Hb Hod Ho Hd Hv Hle Hlt. rewrite transferir_eq_R. cbv zeta.
  rewrite Hv, Ho, Hd.
  pose proof (normaliza_dinheiro_R _ _ Hv) as Hdin.
  destruct (inv_conta_R _ _ _ Hb Ho) as (Hno & Hsco & _).
  destruct (inv_conta_R _ _ _ Hb Hd) as (Hnd & Hscd & _).
  rewrite Hno, Hnd.
  destruct (String.eqb_spec o d); [contradiction|].
  rewrite (sacar_coberto_R _ _ _ _ Hsco Hdin Hle Hlt).
  destruct (depositar_sucesso_R (relogio 1%nat) v ("Transferência de " ++ o)%string
              cd Hle Hdin Hscd) as (soma & _ & Hdep).
  rewrite Hdep. reflexivity.
Qed.

Lemma transferir_efetivada_R relogio o d valor v co cd (b : Banco) :
  inv b -> o <> d ->
  dict_get o (_contas_por_numero b) = Some co ->
  dict_get d (_contas_por_numero b) = Some cd ->
  normaliza valor = Retorna v ->
  Dec.le v Dec.zero_int = Dec.Valor false ->
  Dec.lt (saldo co) v = Dec.Valor false ->
  exists b',
    Banco.transferir relogio o d valor b = (b', Retorna tt)
    /\ Efetivada.refatorado relogio o d v b b'
    /\ (centavos (saldo co) < 10 ^ 28 ->
        centavos (saldo cd) + centavos v < 10 ^ 28 ->
        exists co' cd',
          dict_get o (_contas_por_numero b') = Some co'
          /\ dict_get d (_contas_por_numero b') = Some cd'
          /\ centavos (saldo co') = centavos (saldo co) - centavos v
          /\ centavos (saldo cd') = centavos (saldo cd) + centavos v).
Proof.
  intros Hb Hod Ho Hd Hv Hle Hlt.
  pose proof (transferir_sucesso_R relogio _ _ _ _ _ _ _ Hb Hod Ho Hd Hv Hle Hlt) as Hs.
  pose proof (transferir_atomica_R relogio o d valor b Hb) as Ha.
  destruct (Banco.transferir relogio o d valor b) as [b' r].
  cbn [snd] in Hs. subst r.
  destruct Ha as (v' & Hv' & He). rewrite Hv in Hv'. injection Hv' as <-.
  exists b'. split; [reflexivity|]. split; [exact He|].
  intros Hlo Hld.
  destruct He as (co0 & cd0 & resto & soma & _ & Ho0 & Hd0 & _ & _ & Hsub & Hadd
                  & Hgo & Hgd & _).
  cbv zeta in Hgo.
  rewrite Ho in Ho0. injection Ho0 as <-. rewrite Hd in Hd0. injection Hd0 as <-.
  pose proof (normaliza_dinheiro_R _ _ Hv) as Hdin.
  destruct (inv_conta_R _ _ _ Hb Ho) as (_ & Hsco & _).
  destruct (inv_conta_R _ _ _ Hb Hd) as (_ & Hscd & _).
  eexists _, _. split; [exact Hgo|]. split; [exact Hgd|]. cbn [saldo]. split.
  - exact (sub_exato _ _ _ Hsco Hdin Hle Hlt Hsub Hlo).
  - exact (add_exato _ _ _ Hscd Hdin Hle Hadd Hld).
Qed.

End SucessoRefatorado.

(** C3 (as the code has it): on a bank in use, in both variants, a transfer
    of a positive amount [v] that the balance of the source covers, between
    two distinct accounts, returns and goes through: the source gains a
    SAQUE entry and the TRANSFERENCIA entry, the destination a DEPOSITO
    entry and the same TRANSFERENCIA entry, which carries the source, the
    destination and [v]; the balances become [saldo - v] and [saldo + v] in
    the arithmetic of the program, which is to the cent as long as the
    balance of the source and the new balance of the destination are below
    [10^28] cents. *)
Theorem transferencia_efetivada (ps : list Passo) (relogio : nat -> datetime)
    (o d : string) (valor : Bruto) (v : Dec.Decimal) :
  (forall co cd,
     let b := fst (Original.corre ps Original.Banco_novo) in
     o <> d ->
     dict_get o (Original._contas_por_numero b) = Some co ->
     dict_get d (Original._contas_por_numero b) = Some cd ->
     Original.normaliza valor = Retorna v ->
     Dec.le v Dec.zero_int = Dec.Valor false ->
     Dec.lt (Original.saldo co) v = Dec.Valor false ->
     exists b',
       Original.Banco.transferir relogio o d valor b = (b', Retorna tt)
       /\ Efetivada.original relogio o d v b b'
       /\ (centavos (Original.saldo co) < 10 ^ 28 ->
           centavos (Original.saldo cd) + centavos v < 10 ^ 28 ->
           exists co' cd',
             dict_get o (Original._contas_por_numero b') = Some co'
             /\ dict_get d (Original._contas_por_numero b') = Some cd'
             /\ centavos (Original.saldo co')
                = centavos (Original.saldo co) - centavos v
             /\ centavos (Original.saldo cd')
                = centavos (Original.saldo cd) + centavos v))
  /\
  (forall co cd,
     let b := fst (Refatorado.corre ps Refatorado.Banco_novo) in
     o <> d ->
     dict_get o (Refatorado._contas_por_numero b) = Some co ->
     dict_get d (Refatorado._contas_por_numero b) = Some cd ->
     Refatorado.normaliza valor = Retorna v ->
     Dec.le v Dec.zero_int = Dec.Valor false ->
     Dec.lt (Refatorado.saldo co) v = Dec.Valor false ->
     exists b',
       Refatorado.Banco.transferir relogio o d valor b = (b', Retorna tt)
       /\ Efetivada.refatorado relogio o d v b b'
       /\ (centavos (Refatorado.saldo co) < 10 ^ 28 ->
           centavos (Refatorado.saldo cd) + centavos v < 10 ^ 28 ->
           exists co' cd',
             dict_get o (Refatorado._contas_por_numero b') = Some co'
             /\ dict_get d (Refatorado._contas_por_numero b') = Some cd'
             /\ centavos (Refatorado.saldo co')
                = centavos (Refatorado.saldo co) - centavos v
             /\ centavos (Refatorado.saldo cd')
                = centavos (Refatorado.saldo cd) + centavos v)).
Proof.
  split; intros co cd b.
  - apply SucessoOriginal.transferir_efetivada.
    apply OriginalFacts.corre_inv, OriginalFacts.inv_novo.
  - apply SucessoRefatorado.transferir_efetivada_R.
    apply RefatoradoFacts.corre_inv_R, RefatoradoFacts.inv_novo_R.
Qed.

(** The scenario of the specification, on [criar_dados_mock()]: 1003 holds
    2500.00 and 1001 holds 1500.00 before the transfer of 300.00. *)
Lemma transferencia_efetivada_mock :
  let ps := firstn 9 criar_dados_mock in
  let bo := fst (Original.corre ps Original.Banco_novo) in
  let br := fst (Refatorado.corre ps Refatorado.Banco_novo) in
  let v := Dec.Fin false 30000 (-2) in
  (exists b', Original.Banco.transferir tique "1003" "1001" (D "300") bo
              = (b', Retorna tt)
              /\ Efetivada.original tique "1003" "1001" v bo b'
              /\ exists co' cd',
                   dict_get "1003" (Original._contas_por_numero b') = Some co'
                   /\ dict_get "1001" (Original._contas_por_numero b') = Some cd'
                   /\ centavos (Original.saldo co') = 220000
                   /\ centavos (Original.saldo cd') = 180000)
  /\
  (exists b', Refatorado.Banco.transferir tique "1003" "1001" (D "300") br
              = (b', Retorna tt)
              /\ Efetivada.refatorado tique "1003" "1001" v br b'
              /\ exists co' cd',
                   dict_get "1003" (Refatorado._contas_por_numero b') = Some co'
                   /\ dict_get "1001" (Refatorado._contas_por_numero b') = Some cd'
                   /\ centavos (Refatorado.saldo co') = 220000
                   /\ centavos (Refatorado.saldo cd') = 180000).
Proof.
  cbv zeta. split.
  - edestruct (proj1 (transferencia_efetivada (firstn 9 criar_dados_mock) tique
                        "1003" "1001" (D "300") (Dec.Fin false 30000 (-2))))
      as (b' & Ht & He & Hx);
      [discriminate|vm_compute; reflexivity|vm_compute; reflexivity
      |vm_compute; reflexivity|vm_compute; reflexivity|vm_compute; reflexivity|].
    exists b'. split; [exact Ht|]. split; [exact He|].
    destruct Hx as (co' & cd' & Ho & Hd & Hco & Hcd);
      [vm_compute; reflexivity|vm_compute; reflexivity|].
    exists co', cd'. split; [exact Ho|]. split; [exact Hd|].
    split; [exact Hco|exact Hcd].
  - edestruct (proj2 (transferencia_efetivada (firstn 9 criar_dados_mock) tique
                        "1003" "1001" (D "300") (Dec.Fin false 30000 (-2))))
      as (b' & Ht & He & Hx);
      [discriminate|vm_compute; reflexivity|vm_compute; reflexivity
      |vm_compute; reflexivity|vm_compute; reflexivity|vm_compute; reflexivity|].
    exists b'. split; [exact Ht|]. split; [exact He|].
    destruct Hx as (co' & cd' & Ho & Hd & Hco & Hcd);
      [vm_compute; reflexivity|vm_compute; reflexivity|].
    exists co', cd'. split; [exact Ho|]. split; [exact Hd|].
    split; [exact Hco|exact Hcd].
Defined.

(** To the cent it is not, beyond 28 digits: 1002 holds
    99999999999999999999999999.99 and receives 0.02 from 1001; its new
    balance is 100000000000000000000000000.0, one cent more than
    before and not two. *)
Lemma transferencia_nao_exata : ~ transferencia_exata.
Proof.
  intros H.
  edestruct (H contas_no_limite tique "1001"%string "1002"%string (BOutro "0.02"))
    as (b' & co' & cd' & Ht & _ & _ & Hd & _ & Hcd);
    [discriminate|vm_compute; reflexivity|vm_compute; reflexivity
    |vm_compute; reflexivity|vm_compute; reflexivity|vm_compute; reflexivity|].
  vm_compute in Ht. injection Ht as <-.
  vm_compute in Hd. injection Hd as <-.
  vm_compute in Hcd. discriminate Hcd.
Qed.

(** ** Transfers from an account to itself *)

Lemma transferir_propria_original relogio n valor (b : Original.Banco) :
  Original.Banco.transferir relogio n n valor b
  = (b, Levanta (ValorInvalido "contas iguais")).
Proof.
  rewrite OriginalFacts.transferir_eq. cbv zeta.
  rewrite String.eqb_refl. reflexivity.
Qed.

(** In the refactored variant [_to_money] raises nothing but
    [ValorInvalido]. *)
Lemma normaliza_levanta_R valor e :
  Refatorado.normaliza valor = Levanta e -> e = ValorInvalido "valor inválido".
Proof.
  unfold Refatorado.normaliza, Refatorado.Banco._to_money. desmonta.
  destruct valor as [d|s].
  - destruct (Dec.quantize_centavos d); [discriminate|]. intros [= <-]. reflexivity.
  - destruct (DecStr.Decimal_de_str s) as [d|]; [|intros [= <-]; reflexivity].
    destruct (Dec.quantize_centavos d); [discriminate|]. intros [= <-]. reflexivity.
Qed.

(** C4 (as the code has it): a transfer whose source and destination are
    the same account raises [ValorInvalido], the class that an invalid
    amount raises too, whatever the amount and the balance, and changes
    nothing; in the refactored variant, when the account exists. *)
Theorem transferencia_propria (relogio : nat -> datetime) (n : string)
    (valor : Bruto) :
  (forall b : Original.Banco,
     Original.Banco.transferir relogio n n valor b
     = (b, Levanta (ValorInvalido "contas iguais")))
  /\
  (forall (b : Refatorado.Banco) (c : Refatorado.Conta),
     dict_get n (Refatorado._contas_por_numero b) = Some c ->
     exists msg,
       Refatorado.Banco.transferir relogio n n valor b
       = (b, Levanta (ValorInvalido msg))).
Proof.
  split.
  - intros b. apply transferir_propria_original.
  - intros b c Hc. rewrite RefatoradoFacts.transferir_eq_R. cbv zeta.
    rewrite Hc.
    destruct (Refatorado.normaliza valor) as [v|e] eqn:Hv.
    + rewrite String.eqb_refl. eexists. reflexivity.
    + rewrite (normaliza_levanta_R _ _ Hv). eexists. reflexivity.
Qed.

Lemma transferencia_propria_mock :
  let bo := fst (Original.corre criar_dados_mock Original.Banco_novo) in
  let br := fst (Refatorado.corre criar_dados_mock Refatorado.Banco_novo) in
  Original.Banco.transferir tique "1001" "1001" (D "50") bo
  = (bo, Levanta (ValorInvalido "contas iguais"))
  /\ exists msg,
       Refatorado.Banco.transferir tique "1001" "1001" (D "50") br
       = (br, Levanta (ValorInvalido msg)).
Proof.
  cbv zeta. split.
  - apply (proj1 (transferencia_propria tique "1001" (D "50"))).
  - eapply (proj2 (transferencia_propria tique "1001" (D "50"))).
    vm_compute. reflexivity.
Defined.

(** No class of its own: the exception of a transfer to oneself is of the
    class [ValorInvalido]. *)
Lemma transferencia_propria_nao_distinta : ~ transferencia_propria_distinta.
Proof.
  intros H.
  destruct (H criar_dados_mock tique "1001"%string (D "50")) as (e & He & Hc & _).
  rewrite transferir_propria_original in He. injection He as <-.
  apply Hc. reflexivity.
Qed.

(** C10: in the original variant [transferir(n, n, valor)] compares the two
    strings before anything else and raises [ValorInvalido], also when no
    account has the number [n]; in the refactored variant both accounts are
    looked up first, and the same call with a number that no account has
    raises [EntidadeNaoEncontrada]. *)
Theorem mesma_conta_e_busca (relogio : nat -> datetime) (n : string)
    (valor : Bruto) :
  (forall b : Original.Banco,
     Original.Banco.transferir relogio n n valor b
     = (b, Levanta (ValorInvalido "contas iguais")))
  /\
  (forall b : Refatorado.Banco,
     dict_get n (Refatorado._contas_por_numero b) = None ->
     Refatorado.Banco.transferir relogio n n valor b
     = (b, Levanta (EntidadeNaoEncontrada "conta não encontrada"))).
Proof.
  split.
  - intros b. apply transferir_propria_original.
  - intros b Hn. rewrite RefatoradoFacts.transferir_eq_R. cbv zeta.
    rewrite Hn. reflexivity.
Qed.

Lemma mesma_conta_e_busca_mock :
  let bo := fst (Original.corre criar_dados_mock Original.Banco_novo) in
  let br := fst (Refatorado.corre criar_dados_mock Refatorado.Banco_novo) in
  Original.Banco.transferir tique "9999" "9999" (D "50") bo
  = (bo, Levanta (ValorInvalido "contas iguais"))
  /\ Refatorado.Banco.transferir tique "9999" "9999" (D "50") br
     = (br, Levanta (EntidadeNaoEncontrada "conta não encontrada")).
Proof.
  cbv zeta. split.
  - apply (proj1 (mesma_conta_e_busca tique "9999" (D "50"))).
  - apply (proj2 (mesma_conta_e_busca tique "9999" (D "50"))).
    vm_compute. reflexivity.
Defined.

(** ** Money normalisation *)

Lemma _to_money_invalido_original s (b : Original.Banco) :
  DecStr.Decimal_de_str s = None ->
  Original.Banco._to_money (BOutro s) b
  = (b, Levanta (ValorInvalido "valor inválido")).
Proof.
  intros H. unfold Original.Banco._to_money. desmonta. rewrite H. reflexivity.
Qed.

Lemma _to_money_invalido_refatorado s (b : Refatorado.Banco) :
  DecStr.Decimal_de_str s = None ->
  Refatorado.Banco._to_money (BOutro s) b
  = (b, Levanta (ValorInvalido "valor inválido")).
Proof.
  intros H. unfold Refatorado.Banco._to_money. desmonta. rewrite H. reflexivity.
Qed.

(** In both variants [_to_money] takes "10", "10.00" and "10.001" to 10.00;
    what it answers depends on its argument alone, and it leaves the bank
    as it was; and on a string that [Decimal] refuses it raises
    [ValorInvalido]. *)
Lemma _to_money_normaliza :
  (forall b : Original.Banco,
     Original.Banco._to_money (BOutro "10") b
       = (b, Retorna (Dec.Fin false 1000 (-2)))
     /\ Original.Banco._to_money (BOutro "10.00") b
       = (b, Retorna (Dec.Fin false 1000 (-2)))
     /\ Original.Banco._to_money (BOutro "10.001") b
       = (b, Retorna (Dec.Fin false 1000 (-2))))
  /\
  (forall b : Refatorado.Banco,
     Refatorado.Banco._to_money (BOutro "10") b
       = (b, Retorna (Dec.Fin false 1000 (-2)))
     /\ Refatorado.Banco._to_money (BOutro "10.00") b
       = (b, Retorna (Dec.Fin false 1000 (-2)))
     /\ Refatorado.Banco._to_money (BOutro "10.001") b
       = (b, Retorna (Dec.Fin false 1000 (-2))))
  /\
  (forall (valor : Bruto) (b1 b2 : Original.Banco),
     fst (Original.Banco._to_money valor b1) = b1
     /\ snd (Original.Banco._to_money valor b1)
        = snd (Original.Banco._to_money valor b2))
  /\
  (forall (valor : Bruto) (b1 b2 : Refatorado.Banco),
     fst (Refatorado.Banco._to_money valor b1) = b1
     /\ snd (Refatorado.Banco._to_money valor b1)
        = snd (Refatorado.Banco._to_money valor b2))
  /\
  (forall (s : string) (bo : Original.Banco) (br : Refatorado.Banco),
     DecStr.Decimal_de_str s = None ->
     Original.Banco._to_money (BOutro s) bo
       = (bo, Levanta (ValorInvalido "valor inválido"))
     /\ Refatorado.Banco._to_money (BOutro s) br
       = (br, Levanta (ValorInvalido "valor inválido"))).
Proof.
  split; [|split; [|split; [|split]]].
  - intros b. rewrite !OriginalFacts._to_money_eq. repeat split.
  - intros b. rewrite !RefatoradoFacts._to_money_eq_R. repeat split.
  - intros valor b1 b2. rewrite !OriginalFacts._to_money_eq. split; reflexivity.
  - intros valor b1 b2. rewrite !RefatoradoFacts._to_money_eq_R. split; reflexivity.
  - intros s bo br H. split.
    + apply _to_money_invalido_original, H.
    + apply _to_money_invalido_refatorado, H.
Qed.

Lemma _to_money_normaliza_abc :
  Original.Banco._to_money (BOutro "abc") Original.Banco_novo
    = (Original.Banco_novo, Levanta (ValorInvalido "valor inválido"))
  /\ Refatorado.Banco._to_money (BOutro "abc") Refatorado.Banco_novo
    = (Refatorado.Banco_novo, Levanta (ValorInvalido "valor inválido")).
Proof.
  apply (proj2 (proj2 (proj2 (proj2 _to_money_normaliza))) "abc"%string).
  vm_compute. reflexivity.
Defined.

(** C6: strings that name no number and that [Decimal] reads all the same.
    On "Infinity", "-inf" and "sNaN" the original variant lets the
    [decimal.InvalidOperation] of [quantize], which is outside its [try],
    reach the caller, where the refactored variant raises [ValorInvalido];
    "NaN" passes [_to_money] in both variants as the value NaN.
    [decimal.InvalidOperation] is no [ErroBanco].  So on the bank of
    [criar_dados_mock()], [depositar] of "Infinity" into the account 1001
    ends in [decimal.InvalidOperation] in the original variant and in
    [ValorInvalido] in the refactored one, and [depositar] of "NaN" ends in
    [decimal.InvalidOperation] in both, raised by the first comparison of
    [Conta.depositar]; the bank is as it was each time. *)
Theorem _to_money_nao_numerico (bo : Original.Banco) (br : Refatorado.Banco) :
  Forall (fun s =>
            Original.Banco._to_money (BOutro s) bo
              = (bo, Levanta DecimalInvalidOperation)
            /\ Refatorado.Banco._to_money (BOutro s) br
              = (br, Levanta (ValorInvalido "valor inválido")))
         ["Infinity"; "-inf"; "sNaN"]%string
  /\ Original.Banco._to_money (BOutro "NaN") bo
     = (bo, Retorna (Dec.NaN false false))
  /\ Refatorado.Banco._to_money (BOutro "NaN") br
     = (br, Retorna (Dec.NaN false false))
  /\ ErroBanco DecimalInvalidOperation = false
  /\ (let b := fst (Original.corre criar_dados_mock Original.Banco_novo) in
      Original.Banco.depositar tique "1001" (BOutro "Infinity") b
        = (b, Levanta DecimalInvalidOperation)
      /\ Original.Banco.depositar tique "1001" (BOutro "NaN") b
        = (b, Levanta DecimalInvalidOperation))
  /\ (let b := fst (Refatorado.corre criar_dados_mock Refatorado.Banco_novo) in
      Refatorado.Banco.depositar tique "1001" (BOutro "Infinity") b
        = (b, Levanta (ValorInvalido "valor inválido"))
      /\ Refatorado.Banco.depositar tique "1001" (BOutro "NaN") b
        = (b, Levanta DecimalInvalidOperation)).
Proof.
  split; [|split; [|split; [|split; [|split]]]].
  - repeat constructor;
      rewrite ?OriginalFacts._to_money_eq, ?RefatoradoFacts._to_money_eq_R;
      reflexivity.
  - rewrite OriginalFacts._to_money_eq. reflexivity.
  - rewrite RefatoradoFacts._to_money_eq_R. reflexivity.
  - reflexivity.
  - cbv zeta. split; vm_compute; reflexivity.
  - cbv zeta. split; vm_compute; reflexivity.
Qed.

(** ** Deposits and withdrawals that are refused *)

Lemma acima_do_saldo_positivo (s v : Dec.Decimal) :
  saldo_ok s -> Dec.lt s v = Dec.Valor true ->
  Dec.le v Dec.zero_int = Dec.Valor false.
Proof.
  intros (cs & es & -> & _).
  destruct v as [n cv ev|[|]|n sn].
  - rewrite DecFacts.le_zero_fin. unfold Dec.lt, Dec.cmp, Dec.alinhado.
    cbn [Dec.is_nan orb]. change (Dec.com_sinal false cs) with (Z.of_N cs).
    set (e0 := Z.min es ev).
    assert (0 < 10 ^ (es - e0)) by (apply DecFacts.dez_pos; lia).
    assert (0 < 10 ^ (ev - e0)) by (apply DecFacts.dez_pos; lia).
    destruct (Z.compare_spec (Z.of_N cs * 10 ^ (es - e0))
                             (Dec.com_sinal n cv * 10 ^ (ev - e0)));
      try discriminate.
    intros _. f_equal. apply Z.leb_gt. nia.
  - discriminate.
  - reflexivity.
  - discriminate.
Qed.

(** C7: on a bank in use, in both variants and for every account: a deposit
    of an amount [<= 0] raises [ValorInvalido], a withdrawal of more than
    the balance raises [SaldoInsuficiente], and the account is left as it
    was, through the methods of [Conta] and through those of [Banco], which
    leave the whole bank as it was. *)
Theorem deposito_e_saque_recusados (ps : list Passo) :
  (let b := fst (Original.corre ps Original.Banco_novo) in
   forall n c v,
     dict_get n (Original._contas_por_numero b) = Some c ->
     (Dec.le v Dec.zero_int = Dec.Valor true ->
      (forall agora desc,
         Original.Conta.depositar agora v desc c
         = (c, Levanta (ValorInvalido "valor deve ser positivo")))
      /\ (forall relogio valor,
            Original.normaliza valor = Retorna v ->
            Original.Banco.depositar relogio n valor b
            = (b, Levanta (ValorInvalido "valor deve ser positivo"))))
     /\
     (Dec.lt (Original.saldo c) v = Dec.Valor true ->
      (forall agora desc,
         Original.Conta.sacar agora v desc c
         = (c, Levanta (SaldoInsuficiente "saldo insuficiente")))
      /\ (forall relogio valor,
            Original.normaliza valor = Retorna v ->
            Original.Banco.sacar relogio n valor b
            = (b, Levanta (SaldoInsuficiente "saldo insuficiente")))))
  /\
  (let b := fst (Refatorado.corre ps Refatorado.Banco_novo) in
   forall n c v,
     dict_get n (Refatorado._contas_por_numero b) = Some c ->
     (Dec.le v Dec.zero_int = Dec.Valor true ->
      (forall agora desc,
         Refatorado.Conta.depositar agora v desc c
         = (c, Levanta (ValorInvalido "valor deve ser positivo")))
      /\ (forall relogio valor,
            Refatorado.normaliza valor = Retorna v ->
            Refatorado.Banco.depositar relogio n valor b
            = (b, Levanta (ValorInvalido "valor deve ser positivo"))))
     /\
     (Dec.lt (Refatorado.saldo c) v = Dec.Valor true ->
      (forall agora desc,
         Refatorado.Conta.sacar agora v desc c
         = (c, Levanta (SaldoInsuficiente "saldo insuficiente")))
      /\ (forall relogio valor,
            Refatorado.normaliza valor = Retorna v ->
            Refatorado.Banco.sacar relogio n valor b
            = (b, Levanta (SaldoInsuficiente "saldo insuficiente"))))).
Proof.
  split; cbv zeta; intros n c v Hc.
  - pose proof (OriginalFacts.corre_inv ps _ OriginalFacts.inv_novo) as Hi.
    destruct (OriginalFacts.inv_conta _ _ _ Hi Hc) as (_ & Hs & _).
    split.
    + intros Hle. split.
      * intros agora desc. rewrite OriginalFacts.depositar_eq, Hle. reflexivity.
      * intros relogio valor Hv.
        rewrite OriginalFacts.Banco_depositar_eq, Hc, Hv. cbv zeta.
        rewrite OriginalFacts.depositar_eq, Hle. cbn [fst snd].
        rewrite (OriginalFacts.com_contas_mesma _ _ _ Hc). reflexivity.
    + intros Hlt. pose proof (acima_do_saldo_positivo _ _ Hs Hlt) as Hle. split.
      * intros agora desc. rewrite OriginalFacts.sacar_eq, Hle, Hlt. reflexivity.
      * intros relogio valor Hv.
        rewrite OriginalFacts.Banco_sacar_eq, Hc, Hv. cbv zeta.
        rewrite OriginalFacts.sacar_eq, Hle, Hlt. cbn [fst snd].
        rewrite (OriginalFacts.com_contas_mesma _ _ _ Hc). reflexivity.
  - pose proof (RefatoradoFacts.corre_inv_R ps _ RefatoradoFacts.inv_novo_R) as Hi.
    destruct (RefatoradoFacts.inv_conta_R _ _ _ Hi Hc) as (_ & Hs & _).
    split.
    + intros Hle. split.
      * intros agora desc. rewrite RefatoradoFacts.depositar_eq_R, Hle. reflexivity.
      * intros relogio valor Hv.
        rewrite RefatoradoFacts.Banco_depositar_eq_R, Hc, Hv. cbv zeta.
        rewrite RefatoradoFacts.depositar_eq_R, Hle. cbn [fst snd].
        rewrite (RefatoradoFacts.com_contas_mesma_R _ _ _ Hc). reflexivity.
    + intros Hlt. pose proof (acima_do_saldo_positivo _ _ Hs Hlt) as Hle. split.
      * intros agora desc. rewrite RefatoradoFacts.sacar_eq_R, Hle, Hlt. reflexivity.
      * intros relogio valor Hv.
        rewrite RefatoradoFacts.Banco_sacar_eq_R, Hc, Hv. cbv zeta.
        rewrite RefatoradoFacts.sacar_eq_R, Hle, Hlt. cbn [fst snd].
        rewrite (RefatoradoFacts.com_contas_mesma_R _ _ _ Hc). reflexivity.
Qed.

(** The scenario of the specification: after [criar_dados_mock()] the
    account 1002 holds 700.00; a deposit of -5.00 and a withdrawal of 900.00
    are refused. *)
Lemma deposito_e_saque_recusados_mock :
  let bo := fst (Original.corre criar_dados_mock Original.Banco_novo) in
  let br := fst (Refatorado.corre criar_dados_mock Refatorado.Banco_novo) in
  (Original.Banco.depositar tique "1002" (D "-5") bo
     = (bo, Levanta (ValorInvalido "valor deve ser positivo"))
   /\ Original.Banco.sacar tique "1002" (D "900") bo
     = (bo, Levanta (SaldoInsuficiente "saldo insuficiente")))
  /\
  (Refatorado.Banco.depositar tique "1002" (D "-5") br
     = (br, Levanta (ValorInvalido "valor deve ser positivo"))
   /\ Refatorado.Banco.sacar tique "1002" (D "900") br
     = (br, Levanta (SaldoInsuficiente "saldo insuficiente"))).
Proof.
  cbv zeta.
  pose proof (proj1 (deposito_e_saque_recusados criar_dados_mock)) as To.
  pose proof (proj2 (deposito_e_saque_recusados criar_dados_mock)) as Tr.
  cbv zeta in To, Tr.
  assert (Hle : Dec.le (Dec.Fin true 500 (-2)) Dec.zero_int = Dec.Valor true)
    by (vm_compute; reflexivity).
  split; split.
  - edestruct (To "1002"%string) as [Hd _]; [vm_compute; reflexivity|].
    apply (proj2 (Hd Hle)). vm_compute. reflexivity.
  - edestruct To with (n := "1002"%string) (v := Dec.Fin false 90000 (-2))
      as [_ Hs]; [vm_compute; reflexivity|].
    apply (proj2 (Hs ltac:(vm_compute; reflexivity))). vm_compute. reflexivity.
  - edestruct (Tr "1002"%string) as [Hd _]; [vm_compute; reflexivity|].
    apply (proj2 (Hd Hle)). vm_compute. reflexivity.
  - edestruct Tr with (n := "1002"%string) (v := Dec.Fin false 90000 (-2))
      as [_ Hs]; [vm_compute; reflexivity|].
    apply (proj2 (Hs ltac:(vm_compute; reflexivity))). vm_compute. reflexivity.
Defined.

(** ** Customers *)

(** C8: in both variants and on any bank, [criar_cliente] called a second
    time with the same [cpf] returns the customer that the first call
    returned and leaves the bank, its counter included, as the first call
    left it; the first call gives the next number only when the [cpf] is
    new, and otherwise returns the customer that is there and changes
    nothing. *)
Theorem criar_cliente_idempotente (nome1 nome2 cpf0 : string) :
  (forall b : Original.Banco,
     exists c b1,
       Original.Banco.criar_cliente nome1 cpf0 b = (b1, Retorna c)
       /\ Original.Banco.criar_cliente nome2 cpf0 b1 = (b1, Retorna c)
       /\ (dict_get cpf0 (Original._clientes_por_cpf b) = None ->
           c = Build_Cliente (Original._seq_cliente b) nome1 cpf0
           /\ Original._seq_cliente b1 = Original._seq_cliente b + 1)
       /\ (forall c0, dict_get cpf0 (Original._clientes_por_cpf b) = Some c0 ->
           c = c0 /\ b1 = b))
  /\
  (forall b : Refatorado.Banco,
     exists c b1,
       Refatorado.Banco.criar_cliente nome1 cpf0 b = (b1, Retorna c)
       /\ Refatorado.Banco.criar_cliente nome2 cpf0 b1 = (b1, Retorna c)
       /\ (dict_get cpf0 (Refatorado._clientes_por_cpf b) = None ->
           c = Build_Cliente (Refatorado._seq_cliente b) nome1 cpf0
           /\ Refatorado._seq_cliente b1 = Refatorado._seq_cliente b + 1)
       /\ (forall c0, dict_get cpf0 (Refatorado._clientes_por_cpf b) = Some c0 ->
           c = c0 /\ b1 = b)).
Proof.
  split; intros b.
  - rewrite OriginalFacts.criar_cliente_eq.
    destruct (dict_get cpf0 (Original._clientes_por_cpf b)) as [c0|] eqn:E.
    + exists c0, b. split; [reflexivity|]. split.
      * rewrite OriginalFacts.criar_cliente_eq, E. reflexivity.
      * split; [discriminate|]. intros c1 [= <-]. split; reflexivity.
    + cbv zeta. eexists _, _. split; [reflexivity|]. split.
      * rewrite OriginalFacts.criar_cliente_eq. cbn [Original._clientes_por_cpf].
        rewrite dict_get_set_eq. reflexivity.
      * split; [intros _; split; reflexivity|discriminate].
  - rewrite RefatoradoFacts.criar_cliente_eq_R.
    destruct (dict_get cpf0 (Refatorado._clientes_por_cpf b)) as [c0|] eqn:E.
    + exists c0, b. split; [reflexivity|]. split.
      * rewrite RefatoradoFacts.criar_cliente_eq_R, E. reflexivity.
      * split; [discriminate|]. intros c1 [= <-]. split; reflexivity.
    + cbv zeta. eexists _, _. split; [reflexivity|]. split.
      * rewrite RefatoradoFacts.criar_cliente_eq_R.
        cbn [Refatorado._clientes_por_cpf].
        rewrite dict_get_set_eq. reflexivity.
      * split; [intros _; split; reflexivity|discriminate].
Qed.

(** [createCustomer("Ana", "111")] twice on a new bank. *)
Lemma criar_cliente_idempotente_ana :
  let ana := Build_Cliente 1 "Ana" "111" in
  (exists b1,
     Original.Banco.criar_cliente "Ana" "111" Original.Banco_novo = (b1, Retorna ana)
     /\ Original.Banco.criar_cliente "Ana" "111" b1 = (b1, Retorna ana)
     /\ Original._seq_cliente b1 = 2)
  /\
  (exists b1,
     Refatorado.Banco.criar_cliente "Ana" "111" Refatorado.Banco_novo
       = (b1, Retorna ana)
     /\ Refatorado.Banco.criar_cliente "Ana" "111" b1 = (b1, Retorna ana)
     /\ Refatorado._seq_cliente b1 = 2).
Proof.
  cbv zeta. split.
  - destruct (proj1 (criar_cliente_idempotente "Ana" "Ana" "111") Original.Banco_novo)
      as (c & b1 & H1 & H2 & Hn & _).
    destruct (Hn eq_refl) as [-> Hs].
    exists b1. split; [exact H1|]. split; [exact H2|exact Hs].
  - destruct (proj2 (criar_cliente_idempotente "Ana" "Ana" "111") Refatorado.Banco_novo)
      as (c & b1 & H1 & H2 & Hn & _).
    destruct (Hn eq_refl) as [-> Hs].
    exists b1. split; [exact H1|]. split; [exact H2|exact Hs].
Defined.

(** ** Statements *)

(** Distinct values of [_seq_conta] give distinct account numbers. *)
Lemma str_int_inj (a b : Z) : str_int a = str_int b -> a = b.
Proof.
  unfold str_int. intros H.
  assert (Hn : forall z, Z.to_int z <> Decimal.Pos Decimal.Nil
                         /\ Z.to_int z <> Decimal.Neg Decimal.Nil).
  { intros [|p|p]; cbn; split; try discriminate;
      intros [= E]; exact (DecimalPos.Unsigned.to_uint_nonnil _ E). }
  apply DecimalZ.to_int_inj.
  assert (E : Some (Z.to_int a) = Some (Z.to_int b)).
  { rewrite <- (NilZero.isi (Z.to_int a)) by apply Hn.
    rewrite <- (NilZero.isi (Z.to_int b)) by apply Hn.
    rewrite H. reflexivity. }
  injection E as E. exact E.
Qed.

Section Copia.
Context {B : Type} `{Extratos B}.
Import Objetos.

(** [buscar_conta] finds the accounts that have a log, and changes
    nothing. *)
Hypothesis buscar_conta_de_eq :
  forall n (b : B),
    buscar_conta_de n b =
    match historico_de n b with
    | Some _ => (b, Retorna n)
    | None => (b, Levanta (EntidadeNaoEncontrada "conta não encontrada"))
    end.

Lemma nth_error_fim {A} (l : list A) (x : A) :
  nth_error (l ++ [x]) (List.length l) = Some x.
Proof.
  rewrite nth_error_app2 by lia. rewrite Nat.sub_diag. reflexivity.
Qed.

Lemma extrato_eq_geral (numero : string) (w : Mundo B) :
  extrato numero w =
  match historico_de numero (banco w) with
  | Some l =>
      ({| banco := banco w; listas := (listas w ++ [l])%list |},
       Retorna (Lista (List.length (listas w))))
  | None => (w, Levanta (EntidadeNaoEncontrada "conta não encontrada"))
  end.
Proof.
  unfold extrato, no_banco, list_, bind. rewrite buscar_conta_de_eq.
  destruct (historico_de numero (banco w)) as [l|] eqn:E.
  - cbn [le_lista banco listas]. rewrite E. reflexivity.
  - destruct w; reflexivity.
Qed.

Lemma extrato_copia_geral (numero : string) (w : Mundo B) :
  extrato_copia numero w.
Proof.
  intros w1 r. rewrite extrato_eq_geral.
  destruct (historico_de numero (banco w)) as [l|] eqn:E; [|discriminate].
  intros [= <- <-]. cbn [banco listas le_lista muta_lista].
  split; [reflexivity|]. split; [apply nth_error_fim|].
  intros f. split; [reflexivity|].
  rewrite extrato_eq_geral. cbn [banco listas]. rewrite E.
  eexists _, _. split; [reflexivity|].
  cbn [le_lista listas]. rewrite !nth_error_fim. reflexivity.
Qed.

End Copia.

Module ExtratoOriginal.
Import Original OriginalFacts.

(** The account number that [abrir_conta] takes is not in use. *)
Lemma numero_novo (b : Banco) :
  inv b -> dict_get (str_int (_seq_conta b)) (_contas_por_numero b) = None.
Proof.
  intros Hb. destruct (dict_get _ _) as [c|] eqn:E; [|reflexivity].
  destruct (inv_numerada _ _ _ Hb E) as (z & Hz & Hlt).
  apply str_int_inj in Hz. lia.
Qed.

Lemma depositar_registro agora v desc (c : Conta) :
  exists novos,
    registro (fst (Conta.depositar agora v desc c)) = (registro c ++ novos)%list.
Proof.
  rewrite depositar_eq.
  destruct (Dec.le v Dec.zero_int) as [[|]|];
    try (exists []; symmetry; apply app_nil_r).
  destruct (Dec.add (saldo c) v);
    [eexists; reflexivity|exists []; symmetry; apply app_nil_r].
Qed.

Lemma sacar_registro agora v desc (c : Conta) :
  exists novos,
    registro (fst (Conta.sacar agora v desc c)) = (registro c ++ novos)%list.
Proof.
  rewrite sacar_eq.
  destruct (Dec.le v Dec.zero_int) as [[|]|];
    try (exists []; symmetry; apply app_nil_r).
  destruct (Dec.lt (saldo c) v) as [[|]|];
    try (exists []; symmetry; apply app_nil_r).
  destruct (Dec.sub (saldo c) v);
    [eexists; reflexivity|exists []; symmetry; apply app_nil_r].
Qed.

(** A call only appends to the log of an account. *)
Lemma registro_cresce (p : Passo) (b : Banco) n c :
  inv b -> dict_get n (_contas_por_numero b) = Some c ->
  exists c' novos,
    dict_get n (_contas_por_numero (fst (executa p b))) = Some c'
    /\ registro c' = (registro c ++ novos)%list.
Proof.
  intros Hb Hn.
  assert (Hsame : exists c' novos,
             dict_get n (_contas_por_numero b) = Some c'
             /\ registro c' = (registro c ++ novos)%list).
  { exists c, []. split; [exact Hn|symmetry; apply app_nil_r]. }
  destruct p as [relogio ch]. unfold executa, responde.
  destruct ch as [nm cp|cp|nu|nu vl|nu vl|og ds vl|nu|]; unfold bind.
  - rewrite criar_cliente_eq. destruct (dict_get cp _); exact Hsame.
  - rewrite abrir_conta_eq. destruct (dict_get cp _); [|exact Hsame].
    cbn [fst ret _contas_por_numero].
    rewrite dict_get_set_ne; [exact Hsame|].
    intros ->. rewrite (numero_novo b Hb) in Hn. discriminate.
  - rewrite buscar_conta_eq. destruct (dict_get nu _); exact Hsame.
  - rewrite Banco_depositar_eq.
    destruct (dict_get nu _) as [c1|] eqn:Hc; [|exact Hsame].
    destruct (normaliza vl) as [v|e]; [|exact Hsame]. cbv zeta.
    assert (exists c' novos,
              dict_get n (dict_set nu
                 (fst (Conta.depositar (relogio 0%nat) v "depósito" c1))
                 (_contas_por_numero b)) = Some c'
              /\ registro c' = (registro c ++ novos)%list) as Hx.
    { destruct (String.eqb_spec n nu) as [->|Hne].
      - rewrite dict_get_set_eq. rewrite Hn in Hc. injection Hc as <-.
        destruct (depositar_registro (relogio 0%nat) v "depósito" c) as [novos Hr].
        eexists _, novos. split; [reflexivity|exact Hr].
      - rewrite dict_get_set_ne by exact Hne. exact Hsame. }
    destruct (snd (Conta.depositar _ _ _ c1)); exact Hx.
  - rewrite Banco_sacar_eq.
    destruct (dict_get nu _) as [c1|] eqn:Hc; [|exact Hsame].
    destruct (normaliza vl) as [v|e]; [|exact Hsame]. cbv zeta.
    assert (exists c' novos,
              dict_get n (dict_set nu
                 (fst (Conta.sacar (relogio 0%nat) v "saque" c1))
                 (_contas_por_numero b)) = Some c'
              /\ registro c' = (registro c ++ novos)%list) as Hx.
    { destruct (String.eqb_spec n nu) as [->|Hne].
      - rewrite dict_get_set_eq. rewrite Hn in Hc. injection Hc as <-.
        destruct (sacar_registro (relogio 0%nat) v "saque" c) as [novos Hr].
        eexists _, novos. split; [reflexivity|exact Hr].
      - rewrite dict_get_set_ne by exact Hne. exact Hsame. }
    destruct (snd (Conta.sacar _ _ _ c1)); exact Hx.
  - pose proof (TransferenciaOriginal.transferir_atomica relogio og ds vl b Hb) as Ha.
    destruct (Banco.transferir relogio og ds vl b) as [b' [[]|e]]; cbn [fst ret].
    2:{ subst b'. exact Hsame. }
    destruct Ha as (v & _ & co & cd & resto & soma & Hod & Ho & Hd & _ & _ & _ & _
                    & Hgo & Hgd & Hk & _).
    cbv zeta in Hgo.
    destruct (String.eqb_spec n og) as [->|Hno].
    { rewrite Hn in Ho. injection Ho as <-.
      eexists _, _. split; [exact Hgo|]. reflexivity. }
    destruct (String.eqb_spec n ds) as [->|Hnd].
    { rewrite Hn in Hd. injection Hd as <-.
      eexists _, _. split; [exact Hgd|]. reflexivity. }
    rewrite (Hk n Hno Hnd). exact Hsame.
  - rewrite extrato_eq. destruct (dict_get nu _); exact Hsame.
  - exact Hsame.
Qed.

Lemma buscar_conta_de_eq n (b : Banco) :
  buscar_conta_de n b =
  match historico_de n b with
  | Some _ => (b, Retorna n)
  | None => (b, Levanta (EntidadeNaoEncontrada "conta não encontrada"))
  end.
Proof.
  cbn [buscar_conta_de historico_de Extratos_original]. rewrite buscar_conta_eq.
  destruct (dict_get n _); reflexivity.
Qed.

End ExtratoOriginal.

Module ExtratoRefatorado.
Import Refatorado RefatoradoFacts.

(** The account number that [abrir_conta] takes is not in use. *)
Lemma numero_novo_R (b : Banco) :
  inv b -> dict_get (str_int (_seq_conta b)) (_contas_por_numero b) = None.
Proof.
  intros Hb. destruct (dict_get _ _) as [c|] eqn:E; [|reflexivity].
  destruct (inv_numerada_R _ _ _ Hb E) as (z & Hz & Hlt).
  apply str_int_inj in Hz. lia.
Qed.

Lemma depositar_registro_R agora v desc (c : Conta) :
  exists novos,
    registro (fst (Conta.depositar agora v desc c)) = (registro c ++ novos)%list.
Proof.
  rewrite depositar_eq_R.
  destruct (Dec.le v Dec.zero_int) as [[|]|];
    try (exists []; symmetry; apply app_nil_r).
  destruct (Dec.add (saldo c) v);
    [eexists; reflexivity|exists []; symmetry; apply app_nil_r].
Qed.

Lemma sacar_registro_R agora v desc (c : Conta) :
  exists novos,
    registro (fst (Conta.sacar agora v desc c)) = (registro c ++ novos)%list.
Proof.
  rewrite sacar_eq_R.
  destruct (Dec.le v Dec.zero_int) as [[|]|];
    try (exists []; symmetry; apply app_nil_r).
  destruct (Dec.lt (saldo c) v) as [[|]|];
    try (exists []; symmetry; apply app_nil_r).
  destruct (Dec.sub (saldo c) v);
    [eexists; reflexivity|exists []; symmetry; apply app_nil_r].
Qed.

(** A call only appends to the log of an account. *)
Lemma registro_cresce_R (p : Passo) (b : Banco) n c :
  inv b -> dict_get n (_contas_por_numero b) = Some c ->
  exists c' novos,
    dict_get n (_contas_por_numero (fst (executa p b))) = Some c'
    /\ registro c' = (registro c ++ novos)%list.
Proof.
  intros Hb Hn.
  assert (Hsame : exists c' novos,
             dict_get n (_contas_por_numero b) = Some c'
             /\ registro c' = (registro c ++ novos)%list).
  { exists c, []. split; [exact Hn|symmetry; apply app_nil_r]. }
  destruct p as [relogio ch]. unfold executa, responde.
  destruct ch as [nm cp|cp|nu|nu vl|nu vl|og ds vl|nu|]; unfold bind.
  - rewrite criar_cliente_eq_R. destruct (dict_get cp _); exact Hsame.
  - rewrite abrir_conta_eq_R. destruct (dict_get cp _); [|exact Hsame].
    cbn [fst ret _contas_por_numero].
    rewrite dict_get_set_ne; [exact Hsame|].
    intros ->. rewrite (numero_novo_R b Hb) in Hn. discriminate.
  - rewrite buscar_conta_eq_R. destruct (dict_get nu _); exact Hsame.
  - rewrite Banco_depositar_eq_R.
    destruct (dict_get nu _) as [c1|] eqn:Hc; [|exact Hsame].
    destruct (normaliza vl) as [v|e]; [|exact Hsame]. cbv zeta.
    assert (exists c' novos,
              dict_get n (dict_set nu
                 (fst (Conta.depositar (relogio 0%nat) v "Depósito" c1))
                 (_contas_por_numero b)) = Some c'
              /\ registro c' = (registro c ++ novos)%list) as Hx.
    { destruct (String.eqb_spec n nu) as [->|Hne].
      - rewrite dict_get_set_eq. rewrite Hn in Hc. injection Hc as <-.
        destruct (depositar_registro_R (relogio 0%nat) v "Depósito" c) as [novos Hr].
        eexists _, novos. split; [reflexivity|exact Hr].
      - rewrite dict_get_set_ne by exact Hne. exact Hsame. }
    destruct (snd (Conta.depositar _ _ _ c1)); exact Hx.
  - rewrite Banco_sacar_eq_R.
    destruct (dict_get nu _) as [c1|] eqn:Hc; [|exact Hsame].
    destruct (normaliza vl) as [v|e]; [|exact Hsame]. cbv zeta.
    assert (exists c' novos,
              dict_get n (dict_set nu
                 (fst (Conta.sacar (relogio 0%nat) v "Saque" c1))
                 (_contas_por_numero b)) = Some c'
              /\ registro c' = (registro c ++ novos)%list) as Hx.
    { destruct (String.eqb_spec n nu) as [->|Hne].
      - rewrite dict_get_set_eq. rewrite Hn in Hc. injection Hc as <-.
        destruct (sacar_registro_R (relogio 0%nat) v "Saque" c) as [novos Hr].
        eexists _, novos. split; [reflexivity|exact Hr].
      - rewrite dict_get_set_ne by exact Hne. exact Hsame. }
    destruct (snd (Conta.sacar _ _ _ c1)); exact Hx.
  - pose proof (TransferenciaRefatorado.transferir_atomica_R relogio og ds vl b Hb) as Ha.
    destruct (Banco.transferir relogio og ds vl b) as [b' [[]|e]]; cbn [fst ret].
    2:{ subst b'. exact Hsame. }
    destruct Ha as (v & _ & co & cd & resto & soma & Hod & Ho & Hd & _ & _ & _ & _
                    & Hgo & Hgd & Hk & _).
    cbv zeta in Hgo.
    destruct (String.eqb_spec n og) as [->|Hno].
    { rewrite Hn in Ho. injection Ho as <-.
      eexists _, _. split; [exact Hgo|]. reflexivity. }
    destruct (String.eqb_spec n ds) as [->|Hnd].
    { rewrite Hn in Hd. injection Hd as <-.
      eexists _, _. split; [exact Hgd|]. reflexivity. }
    rewrite (Hk n Hno Hnd). exact Hsame.
  - rewrite extrato_eq_R. destruct (dict_get nu _); exact Hsame.
  - exact Hsame.
Qed.

Lemma buscar_conta_de_eq_R n (b : Banco) :
  buscar_conta_de n b =
  match historico_de n b with
  | Some _ => (b, Retorna n)
  | None => (b, Levanta (EntidadeNaoEncontrada "conta não encontrada"))
  end.
Proof.
  cbn [buscar_conta_de historico_de Extratos_refatorado]. rewrite buscar_conta_eq_R.
  destruct (dict_get n _); reflexivity.
Qed.

End ExtratoRefatorado.

(** The copy matters: were the caller to hold the log itself, clearing it
    would empty the next statement. *)
Lemma historico_alterado_aparece :
  let b := fst (Original.corre criar_dados_mock Original.Banco_novo) in
  let w := {| Objetos.banco := b; Objetos.listas := [] |} in
  snd (Original.Banco.extrato "1003"
         (Objetos.banco
            (Objetos.muta_lista (Objetos.HistoricoDe "1003") (fun _ => []) w)))
  = Retorna [].
Proof. vm_compute. reflexivity. Qed.

(** ** The two variants side by side *)

Module VariantesFacts.
Import Variantes.

Section DictMap.
Context {V W : Type} (f : V -> W).

Lemma dict_get_map k (d : dict V) :
  dict_get k (dict_map f d) = option_map f (dict_get k d).
Proof.
  induction d as [|[k' v] d IH]; [reflexivity|].
  cbn [dict_map map dict_get fst snd]. destruct (String.eqb k k'); [reflexivity|].
  exact IH.
Qed.

Lemma dict_set_map k v (d : dict V) :
  dict_set k (f v) (dict_map f d) = dict_map f (dict_set k v d).
Proof.
  induction d as [|[k' v'] d IH]; [reflexivity|].
  cbn [dict_map map dict_set fst snd]. destruct (String.eqb k k'); [reflexivity|].
  cbn [map fst snd]. f_equal. exact IH.
Qed.

Lemma dict_values_map (d : dict V) :
  dict_values (dict_map f d) = map f (dict_values d).
Proof.
  unfold dict_values, dict_map. rewrite !map_map. reflexivity.
Qed.

End DictMap.

Lemma com_contas_sim D (b : Original.Banco) :
  Refatorado.com_contas (dict_map conta_R D) (banco_R b)
  = banco_R (Original.com_contas D b).
Proof. reflexivity. Qed.

Lemma registra_sim t (c : Original.Conta) :
  Refatorado.registra (transacao_R t) (conta_R c)
  = conta_R (Original.historico_append t c).
Proof.
  unfold Refatorado.registra, conta_R, Original.historico_append.
  cbn [Refatorado.numero Refatorado.cliente Refatorado.saldo
       Refatorado.transacoes Refatorado._historico
       Original.numero Original.cliente Original.saldo Original.historico].
  rewrite map_app. reflexivity.
Qed.

Lemma depositar_sim agora v desc (c : Original.Conta) :
  Refatorado.Conta.depositar agora v (maiuscula_inicial desc) (conta_R c)
  = (conta_R (fst (Original.Conta.depositar agora v desc c)),
     snd (Original.Conta.depositar agora v desc c)).
Proof.
  rewrite RefatoradoFacts.depositar_eq_R, OriginalFacts.depositar_eq.
  destruct (Dec.le v Dec.zero_int) as [[|]|]; try reflexivity.
  cbn [conta_R Refatorado.saldo].
  destruct (Dec.add (Original.saldo c) v); [|reflexivity].
  cbn [fst snd]. f_equal. rewrite <- registra_sim. reflexivity.
Qed.

Lemma sacar_sim agora v desc (c : Original.Conta) :
  Refatorado.Conta.sacar agora v (maiuscula_inicial desc) (conta_R c)
  = (conta_R (fst (Original.Conta.sacar agora v desc c)),
     snd (Original.Conta.sacar agora v desc c)).
Proof.
  rewrite RefatoradoFacts.sacar_eq_R, OriginalFacts.sacar_eq.
  destruct (Dec.le v Dec.zero_int) as [[|]|]; try reflexivity.
  cbn [conta_R Refatorado.saldo].
  destruct (Dec.lt (Original.saldo c) v) as [[|]|]; try reflexivity.
  destruct (Dec.sub (Original.saldo c) v); [|reflexivity].
  cbn [fst snd]. f_equal. rewrite <- registra_sim. reflexivity.
Qed.

(** [_to_money] in the two variants. *)
Lemma normaliza_sim valor :
  Refatorado.normaliza valor =
  match Original.normaliza valor with
  | Levanta DecimalInvalidOperation => Levanta (ValorInvalido "valor inválido")
  | r => r
  end.
Proof.
  unfold Refatorado.normaliza, Original.normaliza,
    Refatorado.Banco._to_money, Original.Banco._to_money. desmonta.
  destruct valor as [d|s].
  - destruct (Dec.quantize_centavos d); reflexivity.
  - destruct (DecStr.Decimal_de_str s) as [d|]; [|reflexivity].
    destruct (Dec.quantize_centavos d); reflexivity.
Qed.

Lemma normaliza_quantiza valor :
  quantiza valor = true -> Refatorado.normaliza valor = Original.normaliza valor.
Proof.
  unfold quantiza. rewrite normaliza_sim.
  destruct (Original.normaliza valor) as [v|[]]; try reflexivity. discriminate.
Qed.


Lemma numero_conta_R (c : Original.Conta) :
  Refatorado.numero (conta_R c) = Original.numero c.
Proof. reflexivity. Qed.

Lemma transferir_sim relogio o d valor (b : Original.Banco) :
  Original.inv b -> concorda b (Ch_transferir o d valor) = true ->
  fst (Refatorado.Banco.transferir relogio o d valor (banco_R b))
  = banco_R (fst (Original.Banco.transferir relogio o d valor b))
  /\ mesmo_retorno (snd (Original.Banco.transferir relogio o d valor b))
       (snd (Refatorado.Banco.transferir relogio o d valor (banco_R b))).
Proof.
  intros Hb Hc.
  rewrite RefatoradoFacts.transferir_eq_R, OriginalFacts.transferir_eq.
  cbv zeta. cbn [banco_R Refatorado._contas_por_numero].
  rewrite !dict_get_map. unfold concorda, registrada in Hc.
  destruct (String.eqb_spec o d) as [->|Hod].
  - destruct (dict_get d _) as [cd|]; [|discriminate]. cbn [option_map].
    destruct (Refatorado.normaliza valor) as [v|e] eqn:Hv.
    + rewrite String.eqb_refl. split; reflexivity.
    + rewrite (normaliza_levanta_R _ _ Hv). split; reflexivity.
  - destruct (dict_get o _) as [co|] eqn:Ho; cbn [option_map andb] in *.
    2:{ destruct (Original.normaliza valor); [|discriminate]. split; reflexivity. }
    destruct (dict_get d _) as [cd|] eqn:Hd; cbn [option_map] in *.
    2:{ destruct (Original.normaliza valor); [|discriminate]. split; reflexivity. }
    rewrite (normaliza_quantiza _ Hc).
    destruct (Original.normaliza valor) as [v|e]; [|split; reflexivity].
    rewrite !numero_conta_R.
    rewrite (proj1 (OriginalFacts.inv_conta _ _ _ Hb Ho)).
    rewrite (proj1 (OriginalFacts.inv_conta _ _ _ Hb Hd)).
    destruct (String.eqb_spec o d); [contradiction|].
    change ("Transferência para " ++ d)%string
      with (maiuscula_inicial ("transferência para " ++ d)).
    change ("Transferência de " ++ o)%string
      with (maiuscula_inicial ("transferência de " ++ o)).
    rewrite sacar_sim, depositar_sim. cbn [fst snd].
    destruct (snd (Original.Conta.sacar _ _ _ co)) as [[]|e].
    2:{ rewrite dict_set_map. split; reflexivity. }
    destruct (snd (Original.Conta.depositar _ _ _ cd)) as [[]|e].
    2:{ rewrite !dict_set_map. split; reflexivity. }
    change (Build_Transacao (relogio 2%nat) "TRANSFERENCIA" v "Transferência" o d)
      with (transacao_R (Build_Transacao (relogio 2%nat) "TRANSFERENCIA" v
                           "transferência" o d)).
    rewrite !registra_sim, !dict_set_map. split; reflexivity.
Qed.


Lemma Banco_depositar_sim relogio n valor (b : Original.Banco) :
  concorda b (Ch_depositar n valor) = true ->
  Refatorado.Banco.depositar relogio n valor (banco_R b)
  = (banco_R (fst (Original.Banco.depositar relogio n valor b)),
     snd (Original.Banco.depositar relogio n valor b)).
Proof.
  intros Hc.
  rewrite RefatoradoFacts.Banco_depositar_eq_R, OriginalFacts.Banco_depositar_eq.
  cbn [banco_R Refatorado._contas_por_numero]. rewrite dict_get_map.
  unfold concorda, registrada in Hc.
  destruct (dict_get n _) as [c|]; cbn [option_map negb orb] in *; [|reflexivity].
  rewrite (normaliza_quantiza _ Hc).
  destruct (Original.normaliza valor) as [v|e]; [|reflexivity]. cbv zeta.
  change "Depósito"%string with (maiuscula_inicial "depósito").
  rewrite depositar_sim. cbn [fst snd]. rewrite dict_set_map. reflexivity.
Qed.

Lemma Banco_sacar_sim relogio n valor (b : Original.Banco) :
  concorda b (Ch_sacar n valor) = true ->
  Refatorado.Banco.sacar relogio n valor (banco_R b)
  = (banco_R (fst (Original.Banco.sacar relogio n valor b)),
     snd (Original.Banco.sacar relogio n valor b)).
Proof.
  intros Hc.
  rewrite RefatoradoFacts.Banco_sacar_eq_R, OriginalFacts.Banco_sacar_eq.
  cbn [banco_R Refatorado._contas_por_numero]. rewrite dict_get_map.
  unfold concorda, registrada in Hc.
  destruct (dict_get n _) as [c|]; cbn [option_map negb orb] in *; [|reflexivity].
  rewrite (normaliza_quantiza _ Hc).
  destruct (Original.normaliza valor) as [v|e]; [|reflexivity]. cbv zeta.
  change "Saque"%string with (maiuscula_inicial "saque").
  rewrite sacar_sim. cbn [fst snd]. rewrite dict_set_map. reflexivity.
Qed.

Lemma criar_cliente_sim nm cp (b : Original.Banco) :
  Refatorado.Banco.criar_cliente nm cp (banco_R b)
  = (banco_R (fst (Original.Banco.criar_cliente nm cp b)),
     snd (Original.Banco.criar_cliente nm cp b)).
Proof.
  rewrite RefatoradoFacts.criar_cliente_eq_R, OriginalFacts.criar_cliente_eq.
  cbn [banco_R Refatorado._clientes_por_cpf].
  destruct (dict_get cp _); reflexivity.
Qed.

Lemma abrir_conta_sim cp (b : Original.Banco) :
  Refatorado.Banco.abrir_conta cp (banco_R b)
  = (banco_R (fst (Original.Banco.abrir_conta cp b)),
     snd (Original.Banco.abrir_conta cp b)).
Proof.
  rewrite RefatoradoFacts.abrir_conta_eq_R, OriginalFacts.abrir_conta_eq.
  cbn [banco_R Refatorado._clientes_por_cpf].
  destruct (dict_get cp _) as [cl|]; [|reflexivity]. cbv zeta.
  change (Refatorado._seq_conta (banco_R b)) with (Original._seq_conta b).
  change (Refatorado._seq_cliente (banco_R b)) with (Original._seq_cliente b).
  change (Refatorado._contas_por_numero (banco_R b))
    with (dict_map conta_R (Original._contas_por_numero b)).
  change (Refatorado.Conta_nova (str_int (Original._seq_conta b)) cl)
    with (conta_R (Original.Conta_nova (str_int (Original._seq_conta b)) cl)).
  rewrite dict_set_map. reflexivity.
Qed.

Lemma buscar_conta_sim n (b : Original.Banco) :
  Refatorado.Banco.buscar_conta n (banco_R b)
  = (banco_R (fst (Original.Banco.buscar_conta n b)),
     snd (Original.Banco.buscar_conta n b)).
Proof.
  rewrite RefatoradoFacts.buscar_conta_eq_R, OriginalFacts.buscar_conta_eq.
  cbn [banco_R Refatorado._contas_por_numero]. rewrite dict_get_map.
  destruct (dict_get n _); reflexivity.
Qed.

Lemma extrato_sim n (b : Original.Banco) :
  Refatorado.Banco.extrato n (banco_R b)
  = (banco_R (fst (Original.Banco.extrato n b)),
     match snd (Original.Banco.extrato n b) with
     | Retorna l => Retorna (map transacao_R l)
     | Levanta e => Levanta e
     end).
Proof.
  rewrite RefatoradoFacts.extrato_eq_R, OriginalFacts.extrato_eq.
  cbn [banco_R Refatorado._contas_por_numero]. rewrite dict_get_map.
  destruct (dict_get n _); reflexivity.
Qed.

(** [listar_clientes_e_contas]: the grouping by [cpf]. *)
Lemma agrupa_sim (m : dict (list Original.Conta)) (c : Original.Conta) :
  Refatorado.Banco.agrupa (dict_map (map conta_R) m) (conta_R c)
  = dict_map (map conta_R) (Original.Banco.agrupa m c).
Proof.
  unfold Refatorado.Banco.agrupa, Original.Banco.agrupa. cbv zeta.
  cbn [conta_R Refatorado.cliente]. rewrite dict_get_map.
  destruct (dict_get _ m) as [l|]; cbn [option_map].
  - rewrite <- dict_set_map, map_app. reflexivity.
  - rewrite <- dict_set_map. reflexivity.
Qed.

Lemma fold_agrupa_sim (l : list Original.Conta) :
  forall m : dict (list Original.Conta),
    fold_left Refatorado.Banco.agrupa (map conta_R l) (dict_map (map conta_R) m)
    = dict_map (map conta_R) (fold_left Original.Banco.agrupa l m).
Proof.
  induction l as [|c l IH]; intros m; [reflexivity|].
  cbn [map fold_left]. rewrite agrupa_sim. apply IH.
Qed.

Lemma listar_sim (b : Original.Banco) :
  Original.inv b ->
  Refatorado.Banco.listar_clientes_e_contas (banco_R b)
  = (banco_R b,
     match snd (Original.Banco.listar_clientes_e_contas b) with
     | Retorna l => Retorna (map (fun x => (fst x, map conta_R (snd x))) l)
     | Levanta e => Levanta e
     end).
Proof.
  intros [_ Hcl].
  unfold Refatorado.Banco.listar_clientes_e_contas,
    Original.Banco.listar_clientes_e_contas. desmonta. cbn [snd].
  f_equal. f_equal.
  cbn [banco_R Refatorado._contas_por_numero Refatorado._clientes_por_cpf].
  rewrite dict_values_map.
  change (@nil (string * list Refatorado.Conta))
    with (dict_map (map conta_R) (@nil (string * list Original.Conta))).
  rewrite fold_agrupa_sim.
  set (m := fold_left Original.Banco.agrupa _ _).
  unfold dict_values. rewrite !map_map.
  apply map_ext_in. intros [k cl] Hin.
  rewrite Forall_forall in Hcl. specialize (Hcl _ Hin). cbn [fst snd] in *.
  rewrite Hcl, dict_get_map. destruct (dict_get k m); reflexivity.
Qed.


Lemma responde_original {A} (f : A -> Original.Resposta) m (b : Original.Banco) :
  Original.responde f m b
  = (fst (m b),
     match snd (m b) with Retorna a => Retorna (f a) | Levanta e => Levanta e end).
Proof.
  unfold Original.responde. desmonta. destruct (m b) as [b' [a|e]]; reflexivity.
Qed.

Lemma responde_refatorado {A} (f : A -> Refatorado.Resposta) m (b : Refatorado.Banco) :
  Refatorado.responde f m b
  = (fst (m b),
     match snd (m b) with Retorna a => Retorna (f a) | Levanta e => Levanta e end).
Proof.
  unfold Refatorado.responde. desmonta. destruct (m b) as [b' [a|e]]; reflexivity.
Qed.

(** One call, on banks that hold the same. *)
Lemma executa_sim (p : Passo) (b : Original.Banco) :
  Original.inv b -> concorda b (snd p) = true ->
  fst (Refatorado.executa p (banco_R b)) = banco_R (fst (Original.executa p b))
  /\ mesma_resposta (snd (Original.executa p b))
       (snd (Refatorado.executa p (banco_R b))).
Proof.
  intros Hb Hc. destruct p as [relogio ch]. cbn [snd] in Hc.
  unfold Refatorado.executa, Original.executa.
  destruct ch as [nm cp|cp|nu|nu vl|nu vl|og ds vl|nu|];
    rewrite responde_original, responde_refatorado; cbn [fst snd].
  - rewrite criar_cliente_sim. cbn [fst snd].
    destruct (snd (Original.Banco.criar_cliente nm cp b)); split; reflexivity.
  - rewrite abrir_conta_sim. cbn [fst snd].
    destruct (snd (Original.Banco.abrir_conta cp b)); split; reflexivity.
  - rewrite buscar_conta_sim. cbn [fst snd].
    destruct (snd (Original.Banco.buscar_conta nu b)); split; reflexivity.
  - rewrite (Banco_depositar_sim _ _ _ _ Hc). cbn [fst snd].
    destruct (snd (Original.Banco.depositar relogio nu vl b)); split; reflexivity.
  - rewrite (Banco_sacar_sim _ _ _ _ Hc). cbn [fst snd].
    destruct (snd (Original.Banco.sacar relogio nu vl b)); split; reflexivity.
  - destruct (transferir_sim relogio og ds vl b Hb Hc) as [Hs Hr].
    split; [exact Hs|].
    destruct (snd (Original.Banco.transferir relogio og ds vl b)) as [[]|e],
             (snd (Refatorado.Banco.transferir relogio og ds vl (banco_R b)))
               as [[]|e']; try contradiction; try reflexivity. exact Hr.
  - rewrite extrato_sim. cbn [fst snd].
    destruct (snd (Original.Banco.extrato nu b)); split; reflexivity.
  - rewrite (listar_sim b Hb). cbn [fst snd]. split; [reflexivity|].
    unfold Original.Banco.listar_clientes_e_contas. desmonta. reflexivity.
Qed.

(** A program, from banks that hold the same. *)
Lemma corre_sim (ps : list Passo) :
  forall b : Original.Banco,
    Original.inv b -> concordam ps b = true ->
    fst (Refatorado.corre ps (banco_R b)) = banco_R (fst (Original.corre ps b))
    /\ Forall2 mesma_resposta (snd (Original.corre ps b))
         (snd (Refatorado.corre ps (banco_R b))).
Proof.
  induction ps as [|p ps IH]; intros b Hb Hc.
  - split; [reflexivity|constructor].
  - cbn [concordam] in Hc. apply andb_prop in Hc. destruct Hc as [Hc1 Hc2].
    destruct (executa_sim p b Hb Hc1) as [Hs Hr].
    pose proof (OriginalFacts.executa_inv p b Hb) as Hb1.
    cbn [Original.corre Refatorado.corre].
    destruct (Original.executa p b) as [b1 r1].
    destruct (Refatorado.executa p (banco_R b)) as [b1' r1'].
    cbn [fst snd] in *. subst b1'.
    destruct (IH b1 Hb1 Hc2) as [Hs2 Hr2].
    destruct (Original.corre ps b1) as [b2 rs].
    destruct (Refatorado.corre ps (banco_R b1)) as [b2' rs'].
    cbn [fst snd] in *. split; [exact Hs2|]. constructor; assumption.
Qed.

End VariantesFacts.

(** C5 (as the code has it): take a sequence of calls of the public methods
    in which no transfer has an account missing while the original variant
    raises [ValorInvalido] before it looks the accounts up (the same number
    twice, or an amount that [_to_money] refuses), and in which [quantize]
    signals on no amount sent to accounts that exist
    ([Variantes.concordam]).  On it the two variants return the same results
    and raise exceptions of the same classes, call by call, and end with
    banks that hold the same: the same customers, accounts, balances,
    counters and log entries, the descriptions of the refactored variant
    being those of the original variant with a capital. *)
Theorem variantes_concordam (ps : list Passo) :
  Variantes.concordam ps Original.Banco_novo = true ->
  fst (Refatorado.corre ps Refatorado.Banco_novo)
  = Variantes.banco_R (fst (Original.corre ps Original.Banco_novo))
  /\ Forall2 Variantes.mesma_resposta
       (snd (Original.corre ps Original.Banco_novo))
       (snd (Refatorado.corre ps Refatorado.Banco_novo)).
Proof.
  intros Hc.
  exact (VariantesFacts.corre_sim ps Original.Banco_novo OriginalFacts.inv_novo Hc).
Qed.

(** [criar_dados_mock()] followed by a statement, the listing, and calls
    that are refused. *)
Lemma variantes_concordam_mock :
  let ps := (criar_dados_mock ++
             map (pair tique)
               [Ch_extrato "1003"; Ch_listar_clientes_e_contas;
                Ch_sacar "1002" (D "900"); Ch_depositar "1001" (BOutro "abc");
                Ch_transferir "1001" "1001" (D "1");
                Ch_transferir "1001" "9999" (D "1");
                Ch_buscar_conta "9999"; Ch_abrir_conta "00000000000"])%list in
  fst (Refatorado.corre ps Refatorado.Banco_novo)
  = Variantes.banco_R (fst (Original.corre ps Original.Banco_novo))
  /\ Forall2 Variantes.mesma_resposta
       (snd (Original.corre ps Original.Banco_novo))
       (snd (Refatorado.corre ps Refatorado.Banco_novo)).
Proof.
  cbv zeta. apply variantes_concordam. vm_compute. reflexivity.
Defined.

(** The variants are not identical: on a new bank,
    [transferir("1001", "1001", 1)] raises [ValorInvalido] in the original
    variant and [EntidadeNaoEncontrada] in the refactored one. *)
Lemma variantes_nao_identicas : ~ variantes_identicas.
Proof.
  intros H.
  specialize (H [(tique, Ch_transferir "1001" "1001" (D "1"))]).
  vm_compute in H. inversion H as [|? ? ? ? Hd _]. discriminate Hd.
Qed.

(** Where else they part: the descriptions, an amount on which [quantize]
    signals, and an amount that cannot be read sent to an account that does
    not exist. *)
Lemma variantes_divergem :
  let ps := firstn 7 criar_dados_mock in
  let bo := fst (Original.corre ps Original.Banco_novo) in
  let br := fst (Refatorado.corre ps Refatorado.Banco_novo) in
  (snd (Original.Banco.extrato "1001" bo)
   = Retorna [Build_Transacao 0 "DEPOSITO" (Dec.Fin false 150000 (-2))
                "depósito" "" "1001"]
   /\ snd (Refatorado.Banco.extrato "1001" br)
     = Retorna [Build_Transacao 0 "DEPOSITO" (Dec.Fin false 150000 (-2))
                  "Depósito" "" "1001"])
  /\ (snd (Original.Banco.depositar tique "1001" (BOutro "1e26") bo)
      = Levanta DecimalInvalidOperation
      /\ snd (Refatorado.Banco.depositar tique "1001" (BOutro "1e26") br)
        = Levanta (ValorInvalido "valor inválido"))
  /\ (snd (Original.Banco.transferir tique "1001" "9999" (BOutro "abc") bo)
      = Levanta (ValorInvalido "valor inválido")
      /\ snd (Refatorado.Banco.transferir tique "1001" "9999" (BOutro "abc") br)
        = Levanta (EntidadeNaoEncontrada "conta não encontrada")).
Proof. vm_compute. repeat split. Qed.

(** ** References always have their object

    No public method of [Banco] answers [ReferenciaSemObjeto]: a method is
    run only on an account that [buscar_conta] has just found, and
    accounts are never removed. *)

Module Vivas.

Lemma depositar_viva agora v desc (c : Original.Conta) :
  snd (Original.Conta.depositar agora v desc c) <> Levanta ReferenciaSemObjeto.
Proof.
  rewrite OriginalFacts.depositar_eq.
  destruct (Dec.le v Dec.zero_int) as [[|]|]; try discriminate.
  destruct (Dec.add _ v); discriminate.
Qed.

Lemma sacar_viva agora v desc (c : Original.Conta) :
  snd (Original.Conta.sacar agora v desc c) <> Levanta ReferenciaSemObjeto.
Proof.
  rewrite OriginalFacts.sacar_eq.
  destruct (Dec.le v Dec.zero_int) as [[|]|]; try discriminate.
  destruct (Dec.lt _ v) as [[|]|]; try discriminate.
  destruct (Dec.sub _ v); discriminate.
Qed.

Lemma normaliza_viva valor :
  Original.normaliza valor <> Levanta ReferenciaSemObjeto.
Proof.
  unfold Original.normaliza, Original.Banco._to_money. desmonta.
  destruct valor as [d|s].
  - destruct (Dec.quantize_centavos d); discriminate.
  - destruct (DecStr.Decimal_de_str s) as [d|]; [|discriminate].
    destruct (Dec.quantize_centavos d); discriminate.
Qed.

Lemma na_conta_viva (p : Passo) (b : Original.Banco) :
  snd (Original.executa p b) <> Levanta ReferenciaSemObjeto.
Proof.
  destruct p as [relogio ch]. unfold Original.executa.
  destruct ch as [nm cp|cp|nu|nu vl|nu vl|og ds vl|nu|];
    rewrite VariantesFacts.responde_original; cbn [snd].
  - rewrite OriginalFacts.criar_cliente_eq. destruct (dict_get cp _); discriminate.
  - rewrite OriginalFacts.abrir_conta_eq. destruct (dict_get cp _); discriminate.
  - rewrite OriginalFacts.buscar_conta_eq. destruct (dict_get nu _); discriminate.
  - rewrite OriginalFacts.Banco_depositar_eq.
    destruct (dict_get nu _) as [c|]; [|discriminate].
    pose proof (normaliza_viva vl).
    destruct (Original.normaliza vl) as [v|e]; [|cbn [snd]; congruence].
    cbv zeta. cbn [snd].
    pose proof (depositar_viva (relogio 0%nat) v "depósito" c).
    destruct (snd (Original.Conta.depositar _ _ _ c)); congruence.
  - rewrite OriginalFacts.Banco_sacar_eq.
    destruct (dict_get nu _) as [c|]; [|discriminate].
    pose proof (normaliza_viva vl).
    destruct (Original.normaliza vl) as [v|e]; [|cbn [snd]; congruence].
    cbv zeta. cbn [snd].
    pose proof (sacar_viva (relogio 0%nat) v "saque" c).
    destruct (snd (Original.Conta.sacar _ _ _ c)); congruence.
  - rewrite OriginalFacts.transferir_eq. cbv zeta.
    destruct (String.eqb og ds); [discriminate|].
    pose proof (normaliza_viva vl).
    destruct (Original.normaliza vl) as [v|e]; [|cbn [snd]; congruence].
    destruct (dict_get og _) as [co|]; [|discriminate].
    destruct (dict_get ds _) as [cd|]; [|discriminate].
    pose proof (sacar_viva (relogio 0%nat) v ("transferência para " ++ ds)%string co).
    destruct (snd (Original.Conta.sacar _ _ _ co)); [|cbn [snd]; congruence].
    pose proof (depositar_viva (relogio 1%nat) v ("transferência de " ++ og)%string cd).
    destruct (snd (Original.Conta.depositar _ _ _ cd)); cbn [snd]; congruence.
  - rewrite OriginalFacts.extrato_eq. destruct (dict_get nu _); discriminate.
  - discriminate.
Qed.

Lemma depositar_viva_R agora v desc (c : Refatorado.Conta) :
  snd (Refatorado.Conta.depositar agora v desc c) <> Levanta ReferenciaSemObjeto.
Proof.
  rewrite RefatoradoFacts.depositar_eq_R.
  destruct (Dec.le v Dec.zero_int) as [[|]|]; try discriminate.
  destruct (Dec.add _ v); discriminate.
Qed.

Lemma sacar_viva_R agora v desc (c : Refatorado.Conta) :
  snd (Refatorado.Conta.sacar agora v desc c) <> Levanta ReferenciaSemObjeto.
Proof.
  rewrite RefatoradoFacts.sacar_eq_R.
  destruct (Dec.le v Dec.zero_int) as [[|]|]; try discriminate.
  destruct (Dec.lt _ v) as [[|]|]; try discriminate.
  destruct (Dec.sub _ v); discriminate.
Qed.

Lemma na_conta_viva_R (p : Passo) (b : Refatorado.Banco) :
  snd (Refatorado.executa p b) <> Levanta ReferenciaSemObjeto.
Proof.
  assert (Hn : forall vl, Refatorado.normaliza vl <> Levanta ReferenciaSemObjeto).
  { intros vl E. apply normaliza_levanta_R in E. discriminate. }
  destruct p as [relogio ch]. unfold Refatorado.executa.
  destruct ch as [nm cp|cp|nu|nu vl|nu vl|og ds vl|nu|];
    rewrite VariantesFacts.responde_refatorado; cbn [snd].
  - rewrite RefatoradoFacts.criar_cliente_eq_R. destruct (dict_get cp _); discriminate.
  - rewrite RefatoradoFacts.abrir_conta_eq_R. destruct (dict_get cp _); discriminate.
  - rewrite RefatoradoFacts.buscar_conta_eq_R. destruct (dict_get nu _); discriminate.
  - rewrite RefatoradoFacts.Banco_depositar_eq_R.
    destruct (dict_get nu _) as [c|]; [|discriminate].
    pose proof (Hn vl).
    destruct (Refatorado.normaliza vl) as [v|e]; [|cbn [snd]; congruence].
    cbv zeta. cbn [snd].
    pose proof (depositar_viva_R (relogio 0%nat) v "Depósito" c).
    destruct (snd (Refatorado.Conta.depositar _ _ _ c)); congruence.
  - rewrite RefatoradoFacts.Banco_sacar_eq_R.
    destruct (dict_get nu _) as [c|]; [|discriminate].
    pose proof (Hn vl).
    destruct (Refatorado.normaliza vl) as [v|e]; [|cbn [snd]; congruence].
    cbv zeta. cbn [snd].
    pose proof (sacar_viva_R (relogio 0%nat) v "Saque" c).
    destruct (snd (Refatorado.Conta.sacar _ _ _ c)); congruence.
  - rewrite RefatoradoFacts.transferir_eq_R. cbv zeta.
    destruct (dict_get og _) as [co|]; [|discriminate].
    destruct (dict_get ds _) as [cd|]; [|discriminate].
    pose proof (Hn vl).
    destruct (Refatorado.normaliza vl) as [v|e]; [|cbn [snd]; congruence].
    destruct (String.eqb _ _); [discriminate|].
    pose proof (sacar_viva_R (relogio 0%nat) v
                  ("Transferência para " ++ Refatorado.numero cd)%string co).
    destruct (snd (Refatorado.Conta.sacar _ _ _ co)); [|cbn [snd]; congruence].
    pose proof (depositar_viva_R (relogio 1%nat) v
                  ("Transferência de " ++ Refatorado.numero co)%string cd).
    destruct (snd (Refatorado.Conta.depositar _ _ _ cd)); cbn [snd]; congruence.
  - rewrite RefatoradoFacts.extrato_eq_R. destruct (dict_get nu _); discriminate.
  - discriminate.
Qed.

End Vivas.

(** The calls set apart by [Variantes.concorda] are the calls on which the
    variants part: on each of them the original variant and the refactored
    one raise exceptions of different classes. *)
Lemma variantes_discordam (relogio : nat -> datetime) (ch : Chamada)
    (b : Original.Banco) :
  Variantes.concorda b ch = false ->
  ~ Variantes.mesmo_desfecho
      (snd (Original.executa (relogio, ch) b))
      (snd (Refatorado.executa (relogio, ch) (Variantes.banco_R b))).
Proof.
  assert (Hq : forall vl, Variantes.quantiza vl = false ->
             Original.normaliza vl = Levanta DecimalInvalidOperation
             /\ Refatorado.normaliza vl = Levanta (ValorInvalido "valor inválido")).
  { intros vl H. unfold Variantes.quantiza in H.
    rewrite VariantesFacts.normaliza_sim.
    destruct (Original.normaliza vl) as [v|[]]; try discriminate.
    split; reflexivity. }
  assert (Hn : forall vl e, Original.normaliza vl = Levanta e ->
             classe e <> CEntidadeNaoEncontrada).
  { intros vl e. unfold Original.normaliza, Original.Banco._to_money. desmonta.
    destruct vl as [d|s].
    - destruct (Dec.quantize_centavos d); intros [= <-]; discriminate.
    - destruct (DecStr.Decimal_de_str s) as [d|]; [|intros [= <-]; discriminate].
      destruct (Dec.quantize_centavos d); intros [= <-]; discriminate. }
  unfold Original.executa, Refatorado.executa, Variantes.concorda,
    Variantes.registrada.
  destruct ch as [nm cp|cp|nu|nu vl|nu vl|og ds vl|nu|]; try discriminate;
    rewrite VariantesFacts.responde_original, VariantesFacts.responde_refatorado;
    cbn [snd].
  - rewrite OriginalFacts.Banco_depositar_eq, RefatoradoFacts.Banco_depositar_eq_R.
    cbn [Variantes.banco_R Refatorado._contas_por_numero].
    rewrite VariantesFacts.dict_get_map.
    destruct (dict_get nu _) as [c|]; [|discriminate]. cbn [negb orb option_map].
    intros H. destruct (Hq _ H) as [-> ->]. cbn. discriminate.
  - rewrite OriginalFacts.Banco_sacar_eq, RefatoradoFacts.Banco_sacar_eq_R.
    cbn [Variantes.banco_R Refatorado._contas_por_numero].
    rewrite VariantesFacts.dict_get_map.
    destruct (dict_get nu _) as [c|]; [|discriminate]. cbn [negb orb option_map].
    intros H. destruct (Hq _ H) as [-> ->]. cbn. discriminate.
  - rewrite OriginalFacts.transferir_eq, RefatoradoFacts.transferir_eq_R.
    cbv zeta. cbn [Variantes.banco_R Refatorado._contas_por_numero].
    rewrite !VariantesFacts.dict_get_map.
    destruct (String.eqb_spec og ds) as [->|Hod].
    + destruct (dict_get ds _) as [c|]; [discriminate|]. intros _. cbn. discriminate.
    + destruct (dict_get og _) as [co|]; cbn [andb option_map].
      * destruct (dict_get ds _) as [cd|]; cbn [option_map].
        -- intros H. destruct (Hq _ H) as [-> ->]. cbn. discriminate.
        -- destruct (Original.normaliza vl) as [v|e] eqn:E; [discriminate|].
           intros _. cbn. intros Hc. exact (Hn _ _ E Hc).
      * destruct (Original.normaliza vl) as [v|e] eqn:E; [discriminate|].
        intros _. cbn. intros Hc. exact (Hn _ _ E Hc).
Qed.

(** * Further properties of the code *)

(** ** More facts about dictionaries and lists *)

Section DictMais.
Context {V : Type}.
Implicit Types (d : dict V) (k : string) (v : V).

(** A new key goes to the end. *)
Lemma dict_set_novo k v d :
  dict_get k d = None -> dict_set k v d = (d ++ [(k, v)])%list.
Proof.
  induction d as [|[k0 v0] d IH]; cbn; [reflexivity|].
  destruct (String.eqb k k0); [discriminate|]. intros H. rewrite (IH H).
  reflexivity.
Qed.

Lemma dict_get_app k d d' :
  dict_get k (d ++ d')%list =
  match dict_get k d with Some x => Some x | None => dict_get k d' end.
Proof.
  induction d as [|[k0 v0] d IH]; cbn; [reflexivity|].
  destruct (String.eqb k k0); [reflexivity|exact IH].
Qed.

Lemma dict_set_set k v v' d : dict_set k v (dict_set k v' d) = dict_set k v d.
Proof.
  induction d as [|[k0 v0] d IH]; cbn.
  - rewrite String.eqb_refl. reflexivity.
  - destruct (String.eqb k k0) eqn:E; cbn; rewrite E; [reflexivity|].
    rewrite IH. reflexivity.
Qed.

(** Two keys, one of which is there, are set in either order. *)
Lemma dict_set_comm k k' v v' v0 d :
  k <> k' -> dict_get k d = Some v0 ->
  dict_set k v (dict_set k' v' d) = dict_set k' v' (dict_set k v d).
Proof.
  intros Hne. induction d as [|[k0 w] d IH]; cbn; [discriminate|].
  destruct (String.eqb_spec k k0) as [->|Hk].
  - intros _. destruct (String.eqb_spec k' k0) as [->|Hk']; [contradiction|].
    cbn. rewrite String.eqb_refl.
    destruct (String.eqb_spec k' k0); [contradiction|]. reflexivity.
  - intros Hg. destruct (String.eqb_spec k' k0) as [->|Hk']; cbn.
    + destruct (String.eqb_spec k k0); [contradiction|].
      rewrite String.eqb_refl. reflexivity.
    + destruct (String.eqb_spec k k0); [contradiction|].
      destruct (String.eqb_spec k' k0); [contradiction|].
      rewrite (IH Hg). reflexivity.
Qed.

Lemma dict_set_length k v v0 d :
  dict_get k d = Some v0 -> List.length (dict_set k v d) = List.length d.
Proof.
  induction d as [|[k0 w] d IH]; cbn; [discriminate|].
  destruct (String.eqb k k0); [reflexivity|]. intros H. cbn. rewrite (IH H).
  reflexivity.
Qed.

(** Where a key is, and what setting it does there. *)
Lemma dict_set_em k v v0 d :
  dict_get k d = Some v0 ->
  exists d1 d2,
    d = (d1 ++ (k, v0) :: d2)%list
    /\ dict_get k d1 = None
    /\ dict_set k v d = (d1 ++ (k, v) :: d2)%list.
Proof.
  induction d as [|[k0 w] d IH]; cbn; [discriminate|].
  destruct (String.eqb_spec k k0) as [->|Hk].
  - intros [= ->]. exists [], d. repeat split.
  - intros Hg. destruct (IH Hg) as (d1 & d2 & -> & Hn & Hs).
    exists ((k0, w) :: d1), d2. cbn.
    destruct (String.eqb_spec k k0); [contradiction|].
    rewrite Hs. repeat split. exact Hn.
Qed.

Lemma dict_get_None_In k d : dict_get k d = None -> ~ In k (dict_keys d).
Proof.
  induction d as [|[k0 w] d IH]; cbn; [tauto|].
  destruct (String.eqb_spec k k0) as [->|Hk]; [discriminate|].
  intros H [E|HIn]; [congruence|exact (IH H HIn)].
Qed.

Lemma dict_In_get k v d :
  NoDup (dict_keys d) -> In (k, v) d -> dict_get k d = Some v.
Proof.
  induction d as [|[k0 w] d IH]; cbn; [tauto|].
  intros Hnd [E|HIn].
  - injection E as -> ->. rewrite String.eqb_refl. reflexivity.
  - inversion Hnd as [|? ? Hnot Hnd']; subst.
    destruct (String.eqb_spec k k0) as [->|Hk].
    + exfalso. apply Hnot. change k0 with (fst (k0, v)).
      apply in_map. exact HIn.
    + exact (IH Hnd' HIn).
Qed.

Lemma dict_values_set_In k v x d :
  In x (dict_values (dict_set k v d)) -> x = v \/ In x (dict_values d).
Proof.
  induction d as [|[k0 w] d IH]; cbn.
  - intros [<-|[]]. left. reflexivity.
  - destruct (String.eqb k k0); cbn.
    + intros [<-|H]; [left; reflexivity|right; right; exact H].
    + intros [<-|H]; [right; left; reflexivity|].
      destruct (IH H) as [->|H']; [left; reflexivity|right; right; exact H'].
Qed.

End DictMais.

Lemma intervalo_length a n : List.length (intervalo a n) = n.
Proof.
  revert a. induction n as [|n IH]; intros a; cbn; [reflexivity|].
  rewrite IH. reflexivity.
Qed.

Lemma intervalo_fim a n :
  intervalo a (S n) = (intervalo a n ++ [a + Z.of_nat n])%list.
Proof.
  revert a. induction n as [|n IH]; intros a.
  - cbn. rewrite Z.add_0_r. reflexivity.
  - change (intervalo a (S (S n))) with (a :: intervalo (a + 1) (S n)).
    rewrite IH. cbn [intervalo app]. do 3 f_equal. lia.
Qed.

Lemma intervalo_In a n z : In z (intervalo a n) <-> a <= z < a + Z.of_nat n.
Proof.
  revert a. induction n as [|n IH]; intros a; cbn [intervalo In].
  - split; [tauto|lia].
  - rewrite IH. lia.
Qed.

Lemma intervalo_NoDup a n : NoDup (intervalo a n).
Proof.
  revert a. induction n as [|n IH]; intros a; cbn; constructor; [|apply IH].
  rewrite intervalo_In. lia.
Qed.

(** ** The steps of a bank in use *)

Module PassosOriginalFacts.
Import Original OriginalFacts TransferenciaOriginal ExtratoOriginal PassosOriginal.

(** A transfer on a bank in use: it leaves the bank as it was, or it has
    gone through. *)
Lemma transferir_forma relogio o d valor (b : Banco) :
  inv b ->
  fst (Banco.transferir relogio o d valor b) = b
  \/ exists co cd v resto soma,
       o <> d
       /\ dict_get o (_contas_por_numero b) = Some co
       /\ dict_get d (_contas_por_numero b) = Some cd
       /\ normaliza valor = Retorna v
       /\ positivo v
       /\ Dec.lt (saldo co) v = Dec.Valor false
       /\ Dec.sub (saldo co) v = Dec.Valor resto
       /\ Dec.add (saldo cd) v = Dec.Valor soma
       /\ Banco.transferir relogio o d valor b =
          (com_contas
             (dict_set d
                (historico_append
                   (Build_Transacao (relogio 2%nat) "TRANSFERENCIA" v
                      "transferência" o d)
                   (historico_append
                      (Build_Transacao (relogio 1%nat) "DEPOSITO" v
                         ("transferência de " ++ o) "" d)
                      (com_saldo soma cd)))
                (dict_set o
                   (historico_append
                      (Build_Transacao (relogio 2%nat) "TRANSFERENCIA" v
                         "transferência" o d)
                      (historico_append
                         (Build_Transacao (relogio 0%nat) "SAQUE" v
                            ("transferência para " ++ d) o "")
                         (com_saldo resto co)))
                   (_contas_por_numero b))) b, Retorna tt).
Proof.
  intros Hb. pose proof (transferir_atomica relogio o d valor b Hb) as Hat.
  rewrite transferir_eq in Hat |- *. cbv zeta in Hat |- *.
  destruct (String.eqb_spec o d) as [->|Hod]; [left; reflexivity|].
  destruct (normaliza valor) as [v|e] eqn:Hv; [|left; reflexivity].
  pose proof (normaliza_dinheiro _ _ Hv) as Hdin.
  destruct (dict_get o _) as [co|] eqn:Ho; [|left; reflexivity].
  destruct (dict_get d _) as [cd|] eqn:Hd; [|left; reflexivity].
  destruct (inv_conta _ _ _ Hb Ho) as (Hno & _).
  destruct (inv_conta _ _ _ Hb Hd) as (Hnd & Hscd & _).
  destruct (snd (Conta.sacar _ _ _ co)) as [[]|e] eqn:H1.
  2:{ left. cbn [fst]. exact Hat. }
  destruct (sacar_sucesso _ _ _ _ H1) as (Hle & Hlt & resto & Hsub & Hco1).
  destruct (depositar_sucesso (relogio 1%nat) v ("transferência de " ++ o)%string
              cd Hle Hdin Hscd) as (soma & Hadd & Hdep).
  right. exists co, cd, v, resto, soma.
  repeat (split; [first [assumption|reflexivity|split; assumption]|]).
  rewrite Hdep. cbn [fst snd]. rewrite Hco1, Hno, Hnd.
  erewrite (dict_set_comm o d) by (congruence || apply dict_get_set_eq).
  rewrite !dict_set_set. reflexivity.
Qed.

(** Every call takes a bank in use along one of the steps. *)
Lemma executa_transicao (p : Passo) (b : Banco) :
  inv b -> transicao b (fst (executa p b)).
Proof.
  intros Hb. destruct p as [relogio ch]. unfold executa, responde.
  destruct ch as [nm cp|cp|nu|nu vl|nu vl|og ds vl|nu|]; unfold bind.
  - rewrite criar_cliente_eq.
    destruct (dict_get cp _) eqn:E; [apply T_nada|]. cbn [fst ret].
    rewrite (dict_set_novo _ _ _ E). apply T_cliente. exact E.
  - rewrite abrir_conta_eq.
    destruct (dict_get cp _) as [cl|] eqn:E; [|apply T_nada]. cbn [fst ret].
    rewrite (dict_set_novo _ _ _ (numero_novo b Hb)).
    apply (T_conta b cp cl); [exact E|exact (numero_novo b Hb)].
  - rewrite buscar_conta_eq. destruct (dict_get nu _); apply T_nada.
  - rewrite Banco_depositar_eq.
    destruct (dict_get nu _) as [c|] eqn:Hc; [|apply T_nada].
    destruct (normaliza vl) as [v|e] eqn:Hv; [|apply T_nada]. cbv zeta.
    destruct (inv_conta _ _ _ Hb Hc) as (Hk & _).
    assert (Hx : transicao b
              (com_contas (dict_set nu
                 (fst (Conta.depositar (relogio 0%nat) v "depósito" c))
                 (_contas_por_numero b)) b)).
    { rewrite depositar_eq.
      destruct (Dec.le v Dec.zero_int) as [[|]|] eqn:Hle; cbn [fst];
        try (rewrite (com_contas_mesma _ _ _ Hc); apply T_nada).
      destruct (Dec.add (saldo c) v) as [soma|] eqn:Ha; cbn [fst];
        [|rewrite (com_contas_mesma _ _ _ Hc); apply T_nada].
      rewrite Hk. apply T_deposito; [exact Hc| |exact Ha].
      split; [exact (normaliza_dinheiro _ _ Hv)|exact Hle]. }
    destruct (snd (Conta.depositar _ _ _ c)); exact Hx.
  - rewrite Banco_sacar_eq.
    destruct (dict_get nu _) as [c|] eqn:Hc; [|apply T_nada].
    destruct (normaliza vl) as [v|e] eqn:Hv; [|apply T_nada]. cbv zeta.
    destruct (inv_conta _ _ _ Hb Hc) as (Hk & _).
    assert (Hx : transicao b
              (com_contas (dict_set nu
                 (fst (Conta.sacar (relogio 0%nat) v "saque" c))
                 (_contas_por_numero b)) b)).
    { rewrite sacar_eq.
      destruct (Dec.le v Dec.zero_int) as [[|]|] eqn:Hle; cbn [fst];
        try (rewrite (com_contas_mesma _ _ _ Hc); apply T_nada).
      destruct (Dec.lt (saldo c) v) as [[|]|] eqn:Hlt; cbn [fst];
        try (rewrite (com_contas_mesma _ _ _ Hc); apply T_nada).
      destruct (Dec.sub (saldo c) v) as [resto|] eqn:Ha; cbn [fst];
        [|rewrite (com_contas_mesma _ _ _ Hc); apply T_nada].
      rewrite Hk. apply T_saque; [exact Hc| |exact Hlt|exact Ha].
      split; [exact (normaliza_dinheiro _ _ Hv)|exact Hle]. }
    destruct (snd (Conta.sacar _ _ _ c)); exact Hx.
  - destruct (transferir_forma relogio og ds vl b Hb)
      as [E|(co & cd & v & resto & soma & Hod & Ho & Hd & Hv & Hp & Hlt & Hsub
             & Hadd & E)].
    + destruct (Banco.transferir relogio og ds vl b) as [b' [[]|e]];
        cbn [fst ret] in *; subst b'; apply T_nada.
    + rewrite E. cbn [fst ret]. apply T_transferencia; assumption.
  - rewrite extrato_eq. destruct (dict_get nu _); apply T_nada.
  - apply T_nada.
Qed.

(** What the steps keep, every bank in use has. *)
Lemma corre_transicao (P : Banco -> Prop) :
  (forall b b', inv b -> P b -> transicao b b' -> P b') ->
  forall ps b, inv b -> P b -> P (fst (corre ps b)).
Proof.
  intros Hstep ps. induction ps as [|p ps IH]; intros b Hb HP; [exact HP|].
  cbn [corre].
  pose proof (executa_inv p b Hb) as Hb1.
  pose proof (Hstep _ _ Hb HP (executa_transicao p b Hb)) as HP1.
  destruct (executa p b) as [b1 r]. cbn [fst] in Hb1, HP1.
  specialize (IH b1 Hb1 HP1). destruct (corre ps b1) as [b2 rs]. exact IH.
Qed.

(** A relation that the steps go along holds between a bank and what a
    program makes of it. *)
Lemma corre_relacao (R : Banco -> Banco -> Prop) :
  (forall b, R b b) ->
  (forall b1 b2 b3, R b1 b2 -> R b2 b3 -> R b1 b3) ->
  (forall b b', inv b -> transicao b b' -> R b b') ->
  forall ps b, inv b -> R b (fst (corre ps b)).
Proof.
  intros Hr Ht Hstep ps b Hb.
  apply (corre_transicao (fun b' => R b b')); [|exact Hb|apply Hr].
  intros b1 b2 Hb1 HR Hs. exact (Ht _ _ _ HR (Hstep _ _ Hb1 Hs)).
Qed.

Lemma corre_app (ps qs : list Passo) (b : Banco) :
  fst (corre (ps ++ qs) b) = fst (corre qs (fst (corre ps b))).
Proof.
  revert b. induction ps as [|p ps IH]; intros b; [reflexivity|].
  cbn [corre app]. destruct (executa p b) as [b1 r]. specialize (IH b1).
  destruct (corre (ps ++ qs) b1) as [b2 rs]. destruct (corre ps b1) as [b3 rs'].
  exact IH.
Qed.

End PassosOriginalFacts.

(** ** The steps of a bank in use *)

Module PassosRefatoradoFacts.
Import Refatorado RefatoradoFacts TransferenciaRefatorado ExtratoRefatorado PassosRefatorado.

(** A transfer on a bank in use: it leaves the bank as it was, or it has
    gone through. *)
Lemma transferir_forma_R relogio o d valor (b : Banco) :
  inv b ->
  fst (Banco.transferir relogio o d valor b) = b
  \/ exists co cd v resto soma,
       o <> d
       /\ dict_get o (_contas_por_numero b) = Some co
       /\ dict_get d (_contas_por_numero b) = Some cd
       /\ normaliza valor = Retorna v
       /\ positivo v
       /\ Dec.lt (saldo co) v = Dec.Valor false
       /\ Dec.sub (saldo co) v = Dec.Valor resto
       /\ Dec.add (saldo cd) v = Dec.Valor soma
       /\ Banco.transferir relogio o d valor b =
          (com_contas
             (dict_set d
                (registra
                   (Build_Transacao (relogio 2%nat) "TRANSFERENCIA" v
                      "Transferência" o d)
                   (registra
                      (Build_Transacao (relogio 1%nat) "DEPOSITO" v
                         ("Transferência de " ++ o) "" d)
                      (com_saldo soma cd)))
                (dict_set o
                   (registra
                      (Build_Transacao (relogio 2%nat) "TRANSFERENCIA" v
                         "Transferência" o d)
                      (registra
                         (Build_Transacao (relogio 0%nat) "SAQUE" v
                            ("Transferência para " ++ d) o "")
                         (com_saldo resto co)))
                   (_contas_por_numero b))) b, Retorna tt).
Proof.
  intros Hb. pose proof (transferir_atomica_R relogio o d valor b Hb) as Hat.
  rewrite transferir_eq_R in Hat |- *. cbv zeta in Hat |- *.
  destruct (dict_get o _) as [co|] eqn:Ho; [|left; reflexivity].
  destruct (dict_get d _) as [cd|] eqn:Hd; [|left; reflexivity].
  destruct (normaliza valor) as [v|e] eqn:Hv; [|left; reflexivity].
  pose proof (normaliza_dinheiro_R _ _ Hv) as Hdin.
  destruct (inv_conta_R _ _ _ Hb Ho) as (Hno & _).
  destruct (inv_conta_R _ _ _ Hb Hd) as (Hnd & Hscd & _).
  rewrite Hno, Hnd in Hat |- *.
  destruct (String.eqb_spec o d) as [->|Hod]; [left; reflexivity|].
  destruct (snd (Conta.sacar _ _ _ co)) as [[]|e] eqn:H1.
  2:{ left. cbn [fst]. exact Hat. }
  destruct (sacar_sucesso_R _ _ _ _ H1) as (Hle & Hlt & resto & Hsub & Hco1).
  destruct (depositar_sucesso_R (relogio 1%nat) v ("Transferência de " ++ o)%string
              cd Hle Hdin Hscd) as (soma & Hadd & Hdep).
  right. exists co, cd, v, resto, soma.
  repeat (split; [first [assumption|reflexivity|split; assumption]|]).
  rewrite Hdep. cbn [fst snd]. rewrite Hco1, Hno, Hnd.
  erewrite (dict_set_comm o d) by (congruence || apply dict_get_set_eq).
  rewrite !dict_set_set. reflexivity.
Qed.

(** Every call takes a bank in use along one of the steps. *)
Lemma executa_transicao_R (p : Passo) (b : Banco) :
  inv b -> transicao b (fst (executa p b)).
Proof.
  intros Hb. destruct p as [relogio ch]. unfold executa, responde.
  destruct ch as [nm cp|cp|nu|nu vl|nu vl|og ds vl|nu|]; unfold bind.
  - rewrite criar_cliente_eq_R.
    destruct (dict_get cp _) eqn:E; [apply T_nada|]. cbn [fst ret].
    rewrite (dict_set_novo _ _ _ E). apply T_cliente. exact E.
  - rewrite abrir_conta_eq_R.
    destruct (dict_get cp _) as [cl|] eqn:E; [|apply T_nada]. cbn [fst ret].
    rewrite (dict_set_novo _ _ _ (numero_novo_R b Hb)).
    apply (T_conta b cp cl); [exact E|exact (numero_novo_R b Hb)].
  - rewrite buscar_conta_eq_R. destruct (dict_get nu _); apply T_nada.
  - rewrite Banco_depositar_eq_R.
    destruct (dict_get nu _) as [c|] eqn:Hc; [|apply T_nada].
    destruct (normaliza vl) as [v|e] eqn:Hv; [|apply T_nada]. cbv zeta.
    destruct (inv_conta_R _ _ _ Hb Hc) as (Hk & _).
    assert (Hx : transicao b
              (com_contas (dict_set nu
                 (fst (Conta.depositar (relogio 0%nat) v "Depósito" c))
                 (_contas_por_numero b)) b)).
    { rewrite depositar_eq_R.
      destruct (Dec.le v Dec.zero_int) as [[|]|] eqn:Hle; cbn [fst];
        try (rewrite (com_contas_mesma_R _ _ _ Hc); apply T_nada).
      destruct (Dec.add (saldo c) v) as [soma|] eqn:Ha; cbn [fst];
        [|rewrite (com_contas_mesma_R _ _ _ Hc); apply T_nada].
      rewrite Hk. apply T_deposito; [exact Hc| |exact Ha].
      split; [exact (normaliza_dinheiro_R _ _ Hv)|exact Hle]. }
    destruct (snd (Conta.depositar _ _ _ c)); exact Hx.
  - rewrite Banco_sacar_eq_R.
    destruct (dict_get nu _) as [c|] eqn:Hc; [|apply T_nada].
    destruct (normaliza vl) as [v|e] eqn:Hv; [|apply T_nada]. cbv zeta.
    destruct (inv_conta_R _ _ _ Hb Hc) as (Hk & _).
    assert (Hx : transicao b
              (com_contas (dict_set nu
                 (fst (Conta.sacar (relogio 0%nat) v "Saque" c))
                 (_contas_por_numero b)) b)).
    { rewrite sacar_eq_R.
      destruct (Dec.le v Dec.zero_int) as [[|]|] eqn:Hle; cbn [fst];
        try (rewrite (com_contas_mesma_R _ _ _ Hc); apply T_nada).
      destruct (Dec.lt (saldo c) v) as [[|]|] eqn:Hlt; cbn [fst];
        try (rewrite (com_contas_mesma_R _ _ _ Hc); apply T_nada).
      destruct (Dec.sub (saldo c) v) as [resto|] eqn:Ha; cbn [fst];
        [|rewrite (com_contas_mesma_R _ _ _ Hc); apply T_nada].
      rewrite Hk. apply T_saque; [exact Hc| |exact Hlt|exact Ha].
      split; [exact (normaliza_dinheiro_R _ _ Hv)|exact Hle]. }
    destruct (snd (Conta.sacar _ _ _ c)); exact Hx.
  - destruct (transferir_forma_R relogio og ds vl b Hb)
      as [E|(co & cd & v & resto & soma & Hod & Ho & Hd & Hv & Hp & Hlt & Hsub
             & Hadd & E)].
    + destruct (Banco.transferir relogio og ds vl b) as [b' [[]|e]];
        cbn [fst ret] in *; subst b'; apply T_nada.
    + rewrite E. cbn [fst ret]. apply T_transferencia; assumption.
  - rewrite extrato_eq_R. destruct (dict_get nu _); apply T_nada.
  - apply T_nada.
Qed.

(** What the steps keep, every bank in use has. *)
Lemma corre_transicao_R (P : Banco -> Prop) :
  (forall b b', inv b -> P b -> transicao b b' -> P b') ->
  forall ps b, inv b -> P b -> P (fst (corre ps b)).
Proof.
  intros Hstep ps. induction ps as [|p ps IH]; intros b Hb HP; [exact HP|].
  cbn [corre].
  pose proof (executa_inv_R p b Hb) as Hb1.
  pose proof (Hstep _ _ Hb HP (executa_transicao_R p b Hb)) as HP1.
  destruct (executa p b) as [b1 r]. cbn [fst] in Hb1, HP1.
  specialize (IH b1 Hb1 HP1). destruct (corre ps b1) as [b2 rs]. exact IH.
Qed.

(** A relation that the steps go along holds between a bank and what a
    program makes of it. *)
Lemma corre_relacao_R (R : Banco -> Banco -> Prop) :
  (forall b, R b b) ->
  (forall b1 b2 b3, R b1 b2 -> R b2 b3 -> R b1 b3) ->
  (forall b b', inv b -> transicao b b' -> R b b') ->
  forall ps b, inv b -> R b (fst (corre ps b)).
Proof.
  intros Hr Ht Hstep ps b Hb.
  apply (corre_transicao_R (fun b' => R b b')); [|exact Hb|apply Hr].
  intros b1 b2 Hb1 HR Hs. exact (Ht _ _ _ HR (Hstep _ _ Hb1 Hs)).
Qed.

Lemma corre_app_R (ps qs : list Passo) (b : Banco) :
  fst (corre (ps ++ qs) b) = fst (corre qs (fst (corre ps b))).
Proof.
  revert b. induction ps as [|p ps IH]; intros b; [reflexivity|].
  cbn [corre app]. destruct (executa p b) as [b1 r]. specialize (IH b1).
  destruct (corre (ps ++ qs) b1) as [b2 rs]. destruct (corre ps b1) as [b3 rs'].
  exact IH.
Qed.

End PassosRefatoradoFacts.

(** ** What every bank in use keeps *)

Module InvariantesOriginal.
Import Original OriginalFacts ExtratoOriginal PassosOriginal PassosOriginalFacts.

(** The account that a method leaves: what [com_saldo] and
    [historico_append] keep and change. *)
Lemma registro_append t (c : Conta) :
  registro (historico_append t c) = (registro c ++ [t])%list.
Proof. reflexivity. Qed.

Lemma registro_com_saldo s (c : Conta) : registro (com_saldo s c) = registro c.
Proof. reflexivity. Qed.

Lemma saldo_append t (c : Conta) : saldo (historico_append t c) = saldo c.
Proof. reflexivity. Qed.

Lemma saldo_com_saldo s (c : Conta) : saldo (com_saldo s c) = s.
Proof. reflexivity. Qed.

Lemma numero_append t (c : Conta) : numero (historico_append t c) = numero c.
Proof. reflexivity. Qed.

Lemma numero_com_saldo s (c : Conta) : numero (com_saldo s c) = numero c.
Proof. reflexivity. Qed.

Lemma cliente_append t (c : Conta) : cliente (historico_append t c) = cliente c.
Proof. reflexivity. Qed.

Lemma cliente_com_saldo s (c : Conta) : cliente (com_saldo s c) = cliente c.
Proof. reflexivity. Qed.

Lemma registro_nova n cl : registro (Conta_nova n cl) = [].
Proof. reflexivity. Qed.

Ltac campos :=
  repeat first
    [ rewrite registro_append | rewrite registro_com_saldo
    | rewrite saldo_append | rewrite saldo_com_saldo
    | rewrite numero_append | rewrite numero_com_saldo
    | rewrite cliente_append | rewrite cliente_com_saldo ].

Ltac campos_em H :=
  repeat first
    [ rewrite registro_append in H | rewrite registro_com_saldo in H
    | rewrite saldo_append in H | rewrite saldo_com_saldo in H
    | rewrite numero_append in H | rewrite numero_com_saldo in H
    | rewrite cliente_append in H | rewrite cliente_com_saldo in H ].

(** *** Account numbers *)

Lemma numeros_em_sequencia_passo (b b' : Banco) :
  numeros_em_sequencia b -> transicao b b' -> numeros_em_sequencia b'.
Proof.
  intros [Hk Hs] Ht. unfold numeros_em_sequencia.
  destruct Ht as [|nm cp Hn|cp cl Hc Hn|n c agora v desc soma Hc Hv Ha
                 |n c agora v desc resto Hc Hv Hlt Ha
                 |o d co cd t0 t1 t2 v desc0 desc1 desc2 resto soma Hod Ho Hd Hv Hlt Hsub Hadd];
    cbn [_contas_por_numero _seq_conta com_contas].
  - split; assumption.
  - split; assumption.
  - unfold dict_keys in *. rewrite map_app, length_app. cbn [List.length map fst].
    rewrite Nat.add_1_r, intervalo_fim, map_app, Hk, Hs. cbn [map].
    split; [reflexivity|lia].
  - rewrite (dict_keys_set _ _ _ _ Hc), (dict_set_length _ _ _ _ Hc).
    split; assumption.
  - rewrite (dict_keys_set _ _ _ _ Hc), (dict_set_length _ _ _ _ Hc).
    split; assumption.
  - assert (Hd' : dict_get d (dict_set o
               (historico_append (Build_Transacao t2 "TRANSFERENCIA" v desc2 o d)
                  (historico_append (Build_Transacao t0 "SAQUE" v desc0 o "")
                     (com_saldo resto co)))
               (_contas_por_numero b)) = Some cd).
    { rewrite dict_get_set_ne by congruence. exact Hd. }
    rewrite (dict_keys_set _ _ _ _ Hd'), (dict_set_length _ _ _ _ Hd').
    rewrite (dict_keys_set _ _ _ _ Ho), (dict_set_length _ _ _ _ Ho).
    split; assumption.
Qed.

Lemma numeros_em_sequencia_sempre (ps : list Passo) :
  numeros_em_sequencia (fst (corre ps Banco_novo)).
Proof.
  apply (corre_transicao numeros_em_sequencia).
  - intros b b' _. apply numeros_em_sequencia_passo.
  - apply inv_novo.
  - split; reflexivity.
Qed.

(** *** Customers *)

Lemma clientes_em_sequencia_passo (b b' : Banco) :
  clientes_em_sequencia b -> transicao b b' -> clientes_em_sequencia b'.
Proof.
  intros [Hk Hs] Ht. unfold clientes_em_sequencia.
  destruct Ht as [|nm cp Hn|cp cl Hc Hn|n c agora v desc soma Hc Hv Ha
                 |n c agora v desc resto Hc Hv Hlt Ha
                 |o d co cd t0 t1 t2 v desc0 desc1 desc2 resto soma Hod Ho Hd Hv Hlt Hsub Hadd];
    cbn [_clientes_por_cpf _seq_cliente com_contas]; try (split; assumption).
  rewrite map_app, length_app. cbn [List.length map snd id].
  rewrite Nat.add_1_r, intervalo_fim, Hk, Hs. split; [reflexivity|lia].
Qed.

Lemma clientes_em_sequencia_sempre (ps : list Passo) :
  clientes_em_sequencia (fst (corre ps Banco_novo)).
Proof.
  apply (corre_transicao clientes_em_sequencia).
  - intros b b' _. apply clientes_em_sequencia_passo.
  - apply inv_novo.
  - split; reflexivity.
Qed.

(** *** The owner of an account is a customer of the bank *)

Lemma donos_registrados_passo (b b' : Banco) :
  inv b -> donos_registrados b -> transicao b b' -> donos_registrados b'.
Proof.
  intros Hb H Ht. unfold donos_registrados in *.
  destruct Ht as [|nm cp Hn|cp cl Hc Hn|n c agora v desc soma Hc Hv Ha
                 |n c agora v desc resto Hc Hv Hlt Ha
                 |o d co cd t0 t1 t2 v desc0 desc1 desc2 resto soma Hod Ho Hd Hv Hlt Hsub Hadd];
    cbn [_clientes_por_cpf _contas_por_numero com_contas].
  - exact H.
  - eapply Forall_impl; [|exact H]. intros kc Hkc. cbn beta.
    rewrite dict_get_app, Hkc. reflexivity.
  - apply Forall_app. split; [exact H|]. constructor; [|constructor].
    cbn [snd cliente Conta_nova].
    pose proof (Forall_dict_get _ _ _ _ (proj2 Hb) Hc) as Hcp. cbn in Hcp.
    rewrite Hcp. exact Hc.
  - apply Forall_dict_set; [exact H|]. cbn [snd]. campos.
    exact (Forall_dict_get _ _ _ _ H Hc).
  - apply Forall_dict_set; [exact H|]. cbn [snd]. campos.
    exact (Forall_dict_get _ _ _ _ H Hc).
  - apply Forall_dict_set; [apply Forall_dict_set; [exact H|]|]; cbn [snd]; campos.
    + exact (Forall_dict_get _ _ _ _ H Ho).
    + exact (Forall_dict_get _ _ _ _ H Hd).
Qed.

Lemma donos_registrados_sempre (ps : list Passo) :
  donos_registrados (fst (corre ps Banco_novo)).
Proof.
  apply (corre_transicao donos_registrados).
  - apply donos_registrados_passo.
  - apply inv_novo.
  - constructor.
Qed.

(** *** The shape of the logs *)

Lemma registros_bem_formados_passo (b b' : Banco) :
  registros_bem_formados b -> transicao b b' -> registros_bem_formados b'.
Proof.
  intros H Ht. unfold registros_bem_formados in *.
  destruct Ht as [|nm cp Hn|cp cl Hc Hn|n c agora v desc soma Hc Hv Ha
                 |n c agora v desc resto Hc Hv Hlt Ha
                 |o d co cd t0 t1 t2 v desc0 desc1 desc2 resto soma Hod Ho Hd Hv Hlt Hsub Hadd];
    cbn [_contas_por_numero com_contas].
  - exact H.
  - exact H.
  - apply Forall_app. split; [exact H|]. constructor; [|constructor].
    cbn [fst snd]. rewrite registro_nova. constructor.
  - apply Forall_dict_set; [exact H|]. cbn [fst snd]. campos.
    apply BF_deposito; [exact (Forall_dict_get _ _ _ _ H Hc)|].
    repeat split; try reflexivity; apply Hv.
  - apply Forall_dict_set; [exact H|]. cbn [fst snd]. campos.
    apply BF_saque; [exact (Forall_dict_get _ _ _ _ H Hc)|].
    repeat split; try reflexivity; apply Hv.
  - apply Forall_dict_set; [apply Forall_dict_set; [exact H|]|];
      cbn [fst snd]; campos; rewrite <- app_assoc; cbn [app].
    + apply BF_enviada; [exact (Forall_dict_get _ _ _ _ H Ho)| | | |];
        try reflexivity.
      * repeat split; try reflexivity; apply Hv.
      * repeat split; try reflexivity; try apply Hv. exact Hod.
    + apply BF_recebida; [exact (Forall_dict_get _ _ _ _ H Hd)| | | |];
        try reflexivity.
      * repeat split; try reflexivity; apply Hv.
      * repeat split; try reflexivity; try apply Hv. exact Hod.
Qed.

Lemma registros_bem_formados_sempre (ps : list Passo) :
  registros_bem_formados (fst (corre ps Banco_novo)).
Proof.
  apply (corre_transicao registros_bem_formados).
  - intros b b' _. apply registros_bem_formados_passo.
  - apply inv_novo.
  - constructor.
Qed.

End InvariantesOriginal.

(** ** What every bank in use keeps *)

Module InvariantesRefatorado.
Import Refatorado RefatoradoFacts ExtratoRefatorado PassosRefatorado PassosRefatoradoFacts.

(** The account that a method leaves: what [com_saldo] and
    [registra] keep and change. *)
Lemma registro_append_R t (c : Conta) :
  registro (registra t c) = (registro c ++ [t])%list.
Proof. reflexivity. Qed.

Lemma registro_com_saldo_R s (c : Conta) : registro (com_saldo s c) = registro c.
Proof. reflexivity. Qed.

Lemma saldo_append_R t (c : Conta) : saldo (registra t c) = saldo c.
Proof. reflexivity. Qed.

Lemma saldo_com_saldo_R s (c : Conta) : saldo (com_saldo s c) = s.
Proof. reflexivity. Qed.

Lemma numero_append_R t (c : Conta) : numero (registra t c) = numero c.
Proof. reflexivity. Qed.

Lemma numero_com_saldo_R s (c : Conta) : numero (com_saldo s c) = numero c.
Proof. reflexivity. Qed.

Lemma cliente_append_R t (c : Conta) : cliente (registra t c) = cliente c.
Proof. reflexivity. Qed.

Lemma cliente_com_saldo_R s (c : Conta) : cliente (com_saldo s c) = cliente c.
Proof. reflexivity. Qed.

Lemma registro_nova_R n cl : registro (Conta_nova n cl) = [].
Proof. reflexivity. Qed.

Ltac campos :=
  repeat first
    [ rewrite registro_append_R | rewrite registro_com_saldo_R
    | rewrite saldo_append_R | rewrite saldo_com_saldo_R
    | rewrite numero_append_R | rewrite numero_com_saldo_R
    | rewrite cliente_append_R | rewrite cliente_com_saldo_R ].

Ltac campos_em H :=
  repeat first
    [ rewrite registro_append_R in H | rewrite registro_com_saldo_R in H
    | rewrite saldo_append_R in H | rewrite saldo_com_saldo_R in H
    | rewrite numero_append_R in H | rewrite numero_com_saldo_R in H
    | rewrite cliente_append_R in H | rewrite cliente_com_saldo_R in H ].

(** *** Account numbers *)

Lemma numeros_em_sequencia_passo_R (b b' : Banco) :
  numeros_em_sequencia b -> transicao b b' -> numeros_em_sequencia b'.
Proof.
  intros [Hk Hs] Ht. unfold numeros_em_sequencia.
  destruct Ht as [|nm cp Hn|cp cl Hc Hn|n c agora v desc soma Hc Hv Ha
                 |n c agora v desc resto Hc Hv Hlt Ha
                 |o d co cd t0 t1 t2 v desc0 desc1 desc2 resto soma Hod Ho Hd Hv Hlt Hsub Hadd];
    cbn [_contas_por_numero _seq_conta com_contas].
  - split; assumption.
  - split; assumption.
  - unfold dict_keys in *. rewrite map_app, length_app. cbn [List.length map fst].
    rewrite Nat.add_1_r, intervalo_fim, map_app, Hk, Hs. cbn [map].
    split; [reflexivity|lia].
  - rewrite (dict_keys_set _ _ _ _ Hc), (dict_set_length _ _ _ _ Hc).
    split; assumption.
  - rewrite (dict_keys_set _ _ _ _ Hc), (dict_set_length _ _ _ _ Hc).
    split; assumption.
  - assert (Hd' : dict_get d (dict_set o
               (registra (Build_Transacao t2 "TRANSFERENCIA" v desc2 o d)
                  (registra (Build_Transacao t0 "SAQUE" v desc0 o "")
                     (com_saldo resto co)))
               (_contas_por_numero b)) = Some cd).
    { rewrite dict_get_set_ne by congruence. exact Hd. }
    rewrite (dict_keys_set _ _ _ _ Hd'), (dict_set_length _ _ _ _ Hd').
    rewrite (dict_keys_set _ _ _ _ Ho), (dict_set_length _ _ _ _ Ho).
    split; assumption.
Qed.

Lemma numeros_em_sequencia_sempre_R (ps : list Passo) :
  numeros_em_sequencia (fst (corre ps Banco_novo)).
Proof.
  apply (corre_transicao_R numeros_em_sequencia).
  - intros b b' _. apply numeros_em_sequencia_passo_R.
  - apply inv_novo_R.
  - split; reflexivity.
Qed.

(** *** Customers *)

Lemma clientes_em_sequencia_passo_R (b b' : Banco) :
  clientes_em_sequencia b -> transicao b b' -> clientes_em_sequencia b'.
Proof.
  intros [Hk Hs] Ht. unfold clientes_em_sequencia.
  destruct Ht as [|nm cp Hn|cp cl Hc Hn|n c agora v desc soma Hc Hv Ha
                 |n c agora v desc resto Hc Hv Hlt Ha
                 |o d co cd t0 t1 t2 v desc0 desc1 desc2 resto soma Hod Ho Hd Hv Hlt Hsub Hadd];
    cbn [_clientes_por_cpf _seq_cliente com_contas]; try (split; assumption).
  rewrite map_app, length_app. cbn [List.length map snd id].
  rewrite Nat.add_1_r, intervalo_fim, Hk, Hs. split; [reflexivity|lia].
Qed.

Lemma clientes_em_sequencia_sempre_R (ps : list Passo) :
  clientes_em_sequencia (fst (corre ps Banco_novo)).
Proof.
  apply (corre_transicao_R clientes_em_sequencia).
  - intros b b' _. apply clientes_em_sequencia_passo_R.
  - apply inv_novo_R.
  - split; reflexivity.
Qed.

(** *** The owner of an account is a customer of the bank *)

Lemma donos_registrados_passo_R (b b' : Banco) :
  inv b -> donos_registrados b -> transicao b b' -> donos_registrados b'.
Proof.
  intros Hb H Ht. unfold donos_registrados in *.
  destruct Ht as [|nm cp Hn|cp cl Hc Hn|n c agora v desc soma Hc Hv Ha
                 |n c agora v desc resto Hc Hv Hlt Ha
                 |o d co cd t0 t1 t2 v desc0 desc1 desc2 resto soma Hod Ho Hd Hv Hlt Hsub Hadd];
    cbn [_clientes_por_cpf _contas_por_numero com_contas].
  - exact H.
  - eapply Forall_impl; [|exact H]. intros kc Hkc. cbn beta.
    rewrite dict_get_app, Hkc. reflexivity.
  - apply Forall_app. split; [exact H|]. constructor; [|constructor].
    cbn [snd cliente Conta_nova].
    pose proof (Forall_dict_get _ _ _ _ (proj2 Hb) Hc) as Hcp. cbn in Hcp.
    rewrite Hcp. exact Hc.
  - apply Forall_dict_set; [exact H|]. cbn [snd]. campos.
    exact (Forall_dict_get _ _ _ _ H Hc).
  - apply Forall_dict_set; [exact H|]. cbn [snd]. campos.
    exact (Forall_dict_get _ _ _ _ H Hc).
  - apply Forall_dict_set; [apply Forall_dict_set; [exact H|]|]; cbn [snd]; campos.
    + exact (Forall_dict_get _ _ _ _ H Ho).
    + exact (Forall_dict_get _ _ _ _ H Hd).
Qed.

Lemma donos_registrados_sempre_R (ps : list Passo) :
  donos_registrados (fst (corre ps Banco_novo)).
Proof.
  apply (corre_transicao_R donos_registrados).
  - apply donos_registrados_passo_R.
  - apply inv_novo_R.
  - constructor.
Qed.

(** *** The shape of the logs *)

Lemma registros_bem_formados_passo_R (b b' : Banco) :
  registros_bem_formados b -> transicao b b' -> registros_bem_formados b'.
Proof.
  intros H Ht. unfold registros_bem_formados in *.
  destruct Ht as [|nm cp Hn|cp cl Hc Hn|n c agora v desc soma Hc Hv Ha
                 |n c agora v desc resto Hc Hv Hlt Ha
                 |o d co cd t0 t1 t2 v desc0 desc1 desc2 resto soma Hod Ho Hd Hv Hlt Hsub Hadd];
    cbn [_contas_por_numero com_contas].
  - exact H.
  - exact H.
  - apply Forall_app. split; [exact H|]. constructor; [|constructor].
    cbn [fst snd]. rewrite registro_nova_R. constructor.
  - apply Forall_dict_set; [exact H|]. cbn [fst snd]. campos.
    apply BF_deposito; [exact (Forall_dict_get _ _ _ _ H Hc)|].
    repeat split; try reflexivity; apply Hv.
  - apply Forall_dict_set; [exact H|]. cbn [fst snd]. campos.
    apply BF_saque; [exact (Forall_dict_get _ _ _ _ H Hc)|].
    repeat split; try reflexivity; apply Hv.
  - apply Forall_dict_set; [apply Forall_dict_set; [exact H|]|];
      cbn [fst snd]; campos; rewrite <- app_assoc; cbn [app].
    + apply BF_enviada; [exact (Forall_dict_get _ _ _ _ H Ho)| | | |];
        try reflexivity.
      * repeat split; try reflexivity; apply Hv.
      * repeat split; try reflexivity; try apply Hv. exact Hod.
    + apply BF_recebida; [exact (Forall_dict_get _ _ _ _ H Hd)| | | |];
        try reflexivity.
      * repeat split; try reflexivity; apply Hv.
      * repeat split; try reflexivity; try apply Hv. exact Hod.
Qed.

Lemma registros_bem_formados_sempre_R (ps : list Passo) :
  registros_bem_formados (fst (corre ps Banco_novo)).
Proof.
  apply (corre_transicao_R registros_bem_formados).
  - intros b b' _. apply registros_bem_formados_passo_R.
  - apply inv_novo_R.
  - constructor.
Qed.

End InvariantesRefatorado.

(** ** More facts about the decimal arithmetic *)

Module DecMais.
Import Dec DecFacts.

(** What [arredonda] gives is the quotient or the next integer. *)
Lemma arredonda_entre (c k : Z) :
  c / 10 ^ k <= arredonda c k <= c / 10 ^ k + 1.
Proof.
  unfold arredonda. cbv zeta.
  repeat destruct (_ <? _); try destruct (Z.even _); lia.
Qed.

(** [_fix] leaves no more than [prec] digits. *)
Lemma _fix_limite (neg : bool) (c e : Z) :
  0 <= c ->
  exists c' e', _fix neg c e = Fin neg c' e' /\ e <= e' /\ Z.of_N c' < 10 ^ prec.
Proof.
  intros Hc. unfold _fix.
  destruct (Z.ltb_spec c (10 ^ prec)) as [H|H].
  - eexists _, _. split; [reflexivity|]. rewrite Z2N.id by lia. lia.
  - pose proof (ndigitos_sup (Z.to_N c)) as Hn. rewrite Z2N.id in Hn by lia.
    set (k := ndigitos (Z.to_N c) - prec) in *.
    assert (Hk : 0 < k).
    { unfold k.
      destruct (Z.le_gt_cases (ndigitos (Z.to_N c)) prec) as [Hle|Hgt]; [|lia].
      exfalso. assert (10 ^ ndigitos (Z.to_N c) <= 10 ^ prec).
      { apply Z.pow_le_mono_r; [lia|exact Hle]. }
      lia. }
    pose proof (dez_pos k ltac:(lia)) as Hp.
    pose proof (arredonda_entre c k) as Hq.
    pose proof (arredonda_nonneg c k Hc ltac:(lia)) as Hq0.
    assert (Hdiv : c / 10 ^ k < 10 ^ prec).
    { apply Z.div_lt_upper_bound; [lia|].
      replace (ndigitos (Z.to_N c)) with (k + prec) in Hn by (unfold k; lia).
      rewrite Z.pow_add_r in Hn by (unfold prec; lia). exact Hn. }
    destruct (Z.ltb_spec (arredonda c k) (10 ^ prec)) as [Hlt|Hge].
    + eexists _, _. split; [reflexivity|]. rewrite Z2N.id by lia. lia.
    + eexists _, _. split; [reflexivity|].
      assert (Hd : 0 <= arredonda c k / 10) by (apply Z.div_pos; lia).
      rewrite Z2N.id by lia. split; [lia|].
      apply Z.div_lt_upper_bound; [lia|].
      assert (10 ^ prec < 10 * 10 ^ prec) by (unfold prec; lia). lia.
Qed.

(** The sum and the difference of two finite decimals are finite and have
    no more than [prec] digits. *)
Lemma add_limite (n1 n2 : bool) (c1 c2 : N) (e1 e2 : Z) :
  exists n c e,
    add (Fin n1 c1 e1) (Fin n2 c2 e2) = Valor (Fin n c e)
    /\ Z.of_N c < 10 ^ prec.
Proof.
  cbn [add]. cbv zeta.
  match goal with
  | |- context [_fix ?s ?z ?e] =>
      destruct (_fix_limite s z e ltac:(lia)) as (c & e' & Hf & _ & Hl);
      rewrite Hf; exists s, c, e'; split; [reflexivity|exact Hl]
  end.
Qed.

Lemma sub_limite (n1 n2 : bool) (c1 c2 : N) (e1 e2 : Z) :
  exists n c e,
    sub (Fin n1 c1 e1) (Fin n2 c2 e2) = Valor (Fin n c e)
    /\ Z.of_N c < 10 ^ prec.
Proof. cbn [sub negate]. apply add_limite. Qed.

(** [saldo < valor] being false, the balance has the cents of the amount. *)
Lemma coberto_centavos (s v : Decimal) :
  saldo_ok s -> positivo v -> lt s v = Valor false ->
  0 < centavos v <= centavos s.
Proof.
  intros (cs & es & -> & Hes) [Hdin Hle] Hlt.
  destruct v as [n cv ev|n|n [|]]; try contradiction; try discriminate.
  destruct (positivo_fin _ _ _ Hle) as [-> Hcv]. cbn in Hdin. subst ev.
  unfold lt in Hlt. cbn [is_nan orb cmp] in Hlt.
  replace (Z.min es (-2)) with (-2) in Hlt by lia.
  cbn [centavos]. unfold alinhado in *. cbn [com_sinal] in *.
  change (-2 - -2) with 0 in *. rewrite Z.pow_0_r, Z.mul_1_r in *.
  destruct (Z.compare_spec (Z.of_N cs * 10 ^ (es - -2)) (Z.of_N cv));
    try discriminate; lia.
Qed.

(** [quantize] rounds to the nearest cent, half way to the even one. *)
Lemma arredonda_perto (c k : Z) :
  0 <= c -> 0 < k ->
  let p := 10 ^ k in
  2 * Z.abs (c - arredonda c k * p) <= p
  /\ (2 * Z.abs (c - arredonda c k * p) = p -> Z.even (arredonda c k) = true).
Proof.
  intros Hc Hk p. unfold arredonda. fold p. cbv zeta.
  assert (Hp : 0 < p) by (apply dez_pos; lia).
  pose proof (Z.mod_pos_bound c p Hp) as Hm.
  assert (E0 : c - c / p * p = c mod p) by (rewrite Z.mod_eq by lia; ring).
  assert (E1 : c - (c / p + 1) * p = c mod p - p)
    by (rewrite Z.mod_eq by lia; ring).
  destruct (Z.ltb_spec (2 * (c mod p)) p) as [H1|H1].
  - rewrite E0. split; [lia|]. intros E. exfalso. lia.
  - destruct (Z.ltb_spec p (2 * (c mod p))) as [H2|H2].
    + rewrite E1. split; [lia|]. intros E. exfalso. lia.
    + destruct (Z.even (c / p)) eqn:Hev.
      * rewrite E0. split; [lia|]. intros _. exact Hev.
      * rewrite E1. split; [lia|]. intros _. rewrite Z.even_add, Hev. reflexivity.
Qed.

Lemma quantize_ao_centavo (n : bool) (c : N) (e : Z) (v : Decimal) :
  quantize_centavos (Fin n c e) = Valor v ->
  exists c', v = Fin n c' (-2) /\ ao_centavo c e c' /\ Z.of_N c' < 10 ^ prec.
Proof.
  unfold quantize_centavos, ao_centavo. cbv zeta.
  destruct (Z.leb_spec (-2) e) as [He|He].
  - destruct (Z.ltb_spec (Z.of_N c * 10 ^ (e + 2)) (10 ^ prec)) as [Hl|Hl];
      [|discriminate].
    intros Hv. exists (Z.to_N (Z.of_N c * 10 ^ (e + 2))).
    split; [congruence|].
    assert (0 < 10 ^ (e + 2)) by (apply dez_pos; lia).
    rewrite Z2N.id by nia. split; [reflexivity|exact Hl].
  - destruct (Z.ltb_spec (arredonda (Z.of_N c) (-2 - e)) (10 ^ prec)) as [Hl|Hl];
      [|discriminate].
    intros Hv. exists (Z.to_N (arredonda (Z.of_N c) (-2 - e))).
    split; [congruence|].
    pose proof (arredonda_nonneg (Z.of_N c) (-2 - e) ltac:(lia) ltac:(lia)).
    rewrite Z2N.id by lia. split; [|exact Hl].
    apply arredonda_perto; lia.
Qed.

(** What [quantize] has returned it returns again. *)
Lemma quantize_idempotente (d v : Decimal) :
  quantize_centavos d = Valor v -> quantize_centavos v = Valor v.
Proof.
  destruct d as [n c e|n|n [|]]; try discriminate.
  - intros H. destruct (quantize_ao_centavo _ _ _ _ H) as (c' & -> & _ & Hl).
    unfold quantize_centavos. cbv zeta. change (-2 <=? -2) with true. cbv iota.
    change (-2 + 2) with 0. rewrite Z.pow_0_r, Z.mul_1_r, N2Z.id.
    destruct (Z.ltb_spec (Z.of_N c') (10 ^ prec)); [reflexivity|lia].
  - cbn. intros [= <-]. reflexivity.
Qed.

(** [saldo < valor] compares the cents. *)
Lemma lt_centavos (s v : Decimal) :
  saldo_ok s -> positivo v -> lt s v = Valor (centavos s <? centavos v).
Proof.
  intros (cs & es & -> & Hes) [Hdin Hle].
  destruct v as [n cv ev|n|n [|]]; try contradiction; try discriminate.
  destruct (positivo_fin _ _ _ Hle) as [-> Hcv]. cbn in Hdin. subst ev.
  unfold lt. cbn [is_nan orb cmp]. f_equal.
  replace (Z.min es (-2)) with (-2) by lia.
  cbn [centavos]. unfold alinhado. cbn [com_sinal].
  destruct (Z.compare_spec (Z.of_N cs * 10 ^ (es - -2))
                           (Z.of_N cv * 10 ^ (-2 - -2))) as [H|H|H];
    destruct (Z.ltb_spec (Z.of_N cs * 10 ^ (es - -2))
                         (Z.of_N cv * 10 ^ (-2 - -2))); try reflexivity; lia.
Qed.

Lemma centavos_nao_negativo (s : Decimal) : saldo_ok s -> 0 <= centavos s.
Proof.
  intros (cs & es & -> & Hes). cbn [centavos]. unfold alinhado.
  cbn [com_sinal]. assert (0 < 10 ^ (es - -2)) by (apply dez_pos; lia). nia.
Qed.

(** [saldo - valor], once [valor <= 0] and [saldo < valor] are false, is not
    negative, on any two decimals. *)
Lemma sub_nao_negativo (s v r : Decimal) :
  le v zero_int = Valor false -> lt s v = Valor false -> sub s v = Valor r ->
  lt r zero_int = Valor false.
Proof.
  destruct v as [n2 c2 e2|n2|n2 s2]; [| |discriminate].
  - intros Hle. destruct (positivo_fin _ _ _ Hle) as [-> Hc2].
    destruct s as [n1 c1 e1|n1|n1 s1]; [| |discriminate].
    + unfold lt. cbn [is_nan orb cmp sub negate negb add].
      set (e0 := Z.min e1 e2). unfold alinhado. cbn [com_sinal].
      assert (H1 : 0 < 10 ^ (e1 - e0)) by (apply dez_pos; lia).
      assert (H2 : 0 < 10 ^ (e2 - e0)) by (apply dez_pos; lia).
      intros Hlt.
      assert (Hge : Z.of_N c2 * 10 ^ (e2 - e0) <= com_sinal n1 c1 * 10 ^ (e1 - e0)).
      { destruct (Z.compare_spec (com_sinal n1 c1 * 10 ^ (e1 - e0))
                                 (Z.of_N c2 * 10 ^ (e2 - e0)));
          try discriminate; lia. }
      assert (Hn1 : n1 = false).
      { destruct n1; [|reflexivity]. exfalso. unfold com_sinal in Hge. nia. }
      subst n1. cbn [com_sinal] in *.
      set (z := Z.of_N c1 * 10 ^ (e1 - e0) + - Z.of_N c2 * 10 ^ (e2 - e0)).
      assert (Hz : 0 <= z) by (unfold z; lia).
      assert (Hs : (if z =? 0 then false && true else z <? 0) = false).
      { destruct (Z.eqb_spec z 0); [reflexivity|]. apply Z.ltb_ge. lia. }
      rewrite Hs.
      destruct (_fix_forma false (Z.abs z) e0 ltac:(lia)) as (c & e & Hf & _).
      rewrite Hf. intros [= <-].
      unfold lt, zero_int. cbn [is_nan orb cmp]. unfold alinhado.
      cbn [com_sinal]. change (Z.of_N 0) with 0. f_equal.
      assert (0 < 10 ^ (e - Z.min e 0)) by (apply dez_pos; lia).
      destruct (Z.compare_spec (Z.of_N c * 10 ^ (e - Z.min e 0))
                               (0 * 10 ^ (0 - Z.min e 0))); try reflexivity; nia.
    + destruct n1; cbn; [discriminate|]. intros _ [= <-]. reflexivity.
  - destruct n2; [cbn; discriminate|]. intros _.
    destruct s as [n1 c1 e1|n1|n1 s1]; try (cbn; discriminate).
    destruct n1; cbn; discriminate.
Qed.

(** [saldo + valor], once [valor <= 0] is false, is not negative when
    [saldo] is not. *)
Lemma add_nao_negativo (s v r : Decimal) :
  le v zero_int = Valor false -> lt s zero_int = Valor false ->
  add s v = Valor r -> lt r zero_int = Valor false.
Proof.
  destruct v as [n2 c2 e2|n2|n2 s2]; [| |discriminate].
  - intros Hle. destruct (positivo_fin _ _ _ Hle) as [-> Hc2].
    destruct s as [n1 c1 e1|n1|n1 s1]; [| |discriminate].
    + unfold lt at 1, zero_int. cbn [is_nan orb cmp add].
      unfold alinhado at 1 2. cbn [com_sinal]. change (Z.of_N 0) with 0.
      intros Hlt.
      assert (H0 : 0 < 10 ^ (e1 - Z.min e1 0)) by (apply dez_pos; lia).
      assert (Hs1 : 0 <= com_sinal n1 c1).
      { destruct (Z.compare_spec (com_sinal n1 c1 * 10 ^ (e1 - Z.min e1 0))
                                 (0 * 10 ^ (0 - Z.min e1 0)));
          try discriminate; nia. }
      set (e0 := Z.min e1 e2). unfold alinhado. cbn [com_sinal].
      assert (H1 : 0 < 10 ^ (e1 - e0)) by (apply dez_pos; lia).
      assert (H2 : 0 < 10 ^ (e2 - e0)) by (apply dez_pos; lia).
      set (z := com_sinal n1 c1 * 10 ^ (e1 - e0) + Z.of_N c2 * 10 ^ (e2 - e0)).
      assert (Hz : 0 < z) by (unfold z; nia).
      assert (Hs : (if z =? 0 then n1 && false else z <? 0) = false).
      { destruct (Z.eqb_spec z 0); [lia|]. apply Z.ltb_ge. lia. }
      rewrite Hs.
      destruct (_fix_forma false (Z.abs z) e0 ltac:(lia)) as (c & e & Hf & _).
      rewrite Hf. intros [= <-].
      unfold lt, zero_int. cbn [is_nan orb cmp]. unfold alinhado.
      cbn [com_sinal]. change (Z.of_N 0) with 0. f_equal.
      assert (0 < 10 ^ (e - Z.min e 0)) by (apply dez_pos; lia).
      destruct (Z.compare_spec (Z.of_N c * 10 ^ (e - Z.min e 0))
                               (0 * 10 ^ (0 - Z.min e 0))); try reflexivity; nia.
    + destruct n1; cbn; [discriminate|]. intros _ [= <-]. reflexivity.
  - destruct n2; [cbn; discriminate|]. intros _.
    destruct s as [n1 c1 e1|n1|n1 s1]; [| |discriminate].
    + intros _. cbn. intros [= <-]. reflexivity.
    + destruct n1; cbn; [discriminate|]. intros _ [= <-]. reflexivity.
Qed.

End DecMais.

Module ContinuaOriginal.
Import Original OriginalFacts ExtratoOriginal PassosOriginal PassosOriginalFacts.
Import InvariantesOriginal.

(** *** A bank some calls later *)

Lemma continua_refl (b : Banco) : continua b b.
Proof.
  repeat split; try lia.
  - intros n c Hc. exists c, []. rewrite app_nil_r. repeat split. exact Hc.
  - intros cp cl H. exact H.
  - exists []. rewrite app_nil_r. reflexivity.
  - exists []. rewrite app_nil_r. reflexivity.
Qed.

Lemma continua_trans (b1 b2 b3 : Banco) :
  continua b1 b2 -> continua b2 b3 -> continua b1 b3.
Proof.
  intros (Ha & Hc & [k1 Hk1] & [v1 Hv1] & Hs1 & Hs1')
         (Ha' & Hc' & [k2 Hk2] & [v2 Hv2] & Hs2 & Hs2').
  repeat split; try lia.
  - intros n c Hn. destruct (Ha n c Hn) as (c' & novos & Hn' & E1 & E2 & E3).
    destruct (Ha' n c' Hn') as (c'' & novos' & Hn'' & E1' & E2' & E3').
    exists c'', (novos ++ novos')%list.
    repeat split; try congruence. rewrite E3', E3, app_assoc. reflexivity.
  - intros cp cl H. exact (Hc' _ _ (Hc _ _ H)).
  - exists (k1 ++ k2)%list. rewrite Hk2, Hk1, app_assoc. reflexivity.
  - exists (v1 ++ v2)%list. rewrite Hv2, Hv1, app_assoc. reflexivity.
Qed.

(** A method that keeps the number and the owner of an account and appends
    to its log. *)
Lemma continua_set (b : Banco) n c0 c1 novos :
  dict_get n (_contas_por_numero b) = Some c0 ->
  numero c1 = numero c0 -> cliente c1 = cliente c0 ->
  registro c1 = (registro c0 ++ novos)%list ->
  continua b (com_contas (dict_set n c1 (_contas_por_numero b)) b).
Proof.
  intros Hc E1 E2 E3. repeat split; cbn [com_contas _contas_por_numero
    _clientes_por_cpf _seq_conta _seq_cliente]; try lia.
  - intros k c Hk. destruct (String.eqb_spec k n) as [->|Hne].
    + rewrite dict_get_set_eq. rewrite Hk in Hc. injection Hc as <-.
      exists c1, novos. repeat split; assumption.
    + rewrite dict_get_set_ne by exact Hne. exists c, [].
      rewrite app_nil_r. repeat split. exact Hk.
  - intros cp cl H. exact H.
  - exists []. rewrite app_nil_r. apply (dict_keys_set _ _ _ _ Hc).
  - exists []. rewrite app_nil_r. reflexivity.
Qed.

Lemma continua_passo (b b' : Banco) : transicao b b' -> continua b b'.
Proof.
  intros Ht.
  destruct Ht as [|nm cp Hn|cp cl Hc Hn|n c agora v desc soma Hc Hv Ha
                 |n c agora v desc resto Hc Hv Hlt Ha
                 |o d co cd t0 t1 t2 v desc0 desc1 desc2 resto soma Hod Ho Hd Hv Hlt Hsub Hadd].
  - apply continua_refl.
  - repeat split; cbn [_contas_por_numero _clientes_por_cpf _seq_conta
      _seq_cliente]; try lia.
    + intros n c Hc. exists c, []. rewrite app_nil_r. repeat split. exact Hc.
    + intros cp' cl H. rewrite dict_get_app, H. reflexivity.
    + exists []. rewrite app_nil_r. reflexivity.
    + eexists. unfold dict_values. rewrite map_app. reflexivity.
  - repeat split; cbn [_contas_por_numero _clientes_por_cpf _seq_conta
      _seq_cliente]; try lia.
    + intros n c Hc'. exists c, []. rewrite app_nil_r. repeat split.
      rewrite dict_get_app, Hc'. reflexivity.
    + intros cp' cl' H. exact H.
    + eexists. unfold dict_keys. rewrite map_app. reflexivity.
    + exists []. rewrite app_nil_r. reflexivity.
  - apply (continua_set b n c _ [Build_Transacao agora "DEPOSITO" v desc "" n]);
      [exact Hc|reflexivity|reflexivity|]. campos. reflexivity.
  - apply (continua_set b n c _ [Build_Transacao agora "SAQUE" v desc n ""]);
      [exact Hc|reflexivity|reflexivity|]. campos. reflexivity.
  - set (co1 := historico_append (Build_Transacao t2 "TRANSFERENCIA" v desc2 o d)
                  (historico_append (Build_Transacao t0 "SAQUE" v desc0 o "")
                     (com_saldo resto co))).
    set (cd1 := historico_append (Build_Transacao t2 "TRANSFERENCIA" v desc2 o d)
                  (historico_append (Build_Transacao t1 "DEPOSITO" v desc1 "" d)
                     (com_saldo soma cd))).
    apply (continua_trans b (com_contas (dict_set o co1 (_contas_por_numero b)) b)).
    + apply (continua_set b o co co1
               [Build_Transacao t0 "SAQUE" v desc0 o "";
                Build_Transacao t2 "TRANSFERENCIA" v desc2 o d]);
        [exact Ho|reflexivity|reflexivity|].
      unfold co1. campos. rewrite <- app_assoc. reflexivity.
    + apply (continua_set
               (com_contas (dict_set o co1 (_contas_por_numero b)) b) d cd cd1
               [Build_Transacao t1 "DEPOSITO" v desc1 "" d;
                Build_Transacao t2 "TRANSFERENCIA" v desc2 o d]);
        [|reflexivity|reflexivity|].
      * cbn [com_contas _contas_por_numero].
        rewrite dict_get_set_ne by congruence. exact Hd.
      * unfold cd1. campos. rewrite <- app_assoc. reflexivity.
Qed.

(** A bank in use, used further, continues. *)
Lemma continua_corre (ps : list Passo) (b : Banco) :
  inv b -> continua b (fst (corre ps b)).
Proof.
  apply (corre_relacao continua).
  - apply continua_refl.
  - apply continua_trans.
  - intros b1 b2 _. apply continua_passo.
Qed.

(** *** Balances *)

Lemma saldos_em_28_digitos_passo (b b' : Banco) :
  saldos_em_28_digitos b -> transicao b b' -> saldos_em_28_digitos b'.
Proof.
  intros H Ht. unfold saldos_em_28_digitos in *.
  destruct Ht as [|nm cp Hn|cp cl Hc Hn|n c agora v desc soma Hc Hv Ha
                 |n c agora v desc resto Hc Hv Hlt Ha
                 |o d co cd t0 t1 t2 v desc0 desc1 desc2 resto soma Hod Ho Hd Hv Hlt Hsub Hadd];
    cbn [_contas_por_numero com_contas].
  - exact H.
  - exact H.
  - apply Forall_app. split; [exact H|]. constructor; [|constructor].
    exists 0%N, (-2). split; [reflexivity|]. change (Z.of_N 0) with 0. lia.
  - apply Forall_dict_set; [exact H|]. cbn [snd]. campos.
    destruct (Forall_dict_get _ _ _ _ H Hc) as (cs & es & Hs & Hes & _).
    cbn [snd] in Hs. rewrite Hs in Ha. destruct Hv as [Hdin Hle].
    destruct v as [nv cv ev|nv|nv [|]]; try contradiction; try discriminate.
    destruct (DecFacts.positivo_fin _ _ _ Hle) as [-> _]. cbn in Hdin. subst ev.
    destruct (DecFacts.add_nao_negativos cs cv es (-2)) as (c1 & e1 & E1 & He1).
    destruct (DecMais.add_limite false false cs cv es (-2)) as (n2 & c2 & e2 & E2 & Hl).
    rewrite E1 in Ha, E2. injection Ha as <-. injection E2 as -> -> ->.
    exists c2, e2. repeat split; [lia|exact Hl].
  - apply Forall_dict_set; [exact H|]. cbn [snd]. campos.
    destruct (Forall_dict_get _ _ _ _ H Hc) as (cs & es & Hs & Hes & _).
    cbn [snd] in Hs. rewrite Hs in Ha, Hlt. destruct Hv as [Hdin Hle].
    destruct v as [nv cv ev|nv|nv [|]]; try contradiction; try discriminate.
    destruct (DecFacts.positivo_fin _ _ _ Hle) as [-> _]. cbn in Hdin. subst ev.
    destruct (DecFacts.sub_nao_negativos cs cv es (-2) Hlt) as (c1 & e1 & E1 & He1).
    destruct (DecMais.sub_limite false false cs cv es (-2)) as (n2 & c2 & e2 & E2 & Hl).
    rewrite E1 in Ha, E2. injection Ha as <-. injection E2 as -> -> ->.
    exists c2, e2. repeat split; [lia|exact Hl].
  - destruct Hv as [Hdin Hle].
    destruct v as [nv cv ev|nv|nv [|]]; try contradiction; try discriminate.
    destruct (DecFacts.positivo_fin _ _ _ Hle) as [-> _]. cbn in Hdin. subst ev.
    apply Forall_dict_set; [apply Forall_dict_set; [exact H|]|]; cbn [snd]; campos.
    + destruct (Forall_dict_get _ _ _ _ H Ho) as (cs & es & Hs & Hes & _).
      cbn [snd] in Hs. rewrite Hs in Hsub, Hlt.
      destruct (DecFacts.sub_nao_negativos cs cv es (-2) Hlt) as (c1 & e1 & E1 & He1).
      destruct (DecMais.sub_limite false false cs cv es (-2)) as (n2 & c2 & e2 & E2 & Hl).
      rewrite E1 in Hsub, E2. injection Hsub as <-. injection E2 as -> -> ->.
      exists c2, e2. repeat split; [lia|exact Hl].
    + destruct (Forall_dict_get _ _ _ _ H Hd) as (cs & es & Hs & Hes & _).
      cbn [snd] in Hs. rewrite Hs in Hadd.
      destruct (DecFacts.add_nao_negativos cs cv es (-2)) as (c1 & e1 & E1 & He1).
      destruct (DecMais.add_limite false false cs cv es (-2)) as (n2 & c2 & e2 & E2 & Hl).
      rewrite E1 in Hadd, E2. injection Hadd as <-. injection E2 as -> -> ->.
      exists c2, e2. repeat split; [lia|exact Hl].
Qed.

Lemma saldos_em_28_digitos_sempre (ps : list Passo) :
  saldos_em_28_digitos (fst (corre ps Banco_novo)).
Proof.
  apply (corre_transicao saldos_em_28_digitos).
  - intros b b' _. apply saldos_em_28_digitos_passo.
  - apply inv_novo.
  - constructor.
Qed.

(** *** The TRANSFERENCIA entries *)

(** The entries that were there stay where they were. *)
Lemma resumos_velhos (b b' : Banco) k c t :
  continua b b' -> resumos_nos_dois b ->
  dict_get k (_contas_por_numero b) = Some c ->
  In t (registro c) -> tipo t = "TRANSFERENCIA" ->
  (k = origem t \/ k = destino t)
  /\ exists co cd,
       dict_get (origem t) (_contas_por_numero b') = Some co
       /\ dict_get (destino t) (_contas_por_numero b') = Some cd
       /\ In t (registro co) /\ In t (registro cd).
Proof.
  intros (Ha & _) H Hk Hin Ht.
  destruct (H k c t Hk Hin Ht) as (Hor & co & cd & Ho & Hd & Hio & Hid).
  split; [exact Hor|].
  destruct (Ha _ _ Ho) as (co' & no & Ho' & _ & _ & Eo).
  destruct (Ha _ _ Hd) as (cd' & nd & Hd' & _ & _ & Ed).
  exists co', cd'. repeat split; try assumption.
  - rewrite Eo. apply in_or_app. left. exact Hio.
  - rewrite Ed. apply in_or_app. left. exact Hid.
Qed.

Lemma dict_get_set_casos (D : dict Conta) k n c c1 :
  dict_get k (dict_set n c1 D) = Some c ->
  (k = n /\ c = c1) \/ (k <> n /\ dict_get k D = Some c).
Proof.
  destruct (String.eqb_spec k n) as [->|Hne].
  - rewrite dict_get_set_eq. intros [= <-]. left. split; reflexivity.
  - rewrite dict_get_set_ne by exact Hne. intros H. right. split; assumption.
Qed.

Lemma resumos_nos_dois_passo (b b' : Banco) :
  resumos_nos_dois b -> transicao b b' -> resumos_nos_dois b'.
Proof.
  intros H Ht. pose proof (continua_passo b b' Ht) as Hcont.
  pose proof (fun k c t => resumos_velhos b b' k c t Hcont H) as Hvelhos.
  clear Hcont.
  destruct Ht as [|nm cp Hn|cp cl Hc Hn|n c agora v desc soma Hc Hv Ha
                 |n c agora v desc resto Hc Hv Hlt Ha
                 |o d co cd t0 t1 t2 v desc0 desc1 desc2 resto soma Hod Ho Hd Hv Hlt Hsub Hadd];
    intros k c' t; cbn [_contas_por_numero com_contas] in *.
  - apply H.
  - apply Hvelhos.
  - rewrite dict_get_app.
    destruct (dict_get k (_contas_por_numero b)) as [c0|] eqn:Hk.
    + intros [= <-]. apply Hvelhos. exact Hk.
    + cbn [dict_get]. destruct (String.eqb k _); [|discriminate].
      intros [= <-]. rewrite registro_nova. intros [].
  - intros Hk. destruct (dict_get_set_casos _ _ _ _ _ Hk) as [[-> ->]|[Hne Hk']].
    + campos. intros Hin Htp. apply in_app_or in Hin. destruct Hin as [Hin|[<-|[]]].
      * exact (Hvelhos _ _ _ Hc Hin Htp).
      * discriminate.
    + apply Hvelhos. exact Hk'.
  - intros Hk. destruct (dict_get_set_casos _ _ _ _ _ Hk) as [[-> ->]|[Hne Hk']].
    + campos. intros Hin Htp. apply in_app_or in Hin. destruct Hin as [Hin|[<-|[]]].
      * exact (Hvelhos _ _ _ Hc Hin Htp).
      * discriminate.
    + apply Hvelhos. exact Hk'.
  - assert (Hnovo :
      (o = o \/ o = d) /\ (d = o \/ d = d)
      /\ exists co' cd',
           dict_get o (dict_set d
             (historico_append (Build_Transacao t2 "TRANSFERENCIA" v desc2 o d)
                (historico_append (Build_Transacao t1 "DEPOSITO" v desc1 "" d)
                   (com_saldo soma cd)))
             (dict_set o
                (historico_append (Build_Transacao t2 "TRANSFERENCIA" v desc2 o d)
                   (historico_append (Build_Transacao t0 "SAQUE" v desc0 o "")
                      (com_saldo resto co)))
                (_contas_por_numero b))) = Some co'
           /\ dict_get d (dict_set d
             (historico_append (Build_Transacao t2 "TRANSFERENCIA" v desc2 o d)
                (historico_append (Build_Transacao t1 "DEPOSITO" v desc1 "" d)
                   (com_saldo soma cd)))
             (dict_set o
                (historico_append (Build_Transacao t2 "TRANSFERENCIA" v desc2 o d)
                   (historico_append (Build_Transacao t0 "SAQUE" v desc0 o "")
                      (com_saldo resto co)))
                (_contas_por_numero b))) = Some cd'
           /\ In (Build_Transacao t2 "TRANSFERENCIA" v desc2 o d) (registro co')
           /\ In (Build_Transacao t2 "TRANSFERENCIA" v desc2 o d) (registro cd')).
    { split; [left; reflexivity|]. split; [right; reflexivity|].
      eexists _, _. split; [|split; [|split]].
      - rewrite dict_get_set_ne by congruence. apply dict_get_set_eq.
      - apply dict_get_set_eq.
      - campos. apply in_or_app. right. left. reflexivity.
      - campos. apply in_or_app. right. left. reflexivity. }
    destruct Hnovo as (Hoo & Hdd & Hex).
    intros Hk. destruct (dict_get_set_casos _ _ _ _ _ Hk) as [[-> ->]|[Hne Hk']].
    + campos. intros Hin Htp. apply in_app_or in Hin. destruct Hin as [Hin|[<-|[]]].
      * apply in_app_or in Hin. destruct Hin as [Hin|[<-|[]]].
        -- exact (Hvelhos _ _ _ Hd Hin Htp).
        -- discriminate.
      * split; [exact Hdd|exact Hex].
    + destruct (dict_get_set_casos _ _ _ _ _ Hk') as [[-> ->]|[Hne' Hk'']].
      * campos. intros Hin Htp. apply in_app_or in Hin. destruct Hin as [Hin|[<-|[]]].
        -- apply in_app_or in Hin. destruct Hin as [Hin|[<-|[]]].
           ++ exact (Hvelhos _ _ _ Ho Hin Htp).
           ++ discriminate.
        -- split; [exact Hoo|exact Hex].
      * apply Hvelhos. exact Hk''.
Qed.

Lemma resumos_nos_dois_sempre (ps : list Passo) :
  resumos_nos_dois (fst (corre ps Banco_novo)).
Proof.
  apply (corre_transicao resumos_nos_dois).
  - intros b b' _. apply resumos_nos_dois_passo.
  - apply inv_novo.
  - intros k c t H. discriminate.
Qed.

End ContinuaOriginal.

Module ContinuaRefatorado.
Import Refatorado RefatoradoFacts ExtratoRefatorado PassosRefatorado PassosRefatoradoFacts.
Import InvariantesRefatorado.

(** *** A bank some calls later *)

Lemma continua_refl_R (b : Banco) : continua b b.
Proof.
  repeat split; try lia.
  - intros n c Hc. exists c, []. rewrite app_nil_r. repeat split. exact Hc.
  - intros cp cl H. exact H.
  - exists []. rewrite app_nil_r. reflexivity.
  - exists []. rewrite app_nil_r. reflexivity.
Qed.

Lemma continua_trans_R (b1 b2 b3 : Banco) :
  continua b1 b2 -> continua b2 b3 -> continua b1 b3.
Proof.
  intros (Ha & Hc & [k1 Hk1] & [v1 Hv1] & Hs1 & Hs1')
         (Ha' & Hc' & [k2 Hk2] & [v2 Hv2] & Hs2 & Hs2').
  repeat split; try lia.
  - intros n c Hn. destruct (Ha n c Hn) as (c' & novos & Hn' & E1 & E2 & E3).
    destruct (Ha' n c' Hn') as (c'' & novos' & Hn'' & E1' & E2' & E3').
    exists c'', (novos ++ novos')%list.
    repeat split; try congruence. rewrite E3', E3, app_assoc. reflexivity.
  - intros cp cl H. exact (Hc' _ _ (Hc _ _ H)).
  - exists (k1 ++ k2)%list. rewrite Hk2, Hk1, app_assoc. reflexivity.
  - exists (v1 ++ v2)%list. rewrite Hv2, Hv1, app_assoc. reflexivity.
Qed.

(** A method that keeps the number and the owner of an account and appends
    to its log. *)
Lemma continua_set_R (b : Banco) n c0 c1 novos :
  dict_get n (_contas_por_numero b) = Some c0 ->
  numero c1 = numero c0 -> cliente c1 = cliente c0 ->
  registro c1 = (registro c0 ++ novos)%list ->
  continua b (com_contas (dict_set n c1 (_contas_por_numero b)) b).
Proof.
  intros Hc E1 E2 E3. repeat split; cbn [com_contas _contas_por_numero
    _clientes_por_cpf _seq_conta _seq_cliente]; try lia.
  - intros k c Hk. destruct (String.eqb_spec k n) as [->|Hne].
    + rewrite dict_get_set_eq. rewrite Hk in Hc. injection Hc as <-.
      exists c1, novos. repeat split; assumption.
    + rewrite dict_get_set_ne by exact Hne. exists c, [].
      rewrite app_nil_r. repeat split. exact Hk.
  - intros cp cl H. exact H.
  - exists []. rewrite app_nil_r. apply (dict_keys_set _ _ _ _ Hc).
  - exists []. rewrite app_nil_r. reflexivity.
Qed.

Lemma continua_passo_R (b b' : Banco) : transicao b b' -> continua b b'.
Proof.
  intros Ht.
  destruct Ht as [|nm cp Hn|cp cl Hc Hn|n c agora v desc soma Hc Hv Ha
                 |n c agora v desc resto Hc Hv Hlt Ha
                 |o d co cd t0 t1 t2 v desc0 desc1 desc2 resto soma Hod Ho Hd Hv Hlt Hsub Hadd].
  - apply continua_refl_R.
  - repeat split; cbn [_contas_por_numero _clientes_por_cpf _seq_conta
      _seq_cliente]; try lia.
    + intros n c Hc. exists c, []. rewrite app_nil_r. repeat split. exact Hc.
    + intros cp' cl H. rewrite dict_get_app, H. reflexivity.
    + exists []. rewrite app_nil_r. reflexivity.
    + eexists. unfold dict_values. rewrite map_app. reflexivity.
  - repeat split; cbn [_contas_por_numero _clientes_por_cpf _seq_conta
      _seq_cliente]; try lia.
    + intros n c Hc'. exists c, []. rewrite app_nil_r. repeat split.
      rewrite dict_get_app, Hc'. reflexivity.
    + intros cp' cl' H. exact H.
    + eexists. unfold dict_keys. rewrite map_app. reflexivity.
    + exists []. rewrite app_nil_r. reflexivity.
  - apply (continua_set_R b n c _ [Build_Transacao agora "DEPOSITO" v desc "" n]);
      [exact Hc|reflexivity|reflexivity|]. campos. reflexivity.
  - apply (continua_set_R b n c _ [Build_Transacao agora "SAQUE" v desc n ""]);
      [exact Hc|reflexivity|reflexivity|]. campos. reflexivity.
  - set (co1 := registra (Build_Transacao t2 "TRANSFERENCIA" v desc2 o d)
                  (registra (Build_Transacao t0 "SAQUE" v desc0 o "")
                     (com_saldo resto co))).
    set (cd1 := registra (Build_Transacao t2 "TRANSFERENCIA" v desc2 o d)
                  (registra (Build_Transacao t1 "DEPOSITO" v desc1 "" d)
                     (com_saldo soma cd))).
    apply (continua_trans_R b (com_contas (dict_set o co1 (_contas_por_numero b)) b)).
    + apply (continua_set_R b o co co1
               [Build_Transacao t0 "SAQUE" v desc0 o "";
                Build_Transacao t2 "TRANSFERENCIA" v desc2 o d]);
        [exact Ho|reflexivity|reflexivity|].
      unfold co1. campos. rewrite <- app_assoc. reflexivity.
    + apply (continua_set_R
               (com_contas (dict_set o co1 (_contas_por_numero b)) b) d cd cd1
               [Build_Transacao t1 "DEPOSITO" v desc1 "" d;
                Build_Transacao t2 "TRANSFERENCIA" v desc2 o d]);
        [|reflexivity|reflexivity|].
      * cbn [com_contas _contas_por_numero].
        rewrite dict_get_set_ne by congruence. exact Hd.
      * unfold cd1. campos. rewrite <- app_assoc. reflexivity.
Qed.

(** A bank in use, used further, continues. *)
Lemma continua_corre_R (ps : list Passo) (b : Banco) :
  inv b -> continua b (fst (corre ps b)).
Proof.
  apply (corre_relacao_R continua).
  - apply continua_refl_R.
  - apply continua_trans_R.
  - intros b1 b2 _. apply continua_passo_R.
Qed.

(** *** Balances *)

Lemma saldos_em_28_digitos_passo_R (b b' : Banco) :
  saldos_em_28_digitos b -> transicao b b' -> saldos_em_28_digitos b'.
Proof.
  intros H Ht. unfold saldos_em_28_digitos in *.
  destruct Ht as [|nm cp Hn|cp cl Hc Hn|n c agora v desc soma Hc Hv Ha
                 |n c agora v desc resto Hc Hv Hlt Ha
                 |o d co cd t0 t1 t2 v desc0 desc1 desc2 resto soma Hod Ho Hd Hv Hlt Hsub Hadd];
    cbn [_contas_por_numero com_contas].
  - exact H.
  - exact H.
  - apply Forall_app. split; [exact H|]. constructor; [|constructor].
    exists 0%N, (-2). split; [reflexivity|]. change (Z.of_N 0) with 0. lia.
  - apply Forall_dict_set; [exact H|]. cbn [snd]. campos.
    destruct (Forall_dict_get _ _ _ _ H Hc) as (cs & es & Hs & Hes & _).
    cbn [snd] in Hs. rewrite Hs in Ha. destruct Hv as [Hdin Hle].
    destruct v as [nv cv ev|nv|nv [|]]; try contradiction; try discriminate.
    destruct (DecFacts.positivo_fin _ _ _ Hle) as [-> _]. cbn in Hdin. subst ev.
    destruct (DecFacts.add_nao_negativos cs cv es (-2)) as (c1 & e1 & E1 & He1).
    destruct (DecMais.add_limite false false cs cv es (-2)) as (n2 & c2 & e2 & E2 & Hl).
    rewrite E1 in Ha, E2. injection Ha as <-. injection E2 as -> -> ->.
    exists c2, e2. repeat split; [lia|exact Hl].
  - apply Forall_dict_set; [exact H|]. cbn [snd]. campos.
    destruct (Forall_dict_get _ _ _ _ H Hc) as (cs & es & Hs & Hes & _).
    cbn [snd] in Hs. rewrite Hs in Ha, Hlt. destruct Hv as [Hdin Hle].
    destruct v as [nv cv ev|nv|nv [|]]; try contradiction; try discriminate.
    destruct (DecFacts.positivo_fin _ _ _ Hle) as [-> _]. cbn in Hdin. subst ev.
    destruct (DecFacts.sub_nao_negativos cs cv es (-2) Hlt) as (c1 & e1 & E1 & He1).
    destruct (DecMais.sub_limite false false cs cv es (-2)) as (n2 & c2 & e2 & E2 & Hl).
    rewrite E1 in Ha, E2. injection Ha as <-. injection E2 as -> -> ->.
    exists c2, e2. repeat split; [lia|exact Hl].
  - destruct Hv as [Hdin Hle].
    destruct v as [nv cv ev|nv|nv [|]]; try contradiction; try discriminate.
    destruct (DecFacts.positivo_fin _ _ _ Hle) as [-> _]. cbn in Hdin. subst ev.
    apply Forall_dict_set; [apply Forall_dict_set; [exact H|]|]; cbn [snd]; campos.
    + destruct (Forall_dict_get _ _ _ _ H Ho) as (cs & es & Hs & Hes & _).
      cbn [snd] in Hs. rewrite Hs in Hsub, Hlt.
      destruct (DecFacts.sub_nao_negativos cs cv es (-2) Hlt) as (c1 & e1 & E1 & He1).
      destruct (DecMais.sub_limite false false cs cv es (-2)) as (n2 & c2 & e2 & E2 & Hl).
      rewrite E1 in Hsub, E2. injection Hsub as <-. injection E2 as -> -> ->.
      exists c2, e2. repeat split; [lia|exact Hl].
    + destruct (Forall_dict_get _ _ _ _ H Hd) as (cs & es & Hs & Hes & _).
      cbn [snd] in Hs. rewrite Hs in Hadd.
      destruct (DecFacts.add_nao_negativos cs cv es (-2)) as (c1 & e1 & E1 & He1).
      destruct (DecMais.add_limite false false cs cv es (-2)) as (n2 & c2 & e2 & E2 & Hl).
      rewrite E1 in Hadd, E2. injection Hadd as <-. injection E2 as -> -> ->.
      exists c2, e2. repeat split; [lia|exact Hl].
Qed.

Lemma saldos_em_28_digitos_sempre_R (ps : list Passo) :
  saldos_em_28_digitos (fst (corre ps Banco_novo)).
Proof.
  apply (corre_transicao_R saldos_em_28_digitos).
  - intros b b' _. apply saldos_em_28_digitos_passo_R.
  - apply inv_novo_R.
  - constructor.
Qed.

(** *** The TRANSFERENCIA entries *)

(** The entries that were there stay where they were. *)
Lemma resumos_velhos_R (b b' : Banco) k c t :
  continua b b' -> resumos_nos_dois b ->
  dict_get k (_contas_por_numero b) = Some c ->
  In t (registro c) -> tipo t = "TRANSFERENCIA" ->
  (k = origem t \/ k = destino t)
  /\ exists co cd,
       dict_get (origem t) (_contas_por_numero b') = Some co
       /\ dict_get (destino t) (_contas_por_numero b') = Some cd
       /\ In t (registro co) /\ In t (registro cd).
Proof.
  intros (Ha & _) H Hk Hin Ht.
  destruct (H k c t Hk Hin Ht) as (Hor & co & cd & Ho & Hd & Hio & Hid).
  split; [exact Hor|].
  destruct (Ha _ _ Ho) as (co' & no & Ho' & _ & _ & Eo).
  destruct (Ha _ _ Hd) as (cd' & nd & Hd' & _ & _ & Ed).
  exists co', cd'. repeat split; try assumption.
  - rewrite Eo. apply in_or_app. left. exact Hio.
  - rewrite Ed. apply in_or_app. left. exact Hid.
Qed.

Lemma dict_get_set_casos_R (D : dict Conta) k n c c1 :
  dict_get k (dict_set n c1 D) = Some c ->
  (k = n /\ c = c1) \/ (k <> n /\ dict_get k D = Some c).
Proof.
  destruct (String.eqb_spec k n) as [->|Hne].
  - rewrite dict_get_set_eq. intros [= <-]. left. split; reflexivity.
  - rewrite dict_get_set_ne by exact Hne. intros H. right. split; assumption.
Qed.

Lemma resumos_nos_dois_passo_R (b b' : Banco) :
  resumos_nos_dois b -> transicao b b' -> resumos_nos_dois b'.
Proof.
  intros H Ht. pose proof (continua_passo_R b b' Ht) as Hcont.
  pose proof (fun k c t => resumos_velhos_R b b' k c t Hcont H) as Hvelhos.
  clear Hcont.
  destruct Ht as [|nm cp Hn|cp cl Hc Hn|n c agora v desc soma Hc Hv Ha
                 |n c agora v desc resto Hc Hv Hlt Ha
                 |o d co cd t0 t1 t2 v desc0 desc1 desc2 resto soma Hod Ho Hd Hv Hlt Hsub Hadd];
    intros k c' t; cbn [_contas_por_numero com_contas] in *.
  - apply H.
  - apply Hvelhos.
  - rewrite dict_get_app.
    destruct (dict_get k (_contas_por_numero b)) as [c0|] eqn:Hk.
    + intros [= <-]. apply Hvelhos. exact Hk.
    + cbn [dict_get]. destruct (String.eqb k _); [|discriminate].
      intros [= <-]. rewrite registro_nova_R. intros [].
  - intros Hk. destruct (dict_get_set_casos_R _ _ _ _ _ Hk) as [[-> ->]|[Hne Hk']].
    + campos. intros Hin Htp. apply in_app_or in Hin. destruct Hin as [Hin|[<-|[]]].
      * exact (Hvelhos _ _ _ Hc Hin Htp).
      * discriminate.
    + apply Hvelhos. exact Hk'.
  - intros Hk. destruct (dict_get_set_casos_R _ _ _ _ _ Hk) as [[-> ->]|[Hne Hk']].
    + campos. intros Hin Htp. apply in_app_or in Hin. destruct Hin as [Hin|[<-|[]]].
      * exact (Hvelhos _ _ _ Hc Hin Htp).
      * discriminate.
    + apply Hvelhos. exact Hk'.
  - assert (Hnovo :
      (o = o \/ o = d) /\ (d = o \/ d = d)
      /\ exists co' cd',
           dict_get o (dict_set d
             (registra (Build_Transacao t2 "TRANSFERENCIA" v desc2 o d)
                (registra (Build_Transacao t1 "DEPOSITO" v desc1 "" d)
                   (com_saldo soma cd)))
             (dict_set o
                (registra (Build_Transacao t2 "TRANSFERENCIA" v desc2 o d)
                   (registra (Build_Transacao t0 "SAQUE" v desc0 o "")
                      (com_saldo resto co)))
                (_contas_por_numero b))) = Some co'
           /\ dict_get d (dict_set d
             (registra (Build_Transacao t2 "TRANSFERENCIA" v desc2 o d)
                (registra (Build_Transacao t1 "DEPOSITO" v desc1 "" d)
                   (com_saldo soma cd)))
             (dict_set o
                (registra (Build_Transacao t2 "TRANSFERENCIA" v desc2 o d)
                   (registra (Build_Transacao t0 "SAQUE" v desc0 o "")
                      (com_saldo resto co)))
                (_contas_por_numero b))) = Some cd'
           /\ In (Build_Transacao t2 "TRANSFERENCIA" v desc2 o d) (registro co')
           /\ In (Build_Transacao t2 "TRANSFERENCIA" v desc2 o d) (registro cd')).
    { split; [left; reflexivity|]. split; [right; reflexivity|].
      eexists _, _. split; [|split; [|split]].
      - rewrite dict_get_set_ne by congruence. apply dict_get_set_eq.
      - apply dict_get_set_eq.
      - campos. apply in_or_app. right. left. reflexivity.
      - campos. apply in_or_app. right. left. reflexivity. }
    destruct Hnovo as (Hoo & Hdd & Hex).
    intros Hk. destruct (dict_get_set_casos_R _ _ _ _ _ Hk) as [[-> ->]|[Hne Hk']].
    + campos. intros Hin Htp. apply in_app_or in Hin. destruct Hin as [Hin|[<-|[]]].
      * apply in_app_or in Hin. destruct Hin as [Hin|[<-|[]]].
        -- exact (Hvelhos _ _ _ Hd Hin Htp).
        -- discriminate.
      * split; [exact Hdd|exact Hex].
    + destruct (dict_get_set_casos_R _ _ _ _ _ Hk') as [[-> ->]|[Hne' Hk'']].
      * campos. intros Hin Htp. apply in_app_or in Hin. destruct Hin as [Hin|[<-|[]]].
        -- apply in_app_or in Hin. destruct Hin as [Hin|[<-|[]]].
           ++ exact (Hvelhos _ _ _ Ho Hin Htp).
           ++ discriminate.
        -- split; [exact Hoo|exact Hex].
      * apply Hvelhos. exact Hk''.
Qed.

Lemma resumos_nos_dois_sempre_R (ps : list Passo) :
  resumos_nos_dois (fst (corre ps Banco_novo)).
Proof.
  apply (corre_transicao_R resumos_nos_dois).
  - intros b b' _. apply resumos_nos_dois_passo_R.
  - apply inv_novo_R.
  - intros k c t H. discriminate.
Qed.

End ContinuaRefatorado.

(** ** What a single call does *)

Module ChamadasOriginal.
Import Original OriginalFacts TransferenciaOriginal ExtratoOriginal.
Import PassosOriginal PassosOriginalFacts InvariantesOriginal.

Lemma responde_eq {A} (f : A -> Resposta) (m : M Banco A) (b : Banco) :
  responde f m b =
  (fst (m b), match snd (m b) with
              | Retorna a => Retorna (f a)
              | Levanta e => Levanta e
              end).
Proof. unfold responde, bind, ret. destruct (m b) as [b' [a|e]]; reflexivity. Qed.

Lemma responde_levanta {A} (f : A -> Resposta) (m : M Banco A) (b : Banco) e :
  snd (responde f m b) = Levanta e <-> snd (m b) = Levanta e.
Proof.
  rewrite responde_eq. cbn [snd].
  destruct (snd (m b)); split; congruence.
Qed.

(** *** A call that raises changes nothing *)

Lemma Banco_depositar_falha relogio n valor (b : Banco) e :
  snd (Banco.depositar relogio n valor b) = Levanta e ->
  fst (Banco.depositar relogio n valor b) = b.
Proof.
  rewrite Banco_depositar_eq.
  destruct (dict_get n _) as [c|] eqn:Hc; [|reflexivity].
  destruct (normaliza valor) as [v|e0]; [|reflexivity]. cbv zeta. cbn [fst snd].
  intros H. rewrite (depositar_falha _ _ _ _ _ H). apply (com_contas_mesma _ _ _ Hc).
Qed.

Lemma Banco_sacar_falha relogio n valor (b : Banco) e :
  snd (Banco.sacar relogio n valor b) = Levanta e ->
  fst (Banco.sacar relogio n valor b) = b.
Proof.
  rewrite Banco_sacar_eq.
  destruct (dict_get n _) as [c|] eqn:Hc; [|reflexivity].
  destruct (normaliza valor) as [v|e0]; [|reflexivity]. cbv zeta. cbn [fst snd].
  intros H. rewrite (sacar_falha _ _ _ _ _ H). apply (com_contas_mesma _ _ _ Hc).
Qed.

Lemma executa_falha (p : Passo) (b : Banco) e :
  inv b -> snd (executa p b) = Levanta e -> fst (executa p b) = b.
Proof.
  intros Hb. destruct p as [relogio ch]. unfold executa.
  destruct ch as [nm cp|cp|nu|nu vl|nu vl|og ds vl|nu|];
    rewrite responde_levanta, responde_eq; cbn [fst].
  - rewrite criar_cliente_eq. destruct (dict_get cp _); discriminate.
  - rewrite abrir_conta_eq. destruct (dict_get cp _); [discriminate|reflexivity].
  - rewrite buscar_conta_eq. destruct (dict_get nu _); reflexivity.
  - apply Banco_depositar_falha.
  - apply Banco_sacar_falha.
  - pose proof (transferir_atomica relogio og ds vl b Hb) as Hat.
    destruct (Banco.transferir relogio og ds vl b) as [b' [[]|e']];
      cbn [fst snd]; [discriminate|]. intros _. exact Hat.
  - rewrite extrato_eq. destruct (dict_get nu _); reflexivity.
  - discriminate.
Qed.

(** *** A call leaves alone the accounts that it does not name *)

Lemma executa_alheia (p : Passo) (b : Banco) n :
  inv b -> nomeia (snd p) n = false ->
  dict_get n (_contas_por_numero b) <> None ->
  dict_get n (_contas_por_numero (fst (executa p b)))
  = dict_get n (_contas_por_numero b).
Proof.
  intros Hb. destruct p as [relogio ch]. unfold executa. cbn [snd].
  destruct ch as [nm cp|cp|nu|nu vl|nu vl|og ds vl|nu|];
    rewrite responde_eq; cbn [fst nomeia]; intros Hn Hc.
  - rewrite criar_cliente_eq. destruct (dict_get cp _); reflexivity.
  - rewrite abrir_conta_eq. destruct (dict_get cp _); [|reflexivity].
    cbn [fst _contas_por_numero]. apply dict_get_set_ne.
    intros ->. apply Hc. apply (numero_novo b Hb).
  - rewrite buscar_conta_eq. destruct (dict_get nu _); reflexivity.
  - apply String.eqb_neq in Hn. rewrite Banco_depositar_eq.
    destruct (dict_get nu _); [|reflexivity].
    destruct (normaliza vl); [|reflexivity]. cbv zeta. cbn [fst com_contas
      _contas_por_numero]. apply dict_get_set_ne. congruence.
  - apply String.eqb_neq in Hn. rewrite Banco_sacar_eq.
    destruct (dict_get nu _); [|reflexivity].
    destruct (normaliza vl); [|reflexivity]. cbv zeta. cbn [fst com_contas
      _contas_por_numero]. apply dict_get_set_ne. congruence.
  - apply Bool.orb_false_elim in Hn. destruct Hn as [Ho Hd].
    apply String.eqb_neq in Ho, Hd.
    pose proof (transferir_atomica relogio og ds vl b Hb) as Hat.
    destruct (Banco.transferir relogio og ds vl b) as [b' [[]|e']]; cbn [fst].
    + destruct Hat as (v & _ & co & cd & resto & soma & _ & _ & _ & _ & _ & _ & _
                       & _ & _ & Hk & _).
      apply Hk; congruence.
    + rewrite Hat. reflexivity.
  - rewrite extrato_eq. destruct (dict_get nu _); reflexivity.
  - reflexivity.
Qed.

(** Only [criar_cliente] touches the customers, and only [abrir_conta] adds
    an account. *)
Lemma executa_clientes (p : Passo) (b : Banco) :
  inv b -> (forall nm cp, snd p <> Ch_criar_cliente nm cp) ->
  _clientes_por_cpf (fst (executa p b)) = _clientes_por_cpf b
  /\ _seq_cliente (fst (executa p b)) = _seq_cliente b.
Proof.
  intros Hb. destruct p as [relogio ch]. unfold executa. cbn [snd].
  destruct ch as [nm cp|cp|nu|nu vl|nu vl|og ds vl|nu|];
    rewrite responde_eq; cbn [fst]; intros Hn.
  - exfalso. exact (Hn nm cp eq_refl).
  - rewrite abrir_conta_eq. destruct (dict_get cp _); split; reflexivity.
  - rewrite buscar_conta_eq. destruct (dict_get nu _); split; reflexivity.
  - rewrite Banco_depositar_eq.
    destruct (dict_get nu _); [|split; reflexivity].
    destruct (normaliza vl); split; reflexivity.
  - rewrite Banco_sacar_eq.
    destruct (dict_get nu _); [|split; reflexivity].
    destruct (normaliza vl); split; reflexivity.
  - pose proof (transferir_atomica relogio og ds vl b Hb) as Hat.
    destruct (Banco.transferir relogio og ds vl b) as [b' [[]|e']]; cbn [fst].
    + destruct Hat as (v & _ & co & cd & resto & soma & _ & _ & _ & _ & _ & _ & _
                       & _ & _ & _ & _ & Hcl & Hsc & _).
      split; assumption.
    + rewrite Hat. split; reflexivity.
  - rewrite extrato_eq. destruct (dict_get nu _); split; reflexivity.
  - split; reflexivity.
Qed.

Lemma executa_contas (p : Passo) (b : Banco) :
  inv b -> (forall cp, snd p <> Ch_abrir_conta cp) ->
  dict_keys (_contas_por_numero (fst (executa p b)))
  = dict_keys (_contas_por_numero b)
  /\ _seq_conta (fst (executa p b)) = _seq_conta b.
Proof.
  intros Hb. destruct p as [relogio ch]. unfold executa. cbn [snd].
  destruct ch as [nm cp|cp|nu|nu vl|nu vl|og ds vl|nu|];
    rewrite responde_eq; cbn [fst]; intros Hn.
  - rewrite criar_cliente_eq. destruct (dict_get cp _); split; reflexivity.
  - exfalso. exact (Hn cp eq_refl).
  - rewrite buscar_conta_eq. destruct (dict_get nu _); split; reflexivity.
  - rewrite Banco_depositar_eq.
    destruct (dict_get nu _) eqn:Hc; [|split; reflexivity].
    destruct (normaliza vl); [|split; reflexivity]. cbv zeta.
    cbn [fst com_contas _contas_por_numero _seq_conta].
    split; [apply (dict_keys_set _ _ _ _ Hc)|reflexivity].
  - rewrite Banco_sacar_eq.
    destruct (dict_get nu _) eqn:Hc; [|split; reflexivity].
    destruct (normaliza vl); [|split; reflexivity]. cbv zeta.
    cbn [fst com_contas _contas_por_numero _seq_conta].
    split; [apply (dict_keys_set _ _ _ _ Hc)|reflexivity].
  - pose proof (transferir_atomica relogio og ds vl b Hb) as Hat.
    destruct (Banco.transferir relogio og ds vl b) as [b' [[]|e']]; cbn [fst].
    + destruct Hat as (v & _ & co & cd & resto & soma & _ & _ & _ & _ & _ & _ & _
                       & _ & _ & _ & Hks & _ & _ & Hsc).
      split; assumption.
    + rewrite Hat. split; reflexivity.
  - rewrite extrato_eq. destruct (dict_get nu _); split; reflexivity.
  - split; reflexivity.
Qed.

(** *** The exceptions of a call *)

Lemma normaliza_levanta valor e :
  normaliza valor = Levanta e ->
  e = ValorInvalido "valor inválido" \/ e = DecimalInvalidOperation.
Proof.
  unfold normaliza, Banco._to_money. desmonta.
  destruct valor as [d|s].
  - destruct (Dec.quantize_centavos d); [discriminate|].
    intros [= <-]. right. reflexivity.
  - destruct (DecStr.Decimal_de_str s) as [d|]; [|intros [= <-]; left; reflexivity].
    destruct (Dec.quantize_centavos d); [discriminate|].
    intros [= <-]. right. reflexivity.
Qed.

(** On an account of a bank in use, [depositar] and [sacar] raise an
    [ErroBanco], or [decimal.InvalidOperation] when the amount is a NaN. *)
Lemma depositar_excecao agora v desc (c : Conta) e :
  saldo_ok (saldo c) -> dinheiro v ->
  snd (Conta.depositar agora v desc c) = Levanta e ->
  e = ValorInvalido "valor deve ser positivo"
  \/ (e = DecimalInvalidOperation /\ exists n, v = Dec.NaN n false).
Proof.
  intros (cs & es & Hs & _) Hv. rewrite depositar_eq.
  destruct v as [n cv ev|n|n [|]]; try contradiction.
  - rewrite DecFacts.le_zero_fin.
    destruct (Dec.com_sinal n cv <=? 0) eqn:Hle.
    + intros [= <-]. left. reflexivity.
    + assert (Hp : Dec.le (Dec.Fin n cv ev) Dec.zero_int = Dec.Valor false)
        by (rewrite DecFacts.le_zero_fin, Hle; reflexivity).
      destruct (DecFacts.positivo_fin _ _ _ Hp) as [-> _]. rewrite Hs.
      destruct (DecFacts.add_nao_negativos cs cv es ev) as (c' & e' & -> & _).
      discriminate.
  - cbn. intros [= <-]. right. split; [reflexivity|]. exists n. reflexivity.
Qed.

Lemma sacar_excecao agora v desc (c : Conta) e :
  saldo_ok (saldo c) -> dinheiro v ->
  snd (Conta.sacar agora v desc c) = Levanta e ->
  e = ValorInvalido "valor deve ser positivo"
  \/ e = SaldoInsuficiente "saldo insuficiente"
  \/ (e = DecimalInvalidOperation /\ exists n, v = Dec.NaN n false).
Proof.
  intros (cs & es & Hs & _) Hv. rewrite sacar_eq.
  destruct v as [n cv ev|n|n [|]]; try contradiction.
  - rewrite DecFacts.le_zero_fin.
    destruct (Dec.com_sinal n cv <=? 0) eqn:Hle.
    + intros [= <-]. left. reflexivity.
    + assert (Hp : Dec.le (Dec.Fin n cv ev) Dec.zero_int = Dec.Valor false)
        by (rewrite DecFacts.le_zero_fin, Hle; reflexivity).
      destruct (DecFacts.positivo_fin _ _ _ Hp) as [-> _]. rewrite Hs.
      destruct (Dec.lt (Dec.Fin false cs es) (Dec.Fin false cv ev))
        as [[|]|] eqn:Hlt.
      * intros [= <-]. right. left. reflexivity.
      * destruct (DecFacts.sub_nao_negativos cs cv es ev Hlt) as (c' & e' & -> & _).
        discriminate.
      * discriminate.
  - cbn. intros [= <-]. right. right. split; [reflexivity|]. exists n. reflexivity.
Qed.

Lemma executa_excecoes (p : Passo) (b : Banco) e :
  inv b -> snd (executa p b) = Levanta e ->
  ErroBanco e = true
  \/ (e = DecimalInvalidOperation
      /\ exists valor,
           quantia (snd p) = Some valor
           /\ (normaliza valor = Levanta DecimalInvalidOperation
               \/ exists n, normaliza valor = Retorna (Dec.NaN n false))).
Proof.
  intros Hb. destruct p as [relogio ch]. unfold executa. cbn [snd].
  destruct ch as [nm cp|cp|nu|nu vl|nu vl|og ds vl|nu|];
    rewrite responde_levanta; cbn [quantia].
  - rewrite criar_cliente_eq. destruct (dict_get cp _); discriminate.
  - rewrite abrir_conta_eq. destruct (dict_get cp _); [discriminate|].
    intros [= <-]. left. reflexivity.
  - rewrite buscar_conta_eq. destruct (dict_get nu _); [discriminate|].
    intros [= <-]. left. reflexivity.
  - rewrite Banco_depositar_eq.
    destruct (dict_get nu _) as [c|] eqn:Hc; [|intros [= <-]; left; reflexivity].
    destruct (normaliza vl) as [v|e0] eqn:Hv.
    + cbv zeta. cbn [snd]. intros H.
      destruct (depositar_excecao _ _ _ _ _
                  (proj1 (proj2 (inv_conta _ _ _ Hb Hc)))
                  (normaliza_dinheiro _ _ Hv) H) as [->|[-> [n ->]]];
        [left; reflexivity|].
      right. split; [reflexivity|]. exists vl. split; [reflexivity|].
      right. exists n. exact Hv.
    + intros [= <-]. destruct (normaliza_levanta _ _ Hv) as [-> | ->];
        [left; reflexivity|].
      right. split; [reflexivity|]. exists vl. split; [reflexivity|].
      left. exact Hv.
  - rewrite Banco_sacar_eq.
    destruct (dict_get nu _) as [c|] eqn:Hc; [|intros [= <-]; left; reflexivity].
    destruct (normaliza vl) as [v|e0] eqn:Hv.
    + cbv zeta. cbn [snd]. intros H.
      destruct (sacar_excecao _ _ _ _ _
                  (proj1 (proj2 (inv_conta _ _ _ Hb Hc)))
                  (normaliza_dinheiro _ _ Hv) H) as [->|[->|[-> [n ->]]]];
        [left; reflexivity|left; reflexivity|].
      right. split; [reflexivity|]. exists vl. split; [reflexivity|].
      right. exists n. exact Hv.
    + intros [= <-]. destruct (normaliza_levanta _ _ Hv) as [-> | ->];
        [left; reflexivity|].
      right. split; [reflexivity|]. exists vl. split; [reflexivity|].
      left. exact Hv.
  - rewrite transferir_eq. cbv zeta.
    destruct (String.eqb og ds); [intros [= <-]; left; reflexivity|].
    destruct (normaliza vl) as [v|e0] eqn:Hv.
    2:{ intros [= <-]. destruct (normaliza_levanta _ _ Hv) as [-> | ->];
          [left; reflexivity|].
        right. split; [reflexivity|]. exists vl. split; [reflexivity|].
        left. exact Hv. }
    destruct (dict_get og _) as [co|] eqn:Ho; [|intros [= <-]; left; reflexivity].
    destruct (dict_get ds _) as [cd|] eqn:Hd; [|intros [= <-]; left; reflexivity].
    destruct (snd (Conta.sacar _ _ _ co)) as [[]|e1] eqn:H1.
    + destruct (snd (Conta.depositar _ _ _ cd)) as [[]|e2] eqn:H2;
        [discriminate|]. cbn [snd]. intros [= <-].
      destruct (depositar_excecao _ _ _ _ _
                  (proj1 (proj2 (inv_conta _ _ _ Hb Hd)))
                  (normaliza_dinheiro _ _ Hv) H2) as [->|[-> [n ->]]];
        [left; reflexivity|].
      right. split; [reflexivity|]. exists vl. split; [reflexivity|].
      right. exists n. exact Hv.
    + cbn [snd]. intros [= <-].
      destruct (sacar_excecao _ _ _ _ _
                  (proj1 (proj2 (inv_conta _ _ _ Hb Ho)))
                  (normaliza_dinheiro _ _ Hv) H1) as [->|[->|[-> [n ->]]]];
        [left; reflexivity|left; reflexivity|].
      right. split; [reflexivity|]. exists vl. split; [reflexivity|].
      right. exists n. exact Hv.
  - rewrite extrato_eq. destruct (dict_get nu _); [discriminate|].
    intros [= <-]. left. reflexivity.
  - discriminate.
Qed.

End ChamadasOriginal.

(** ** What a single call does *)

Module ChamadasRefatorado.
Import Refatorado RefatoradoFacts TransferenciaRefatorado ExtratoRefatorado.
Import PassosRefatorado PassosRefatoradoFacts InvariantesRefatorado.

Lemma responde_eq_R {A} (f : A -> Resposta) (m : M Banco A) (b : Banco) :
  responde f m b =
  (fst (m b), match snd (m b) with
              | Retorna a => Retorna (f a)
              | Levanta e => Levanta e
              end).
Proof. unfold responde, bind, ret. destruct (m b) as [b' [a|e]]; reflexivity. Qed.

Lemma responde_levanta_R {A} (f : A -> Resposta) (m : M Banco A) (b : Banco) e :
  snd (responde f m b) = Levanta e <-> snd (m b) = Levanta e.
Proof.
  rewrite responde_eq_R. cbn [snd].
  destruct (snd (m b)); split; congruence.
Qed.

(** *** A call that raises changes nothing *)

Lemma Banco_depositar_falha_R relogio n valor (b : Banco) e :
  snd (Banco.depositar relogio n valor b) = Levanta e ->
  fst (Banco.depositar relogio n valor b) = b.
Proof.
  rewrite Banco_depositar_eq_R.
  destruct (dict_get n _) as [c|] eqn:Hc; [|reflexivity].
  destruct (normaliza valor) as [v|e0]; [|reflexivity]. cbv zeta. cbn [fst snd].
  intros H. rewrite (depositar_falha_R _ _ _ _ _ H). apply (com_contas_mesma_R _ _ _ Hc).
Qed.

Lemma Banco_sacar_falha_R relogio n valor (b : Banco) e :
  snd (Banco.sacar relogio n valor b) = Levanta e ->
  fst (Banco.sacar relogio n valor b) = b.
Proof.
  rewrite Banco_sacar_eq_R.
  destruct (dict_get n _) as [c|] eqn:Hc; [|reflexivity].
  destruct (normaliza valor) as [v|e0]; [|reflexivity]. cbv zeta. cbn [fst snd].
  intros H. rewrite (sacar_falha_R _ _ _ _ _ H). apply (com_contas_mesma_R _ _ _ Hc).
Qed.

Lemma executa_falha_R (p : Passo) (b : Banco) e :
  inv b -> snd (executa p b) = Levanta e -> fst (executa p b) = b.
Proof.
  intros Hb. destruct p as [relogio ch]. unfold executa.
  destruct ch as [nm cp|cp|nu|nu vl|nu vl|og ds vl|nu|];
    rewrite responde_levanta_R, responde_eq_R; cbn [fst].
  - rewrite criar_cliente_eq_R. destruct (dict_get cp _); discriminate.
  - rewrite abrir_conta_eq_R. destruct (dict_get cp _); [discriminate|reflexivity].
  - rewrite buscar_conta_eq_R. destruct (dict_get nu _); reflexivity.
  - apply Banco_depositar_falha_R.
  - apply Banco_sacar_falha_R.
  - pose proof (transferir_atomica_R relogio og ds vl b Hb) as Hat.
    destruct (Banco.transferir relogio og ds vl b) as [b' [[]|e']];
      cbn [fst snd]; [discriminate|]. intros _. exact Hat.
  - rewrite extrato_eq_R. destruct (dict_get nu _); reflexivity.
  - discriminate.
Qed.

(** *** A call leaves alone the accounts that it does not name *)

Lemma executa_alheia_R (p : Passo) (b : Banco) n :
  inv b -> nomeia (snd p) n = false ->
  dict_get n (_contas_por_numero b) <> None ->
  dict_get n (_contas_por_numero (fst (executa p b)))
  = dict_get n (_contas_por_numero b).
Proof.
  intros Hb. destruct p as [relogio ch]. unfold executa. cbn [snd].
  destruct ch as [nm cp|cp|nu|nu vl|nu vl|og ds vl|nu|];
    rewrite responde_eq_R; cbn [fst nomeia]; intros Hn Hc.
  - rewrite criar_cliente_eq_R. destruct (dict_get cp _); reflexivity.
  - rewrite abrir_conta_eq_R. destruct (dict_get cp _); [|reflexivity].
    cbn [fst _contas_por_numero]. apply dict_get_set_ne.
    intros ->. apply Hc. apply (numero_novo_R b Hb).
  - rewrite buscar_conta_eq_R. destruct (dict_get nu _); reflexivity.
  - apply String.eqb_neq in Hn. rewrite Banco_depositar_eq_R.
    destruct (dict_get nu _); [|reflexivity].
    destruct (normaliza vl); [|reflexivity]. cbv zeta. cbn [fst com_contas
      _contas_por_numero]. apply dict_get_set_ne. congruence.
  - apply String.eqb_neq in Hn. rewrite Banco_sacar_eq_R.
    destruct (dict_get nu _); [|reflexivity].
    destruct (normaliza vl); [|reflexivity]. cbv zeta. cbn [fst com_contas
      _contas_por_numero]. apply dict_get_set_ne. congruence.
  - apply Bool.orb_false_elim in Hn. destruct Hn as [Ho Hd].
    apply String.eqb_neq in Ho, Hd.
    pose proof (transferir_atomica_R relogio og ds vl b Hb) as Hat.
    destruct (Banco.transferir relogio og ds vl b) as [b' [[]|e']]; cbn [fst].
    + destruct Hat as (v & _ & co & cd & resto & soma & _ & _ & _ & _ & _ & _ & _
                       & _ & _ & Hk & _).
      apply Hk; congruence.
    + rewrite Hat. reflexivity.
  - rewrite extrato_eq_R. destruct (dict_get nu _); reflexivity.
  - reflexivity.
Qed.

(** Only [criar_cliente] touches the customers, and only [abrir_conta] adds
    an account. *)
Lemma executa_clientes_R (p : Passo) (b : Banco) :
  inv b -> (forall nm cp, snd p <> Ch_criar_cliente nm cp) ->
  _clientes_por_cpf (fst (executa p b)) = _clientes_por_cpf b
  /\ _seq_cliente (fst (executa p b)) = _seq_cliente b.
Proof.
  intros Hb. destruct p as [relogio ch]. unfold executa. cbn [snd].
  destruct ch as [nm cp|cp|nu|nu vl|nu vl|og ds vl|nu|];
    rewrite responde_eq_R; cbn [fst]; intros Hn.
  - exfalso. exact (Hn nm cp eq_refl).
  - rewrite abrir_conta_eq_R. destruct (dict_get cp _); split; reflexivity.
  - rewrite buscar_conta_eq_R. destruct (dict_get nu _); split; reflexivity.
  - rewrite Banco_depositar_eq_R.
    destruct (dict_get nu _); [|split; reflexivity].
    destruct (normaliza vl); split; reflexivity.
  - rewrite Banco_sacar_eq_R.
    destruct (dict_get nu _); [|split; reflexivity].
    destruct (normaliza vl); split; reflexivity.
  - pose proof (transferir_atomica_R relogio og ds vl b Hb) as Hat.
    destruct (Banco.transferir relogio og ds vl b) as [b' [[]|e']]; cbn [fst].
    + destruct Hat as (v & _ & co & cd & resto & soma & _ & _ & _ & _ & _ & _ & _
                       & _ & _ & _ & _ & Hcl & Hsc & _).
      split; assumption.
    + rewrite Hat. split; reflexivity.
  - rewrite extrato_eq_R. destruct (dict_get nu _); split; reflexivity.
  - split; reflexivity.
Qed.

Lemma executa_contas_R (p : Passo) (b : Banco) :
  inv b -> (forall cp, snd p <> Ch_abrir_conta cp) ->
  dict_keys (_contas_por_numero (fst (executa p b)))
  = dict_keys (_contas_por_numero b)
  /\ _seq_conta (fst (executa p b)) = _seq_conta b.
Proof.
  intros Hb. destruct p as [relogio ch]. unfold executa. cbn [snd].
  destruct ch as [nm cp|cp|nu|nu vl|nu vl|og ds vl|nu|];
    rewrite responde_eq_R; cbn [fst]; intros Hn.
  - rewrite criar_cliente_eq_R. destruct (dict_get cp _); split; reflexivity.
  - exfalso. exact (Hn cp eq_refl).
  - rewrite buscar_conta_eq_R. destruct (dict_get nu _); split; reflexivity.
  - rewrite Banco_depositar_eq_R.
    destruct (dict_get nu _) eqn:Hc; [|split; reflexivity].
    destruct (normaliza vl); [|split; reflexivity]. cbv zeta.
    cbn [fst com_contas _contas_por_numero _seq_conta].
    split; [apply (dict_keys_set _ _ _ _ Hc)|reflexivity].
  - rewrite Banco_sacar_eq_R.
    destruct (dict_get nu _) eqn:Hc; [|split; reflexivity].
    destruct (normaliza vl); [|split; reflexivity]. cbv zeta.
    cbn [fst com_contas _contas_por_numero _seq_conta].
    split; [apply (dict_keys_set _ _ _ _ Hc)|reflexivity].
  - pose proof (transferir_atomica_R relogio og ds vl b Hb) as Hat.
    destruct (Banco.transferir relogio og ds vl b) as [b' [[]|e']]; cbn [fst].
    + destruct Hat as (v & _ & co & cd & resto & soma & _ & _ & _ & _ & _ & _ & _
                       & _ & _ & _ & Hks & _ & _ & Hsc).
      split; assumption.
    + rewrite Hat. split; reflexivity.
  - rewrite extrato_eq_R. destruct (dict_get nu _); split; reflexivity.
  - split; reflexivity.
Qed.

(** *** The exceptions of a call *)


(** On an account of a bank in use, [depositar] and [sacar] raise an
    [ErroBanco], or [decimal.InvalidOperation] when the amount is a NaN. *)
Lemma depositar_excecao_R agora v desc (c : Conta) e :
  saldo_ok (saldo c) -> dinheiro v ->
  snd (Conta.depositar agora v desc c) = Levanta e ->
  e = ValorInvalido "valor deve ser positivo"
  \/ (e = DecimalInvalidOperation /\ exists n, v = Dec.NaN n false).
Proof.
  intros (cs & es & Hs & _) Hv. rewrite depositar_eq_R.
  destruct v as [n cv ev|n|n [|]]; try contradiction.
  - rewrite DecFacts.le_zero_fin.
    destruct (Dec.com_sinal n cv <=? 0) eqn:Hle.
    + intros [= <-]. left. reflexivity.
    + assert (Hp : Dec.le (Dec.Fin n cv ev) Dec.zero_int = Dec.Valor false)
        by (rewrite DecFacts.le_zero_fin, Hle; reflexivity).
      destruct (DecFacts.positivo_fin _ _ _ Hp) as [-> _]. rewrite Hs.
      destruct (DecFacts.add_nao_negativos cs cv es ev) as (c' & e' & -> & _).
      discriminate.
  - cbn. intros [= <-]. right. split; [reflexivity|]. exists n. reflexivity.
Qed.

Lemma sacar_excecao_R agora v desc (c : Conta) e :
  saldo_ok (saldo c) -> dinheiro v ->
  snd (Conta.sacar agora v desc c) = Levanta e ->
  e = ValorInvalido "valor deve ser positivo"
  \/ e = SaldoInsuficiente "saldo insuficiente"
  \/ (e = DecimalInvalidOperation /\ exists n, v = Dec.NaN n false).
Proof.
  intros (cs & es & Hs & _) Hv. rewrite sacar_eq_R.
  destruct v as [n cv ev|n|n [|]]; try contradiction.
  - rewrite DecFacts.le_zero_fin.
    destruct (Dec.com_sinal n cv <=? 0) eqn:Hle.
    + intros [= <-]. left. reflexivity.
    + assert (Hp : Dec.le (Dec.Fin n cv ev) Dec.zero_int = Dec.Valor false)
        by (rewrite DecFacts.le_zero_fin, Hle; reflexivity).
      destruct (DecFacts.positivo_fin _ _ _ Hp) as [-> _]. rewrite Hs.
      destruct (Dec.lt (Dec.Fin false cs es) (Dec.Fin false cv ev))
        as [[|]|] eqn:Hlt.
      * intros [= <-]. right. left. reflexivity.
      * destruct (DecFacts.sub_nao_negativos cs cv es ev Hlt) as (c' & e' & -> & _).
        discriminate.
      * discriminate.
  - cbn. intros [= <-]. right. right. split; [reflexivity|]. exists n. reflexivity.
Qed.

Lemma executa_excecoes_R (p : Passo) (b : Banco) e :
  inv b -> snd (executa p b) = Levanta e ->
  ErroBanco e = true
  \/ (e = DecimalInvalidOperation
      /\ exists valor n,
           quantia (snd p) = Some valor
           /\ normaliza valor = Retorna (Dec.NaN n false)).
Proof.
  intros Hb. destruct p as [relogio ch]. unfold executa. cbn [snd].
  destruct ch as [nm cp|cp|nu|nu vl|nu vl|og ds vl|nu|];
    rewrite responde_levanta_R; cbn [quantia].
  - rewrite criar_cliente_eq_R. destruct (dict_get cp _); discriminate.
  - rewrite abrir_conta_eq_R. destruct (dict_get cp _); [discriminate|].
    intros [= <-]. left. reflexivity.
  - rewrite buscar_conta_eq_R. destruct (dict_get nu _); [discriminate|].
    intros [= <-]. left. reflexivity.
  - rewrite Banco_depositar_eq_R.
    destruct (dict_get nu _) as [c|] eqn:Hc; [|intros [= <-]; left; reflexivity].
    destruct (normaliza vl) as [v|e0] eqn:Hv.
    + cbv zeta. cbn [snd]. intros H.
      destruct (depositar_excecao_R _ _ _ _ _
                  (proj1 (proj2 (inv_conta_R _ _ _ Hb Hc)))
                  (normaliza_dinheiro_R _ _ Hv) H) as [->|[-> [n ->]]];
        [left; reflexivity|].
      right. split; [reflexivity|]. exists vl, n. split; [reflexivity|exact Hv].
    + intros [= <-]. rewrite (normaliza_levanta_R _ _ Hv). left. reflexivity.
  - rewrite Banco_sacar_eq_R.
    destruct (dict_get nu _) as [c|] eqn:Hc; [|intros [= <-]; left; reflexivity].
    destruct (normaliza vl) as [v|e0] eqn:Hv.
    + cbv zeta. cbn [snd]. intros H.
      destruct (sacar_excecao_R _ _ _ _ _
                  (proj1 (proj2 (inv_conta_R _ _ _ Hb Hc)))
                  (normaliza_dinheiro_R _ _ Hv) H) as [->|[->|[-> [n ->]]]];
        [left; reflexivity|left; reflexivity|].
      right. split; [reflexivity|]. exists vl, n. split; [reflexivity|exact Hv].
    + intros [= <-]. rewrite (normaliza_levanta_R _ _ Hv). left. reflexivity.
  - rewrite transferir_eq_R. cbv zeta.
    destruct (dict_get og _) as [co|] eqn:Ho; [|intros [= <-]; left; reflexivity].
    destruct (dict_get ds _) as [cd|] eqn:Hd; [|intros [= <-]; left; reflexivity].
    destruct (normaliza vl) as [v|e0] eqn:Hv.
    2:{ intros [= <-]. rewrite (normaliza_levanta_R _ _ Hv). left. reflexivity. }
    destruct (String.eqb _ _); [intros [= <-]; left; reflexivity|].
    destruct (snd (Conta.sacar _ _ _ co)) as [[]|e1] eqn:H1.
    + destruct (snd (Conta.depositar _ _ _ cd)) as [[]|e2] eqn:H2;
        [discriminate|]. cbn [snd]. intros [= <-].
      destruct (depositar_excecao_R _ _ _ _ _
                  (proj1 (proj2 (inv_conta_R _ _ _ Hb Hd)))
                  (normaliza_dinheiro_R _ _ Hv) H2) as [->|[-> [n ->]]];
        [left; reflexivity|].
      right. split; [reflexivity|]. exists vl, n. split; [reflexivity|exact Hv].
    + cbn [snd]. intros [= <-].
      destruct (sacar_excecao_R _ _ _ _ _
                  (proj1 (proj2 (inv_conta_R _ _ _ Hb Ho)))
                  (normaliza_dinheiro_R _ _ Hv) H1) as [->|[->|[-> [n ->]]]];
        [left; reflexivity|left; reflexivity|].
      right. split; [reflexivity|]. exists vl, n. split; [reflexivity|exact Hv].
  - rewrite extrato_eq_R. destruct (dict_get nu _); [discriminate|].
    intros [= <-]. left. reflexivity.
  - discriminate.
Qed.

End ChamadasRefatorado.

(** ** Deposits, withdrawals and the money of the bank *)

Module DinheiroOriginal.
Import Original OriginalFacts TransferenciaOriginal SucessoOriginal ExtratoOriginal.
Import PassosOriginal PassosOriginalFacts InvariantesOriginal ChamadasOriginal.

(** A deposit of a positive amount into an account of a bank in use goes
    through. *)
Lemma Banco_depositar_efetivado relogio n valor v c (b : Banco) :
  inv b -> dict_get n (_contas_por_numero b) = Some c ->
  normaliza valor = Retorna v -> Dec.le v Dec.zero_int = Dec.Valor false ->
  exists b' c' soma,
    Banco.depositar relogio n valor b = (b', Retorna tt)
    /\ Dec.add (saldo c) v = Dec.Valor soma
    /\ dict_get n (_contas_por_numero b') = Some c'
    /\ numero c' = n /\ cliente c' = cliente c /\ saldo c' = soma
    /\ registro c' =
       (registro c
        ++ [Build_Transacao (relogio 0%nat) "DEPOSITO" v "depósito" "" n])%list
    /\ (forall k, k <> n ->
          dict_get k (_contas_por_numero b') = dict_get k (_contas_por_numero b))
    /\ dict_keys (_contas_por_numero b') = dict_keys (_contas_por_numero b)
    /\ _clientes_por_cpf b' = _clientes_por_cpf b
    /\ _seq_cliente b' = _seq_cliente b /\ _seq_conta b' = _seq_conta b
    /\ (centavos (saldo c) + centavos v < 10 ^ 28 ->
        centavos soma = centavos (saldo c) + centavos v).
Proof.
  intros Hb Hc Hv Hle.
  destruct (inv_conta _ _ _ Hb Hc) as (Hk & Hso & _).
  pose proof (normaliza_dinheiro _ _ Hv) as Hdin.
  destruct (depositar_sucesso (relogio 0%nat) v "depósito" c Hle Hdin Hso)
    as (soma & Hadd & Hdep).
  rewrite Banco_depositar_eq, Hc, Hv. cbv zeta. rewrite Hdep. cbn [fst snd].
  eexists _, _, soma. split; [reflexivity|]. split; [exact Hadd|].
  cbn [com_contas _contas_por_numero _clientes_por_cpf _seq_cliente _seq_conta].
  split; [apply dict_get_set_eq|]. campos. rewrite Hk.
  repeat split.
  - intros k Hne. apply dict_get_set_ne. exact Hne.
  - apply (dict_keys_set _ _ _ _ Hc).
  - intros Hlim. exact (add_exato _ _ _ Hso Hdin Hle Hadd Hlim).
Qed.

(** A withdrawal of a positive amount that the balance covers goes
    through. *)
Lemma Banco_sacar_efetivado relogio n valor v c (b : Banco) :
  inv b -> dict_get n (_contas_por_numero b) = Some c ->
  normaliza valor = Retorna v -> Dec.le v Dec.zero_int = Dec.Valor false ->
  Dec.lt (saldo c) v = Dec.Valor false ->
  exists b' c' resto,
    Banco.sacar relogio n valor b = (b', Retorna tt)
    /\ Dec.sub (saldo c) v = Dec.Valor resto
    /\ dict_get n (_contas_por_numero b') = Some c'
    /\ numero c' = n /\ cliente c' = cliente c /\ saldo c' = resto
    /\ registro c' =
       (registro c
        ++ [Build_Transacao (relogio 0%nat) "SAQUE" v "saque" n ""])%list
    /\ (forall k, k <> n ->
          dict_get k (_contas_por_numero b') = dict_get k (_contas_por_numero b))
    /\ dict_keys (_contas_por_numero b') = dict_keys (_contas_por_numero b)
    /\ _clientes_por_cpf b' = _clientes_por_cpf b
    /\ _seq_cliente b' = _seq_cliente b /\ _seq_conta b' = _seq_conta b
    /\ (centavos (saldo c) < 10 ^ 28 ->
        centavos resto = centavos (saldo c) - centavos v).
Proof.
  intros Hb Hc Hv Hle Hlt.
  destruct (inv_conta _ _ _ Hb Hc) as (Hk & Hso & _).
  pose proof (normaliza_dinheiro _ _ Hv) as Hdin.
  pose proof (sacar_coberto (relogio 0%nat) v "saque" c Hso Hdin Hle Hlt) as H1.
  destruct (sacar_sucesso _ _ _ _ H1) as (_ & _ & resto & Hsub & Hsac).
  rewrite Banco_sacar_eq, Hc, Hv. cbv zeta. rewrite H1, Hsac.
  eexists _, _, resto. split; [reflexivity|]. split; [exact Hsub|].
  cbn [com_contas _contas_por_numero _clientes_por_cpf _seq_cliente _seq_conta].
  split; [apply dict_get_set_eq|]. campos. rewrite Hk.
  repeat split.
  - intros k Hne. apply dict_get_set_ne. exact Hne.
  - apply (dict_keys_set _ _ _ _ Hc).
  - intros Hlim. exact (sub_exato _ _ _ Hso Hdin Hle Hlt Hsub Hlim).
Qed.

Lemma Banco_depositar_inv relogio n valor (b : Banco) :
  inv b -> inv (fst (Banco.depositar relogio n valor b)).
Proof.
  intros Hb. pose proof (executa_inv (relogio, Ch_depositar n valor) b Hb) as H.
  unfold executa in H. rewrite responde_eq in H. exact H.
Qed.

(** What was deposited can be withdrawn, and the balance is what it was. *)
Lemma deposito_e_saque relogio relogio' n valor v c (b : Banco) :
  inv b -> dict_get n (_contas_por_numero b) = Some c ->
  normaliza valor = Retorna v -> Dec.le v Dec.zero_int = Dec.Valor false ->
  centavos (saldo c) + centavos v < 10 ^ 28 ->
  exists b1 b2 c2,
    Banco.depositar relogio n valor b = (b1, Retorna tt)
    /\ Banco.sacar relogio' n valor b1 = (b2, Retorna tt)
    /\ dict_get n (_contas_por_numero b2) = Some c2
    /\ centavos (saldo c2) = centavos (saldo c)
    /\ registro c2 =
       (registro c
        ++ [Build_Transacao (relogio 0%nat) "DEPOSITO" v "depósito" "" n;
            Build_Transacao (relogio' 0%nat) "SAQUE" v "saque" n ""])%list
    /\ (forall k, k <> n ->
          dict_get k (_contas_por_numero b2) = dict_get k (_contas_por_numero b)).
Proof.
  intros Hb Hc Hv Hle Hlim.
  pose proof (Banco_depositar_inv relogio n valor b Hb) as Hb1.
  destruct (Banco_depositar_efetivado relogio n valor v c b Hb Hc Hv Hle)
    as (b1 & c1 & soma & Hdep & Hadd & Hc1 & _ & _ & Hs1 & Hr1 & Hk1 & _ & _ & _
        & _ & Hex).
  rewrite Hdep in Hb1. cbn [fst] in Hb1. specialize (Hex Hlim).
  destruct (inv_conta _ _ _ Hb Hc) as (_ & Hso & _).
  destruct (inv_conta _ _ _ Hb1 Hc1) as (_ & Hso1 & _).
  pose proof (normaliza_dinheiro _ _ Hv) as Hdin.
  pose proof (DecMais.centavos_nao_negativo _ Hso) as H0.
  assert (Hlt : Dec.lt (saldo c1) v = Dec.Valor false).
  { rewrite (DecMais.lt_centavos _ _ Hso1 (conj Hdin Hle)). f_equal.
    apply Z.ltb_ge. rewrite Hs1, Hex. lia. }
  destruct (Banco_sacar_efetivado relogio' n valor v c1 b1 Hb1 Hc1 Hv Hle Hlt)
    as (b2 & c2 & resto & Hsac & Hsub & Hc2 & _ & _ & Hs2 & Hr2 & Hk2 & _ & _ & _
        & _ & Hex2).
  exists b1, b2, c2. repeat split; try assumption.
  - rewrite Hs2, Hex2 by (rewrite Hs1, Hex; exact Hlim). rewrite Hs1, Hex. lia.
  - rewrite Hr2, Hr1, <- app_assoc. reflexivity.
  - intros k Hne. rewrite (Hk2 k Hne). apply Hk1. exact Hne.
Qed.

(** *** The money that the bank holds *)

Lemma soma_app (l1 l2 : list Z) :
  fold_right Z.add 0 (l1 ++ l2) = fold_right Z.add 0 l1 + fold_right Z.add 0 l2.
Proof. induction l1 as [|x l1 IH]; cbn [fold_right app]; lia. Qed.

Lemma total_set (b : Banco) k c0 c1 :
  dict_get k (_contas_por_numero b) = Some c0 ->
  total_banco (com_contas (dict_set k c1 (_contas_por_numero b)) b)
  = total_banco b - centavos (saldo c0) + centavos (saldo c1).
Proof.
  intros Hk. unfold total_banco. cbn [com_contas _contas_por_numero].
  destruct (dict_set_em k c1 c0 _ Hk) as (d1 & d2 & E & _ & ->). rewrite E.
  unfold dict_values. rewrite !map_app, !soma_app. cbn [map fold_right snd]. lia.
Qed.

Lemma total_cobre (D : dict Conta) k c :
  Forall (fun kc => 0 <= centavos (saldo (snd kc))) D ->
  dict_get k D = Some c ->
  0 <= centavos (saldo c)
       <= fold_right Z.add 0 (map (fun c => centavos (saldo c)) (dict_values D)).
Proof.
  induction D as [|[k0 c0] D IH]; cbn [dict_get]; [discriminate|].
  intros HF. inversion HF as [|? ? H0 HF']; subst. cbn [snd] in H0.
  assert (Hs : 0 <= fold_right Z.add 0
                      (map (fun c => centavos (saldo c)) (dict_values D))).
  { clear -HF'. induction HF' as [|[k1 c1] D H1 HF' IH]; cbn; [lia|].
    cbn [snd] in H1. unfold dict_values in IH. lia. }
  cbn [dict_values map fold_right snd]. fold (dict_values D).
  destruct (String.eqb k k0).
  - intros [= <-]. lia.
  - intros Hk. specialize (IH HF' Hk). lia.
Qed.

Lemma saldos_nao_negativos (b : Banco) :
  inv b ->
  Forall (fun kc => 0 <= centavos (saldo (snd kc))) (_contas_por_numero b).
Proof.
  intros [H _]. eapply Forall_impl; [|exact H].
  intros kc [(_ & Hso & _) _]. apply DecMais.centavos_nao_negativo, Hso.
Qed.

Lemma total_cobre_dois (b : Banco) o d co cd :
  inv b -> o <> d ->
  dict_get o (_contas_por_numero b) = Some co ->
  dict_get d (_contas_por_numero b) = Some cd ->
  0 <= centavos (saldo co) /\ 0 <= centavos (saldo cd)
  /\ centavos (saldo co) + centavos (saldo cd) <= total_banco b.
Proof.
  intros Hb Hod Ho Hd.
  pose proof (saldos_nao_negativos b Hb) as HF.
  pose proof (total_cobre _ _ _ HF Ho) as [Ho0 _].
  pose proof (total_cobre _ _ _ HF Hd) as [Hd0 _].
  split; [exact Ho0|]. split; [exact Hd0|].
  pose proof (total_set b o co (com_saldo (Dec.Fin false 0 (-2)) co) Ho) as Ht.
  assert (HF' : Forall (fun kc => 0 <= centavos (saldo (snd kc)))
                  (dict_set o (com_saldo (Dec.Fin false 0 (-2)) co)
                     (_contas_por_numero b))).
  { apply Forall_dict_set; [exact HF|]. cbn [snd]. campos. cbn. lia. }
  assert (Hd' : dict_get d (dict_set o (com_saldo (Dec.Fin false 0 (-2)) co)
                              (_contas_por_numero b)) = Some cd).
  { rewrite dict_get_set_ne by congruence. exact Hd. }
  pose proof (total_cobre _ _ _ HF' Hd') as [_ Hle].
  unfold total_banco in Ht at 1. cbn [com_contas _contas_por_numero] in Ht.
  rewrite Ht in Hle. campos_em Hle. change (centavos (Dec.Fin false 0 (-2))) with 0 in Hle.
  lia.
Qed.

(** A transfer moves money and makes none: whatever it does, the bank holds
    what it held. *)
Lemma transferir_conserva relogio o d valor (b : Banco) :
  inv b -> total_banco b < 10 ^ 28 ->
  total_banco (fst (Banco.transferir relogio o d valor b)) = total_banco b.
Proof.
  intros Hb Hlim.
  destruct (transferir_forma relogio o d valor b Hb)
    as [E|(co & cd & v & resto & soma & Hod & Ho & Hd & Hv & [Hdin Hle] & Hlt
           & Hsub & Hadd & E)]; rewrite E; [reflexivity|].
  cbn [fst].
  destruct (total_cobre_dois b o d co cd Hb Hod Ho Hd) as (Ho0 & Hd0 & Hsum).
  destruct (inv_conta _ _ _ Hb Ho) as (_ & Hso & _).
  destruct (inv_conta _ _ _ Hb Hd) as (_ & Hsd & _).
  pose proof (DecMais.coberto_centavos _ _ Hso (conj Hdin Hle) Hlt) as Hcob.
  pose proof (sub_exato _ _ _ Hso Hdin Hle Hlt Hsub ltac:(lia)) as Ex1.
  pose proof (add_exato _ _ _ Hsd Hdin Hle Hadd ltac:(lia)) as Ex2.
  match goal with
  | |- total_banco (com_contas (dict_set d ?cd1 (dict_set o ?co1 ?D)) b) = _ =>
      change (total_banco
                (com_contas
                   (dict_set d cd1
                      (_contas_por_numero (com_contas (dict_set o co1 D) b)))
                   (com_contas (dict_set o co1 D) b)) = total_banco b);
      rewrite (total_set (com_contas (dict_set o co1 D) b) d cd cd1)
        by (cbn [com_contas _contas_por_numero];
            rewrite dict_get_set_ne by congruence; exact Hd);
      rewrite (total_set b o co co1 Ho)
  end.
  campos. lia.
Qed.

(** *** [abrir_conta] *)

Lemma abrir_conta_nova cp (b : Banco) :
  inv b ->
  match dict_get cp (_clientes_por_cpf b) with
  | None =>
      Banco.abrir_conta cp b
      = (b, Levanta (EntidadeNaoEncontrada "cliente não encontrado"))
  | Some cl =>
      dict_get (str_int (_seq_conta b)) (_contas_por_numero b) = None
      /\ Banco.abrir_conta cp b =
         ({| _clientes_por_cpf := _clientes_por_cpf b;
             _contas_por_numero :=
               (_contas_por_numero b
                ++ [(str_int (_seq_conta b),
                     Conta_nova (str_int (_seq_conta b)) cl)])%list;
             _seq_cliente := _seq_cliente b;
             _seq_conta := _seq_conta b + 1 |},
          Retorna (str_int (_seq_conta b)))
  end.
Proof.
  intros Hb. rewrite abrir_conta_eq.
  destruct (dict_get cp _) as [cl|]; [|reflexivity].
  split; [exact (numero_novo b Hb)|]. cbv zeta.
  rewrite (dict_set_novo _ _ _ (numero_novo b Hb)). reflexivity.
Qed.

(** Money comes into the bank by [depositar] and leaves it by [sacar], and
    in no other way. *)
Lemma total_novo (b : Banco) n cl :
  total_banco
    {| _clientes_por_cpf := _clientes_por_cpf b;
       _contas_por_numero := (_contas_por_numero b ++ [(n, Conta_nova n cl)])%list;
       _seq_cliente := _seq_cliente b;
       _seq_conta := _seq_conta b + 1 |}
  = total_banco b.
Proof.
  unfold total_banco, dict_values. cbn [_contas_por_numero].
  rewrite !map_app, soma_app. cbn. lia.
Qed.

Lemma executa_total (p : Passo) (b : Banco) :
  inv b -> total_banco b < 10 ^ 28 ->
  match snd p, snd (executa p b) with
  | Ch_depositar _ valor, Retorna _ =>
      exists v,
        normaliza valor = Retorna v /\ 0 < centavos v
        /\ (total_banco b + centavos v < 10 ^ 28 ->
            total_banco (fst (executa p b)) = total_banco b + centavos v)
  | Ch_sacar _ valor, Retorna _ =>
      exists v,
        normaliza valor = Retorna v /\ 0 < centavos v
        /\ total_banco (fst (executa p b)) = total_banco b - centavos v
  | _, _ => total_banco (fst (executa p b)) = total_banco b
  end.
Proof.
  intros Hb Hlim.
  assert (Hfalha : forall e, snd (executa p b) = Levanta e ->
                             total_banco (fst (executa p b)) = total_banco b).
  { intros e He. rewrite (executa_falha p b e Hb He). reflexivity. }
  destruct p as [relogio ch]. cbn [snd].
  destruct ch as [nm cp|cp|nu|nu vl|nu vl|og ds vl|nu|].
  - unfold executa. rewrite responde_eq. cbn [fst snd].
    rewrite criar_cliente_eq. destruct (dict_get cp _); reflexivity.
  - unfold executa. rewrite responde_eq. cbn [fst snd].
    pose proof (abrir_conta_nova cp b Hb) as H.
    destruct (dict_get cp _) as [cl|]; [|rewrite H; reflexivity].
    destruct H as [_ ->]. cbn [fst snd]. apply total_novo.
  - unfold executa. rewrite responde_eq. cbn [fst snd].
    rewrite buscar_conta_eq. destruct (dict_get nu _); reflexivity.
  - destruct (snd (executa (relogio, Ch_depositar nu vl) b)) as [r|e] eqn:E;
      [|exact (Hfalha e eq_refl)].
    revert E. unfold executa. rewrite responde_eq. cbn [fst snd].
    rewrite Banco_depositar_eq.
    destruct (dict_get nu _) as [c|] eqn:Hc; [|discriminate].
    destruct (normaliza vl) as [v|e] eqn:Hv; [|discriminate]. cbv zeta.
    cbn [fst snd]. rewrite depositar_eq.
    destruct (Dec.le v Dec.zero_int) as [[|]|] eqn:Hle; try discriminate.
    destruct (Dec.add (saldo c) v) as [soma|] eqn:Ha; [|discriminate].
    intros _. cbn [fst]. exists v. split; [reflexivity|].
    pose proof (normaliza_dinheiro _ _ Hv) as Hdin.
    split; [exact (centavos_positivo _ Hdin Hle)|]. intros Hlim'.
    destruct (inv_conta _ _ _ Hb Hc) as (_ & Hso & _).
    pose proof (total_cobre _ _ _ (saldos_nao_negativos b Hb) Hc) as Hcob.
    fold (total_banco b) in Hcob.
    rewrite (total_set b nu c _ Hc). campos.
    rewrite (add_exato _ _ _ Hso Hdin Hle Ha ltac:(lia)). lia.
  - destruct (snd (executa (relogio, Ch_sacar nu vl) b)) as [r|e] eqn:E;
      [|exact (Hfalha e eq_refl)].
    revert E. unfold executa. rewrite responde_eq. cbn [fst snd].
    rewrite Banco_sacar_eq.
    destruct (dict_get nu _) as [c|] eqn:Hc; [|discriminate].
    destruct (normaliza vl) as [v|e] eqn:Hv; [|discriminate]. cbv zeta.
    cbn [fst snd]. rewrite sacar_eq.
    destruct (Dec.le v Dec.zero_int) as [[|]|] eqn:Hle; try discriminate.
    destruct (Dec.lt (saldo c) v) as [[|]|] eqn:Hlt; try discriminate.
    destruct (Dec.sub (saldo c) v) as [resto|] eqn:Ha; [|discriminate].
    intros _. cbn [fst]. exists v. split; [reflexivity|].
    pose proof (normaliza_dinheiro _ _ Hv) as Hdin.
    split; [exact (centavos_positivo _ Hdin Hle)|].
    destruct (inv_conta _ _ _ Hb Hc) as (_ & Hso & _).
    pose proof (total_cobre _ _ _ (saldos_nao_negativos b Hb) Hc) as Hcob.
    fold (total_banco b) in Hcob.
    rewrite (total_set b nu c _ Hc). campos.
    rewrite (sub_exato _ _ _ Hso Hdin Hle Hlt Ha ltac:(lia)). lia.
  - assert (H : total_banco (fst (executa (relogio, Ch_transferir og ds vl) b))
                = total_banco b).
    { unfold executa. rewrite responde_eq. cbn [fst].
      exact (transferir_conserva relogio og ds vl b Hb Hlim). }
    destruct (snd (executa _ b)); exact H.
  - unfold executa. rewrite responde_eq. cbn [fst snd].
    rewrite extrato_eq. destruct (dict_get nu _); reflexivity.
  - reflexivity.
Qed.

(** *** The methods of [Conta] on any account *)

Lemma sacar_nao_negativo agora v desc (c : Conta) :
  snd (Conta.sacar agora v desc c) = Retorna tt ->
  nao_negativo (saldo (fst (Conta.sacar agora v desc c))).
Proof.
  intros H. destruct (sacar_sucesso _ _ _ _ H) as (Hle & Hlt & resto & Hsub & ->).
  campos. exact (DecMais.sub_nao_negativo _ _ _ Hle Hlt Hsub).
Qed.

Lemma depositar_nao_negativo agora v desc (c : Conta) :
  nao_negativo (saldo c) ->
  snd (Conta.depositar agora v desc c) = Retorna tt ->
  nao_negativo (saldo (fst (Conta.depositar agora v desc c))).
Proof.
  intros Hs. rewrite depositar_eq.
  destruct (Dec.le v Dec.zero_int) as [[|]|] eqn:Hle; try discriminate.
  destruct (Dec.add (saldo c) v) as [soma|] eqn:Ha; [|discriminate].
  intros _. cbn [fst]. campos. exact (DecMais.add_nao_negativo _ _ _ Hle Hs Ha).
Qed.

End DinheiroOriginal.

(** ** Deposits, withdrawals and the money of the bank *)

Module DinheiroRefatorado.
Import Refatorado RefatoradoFacts TransferenciaRefatorado SucessoRefatorado ExtratoRefatorado.
Import PassosRefatorado PassosRefatoradoFacts InvariantesRefatorado ChamadasRefatorado.

(** A deposit of a positive amount into an account of a bank in use goes
    through. *)
Lemma Banco_depositar_efetivado_R relogio n valor v c (b : Banco) :
  inv b -> dict_get n (_contas_por_numero b) = Some c ->
  normaliza valor = Retorna v -> Dec.le v Dec.zero_int = Dec.Valor false ->
  exists b' c' soma,
    Banco.depositar relogio n valor b = (b', Retorna tt)
    /\ Dec.add (saldo c) v = Dec.Valor soma
    /\ dict_get n (_contas_por_numero b') = Some c'
    /\ numero c' = n /\ cliente c' = cliente c /\ saldo c' = soma
    /\ registro c' =
       (registro c
        ++ [Build_Transacao (relogio 0%nat) "DEPOSITO" v "Depósito" "" n])%list
    /\ (forall k, k <> n ->
          dict_get k (_contas_por_numero b') = dict_get k (_contas_por_numero b))
    /\ dict_keys (_contas_por_numero b') = dict_keys (_contas_por_numero b)
    /\ _clientes_por_cpf b' = _clientes_por_cpf b
    /\ _seq_cliente b' = _seq_cliente b /\ _seq_conta b' = _seq_conta b
    /\ (centavos (saldo c) + centavos v < 10 ^ 28 ->
        centavos soma = centavos (saldo c) + centavos v).
Proof.
  intros Hb Hc Hv Hle.
  destruct (inv_conta_R _ _ _ Hb Hc) as (Hk & Hso & _).
  pose proof (normaliza_dinheiro_R _ _ Hv) as Hdin.
  destruct (depositar_sucesso_R (relogio 0%nat) v "Depósito" c Hle Hdin Hso)
    as (soma & Hadd & Hdep).
  rewrite Banco_depositar_eq_R, Hc, Hv. cbv zeta. rewrite Hdep. cbn [fst snd].
  eexists _, _, soma. split; [reflexivity|]. split; [exact Hadd|].
  cbn [com_contas _contas_por_numero _clientes_por_cpf _seq_cliente _seq_conta].
  split; [apply dict_get_set_eq|]. campos. rewrite Hk.
  repeat split.
  - intros k Hne. apply dict_get_set_ne. exact Hne.
  - apply (dict_keys_set _ _ _ _ Hc).
  - intros Hlim. exact (add_exato _ _ _ Hso Hdin Hle Hadd Hlim).
Qed.

(** A withdrawal of a positive amount that the balance covers goes
    through. *)
Lemma Banco_sacar_efetivado_R relogio n valor v c (b : Banco) :
  inv b -> dict_get n (_contas_por_numero b) = Some c ->
  normaliza valor = Retorna v -> Dec.le v Dec.zero_int = Dec.Valor false ->
  Dec.lt (saldo c) v = Dec.Valor false ->
  exists b' c' resto,
    Banco.sacar relogio n valor b = (b', Retorna tt)
    /\ Dec.sub (saldo c) v = Dec.Valor resto
    /\ dict_get n (_contas_por_numero b') = Some c'
    /\ numero c' = n /\ cliente c' = cliente c /\ saldo c' = resto
    /\ registro c' =
       (registro c
        ++ [Build_Transacao (relogio 0%nat) "SAQUE" v "Saque" n ""])%list
    /\ (forall k, k <> n ->
          dict_get k (_contas_por_numero b') = dict_get k (_contas_por_numero b))
    /\ dict_keys (_contas_por_numero b') = dict_keys (_contas_por_numero b)
    /\ _clientes_por_cpf b' = _clientes_por_cpf b
    /\ _seq_cliente b' = _seq_cliente b /\ _seq_conta b' = _seq_conta b
    /\ (centavos (saldo c) < 10 ^ 28 ->
        centavos resto = centavos (saldo c) - centavos v).
Proof.
  intros Hb Hc Hv Hle Hlt.
  destruct (inv_conta_R _ _ _ Hb Hc) as (Hk & Hso & _).
  pose proof (normaliza_dinheiro_R _ _ Hv) as Hdin.
  pose proof (sacar_coberto_R (relogio 0%nat) v "Saque" c Hso Hdin Hle Hlt) as H1.
  destruct (sacar_sucesso_R _ _ _ _ H1) as (_ & _ & resto & Hsub & Hsac).
  rewrite Banco_sacar_eq_R, Hc, Hv. cbv zeta. rewrite H1, Hsac.
  eexists _, _, resto. split; [reflexivity|]. split; [exact Hsub|].
  cbn [com_contas _contas_por_numero _clientes_por_cpf _seq_cliente _seq_conta].
  split; [apply dict_get_set_eq|]. campos. rewrite Hk.
  repeat split.
  - intros k Hne. apply dict_get_set_ne. exact Hne.
  - apply (dict_keys_set _ _ _ _ Hc).
  - intros Hlim. exact (sub_exato _ _ _ Hso Hdin Hle Hlt Hsub Hlim).
Qed.

Lemma Banco_depositar_inv_R relogio n valor (b : Banco) :
  inv b -> inv (fst (Banco.depositar relogio n valor b)).
Proof.
  intros Hb. pose proof (executa_inv_R (relogio, Ch_depositar n valor) b Hb) as H.
  unfold executa in H. rewrite responde_eq_R in H. exact H.
Qed.

(** What was deposited can be withdrawn, and the balance is what it was. *)
Lemma deposito_e_saque_R relogio relogio' n valor v c (b : Banco) :
  inv b -> dict_get n (_contas_por_numero b) = Some c ->
  normaliza valor = Retorna v -> Dec.le v Dec.zero_int = Dec.Valor false ->
  centavos (saldo c) + centavos v < 10 ^ 28 ->
  exists b1 b2 c2,
    Banco.depositar relogio n valor b = (b1, Retorna tt)
    /\ Banco.sacar relogio' n valor b1 = (b2, Retorna tt)
    /\ dict_get n (_contas_por_numero b2) = Some c2
    /\ centavos (saldo c2) = centavos (saldo c)
    /\ registro c2 =
       (registro c
        ++ [Build_Transacao (relogio 0%nat) "DEPOSITO" v "Depósito" "" n;
            Build_Transacao (relogio' 0%nat) "SAQUE" v "Saque" n ""])%list
    /\ (forall k, k <> n ->
          dict_get k (_contas_por_numero b2) = dict_get k (_contas_por_numero b)).
Proof.
  intros Hb Hc Hv Hle Hlim.
  pose proof (Banco_depositar_inv_R relogio n valor b Hb) as Hb1.
  destruct (Banco_depositar_efetivado_R relogio n valor v c b Hb Hc Hv Hle)
    as (b1 & c1 & soma & Hdep & Hadd & Hc1 & _ & _ & Hs1 & Hr1 & Hk1 & _ & _ & _
        & _ & Hex).
  rewrite Hdep in Hb1. cbn [fst] in Hb1. specialize (Hex Hlim).
  destruct (inv_conta_R _ _ _ Hb Hc) as (_ & Hso & _).
  destruct (inv_conta_R _ _ _ Hb1 Hc1) as (_ & Hso1 & _).
  pose proof (normaliza_dinheiro_R _ _ Hv) as Hdin.
  pose proof (DecMais.centavos_nao_negativo _ Hso) as H0.
  assert (Hlt : Dec.lt (saldo c1) v = Dec.Valor false).
  { rewrite (DecMais.lt_centavos _ _ Hso1 (conj Hdin Hle)). f_equal.
    apply Z.ltb_ge. rewrite Hs1, Hex. lia. }
  destruct (Banco_sacar_efetivado_R relogio' n valor v c1 b1 Hb1 Hc1 Hv Hle Hlt)
    as (b2 & c2 & resto & Hsac & Hsub & Hc2 & _ & _ & Hs2 & Hr2 & Hk2 & _ & _ & _
        & _ & Hex2).
  exists b1, b2, c2. repeat split; try assumption.
  - rewrite Hs2, Hex2 by (rewrite Hs1, Hex; exact Hlim). rewrite Hs1, Hex. lia.
  - rewrite Hr2, Hr1, <- app_assoc. reflexivity.
  - intros k Hne. rewrite (Hk2 k Hne). apply Hk1. exact Hne.
Qed.

(** *** The money that the bank holds *)

Lemma soma_app_R (l1 l2 : list Z) :
  fold_right Z.add 0 (l1 ++ l2) = fold_right Z.add 0 l1 + fold_right Z.add 0 l2.
Proof. induction l1 as [|x l1 IH]; cbn [fold_right app]; lia. Qed.

Lemma total_set_R (b : Banco) k c0 c1 :
  dict_get k (_contas_por_numero b) = Some c0 ->
  total_banco (com_contas (dict_set k c1 (_contas_por_numero b)) b)
  = total_banco b - centavos (saldo c0) + centavos (saldo c1).
Proof.
  intros Hk. unfold total_banco. cbn [com_contas _contas_por_numero].
  destruct (dict_set_em k c1 c0 _ Hk) as (d1 & d2 & E & _ & ->). rewrite E.
  unfold dict_values. rewrite !map_app, !soma_app_R. cbn [map fold_right snd]. lia.
Qed.

Lemma total_cobre_R (D : dict Conta) k c :
  Forall (fun kc => 0 <= centavos (saldo (snd kc))) D ->
  dict_get k D = Some c ->
  0 <= centavos (saldo c)
       <= fold_right Z.add 0 (map (fun c => centavos (saldo c)) (dict_values D)).
Proof.
  induction D as [|[k0 c0] D IH]; cbn [dict_get]; [discriminate|].
  intros HF. inversion HF as [|? ? H0 HF']; subst. cbn [snd] in H0.
  assert (Hs : 0 <= fold_right Z.add 0
                      (map (fun c => centavos (saldo c)) (dict_values D))).
  { clear -HF'. induction HF' as [|[k1 c1] D H1 HF' IH]; cbn; [lia|].
    cbn [snd] in H1. unfold dict_values in IH. lia. }
  cbn [dict_values map fold_right snd]. fold (dict_values D).
  destruct (String.eqb k k0).
  - intros [= <-]. lia.
  - intros Hk. specialize (IH HF' Hk). lia.
Qed.

Lemma saldos_nao_negativos_R (b : Banco) :
  inv b ->
  Forall (fun kc => 0 <= centavos (saldo (snd kc))) (_contas_por_numero b).
Proof.
  intros [H _]. eapply Forall_impl; [|exact H].
  intros kc [(_ & Hso & _) _]. apply DecMais.centavos_nao_negativo, Hso.
Qed.

Lemma total_cobre_dois_R (b : Banco) o d co cd :
  inv b -> o <> d ->
  dict_get o (_contas_por_numero b) = Some co ->
  dict_get d (_contas_por_numero b) = Some cd ->
  0 <= centavos (saldo co) /\ 0 <= centavos (saldo cd)
  /\ centavos (saldo co) + centavos (saldo cd) <= total_banco b.
Proof.
  intros Hb Hod Ho Hd.
  pose proof (saldos_nao_negativos_R b Hb) as HF.
  pose proof (total_cobre_R _ _ _ HF Ho) as [Ho0 _].
  pose proof (total_cobre_R _ _ _ HF Hd) as [Hd0 _].
  split; [exact Ho0|]. split; [exact Hd0|].
  pose proof (total_set_R b o co (com_saldo (Dec.Fin false 0 (-2)) co) Ho) as Ht.
  assert (HF' : Forall (fun kc => 0 <= centavos (saldo (snd kc)))
                  (dict_set o (com_saldo (Dec.Fin false 0 (-2)) co)
                     (_contas_por_numero b))).
  { apply Forall_dict_set; [exact HF|]. cbn [snd]. campos. cbn. lia. }
  assert (Hd' : dict_get d (dict_set o (com_saldo (Dec.Fin false 0 (-2)) co)
                              (_contas_por_numero b)) = Some cd).
  { rewrite dict_get_set_ne by congruence. exact Hd. }
  pose proof (total_cobre_R _ _ _ HF' Hd') as [_ Hle].
  unfold total_banco in Ht at 1. cbn [com_contas _contas_por_numero] in Ht.
  rewrite Ht in Hle. campos_em Hle. change (centavos (Dec.Fin false 0 (-2))) with 0 in Hle.
  lia.
Qed.

(** A transfer moves money and makes none: whatever it does, the bank holds
    what it held. *)
Lemma transferir_conserva_R relogio o d valor (b : Banco) :
  inv b -> total_banco b < 10 ^ 28 ->
  total_banco (fst (Banco.transferir relogio o d valor b)) = total_banco b.
Proof.
  intros Hb Hlim.
  destruct (transferir_forma_R relogio o d valor b Hb)
    as [E|(co & cd & v & resto & soma & Hod & Ho & Hd & Hv & [Hdin Hle] & Hlt
           & Hsub & Hadd & E)]; rewrite E; [reflexivity|].
  cbn [fst].
  destruct (total_cobre_dois_R b o d co cd Hb Hod Ho Hd) as (Ho0 & Hd0 & Hsum).
  destruct (inv_conta_R _ _ _ Hb Ho) as (_ & Hso & _).
  destruct (inv_conta_R _ _ _ Hb Hd) as (_ & Hsd & _).
  pose proof (DecMais.coberto_centavos _ _ Hso (conj Hdin Hle) Hlt) as Hcob.
  pose proof (sub_exato _ _ _ Hso Hdin Hle Hlt Hsub ltac:(lia)) as Ex1.
  pose proof (add_exato _ _ _ Hsd Hdin Hle Hadd ltac:(lia)) as Ex2.
  match goal with
  | |- total_banco (com_contas (dict_set d ?cd1 (dict_set o ?co1 ?D)) b) = _ =>
      change (total_banco
                (com_contas
                   (dict_set d cd1
                      (_contas_por_numero (com_contas (dict_set o co1 D) b)))
                   (com_contas (dict_set o co1 D) b)) = total_banco b);
      rewrite (total_set_R (com_contas (dict_set o co1 D) b) d cd cd1)
        by (cbn [com_contas _contas_por_numero];
            rewrite dict_get_set_ne by congruence; exact Hd);
      rewrite (total_set_R b o co co1 Ho)
  end.
  campos. lia.
Qed.

(** *** [abrir_conta] *)

Lemma abrir_conta_nova_R cp (b : Banco) :
  inv b ->
  match dict_get cp (_clientes_por_cpf b) with
  | None =>
      Banco.abrir_conta cp b
      = (b, Levanta (EntidadeNaoEncontrada "cliente não encontrado"))
  | Some cl =>
      dict_get (str_int (_seq_conta b)) (_contas_por_numero b) = None
      /\ Banco.abrir_conta cp b =
         ({| _clientes_por_cpf := _clientes_por_cpf b;
             _contas_por_numero :=
               (_contas_por_numero b
                ++ [(str_int (_seq_conta b),
                     Conta_nova (str_int (_seq_conta b)) cl)])%list;
             _seq_cliente := _seq_cliente b;
             _seq_conta := _seq_conta b + 1 |},
          Retorna (str_int (_seq_conta b)))
  end.
Proof.
  intros Hb. rewrite abrir_conta_eq_R.
  destruct (dict_get cp _) as [cl|]; [|reflexivity].
  split; [exact (numero_novo_R b Hb)|]. cbv zeta.
  rewrite (dict_set_novo _ _ _ (numero_novo_R b Hb)). reflexivity.
Qed.

(** Money comes into the bank by [depositar] and leaves it by [sacar], and
    in no other way. *)
Lemma total_novo_R (b : Banco) n cl :
  total_banco
    {| _clientes_por_cpf := _clientes_por_cpf b;
       _contas_por_numero := (_contas_por_numero b ++ [(n, Conta_nova n cl)])%list;
       _seq_cliente := _seq_cliente b;
       _seq_conta := _seq_conta b + 1 |}
  = total_banco b.
Proof.
  unfold total_banco, dict_values. cbn [_contas_por_numero].
  rewrite !map_app, soma_app_R. cbn. lia.
Qed.

Lemma executa_total_R (p : Passo) (b : Banco) :
  inv b -> total_banco b < 10 ^ 28 ->
  match snd p, snd (executa p b) with
  | Ch_depositar _ valor, Retorna _ =>
      exists v,
        normaliza valor = Retorna v /\ 0 < centavos v
        /\ (total_banco b + centavos v < 10 ^ 28 ->
            total_banco (fst (executa p b)) = total_banco b + centavos v)
  | Ch_sacar _ valor, Retorna _ =>
      exists v,
        normaliza valor = Retorna v /\ 0 < centavos v
        /\ total_banco (fst (executa p b)) = total_banco b - centavos v
  | _, _ => total_banco (fst (executa p b)) = total_banco b
  end.
Proof.
  intros Hb Hlim.
  assert (Hfalha : forall e, snd (executa p b) = Levanta e ->
                             total_banco (fst (executa p b)) = total_banco b).
  { intros e He. rewrite (executa_falha_R p b e Hb He). reflexivity. }
  destruct p as [relogio ch]. cbn [snd].
  destruct ch as [nm cp|cp|nu|nu vl|nu vl|og ds vl|nu|].
  - unfold executa. rewrite responde_eq_R. cbn [fst snd].
    rewrite criar_cliente_eq_R. destruct (dict_get cp _); reflexivity.
  - unfold executa. rewrite responde_eq_R. cbn [fst snd].
    pose proof (abrir_conta_nova_R cp b Hb) as H.
    destruct (dict_get cp _) as [cl|]; [|rewrite H; reflexivity].
    destruct H as [_ ->]. cbn [fst snd]. apply total_novo_R.
  - unfold executa. rewrite responde_eq_R. cbn [fst snd].
    rewrite buscar_conta_eq_R. destruct (dict_get nu _); reflexivity.
  - destruct (snd (executa (relogio, Ch_depositar nu vl) b)) as [r|e] eqn:E;
      [|exact (Hfalha e eq_refl)].
    revert E. unfold executa. rewrite responde_eq_R. cbn [fst snd].
    rewrite Banco_depositar_eq_R.
    destruct (dict_get nu _) as [c|] eqn:Hc; [|discriminate].
    destruct (normaliza vl) as [v|e] eqn:Hv; [|discriminate]. cbv zeta.
    cbn [fst snd]. rewrite depositar_eq_R.
    destruct (Dec.le v Dec.zero_int) as [[|]|] eqn:Hle; try discriminate.
    destruct (Dec.add (saldo c) v) as [soma|] eqn:Ha; [|discriminate].
    intros _. cbn [fst]. exists v. split; [reflexivity|].
    pose proof (normaliza_dinheiro_R _ _ Hv) as Hdin.
    split; [exact (centavos_positivo _ Hdin Hle)|]. intros Hlim'.
    destruct (inv_conta_R _ _ _ Hb Hc) as (_ & Hso & _).
    pose proof (total_cobre_R _ _ _ (saldos_nao_negativos_R b Hb) Hc) as Hcob.
    fold (total_banco b) in Hcob.
    rewrite (total_set_R b nu c _ Hc). campos.
    rewrite (add_exato _ _ _ Hso Hdin Hle Ha ltac:(lia)). lia.
  - destruct (snd (executa (relogio, Ch_sacar nu vl) b)) as [r|e] eqn:E;
      [|exact (Hfalha e eq_refl)].
    revert E. unfold executa. rewrite responde_eq_R. cbn [fst snd].
    rewrite Banco_sacar_eq_R.
    destruct (dict_get nu _) as [c|] eqn:Hc; [|discriminate].
    destruct (normaliza vl) as [v|e] eqn:Hv; [|discriminate]. cbv zeta.
    cbn [fst snd]. rewrite sacar_eq_R.
    destruct (Dec.le v Dec.zero_int) as [[|]|] eqn:Hle; try discriminate.
    destruct (Dec.lt (saldo c) v) as [[|]|] eqn:Hlt; try discriminate.
    destruct (Dec.sub (saldo c) v) as [resto|] eqn:Ha; [|discriminate].
    intros _. cbn [fst]. exists v. split; [reflexivity|].
    pose proof (normaliza_dinheiro_R _ _ Hv) as Hdin.
    split; [exact (centavos_positivo _ Hdin Hle)|].
    destruct (inv_conta_R _ _ _ Hb Hc) as (_ & Hso & _).
    pose proof (total_cobre_R _ _ _ (saldos_nao_negativos_R b Hb) Hc) as Hcob.
    fold (total_banco b) in Hcob.
    rewrite (total_set_R b nu c _ Hc). campos.
    rewrite (sub_exato _ _ _ Hso Hdin Hle Hlt Ha ltac:(lia)). lia.
  - assert (H : total_banco (fst (executa (relogio, Ch_transferir og ds vl) b))
                = total_banco b).
    { unfold executa. rewrite responde_eq_R. cbn [fst].
      exact (transferir_conserva_R relogio og ds vl b Hb Hlim). }
    destruct (snd (executa _ b)); exact H.
  - unfold executa. rewrite responde_eq_R. cbn [fst snd].
    rewrite extrato_eq_R. destruct (dict_get nu _); reflexivity.
  - reflexivity.
Qed.

(** *** The methods of [Conta] on any account *)

Lemma sacar_nao_negativo_R agora v desc (c : Conta) :
  snd (Conta.sacar agora v desc c) = Retorna tt ->
  nao_negativo (saldo (fst (Conta.sacar agora v desc c))).
Proof.
  intros H. destruct (sacar_sucesso_R _ _ _ _ H) as (Hle & Hlt & resto & Hsub & ->).
  campos. exact (DecMais.sub_nao_negativo _ _ _ Hle Hlt Hsub).
Qed.

Lemma depositar_nao_negativo_R agora v desc (c : Conta) :
  nao_negativo (saldo c) ->
  snd (Conta.depositar agora v desc c) = Retorna tt ->
  nao_negativo (saldo (fst (Conta.depositar agora v desc c))).
Proof.
  intros Hs. rewrite depositar_eq_R.
  destruct (Dec.le v Dec.zero_int) as [[|]|] eqn:Hle; try discriminate.
  destruct (Dec.add (saldo c) v) as [soma|] eqn:Ha; [|discriminate].
  intros _. cbn [fst]. campos. exact (DecMais.add_nao_negativo _ _ _ Hle Hs Ha).
Qed.

End DinheiroRefatorado.

(** ** Grouping the accounts by owner *)

Section Particao.
Context {A K : Type} (chave : A -> string) (de : K -> string).

Lemma filter_cabeca {B} (f : B -> bool) (x : B) (l : list B) :
  filter f (x :: l) = if f x then x :: filter f l else filter f l.
Proof. reflexivity. Qed.

Lemma concat_vazias (ks : list K) : List.concat (map (fun k => filter (fun x => String.eqb (chave x) (de k)) []) ks) = [].
Proof. induction ks as [|k ks IH]; cbn; [reflexivity|exact IH]. Qed.

Lemma dos_fora (a : A) (l : list A) (ks : list K) :
  ~ In (chave a) (map de ks) ->
  map (fun k => filter (fun x => String.eqb (chave x) (de k)) (a :: l)) ks = map (fun k => filter (fun x => String.eqb (chave x) (de k)) l) ks.
Proof.
  induction ks as [|k ks IH]; cbn [map]; [reflexivity|].
  intros Hn. rewrite IH by (intros H; apply Hn; right; exact H).
  f_equal. rewrite filter_cabeca.
  destruct (String.eqb_spec (chave a) (de k)) as [E|_]; [|reflexivity].
  exfalso. apply Hn. left. symmetry. exact E.
Qed.

Lemma dos_dentro (a : A) (l : list A) (ks : list K) :
  NoDup (map de ks) -> In (chave a) (map de ks) ->
  Permutation (List.concat (map (fun k => filter (fun x => String.eqb (chave x) (de k)) (a :: l)) ks))
              (a :: List.concat (map (fun k => filter (fun x => String.eqb (chave x) (de k)) l) ks)).
Proof.
  induction ks as [|k ks IH]; cbn [map List.concat]; [intros _ []|].
  intros Hnd Hin. inversion Hnd as [|? ? Hnot Hnd']; subst.
  rewrite filter_cabeca.
  destruct (String.eqb_spec (chave a) (de k)) as [E|Hne].
  - rewrite dos_fora by (rewrite E; exact Hnot). reflexivity.
  - destruct Hin as [E|Hin]; [congruence|].
    rewrite (IH Hnd' Hin). symmetry. apply Permutation_middle.
Qed.

(** Keys that are distinct share out the items whose key is among them. *)
Lemma particao (l : list A) (ks : list K) :
  NoDup (map de ks) ->
  Forall (fun a => In (chave a) (map de ks)) l ->
  Permutation (List.concat (map (fun k => filter (fun x => String.eqb (chave x) (de k)) l) ks)) l.
Proof.
  intros Hnd. induction l as [|a l IH]; intros HF.
  - rewrite concat_vazias. constructor.
  - inversion HF as [|? ? Ha HF']; subst.
    rewrite (dos_dentro a l ks Hnd Ha). constructor. exact (IH HF').
Qed.

End Particao.

Lemma NoDup_fim {A} (l : list A) (x : A) :
  NoDup l -> ~ In x l -> NoDup (l ++ [x]).
Proof.
  intros Hl Hx. apply (Permutation_NoDup (Permutation_cons_append l x)).
  constructor; assumption.
Qed.

Lemma NoDup_map_str_int (l : list Z) : NoDup l -> NoDup (map str_int l).
Proof.
  induction 1 as [|x l Hx Hl IH]; cbn; constructor; [|exact IH].
  intros Hin. apply in_map_iff in Hin. destruct Hin as (y & E & Hy).
  apply str_int_inj in E. subst y. exact (Hx Hy).
Qed.

(** ** The listing *)

Module ListagemOriginal.
Import Original OriginalFacts PassosOriginal PassosOriginalFacts InvariantesOriginal.

(** What the loop of [listar_clientes_e_contas] leaves under a key: the
    accounts of that owner, in the order in which it met them. *)
Lemma agrupa_get (l : list Conta) : forall (m : dict (list Conta)) k,
  dict_get k (fold_left Banco.agrupa l m) =
  match dict_get k m, filter (fun c => String.eqb (cpf (cliente c)) k) l with
  | Some l0, f => Some (l0 ++ f)%list
  | None, [] => None
  | None, f => Some f
  end.
Proof.
  induction l as [|a l IH]; intros m k; cbn [fold_left filter].
  - destruct (dict_get k m); [rewrite app_nil_r|]; reflexivity.
  - rewrite IH. unfold Banco.agrupa. cbv zeta.
    destruct (String.eqb_spec (cpf (cliente a)) k) as [->|Hne].
    + destruct (dict_get k m) as [l0|];
        rewrite dict_get_set_eq; [rewrite <- app_assoc|]; reflexivity.
    + destruct (dict_get (cpf (cliente a)) m) as [l1|];
        rewrite dict_get_set_ne by congruence; reflexivity.
Qed.

Lemma agrupa_de (l : list Conta) k :
  match dict_get k (fold_left Banco.agrupa l []) with
  | Some x => x
  | None => []
  end = filter (fun c => String.eqb (cpf (cliente c)) k) l.
Proof.
  rewrite agrupa_get. cbn [dict_get]. destruct (filter _ l); reflexivity.
Qed.

(** The listing: the customers in the order of the bank, each with its
    accounts in the order of the bank. *)
Lemma listar_eq (b : Banco) :
  inv b ->
  Banco.listar_clientes_e_contas b
  = (b, Retorna (map (fun cl => (cl, contas_de cl b))
                     (dict_values (_clientes_por_cpf b)))).
Proof.
  intros Hb. unfold Banco.listar_clientes_e_contas. desmonta. do 2 f_equal.
  unfold dict_values at 2. rewrite map_map. apply map_ext_in.
  intros [k cl] Hin. cbn [snd]. rewrite agrupa_de. unfold contas_de.
  pose proof (proj1 (Forall_forall _ _) (proj2 Hb) _ Hin) as Hk.
  cbn [fst snd] in Hk. rewrite Hk. reflexivity.
Qed.

(** *** The cpfs of the customers are distinct *)

Lemma cpfs_distintos_passo (b b' : Banco) :
  NoDup (dict_keys (_clientes_por_cpf b)) -> transicao b b' ->
  NoDup (dict_keys (_clientes_por_cpf b')).
Proof.
  intros H Ht.
  destruct Ht as [|nm cp Hn|cp cl Hc Hn|n c agora v desc soma Hc Hv Ha
                 |n c agora v desc resto Hc Hv Hlt Ha
                 |o d co cd t0 t1 t2 v desc0 desc1 desc2 resto soma Hod Ho Hd Hv Hlt Hsub Hadd];
    cbn [_clientes_por_cpf com_contas]; try exact H.
  unfold dict_keys. rewrite map_app. cbn [map fst].
  apply NoDup_fim; [exact H|]. apply dict_get_None_In. exact Hn.
Qed.

Lemma cpfs_distintos_sempre (ps : list Passo) :
  NoDup (dict_keys (_clientes_por_cpf (fst (corre ps Banco_novo)))).
Proof.
  apply (corre_transicao (fun b => NoDup (dict_keys (_clientes_por_cpf b)))).
  - intros b b' _. apply cpfs_distintos_passo.
  - apply inv_novo.
  - constructor.
Qed.

Lemma cpfs_dos_clientes (b : Banco) :
  inv b ->
  map cpf (dict_values (_clientes_por_cpf b)) = dict_keys (_clientes_por_cpf b).
Proof.
  intros [_ H]. unfold dict_values, dict_keys. rewrite map_map.
  apply map_ext_in. intros kc Hin.
  exact (proj1 (Forall_forall _ _) H _ Hin).
Qed.

(** Every account of the bank is in the listing, once. *)
Lemma listar_particao (ps : list Passo) :
  let b := fst (corre ps Banco_novo) in
  Permutation
    (List.concat (map (fun cl => contas_de cl b)
                    (dict_values (_clientes_por_cpf b))))
    (dict_values (_contas_por_numero b)).
Proof.
  cbv zeta. set (b := fst (corre ps Banco_novo)).
  assert (Hb : inv b) by apply corre_inv, inv_novo.
  unfold contas_de.
  apply (particao (fun c : Conta => cpf (cliente c)) cpf).
  - rewrite (cpfs_dos_clientes b Hb). apply cpfs_distintos_sempre.
  - rewrite (cpfs_dos_clientes b Hb).
    pose proof (donos_registrados_sempre ps) as Hd. fold b in Hd.
    unfold donos_registrados in Hd. unfold dict_values.
    apply Forall_map. eapply Forall_impl; [|exact Hd].
    intros kc Hkc. cbn beta in Hkc. apply dict_get_In in Hkc.
    change (cpf (cliente (snd kc)))
      with (fst (cpf (cliente (snd kc)), cliente (snd kc))).
    apply in_map. exact Hkc.
Qed.

(** The accounts that come with a customer have that customer as their
    owner. *)
Lemma contas_de_dono (ps : list Passo) (cl : Cliente) (c : Conta) :
  let b := fst (corre ps Banco_novo) in
  In cl (dict_values (_clientes_por_cpf b)) ->
  In c (contas_de cl b) ->
  cliente c = cl.
Proof.
  cbv zeta. set (b := fst (corre ps Banco_novo)). intros Hcl Hc.
  assert (Hb : inv b) by apply corre_inv, inv_novo.
  unfold contas_de in Hc. apply filter_In in Hc. destruct Hc as [Hc Heq].
  apply String.eqb_eq in Heq.
  unfold dict_values in Hc, Hcl.
  apply in_map_iff in Hc. destruct Hc as [[k c'] [Ec Hc]].
  apply in_map_iff in Hcl. destruct Hcl as [[k' cl'] [Ecl Hcl]].
  cbn [snd] in Ec, Ecl. subst c' cl'.
  pose proof (donos_registrados_sempre ps) as Hd. fold b in Hd.
  pose proof (proj1 (Forall_forall _ _) Hd _ Hc) as Hdono.
  cbn [snd] in Hdono.
  pose proof (proj1 (Forall_forall _ _) (proj2 Hb) _ Hcl) as Hk.
  cbn [fst snd] in Hk. subst k'.
  pose proof (dict_In_get _ _ _ (cpfs_distintos_sempre ps) Hcl) as Hget.
  fold b in Hget. rewrite Heq in Hdono. congruence.
Qed.

End ListagemOriginal.

(** ** The listing *)

Module ListagemRefatorado.
Import Refatorado RefatoradoFacts PassosRefatorado PassosRefatoradoFacts InvariantesRefatorado.

(** What the loop of [listar_clientes_e_contas] leaves under a key: the
    accounts of that owner, in the order in which it met them. *)
Lemma agrupa_get_R (l : list Conta) : forall (m : dict (list Conta)) k,
  dict_get k (fold_left Banco.agrupa l m) =
  match dict_get k m, filter (fun c => String.eqb (cpf (cliente c)) k) l with
  | Some l0, f => Some (l0 ++ f)%list
  | None, [] => None
  | None, f => Some f
  end.
Proof.
  induction l as [|a l IH]; intros m k; cbn [fold_left filter].
  - destruct (dict_get k m); [rewrite app_nil_r|]; reflexivity.
  - rewrite IH. unfold Banco.agrupa. cbv zeta.
    destruct (String.eqb_spec (cpf (cliente a)) k) as [->|Hne].
    + destruct (dict_get k m) as [l0|];
        rewrite dict_get_set_eq; [rewrite <- app_assoc|]; reflexivity.
    + destruct (dict_get (cpf (cliente a)) m) as [l1|];
        rewrite dict_get_set_ne by congruence; reflexivity.
Qed.

Lemma agrupa_de_R (l : list Conta) k :
  match dict_get k (fold_left Banco.agrupa l []) with
  | Some x => x
  | None => []
  end = filter (fun c => String.eqb (cpf (cliente c)) k) l.
Proof.
  rewrite agrupa_get_R. cbn [dict_get]. destruct (filter _ l); reflexivity.
Qed.

(** The listing: the customers in the order of the bank, each with its
    accounts in the order of the bank. *)
Lemma listar_eq_R (b : Banco) :
  inv b ->
  Banco.listar_clientes_e_contas b
  = (b, Retorna (map (fun cl => (cl, contas_de cl b))
                     (dict_values (_clientes_por_cpf b)))).
Proof.
  intros Hb. unfold Banco.listar_clientes_e_contas. desmonta. do 2 f_equal.
  apply map_ext. intros cl. rewrite agrupa_de_R. reflexivity.
Qed.

(** *** The cpfs of the customers are distinct *)

Lemma cpfs_distintos_passo_R (b b' : Banco) :
  NoDup (dict_keys (_clientes_por_cpf b)) -> transicao b b' ->
  NoDup (dict_keys (_clientes_por_cpf b')).
Proof.
  intros H Ht.
  destruct Ht as [|nm cp Hn|cp cl Hc Hn|n c agora v desc soma Hc Hv Ha
                 |n c agora v desc resto Hc Hv Hlt Ha
                 |o d co cd t0 t1 t2 v desc0 desc1 desc2 resto soma Hod Ho Hd Hv Hlt Hsub Hadd];
    cbn [_clientes_por_cpf com_contas]; try exact H.
  unfold dict_keys. rewrite map_app. cbn [map fst].
  apply NoDup_fim; [exact H|]. apply dict_get_None_In. exact Hn.
Qed.

Lemma cpfs_distintos_sempre_R (ps : list Passo) :
  NoDup (dict_keys (_clientes_por_cpf (fst (corre ps Banco_novo)))).
Proof.
  apply (corre_transicao_R (fun b => NoDup (dict_keys (_clientes_por_cpf b)))).
  - intros b b' _. apply cpfs_distintos_passo_R.
  - apply inv_novo_R.
  - constructor.
Qed.

Lemma cpfs_dos_clientes_R (b : Banco) :
  inv b ->
  map cpf (dict_values (_clientes_por_cpf b)) = dict_keys (_clientes_por_cpf b).
Proof.
  intros [_ H]. unfold dict_values, dict_keys. rewrite map_map.
  apply map_ext_in. intros kc Hin.
  exact (proj1 (Forall_forall _ _) H _ Hin).
Qed.

(** Every account of the bank is in the listing, once. *)
Lemma listar_particao_R (ps : list Passo) :
  let b := fst (corre ps Banco_novo) in
  Permutation
    (List.concat (map (fun cl => contas_de cl b)
                    (dict_values (_clientes_por_cpf b))))
    (dict_values (_contas_por_numero b)).
Proof.
  cbv zeta. set (b := fst (corre ps Banco_novo)).
  assert (Hb : inv b) by apply corre_inv_R, inv_novo_R.
  unfold contas_de.
  apply (particao (fun c : Conta => cpf (cliente c)) cpf).
  - rewrite (cpfs_dos_clientes_R b Hb). apply cpfs_distintos_sempre_R.
  - rewrite (cpfs_dos_clientes_R b Hb).
    pose proof (donos_registrados_sempre_R ps) as Hd. fold b in Hd.
    unfold donos_registrados in Hd. unfold dict_values.
    apply Forall_map. eapply Forall_impl; [|exact Hd].
    intros kc Hkc. cbn beta in Hkc. apply dict_get_In in Hkc.
    change (cpf (cliente (snd kc)))
      with (fst (cpf (cliente (snd kc)), cliente (snd kc))).
    apply in_map. exact Hkc.
Qed.

(** The accounts that come with a customer have that customer as their
    owner. *)
Lemma contas_de_dono_R (ps : list Passo) (cl : Cliente) (c : Conta) :
  let b := fst (corre ps Banco_novo) in
  In cl (dict_values (_clientes_por_cpf b)) ->
  In c (contas_de cl b) ->
  cliente c = cl.
Proof.
  cbv zeta. set (b := fst (corre ps Banco_novo)). intros Hcl Hc.
  assert (Hb : inv b) by apply corre_inv_R, inv_novo_R.
  unfold contas_de in Hc. apply filter_In in Hc. destruct Hc as [Hc Heq].
  apply String.eqb_eq in Heq.
  unfold dict_values in Hc, Hcl.
  apply in_map_iff in Hc. destruct Hc as [[k c'] [Ec Hc]].
  apply in_map_iff in Hcl. destruct Hcl as [[k' cl'] [Ecl Hcl]].
  cbn [snd] in Ec, Ecl. subst c' cl'.
  pose proof (donos_registrados_sempre_R ps) as Hd. fold b in Hd.
  pose proof (proj1 (Forall_forall _ _) Hd _ Hc) as Hdono.
  cbn [snd] in Hdono.
  pose proof (proj1 (Forall_forall _ _) (proj2 Hb) _ Hcl) as Hk.
  cbn [fst snd] in Hk. subst k'.
  pose proof (dict_In_get _ _ _ (cpfs_distintos_sempre_R ps) Hcl) as Hget.
  fold b in Hget. rewrite Heq in Hdono. congruence.
Qed.

End ListagemRefatorado.

(** ** More on [_to_money] *)

Module NormalizaFacts.

(** What [_to_money] does, in one equation for each variant:
    [Decimal(str(valor))], then [quantize]; the original variant takes a
    [Decimal] as it is, and lets the signal of [quantize] out. *)
Lemma normaliza_original_eq (valor : Bruto) :
  Original.normaliza valor =
  match snd (Decimal_str valor tt) with
  | Retorna d =>
      match Dec.quantize_centavos d with
      | Dec.Valor v => Retorna v
      | Dec.InvalidOperation => Levanta DecimalInvalidOperation
      end
  | Levanta _ => Levanta (ValorInvalido "valor inválido")
  end.
Proof.
  unfold Original.normaliza, Original.Banco._to_money. desmonta.
  destruct valor as [d|s]; cbn [snd].
  - destruct (Dec.quantize_centavos d); reflexivity.
  - destruct (DecStr.Decimal_de_str s) as [d|]; [|reflexivity]. cbn [snd].
    destruct (Dec.quantize_centavos d); reflexivity.
Qed.

Lemma normaliza_refatorado_eq (valor : Bruto) :
  Refatorado.normaliza valor =
  match snd (Decimal_str valor tt) with
  | Retorna d =>
      match Dec.quantize_centavos d with
      | Dec.Valor v => Retorna v
      | Dec.InvalidOperation => Levanta (ValorInvalido "valor inválido")
      end
  | Levanta _ => Levanta (ValorInvalido "valor inválido")
  end.
Proof.
  unfold Refatorado.normaliza, Refatorado.Banco._to_money. desmonta.
  destruct valor as [d|s]; cbn [snd].
  - destruct (Dec.quantize_centavos d); reflexivity.
  - destruct (DecStr.Decimal_de_str s) as [d|]; [|reflexivity]. cbn [snd].
    destruct (Dec.quantize_centavos d); reflexivity.
Qed.

Lemma normaliza_mesmo_valor (valor : Bruto) (v : Dec.Decimal) :
  Original.normaliza valor = Retorna v <-> Refatorado.normaliza valor = Retorna v.
Proof.
  rewrite normaliza_original_eq, normaliza_refatorado_eq.
  destruct (snd (Decimal_str valor tt)) as [d|e]; [|split; discriminate].
  destruct (Dec.quantize_centavos d); split; congruence.
Qed.

Lemma normaliza_quantize (valor : Bruto) (v : Dec.Decimal) :
  Original.normaliza valor = Retorna v ->
  exists d, snd (Decimal_str valor tt) = Retorna d
            /\ Dec.quantize_centavos d = Dec.Valor v.
Proof.
  rewrite normaliza_original_eq.
  destruct (snd (Decimal_str valor tt)) as [d|e]; [|discriminate].
  destruct (Dec.quantize_centavos d) as [v'|] eqn:E; [|discriminate].
  intros [= <-]. exists d. split; [reflexivity|exact E].
Qed.

Lemma normaliza_idempotente (valor : Bruto) (v : Dec.Decimal) :
  Original.normaliza valor = Retorna v ->
  Original.normaliza (BDecimal v) = Retorna v.
Proof.
  intros H. destruct (normaliza_quantize _ _ H) as (d & _ & Hq).
  rewrite normaliza_original_eq. cbn [Decimal_str ret snd].
  rewrite (DecMais.quantize_idempotente _ _ Hq). reflexivity.
Qed.

End NormalizaFacts.

(** ** What a statement holds *)

Module LancamentosOriginal.
Import Original OriginalFacts TransferenciaOriginal SucessoOriginal ExtratoOriginal.
Import PassosOriginal PassosOriginalFacts InvariantesOriginal ChamadasOriginal.

(** [extrato] returns the log of the account, as it stands. *)
Lemma extrato_registro n c (b : Banco) :
  dict_get n (_contas_por_numero b) = Some c ->
  Banco.extrato n b = (b, Retorna (registro c)).
Proof. intros H. rewrite extrato_eq, H. reflexivity. Qed.

Lemma extrato_retorna n l (b b1 : Banco) :
  Banco.extrato n b = (b1, Retorna l) ->
  b1 = b /\ exists c, dict_get n (_contas_por_numero b) = Some c /\ l = registro c.
Proof.
  rewrite extrato_eq. destruct (dict_get n _) as [c|]; [|discriminate].
  intros [= <- <-]. split; [reflexivity|]. exists c. split; reflexivity.
Qed.

Lemma extrato_sem_conta n (b : Banco) :
  dict_get n (_contas_por_numero b) = None ->
  Banco.extrato n b
  = (b, Levanta (EntidadeNaoEncontrada "conta não encontrada")).
Proof. intros H. rewrite extrato_eq, H. reflexivity. Qed.

(** The statement of a new account is empty. *)
Lemma extrato_conta_nova cp n (b b' : Banco) :
  Banco.abrir_conta cp b = (b', Retorna n) ->
  Banco.extrato n b' = (b', Retorna []).
Proof.
  rewrite abrir_conta_eq. destruct (dict_get cp _) as [cl|]; [|discriminate].
  cbv zeta. intros [= <- <-]. rewrite extrato_eq.
  cbn [_contas_por_numero]. rewrite dict_get_set_eq. reflexivity.
Qed.

(** A deposit that returns puts one entry at the end of the statement. *)
Lemma extrato_deposito relogio n valor l (b b' : Banco) :
  inv b -> Banco.extrato n b = (b, Retorna l) ->
  Banco.depositar relogio n valor b = (b', Retorna tt) ->
  exists v,
    Banco._to_money valor b = (b, Retorna v)
    /\ Banco.extrato n b'
       = (b', Retorna
                (l ++ [Build_Transacao (relogio 0%nat) "DEPOSITO" v
                         "depósito" "" n])%list).
Proof.
  intros Hb Hl Hd. destruct (extrato_retorna _ _ _ _ Hl) as (_ & c & Hc & ->).
  rewrite Banco_depositar_eq, Hc in Hd. rewrite _to_money_eq.
  destruct (normaliza valor) as [v|e]; [|discriminate]. cbv zeta in Hd.
  exists v. split; [reflexivity|].
  rewrite depositar_eq in Hd.
  destruct (Dec.le v Dec.zero_int) as [[|]|]; try discriminate.
  destruct (Dec.add (saldo c) v) as [soma|]; try discriminate.
  cbn [fst snd] in Hd. injection Hd as <-.
  rewrite extrato_eq. cbn [_contas_por_numero com_contas].
  rewrite dict_get_set_eq.
  destruct (inv_conta _ _ _ Hb Hc) as (Hnum & _). rewrite Hnum. reflexivity.
Qed.

(** A withdrawal that returns puts one entry at the end of the
    statement. *)
Lemma extrato_saque relogio n valor l (b b' : Banco) :
  inv b -> Banco.extrato n b = (b, Retorna l) ->
  Banco.sacar relogio n valor b = (b', Retorna tt) ->
  exists v,
    Banco._to_money valor b = (b, Retorna v)
    /\ Banco.extrato n b'
       = (b', Retorna
                (l ++ [Build_Transacao (relogio 0%nat) "SAQUE" v
                         "saque" n ""])%list).
Proof.
  intros Hb Hl Hd. destruct (extrato_retorna _ _ _ _ Hl) as (_ & c & Hc & ->).
  rewrite Banco_sacar_eq, Hc in Hd. rewrite _to_money_eq.
  destruct (normaliza valor) as [v|e]; [|discriminate]. cbv zeta in Hd.
  exists v. split; [reflexivity|].
  rewrite sacar_eq in Hd.
  destruct (Dec.le v Dec.zero_int) as [[|]|]; try discriminate.
  destruct (Dec.lt (saldo c) v) as [[|]|]; try discriminate.
  destruct (Dec.sub (saldo c) v) as [resto|]; try discriminate.
  cbn [fst snd] in Hd. injection Hd as <-.
  rewrite extrato_eq. cbn [_contas_por_numero com_contas].
  rewrite dict_get_set_eq.
  destruct (inv_conta _ _ _ Hb Hc) as (Hnum & _). rewrite Hnum. reflexivity.
Qed.

(** A transfer that returns puts two entries at the end of the statement
    of the sender, the SAQUE and then the TRANSFERENCIA, and two at the end
    of the statement of the receiver, the DEPOSITO and then the same
    TRANSFERENCIA. *)
Lemma extrato_transferencia relogio o d valor lo ld (b b' : Banco) :
  inv b ->
  Banco.extrato o b = (b, Retorna lo) -> Banco.extrato d b = (b, Retorna ld) ->
  Banco.transferir relogio o d valor b = (b', Retorna tt) ->
  exists v,
    Banco._to_money valor b = (b, Retorna v)
    /\ Banco.extrato o b'
       = (b', Retorna
                (lo ++ [Build_Transacao (relogio 0%nat) "SAQUE" v
                          ("transferência para " ++ d) o "";
                        Build_Transacao (relogio 2%nat) "TRANSFERENCIA" v
                          "transferência" o d])%list)
    /\ Banco.extrato d b'
       = (b', Retorna
                (ld ++ [Build_Transacao (relogio 1%nat) "DEPOSITO" v
                          ("transferência de " ++ o) "" d;
                        Build_Transacao (relogio 2%nat) "TRANSFERENCIA" v
                          "transferência" o d])%list).
Proof.
  intros Hb Hlo Hld Ht.
  destruct (extrato_retorna _ _ _ _ Hlo) as (_ & co & Hco & ->).
  destruct (extrato_retorna _ _ _ _ Hld) as (_ & cd & Hcd & ->).
  pose proof (transferir_atomica relogio o d valor b Hb) as Ha.
  rewrite Ht in Ha. destruct Ha as (v & Hv & Ha). rewrite _to_money_eq.
  exists v. split; [rewrite Hv; reflexivity|].
  destruct Ha as (co' & cd' & resto & soma & _ & Ho & Hd & _ & _ & _ & _
                  & Hgo & Hgd & _).
  cbv zeta in Hgo. rewrite Hco in Ho. injection Ho as <-.
  rewrite Hcd in Hd. injection Hd as <-.
  destruct (inv_conta _ _ _ Hb Hco) as (Hno & _).
  destruct (inv_conta _ _ _ Hb Hcd) as (Hnd & _).
  rewrite Hno in Hgo. rewrite Hnd in Hgd.
  rewrite !extrato_eq, Hgo, Hgd. split; reflexivity.
Qed.

(** A call that raises, and a call that does not name the account, leave
    its statement as it was. *)
Lemma extrato_alheio (p : Passo) n l (b : Banco) :
  inv b -> Banco.extrato n b = (b, Retorna l) ->
  nomeia (snd p) n = false \/ (exists e, snd (executa p b) = Levanta e) ->
  Banco.extrato n (fst (executa p b)) = (fst (executa p b), Retorna l).
Proof.
  intros Hb Hl [Hn|[e He]].
  - destruct (extrato_retorna _ _ _ _ Hl) as (_ & c & Hc & ->).
    rewrite extrato_eq, (executa_alheia p b n Hb Hn) by congruence.
    rewrite Hc. reflexivity.
  - rewrite (executa_falha p b e Hb He). exact Hl.
Qed.

(** The list object that [extrato] hands out holds what [extrato]
    returns. *)
Lemma extrato_objeto n l (w : Objetos.Mundo Banco) :
  Banco.extrato n (Objetos.banco w) = (Objetos.banco w, Retorna l) ->
  exists w1 r,
    Objetos.extrato n w = (w1, Retorna r)
    /\ Objetos.banco w1 = Objetos.banco w
    /\ Objetos.le_lista r w1 = Some l.
Proof.
  intros Hl. destruct (extrato_retorna _ _ _ _ Hl) as (_ & c & Hc & ->).
  rewrite (extrato_eq_geral buscar_conta_de_eq).
  cbn [historico_de Extratos_original]. rewrite Hc. cbn [option_map].
  eexists _, _. split; [reflexivity|]. split; [reflexivity|].
  cbn [Objetos.le_lista Objetos.listas]. apply nth_error_fim.
Qed.

Lemma objeto_extrato n (w w1 : Objetos.Mundo Banco) r :
  Objetos.extrato n w = (w1, Retorna r) ->
  exists l,
    Banco.extrato n (Objetos.banco w) = (Objetos.banco w, Retorna l)
    /\ Objetos.le_lista r w1 = Some l.
Proof.
  rewrite (extrato_eq_geral buscar_conta_de_eq), extrato_eq.
  cbn [historico_de Extratos_original].
  destruct (dict_get n _) as [c|]; cbn [option_map]; [|discriminate].
  intros [= <- <-]. eexists. split; [reflexivity|].
  cbn [Objetos.le_lista Objetos.listas]. apply nth_error_fim.
Qed.

End LancamentosOriginal.

(** ** What a statement holds *)

Module LancamentosRefatorado.
Import Refatorado RefatoradoFacts TransferenciaRefatorado SucessoRefatorado ExtratoRefatorado.
Import PassosRefatorado PassosRefatoradoFacts InvariantesRefatorado ChamadasRefatorado.

(** [extrato] returns the log of the account, as it stands. *)
Lemma extrato_registro_R n c (b : Banco) :
  dict_get n (_contas_por_numero b) = Some c ->
  Banco.extrato n b = (b, Retorna (registro c)).
Proof. intros H. rewrite extrato_eq_R, H. reflexivity. Qed.

Lemma extrato_retorna_R n l (b b1 : Banco) :
  Banco.extrato n b = (b1, Retorna l) ->
  b1 = b /\ exists c, dict_get n (_contas_por_numero b) = Some c /\ l = registro c.
Proof.
  rewrite extrato_eq_R. destruct (dict_get n _) as [c|]; [|discriminate].
  intros [= <- <-]. split; [reflexivity|]. exists c. split; reflexivity.
Qed.

Lemma extrato_sem_conta_R n (b : Banco) :
  dict_get n (_contas_por_numero b) = None ->
  Banco.extrato n b
  = (b, Levanta (EntidadeNaoEncontrada "conta não encontrada")).
Proof. intros H. rewrite extrato_eq_R, H. reflexivity. Qed.

(** The statement of a new account is empty. *)
Lemma extrato_conta_nova_R cp n (b b' : Banco) :
  Banco.abrir_conta cp b = (b', Retorna n) ->
  Banco.extrato n b' = (b', Retorna []).
Proof.
  rewrite abrir_conta_eq_R. destruct (dict_get cp _) as [cl|]; [|discriminate].
  cbv zeta. intros [= <- <-]. rewrite extrato_eq_R.
  cbn [_contas_por_numero]. rewrite dict_get_set_eq. reflexivity.
Qed.

(** A deposit that returns puts one entry at the end of the statement. *)
Lemma extrato_deposito_R relogio n valor l (b b' : Banco) :
  inv b -> Banco.extrato n b = (b, Retorna l) ->
  Banco.depositar relogio n valor b = (b', Retorna tt) ->
  exists v,
    Banco._to_money valor b = (b, Retorna v)
    /\ Banco.extrato n b'
       = (b', Retorna
                (l ++ [Build_Transacao (relogio 0%nat) "DEPOSITO" v
                         "Depósito" "" n])%list).
Proof.
  intros Hb Hl Hd. destruct (extrato_retorna_R _ _ _ _ Hl) as (_ & c & Hc & ->).
  rewrite Banco_depositar_eq_R, Hc in Hd. rewrite _to_money_eq_R.
  destruct (normaliza valor) as [v|e]; [|discriminate]. cbv zeta in Hd.
  exists v. split; [reflexivity|].
  rewrite depositar_eq_R in Hd.
  destruct (Dec.le v Dec.zero_int) as [[|]|]; try discriminate.
  destruct (Dec.add (saldo c) v) as [soma|]; try discriminate.
  cbn [fst snd] in Hd. injection Hd as <-.
  rewrite extrato_eq_R. cbn [_contas_por_numero com_contas].
  rewrite dict_get_set_eq.
  destruct (inv_conta_R _ _ _ Hb Hc) as (Hnum & _). rewrite Hnum. reflexivity.
Qed.

(** A withdrawal that returns puts one entry at the end of the
    statement. *)
Lemma extrato_saque_R relogio n valor l (b b' : Banco) :
  inv b -> Banco.extrato n b = (b, Retorna l) ->
  Banco.sacar relogio n valor b = (b', Retorna tt) ->
  exists v,
    Banco._to_money valor b = (b, Retorna v)
    /\ Banco.extrato n b'
       = (b', Retorna
                (l ++ [Build_Transacao (relogio 0%nat) "SAQUE" v
                         "Saque" n ""])%list).
Proof.
  intros Hb Hl Hd. destruct (extrato_retorna_R _ _ _ _ Hl) as (_ & c & Hc & ->).
  rewrite Banco_sacar_eq_R, Hc in Hd. rewrite _to_money_eq_R.
  destruct (normaliza valor) as [v|e]; [|discriminate]. cbv zeta in Hd.
  exists v. split; [reflexivity|].
  rewrite sacar_eq_R in Hd.
  destruct (Dec.le v Dec.zero_int) as [[|]|]; try discriminate.
  destruct (Dec.lt (saldo c) v) as [[|]|]; try discriminate.
  destruct (Dec.sub (saldo c) v) as [resto|]; try discriminate.
  cbn [fst snd] in Hd. injection Hd as <-.
  rewrite extrato_eq_R. cbn [_contas_por_numero com_contas].
  rewrite dict_get_set_eq.
  destruct (inv_conta_R _ _ _ Hb Hc) as (Hnum & _). rewrite Hnum. reflexivity.
Qed.

(** A transfer that returns puts two entries at the end of the statement
    of the sender, the SAQUE and then the TRANSFERENCIA, and two at the end
    of the statement of the receiver, the DEPOSITO and then the same
    TRANSFERENCIA. *)
Lemma extrato_transferencia_R relogio o d valor lo ld (b b' : Banco) :
  inv b ->
  Banco.extrato o b = (b, Retorna lo) -> Banco.extrato d b = (b, Retorna ld) ->
  Banco.transferir relogio o d valor b = (b', Retorna tt) ->
  exists v,
    Banco._to_money valor b = (b, Retorna v)
    /\ Banco.extrato o b'
       = (b', Retorna
                (lo ++ [Build_Transacao (relogio 0%nat) "SAQUE" v
                          ("Transferência para " ++ d) o "";
                        Build_Transacao (relogio 2%nat) "TRANSFERENCIA" v
                          "Transferência" o d])%list)
    /\ Banco.extrato d b'
       = (b', Retorna
                (ld ++ [Build_Transacao (relogio 1%nat) "DEPOSITO" v
                          ("Transferência de " ++ o) "" d;
                        Build_Transacao (relogio 2%nat) "TRANSFERENCIA" v
                          "Transferência" o d])%list).
Proof.
  intros Hb Hlo Hld Ht.
  destruct (extrato_retorna_R _ _ _ _ Hlo) as (_ & co & Hco & ->).
  destruct (extrato_retorna_R _ _ _ _ Hld) as (_ & cd & Hcd & ->).
  pose proof (transferir_atomica_R relogio o d valor b Hb) as Ha.
  rewrite Ht in Ha. destruct Ha as (v & Hv & Ha). rewrite _to_money_eq_R.
  exists v. split; [rewrite Hv; reflexivity|].
  destruct Ha as (co' & cd' & resto & soma & _ & Ho & Hd & _ & _ & _ & _
                  & Hgo & Hgd & _).
  cbv zeta in Hgo. rewrite Hco in Ho. injection Ho as <-.
  rewrite Hcd in Hd. injection Hd as <-.
  destruct (inv_conta_R _ _ _ Hb Hco) as (Hno & _).
  destruct (inv_conta_R _ _ _ Hb Hcd) as (Hnd & _).
  rewrite Hno in Hgo. rewrite Hnd in Hgd.
  rewrite !extrato_eq_R, Hgo, Hgd. split; reflexivity.
Qed.

(** A call that raises, and a call that does not name the account, leave
    its statement as it was. *)
Lemma extrato_alheio_R (p : Passo) n l (b : Banco) :
  inv b -> Banco.extrato n b = (b, Retorna l) ->
  nomeia (snd p) n = false \/ (exists e, snd (executa p b) = Levanta e) ->
  Banco.extrato n (fst (executa p b)) = (fst (executa p b), Retorna l).
Proof.
  intros Hb Hl [Hn|[e He]].
  - destruct (extrato_retorna_R _ _ _ _ Hl) as (_ & c & Hc & ->).
    rewrite extrato_eq_R, (executa_alheia_R p b n Hb Hn) by congruence.
    rewrite Hc. reflexivity.
  - rewrite (executa_falha_R p b e Hb He). exact Hl.
Qed.

(** The list object that [extrato] hands out holds what [extrato]
    returns. *)
Lemma extrato_objeto_R n l (w : Objetos.Mundo Banco) :
  Banco.extrato n (Objetos.banco w) = (Objetos.banco w, Retorna l) ->
  exists w1 r,
    Objetos.extrato n w = (w1, Retorna r)
    /\ Objetos.banco w1 = Objetos.banco w
    /\ Objetos.le_lista r w1 = Some l.
Proof.
  intros Hl. destruct (extrato_retorna_R _ _ _ _ Hl) as (_ & c & Hc & ->).
  rewrite (extrato_eq_geral buscar_conta_de_eq_R).
  cbn [historico_de Extratos_refatorado]. rewrite Hc. cbn [option_map].
  eexists _, _. split; [reflexivity|]. split; [reflexivity|].
  cbn [Objetos.le_lista Objetos.listas]. apply nth_error_fim.
Qed.

Lemma objeto_extrato_R n (w w1 : Objetos.Mundo Banco) r :
  Objetos.extrato n w = (w1, Retorna r) ->
  exists l,
    Banco.extrato n (Objetos.banco w) = (Objetos.banco w, Retorna l)
    /\ Objetos.le_lista r w1 = Some l.
Proof.
  rewrite (extrato_eq_geral buscar_conta_de_eq_R), extrato_eq_R.
  cbn [historico_de Extratos_refatorado].
  destruct (dict_get n _) as [c|]; cbn [option_map]; [|discriminate].
  intros [= <- <-]. eexists. split; [reflexivity|].
  cbn [Objetos.le_lista Objetos.listas]. apply nth_error_fim.
Qed.

End LancamentosRefatorado.

(** ** Accounts and customers of a bank in use *)

(** X1: on a bank in use and in both variants, [abrir_conta] with a cpf
    that the bank does not have raises [EntidadeNaoEncontrada] and changes
    nothing; with the cpf of a customer it returns a new account, numbered
    [str(_seq_conta)], a number that no account of the bank has: the account
    of that customer, with the balance 0.00 and an empty log, is added after
    the accounts that were there, which stay as they were, and the counter
    goes up by one. *)
Theorem abrir_conta_abre (ps : list Passo) (cp : string) :
  (let b := fst (Original.corre ps Original.Banco_novo) in
   match dict_get cp (Original._clientes_por_cpf b) with
   | None =>
       Original.Banco.abrir_conta cp b
       = (b, Levanta (EntidadeNaoEncontrada "cliente não encontrado"))
   | Some cl =>
       let n := str_int (Original._seq_conta b) in
       dict_get n (Original._contas_por_numero b) = None
       /\ Original.Banco.abrir_conta cp b =
          ({| Original._clientes_por_cpf := Original._clientes_por_cpf b;
              Original._contas_por_numero :=
                (Original._contas_por_numero b
                 ++ [(n, Original.Conta_nova n cl)])%list;
              Original._seq_cliente := Original._seq_cliente b;
              Original._seq_conta := Original._seq_conta b + 1 |},
           Retorna n)
   end)
  /\
  (let b := fst (Refatorado.corre ps Refatorado.Banco_novo) in
   match dict_get cp (Refatorado._clientes_por_cpf b) with
   | None =>
       Refatorado.Banco.abrir_conta cp b
       = (b, Levanta (EntidadeNaoEncontrada "cliente não encontrado"))
   | Some cl =>
       let n := str_int (Refatorado._seq_conta b) in
       dict_get n (Refatorado._contas_por_numero b) = None
       /\ Refatorado.Banco.abrir_conta cp b =
          ({| Refatorado._clientes_por_cpf := Refatorado._clientes_por_cpf b;
              Refatorado._contas_por_numero :=
                (Refatorado._contas_por_numero b
                 ++ [(n, Refatorado.Conta_nova n cl)])%list;
              Refatorado._seq_cliente := Refatorado._seq_cliente b;
              Refatorado._seq_conta := Refatorado._seq_conta b + 1 |},
           Retorna n)
   end).
Proof.
  split; cbv zeta.
  - apply DinheiroOriginal.abrir_conta_nova.
    apply OriginalFacts.corre_inv, OriginalFacts.inv_novo.
  - apply DinheiroRefatorado.abrir_conta_nova_R.
    apply RefatoradoFacts.corre_inv_R, RefatoradoFacts.inv_novo_R.
Qed.

(** After [criar_dados_mock()] a second account for Ana is numbered 1004;
    a cpf that was never registered opens nothing. *)
Lemma abrir_conta_abre_mock :
  let bo := fst (Original.corre criar_dados_mock Original.Banco_novo) in
  let br := fst (Refatorado.corre criar_dados_mock Refatorado.Banco_novo) in
  snd (Original.Banco.abrir_conta "11111111111" bo) = Retorna "1004"
  /\ snd (Refatorado.Banco.abrir_conta "11111111111" br) = Retorna "1004"
  /\ Original.Banco.abrir_conta "00000000000" bo
     = (bo, Levanta (EntidadeNaoEncontrada "cliente não encontrado"))
  /\ Refatorado.Banco.abrir_conta "00000000000" br
     = (br, Levanta (EntidadeNaoEncontrada "cliente não encontrado")).
Proof.
  cbv zeta.
  pose proof (proj1 (abrir_conta_abre criar_dados_mock "11111111111")) as To.
  pose proof (proj2 (abrir_conta_abre criar_dados_mock "11111111111")) as Tr.
  pose proof (proj1 (abrir_conta_abre criar_dados_mock "00000000000")) as No.
  pose proof (proj2 (abrir_conta_abre criar_dados_mock "00000000000")) as Nr.
  cbv zeta in To, Tr, No, Nr.
  split; [|split; [|split]].
  - destruct (dict_get "11111111111" _) eqn:E in To; [|vm_compute in E; discriminate E].
    rewrite (proj2 To). vm_compute. reflexivity.
  - destruct (dict_get "11111111111" _) eqn:E in Tr; [|vm_compute in E; discriminate E].
    rewrite (proj2 Tr). vm_compute. reflexivity.
  - destruct (dict_get "00000000000" _) eqn:E in No; [vm_compute in E; discriminate E|].
    exact No.
  - destruct (dict_get "00000000000" _) eqn:E in Nr; [vm_compute in E; discriminate E|].
    exact Nr.
Defined.

(** X2: on a bank in use and in both variants, the accounts are numbered
    [str] of 1001, 1002, ... in the order in which they were opened, with
    no gap and no number twice; [_seq_conta] is the next number; and every
    account is stored under its own number. *)
Theorem contas_numeradas_em_sequencia (ps : list Passo) :
  (let b := fst (Original.corre ps Original.Banco_novo) in
   let n := List.length (Original._contas_por_numero b) in
   dict_keys (Original._contas_por_numero b) = map str_int (intervalo 1001 n)
   /\ Original._seq_conta b = 1001 + Z.of_nat n
   /\ NoDup (dict_keys (Original._contas_por_numero b))
   /\ Forall (fun kc => Original.numero (snd kc) = fst kc)
             (Original._contas_por_numero b))
  /\
  (let b := fst (Refatorado.corre ps Refatorado.Banco_novo) in
   let n := List.length (Refatorado._contas_por_numero b) in
   dict_keys (Refatorado._contas_por_numero b) = map str_int (intervalo 1001 n)
   /\ Refatorado._seq_conta b = 1001 + Z.of_nat n
   /\ NoDup (dict_keys (Refatorado._contas_por_numero b))
   /\ Forall (fun kc => Refatorado.numero (snd kc) = fst kc)
             (Refatorado._contas_por_numero b)).
Proof.
  split; cbv zeta.
  - destruct (InvariantesOriginal.numeros_em_sequencia_sempre ps) as [Hk Hs].
    split; [exact Hk|]. split; [exact Hs|]. split.
    + rewrite Hk. apply NoDup_map_str_int, intervalo_NoDup.
    + pose proof (OriginalFacts.corre_inv ps _ OriginalFacts.inv_novo) as [H _].
      eapply Forall_impl; [|exact H]. intros kc [(Hn & _) _]. exact Hn.
  - destruct (InvariantesRefatorado.numeros_em_sequencia_sempre_R ps) as [Hk Hs].
    split; [exact Hk|]. split; [exact Hs|]. split.
    + rewrite Hk. apply NoDup_map_str_int, intervalo_NoDup.
    + pose proof (RefatoradoFacts.corre_inv_R ps _ RefatoradoFacts.inv_novo_R)
        as [H _].
      eapply Forall_impl; [|exact H]. intros kc [(Hn & _) _]. exact Hn.
Qed.

(** X3: on a bank in use and in both variants, the customers have the ids
    1, 2, ... in the order in which they were registered; [_seq_cliente] is
    the next id; every customer is stored under its own cpf, and no cpf is
    there twice. *)
Theorem clientes_numerados_em_sequencia (ps : list Passo) :
  (let b := fst (Original.corre ps Original.Banco_novo) in
   let cs := dict_values (Original._clientes_por_cpf b) in
   map id cs = intervalo 1 (List.length cs)
   /\ Original._seq_cliente b = 1 + Z.of_nat (List.length cs)
   /\ map cpf cs = dict_keys (Original._clientes_por_cpf b)
   /\ NoDup (map cpf cs))
  /\
  (let b := fst (Refatorado.corre ps Refatorado.Banco_novo) in
   let cs := dict_values (Refatorado._clientes_por_cpf b) in
   map id cs = intervalo 1 (List.length cs)
   /\ Refatorado._seq_cliente b = 1 + Z.of_nat (List.length cs)
   /\ map cpf cs = dict_keys (Refatorado._clientes_por_cpf b)
   /\ NoDup (map cpf cs)).
Proof.
  split; cbv zeta.
  - destruct (InvariantesOriginal.clientes_em_sequencia_sempre ps) as [Hk Hs].
    pose proof (OriginalFacts.corre_inv ps _ OriginalFacts.inv_novo) as Hb.
    unfold dict_values. rewrite length_map, map_map.
    split; [exact Hk|]. split; [exact Hs|].
    pose proof (ListagemOriginal.cpfs_dos_clientes _ Hb) as Hc.
    unfold dict_values in Hc. rewrite Hc.
    split; [reflexivity|apply ListagemOriginal.cpfs_distintos_sempre].
  - destruct (InvariantesRefatorado.clientes_em_sequencia_sempre_R ps) as [Hk Hs].
    pose proof (RefatoradoFacts.corre_inv_R ps _ RefatoradoFacts.inv_novo_R) as Hb.
    unfold dict_values. rewrite length_map, map_map.
    split; [exact Hk|]. split; [exact Hs|].
    pose proof (ListagemRefatorado.cpfs_dos_clientes_R _ Hb) as Hc.
    unfold dict_values in Hc. rewrite Hc.
    split; [reflexivity|apply ListagemRefatorado.cpfs_distintos_sempre_R].
Qed.

(** X4: on a bank in use and in both variants, the owner of every account
    is a customer of the bank: the bank has, under the cpf of the owner,
    that very customer. *)
Theorem dono_e_cliente_do_banco (ps : list Passo) (n : string) :
  (forall c,
     let b := fst (Original.corre ps Original.Banco_novo) in
     dict_get n (Original._contas_por_numero b) = Some c ->
     dict_get (cpf (Original.cliente c)) (Original._clientes_por_cpf b)
     = Some (Original.cliente c))
  /\
  (forall c,
     let b := fst (Refatorado.corre ps Refatorado.Banco_novo) in
     dict_get n (Refatorado._contas_por_numero b) = Some c ->
     dict_get (cpf (Refatorado.cliente c)) (Refatorado._clientes_por_cpf b)
     = Some (Refatorado.cliente c)).
Proof.
  split; intros c; cbv zeta; intros Hc.
  - exact (Forall_dict_get _ _ _ _
             (InvariantesOriginal.donos_registrados_sempre ps) Hc).
  - exact (Forall_dict_get _ _ _ _
             (InvariantesRefatorado.donos_registrados_sempre_R ps) Hc).
Qed.

(** After [criar_dados_mock()] the owner of the account 1002 is the
    customer that the bank has under the cpf 22222222222. *)
Lemma dono_e_cliente_do_banco_mock :
  exists co cr,
    dict_get "1002" (Original._contas_por_numero
      (fst (Original.corre criar_dados_mock Original.Banco_novo))) = Some co
    /\ dict_get "1002" (Refatorado._contas_por_numero
      (fst (Refatorado.corre criar_dados_mock Refatorado.Banco_novo))) = Some cr
    /\ dict_get "22222222222" (Original._clientes_por_cpf
         (fst (Original.corre criar_dados_mock Original.Banco_novo)))
       = Some (Original.cliente co)
    /\ dict_get "22222222222" (Refatorado._clientes_por_cpf
         (fst (Refatorado.corre criar_dados_mock Refatorado.Banco_novo)))
       = Some (Refatorado.cliente cr).
Proof.
  eexists. eexists.
  split; [vm_compute; reflexivity|].
  split; [vm_compute; reflexivity|].
  split.
  - exact (proj1 (dono_e_cliente_do_banco criar_dados_mock "1002") _
             ltac:(vm_compute; reflexivity)).
  - exact (proj2 (dono_e_cliente_do_banco criar_dados_mock "1002") _
             ltac:(vm_compute; reflexivity)).
Defined.

(** X5: in both variants an account, once opened, stays: whatever calls
    follow, [buscar_conta] finds it under the same number, with the same
    owner, and its log begins with the entries that it had. *)
Theorem conta_permanece (ps qs : list Passo) (n : string) :
  (forall c,
     dict_get n (Original._contas_por_numero
                   (fst (Original.corre ps Original.Banco_novo))) = Some c ->
     let b' := fst (Original.corre (ps ++ qs) Original.Banco_novo) in
     exists c' novos,
       dict_get n (Original._contas_por_numero b') = Some c'
       /\ Original.numero c' = Original.numero c
       /\ Original.cliente c' = Original.cliente c
       /\ Original.registro c' = (Original.registro c ++ novos)%list
       /\ Original.Banco.buscar_conta n b' = (b', Retorna n))
  /\
  (forall c,
     dict_get n (Refatorado._contas_por_numero
                   (fst (Refatorado.corre ps Refatorado.Banco_novo))) = Some c ->
     let b' := fst (Refatorado.corre (ps ++ qs) Refatorado.Banco_novo) in
     exists c' novos,
       dict_get n (Refatorado._contas_por_numero b') = Some c'
       /\ Refatorado.numero c' = Refatorado.numero c
       /\ Refatorado.cliente c' = Refatorado.cliente c
       /\ Refatorado.registro c' = (Refatorado.registro c ++ novos)%list
       /\ Refatorado.Banco.buscar_conta n b' = (b', Retorna n)).
Proof.
  split; intros c Hc; cbv zeta.
  - rewrite PassosOriginalFacts.corre_app.
    destruct (ContinuaOriginal.continua_corre qs _
                (OriginalFacts.corre_inv ps _ OriginalFacts.inv_novo))
      as (Ha & _).
    destruct (Ha n c Hc) as (c' & novos & Hc' & E1 & E2 & E3).
    exists c', novos. repeat split; try assumption.
    rewrite OriginalFacts.buscar_conta_eq, Hc'. reflexivity.
  - rewrite PassosRefatoradoFacts.corre_app_R.
    destruct (ContinuaRefatorado.continua_corre_R qs _
                (RefatoradoFacts.corre_inv_R ps _ RefatoradoFacts.inv_novo_R))
      as (Ha & _).
    destruct (Ha n c Hc) as (c' & novos & Hc' & E1 & E2 & E3).
    exists c', novos. repeat split; try assumption.
    rewrite RefatoradoFacts.buscar_conta_eq_R, Hc'. reflexivity.
Qed.

(** The account 1001 of [criar_dados_mock()] is there after the six first
    calls, and after the five that follow. *)
Lemma conta_permanece_mock :
  let qs := skipn 6 criar_dados_mock in
  let bo := fst (Original.corre criar_dados_mock Original.Banco_novo) in
  let br := fst (Refatorado.corre criar_dados_mock Refatorado.Banco_novo) in
  Original.Banco.buscar_conta "1001" bo = (bo, Retorna "1001")
  /\ Refatorado.Banco.buscar_conta "1001" br = (br, Retorna "1001").
Proof.
  cbv zeta. split.
  - edestruct (proj1 (conta_permanece (firstn 6 criar_dados_mock)
                        (skipn 6 criar_dados_mock) "1001"))
      as (c' & novos & _ & _ & _ & _ & H); [vm_compute; reflexivity|].
    rewrite firstn_skipn in H. exact H.
  - edestruct (proj2 (conta_permanece (firstn 6 criar_dados_mock)
                        (skipn 6 criar_dados_mock) "1001"))
      as (c' & novos & _ & _ & _ & _ & H); [vm_compute; reflexivity|].
    rewrite firstn_skipn in H. exact H.
Defined.

(** X6: in both variants a customer, once registered, stays: whatever calls
    follow, [criar_cliente] with that cpf, and with whatever name, returns
    the customer of the first registration, with its id and its name, and
    changes nothing. *)
Theorem cliente_permanece (ps qs : list Passo) (cp nome' : string) :
  (forall cl,
     dict_get cp (Original._clientes_por_cpf
                    (fst (Original.corre ps Original.Banco_novo))) = Some cl ->
     let b' := fst (Original.corre (ps ++ qs) Original.Banco_novo) in
     Original.Banco.criar_cliente nome' cp b' = (b', Retorna cl))
  /\
  (forall cl,
     dict_get cp (Refatorado._clientes_por_cpf
                    (fst (Refatorado.corre ps Refatorado.Banco_novo))) = Some cl ->
     let b' := fst (Refatorado.corre (ps ++ qs) Refatorado.Banco_novo) in
     Refatorado.Banco.criar_cliente nome' cp b' = (b', Retorna cl)).
Proof.
  split; intros cl Hc; cbv zeta.
  - rewrite PassosOriginalFacts.corre_app.
    destruct (ContinuaOriginal.continua_corre qs _
                (OriginalFacts.corre_inv ps _ OriginalFacts.inv_novo))
      as (_ & Hcl & _).
    rewrite OriginalFacts.criar_cliente_eq, (Hcl cp cl Hc). reflexivity.
  - rewrite PassosRefatoradoFacts.corre_app_R.
    destruct (ContinuaRefatorado.continua_corre_R qs _
                (RefatoradoFacts.corre_inv_R ps _ RefatoradoFacts.inv_novo_R))
      as (_ & Hcl & _).
    rewrite RefatoradoFacts.criar_cliente_eq_R, (Hcl cp cl Hc). reflexivity.
Qed.

(** Ana is registered by the first call of [criar_dados_mock()]; after all
    of them, [criar_cliente("Outra", "11111111111")] returns Ana. *)
Lemma cliente_permanece_mock :
  let ana := Build_Cliente 1 "Ana" "11111111111" in
  let bo := fst (Original.corre criar_dados_mock Original.Banco_novo) in
  let br := fst (Refatorado.corre criar_dados_mock Refatorado.Banco_novo) in
  Original.Banco.criar_cliente "Outra" "11111111111" bo = (bo, Retorna ana)
  /\ Refatorado.Banco.criar_cliente "Outra" "11111111111" br = (br, Retorna ana).
Proof.
  cbv zeta. split.
  - pose proof (proj1 (cliente_permanece (firstn 1 criar_dados_mock)
                         (skipn 1 criar_dados_mock) "11111111111" "Outra")
                  (Build_Cliente 1 "Ana" "11111111111")
                  ltac:(vm_compute; reflexivity)) as H.
    cbv zeta in H. rewrite firstn_skipn in H. exact H.
  - pose proof (proj2 (cliente_permanece (firstn 1 criar_dados_mock)
                         (skipn 1 criar_dados_mock) "11111111111" "Outra")
                  (Build_Cliente 1 "Ana" "11111111111")
                  ltac:(vm_compute; reflexivity)) as H.
    cbv zeta in H. rewrite firstn_skipn in H. exact H.
Defined.

(** ** The calls of a bank in use *)

(** X7: on a bank in use and in both variants, a call of a public method
    that raises, whatever the method and the exception, leaves the bank as
    it was. *)
Theorem chamada_que_levanta_nada_muda (ps : list Passo) (p : Passo) (e : Excecao) :
  (let b := fst (Original.corre ps Original.Banco_novo) in
   snd (Original.executa p b) = Levanta e -> fst (Original.executa p b) = b)
  /\
  (let b := fst (Refatorado.corre ps Refatorado.Banco_novo) in
   snd (Refatorado.executa p b) = Levanta e -> fst (Refatorado.executa p b) = b).
Proof.
  split; cbv zeta.
  - apply ChamadasOriginal.executa_falha.
    apply OriginalFacts.corre_inv, OriginalFacts.inv_novo.
  - apply ChamadasRefatorado.executa_falha_R.
    apply RefatoradoFacts.corre_inv_R, RefatoradoFacts.inv_novo_R.
Qed.

(** After [criar_dados_mock()], a deposit of an amount that cannot be read
    raises and changes nothing. *)
Lemma chamada_que_levanta_nada_muda_mock :
  let p := (tique, Ch_depositar "1001" (BOutro "dez")) in
  let bo := fst (Original.corre criar_dados_mock Original.Banco_novo) in
  let br := fst (Refatorado.corre criar_dados_mock Refatorado.Banco_novo) in
  fst (Original.executa p bo) = bo /\ fst (Refatorado.executa p br) = br.
Proof.
  cbv zeta. split.
  - apply (proj1 (chamada_que_levanta_nada_muda criar_dados_mock
                    (tique, Ch_depositar "1001" (BOutro "dez"))
                    (ValorInvalido "valor inválido"))).
    vm_compute. reflexivity.
  - apply (proj2 (chamada_que_levanta_nada_muda criar_dados_mock
                    (tique, Ch_depositar "1001" (BOutro "dez"))
                    (ValorInvalido "valor inválido"))).
    vm_compute. reflexivity.
Defined.

(** X8: on a bank in use and in both variants, a call leaves alone every
    account that it does not name: [depositar] and [sacar] touch the
    account of their number, [transferir] its two accounts, and the other
    methods none.  The customers and their counter change under
    [criar_cliente] only, and the account numbers and their counter under
    [abrir_conta] only. *)
Theorem chamada_alheia (ps : list Passo) (p : Passo) :
  (let b := fst (Original.corre ps Original.Banco_novo) in
   let b' := fst (Original.executa p b) in
   (forall n c,
      nomeia (snd p) n = false ->
      dict_get n (Original._contas_por_numero b) = Some c ->
      dict_get n (Original._contas_por_numero b') = Some c)
   /\ ((forall nm cp, snd p <> Ch_criar_cliente nm cp) ->
       Original._clientes_por_cpf b' = Original._clientes_por_cpf b
       /\ Original._seq_cliente b' = Original._seq_cliente b)
   /\ ((forall cp, snd p <> Ch_abrir_conta cp) ->
       dict_keys (Original._contas_por_numero b')
       = dict_keys (Original._contas_por_numero b)
       /\ Original._seq_conta b' = Original._seq_conta b))
  /\
  (let b := fst (Refatorado.corre ps Refatorado.Banco_novo) in
   let b' := fst (Refatorado.executa p b) in
   (forall n c,
      nomeia (snd p) n = false ->
      dict_get n (Refatorado._contas_por_numero b) = Some c ->
      dict_get n (Refatorado._contas_por_numero b') = Some c)
   /\ ((forall nm cp, snd p <> Ch_criar_cliente nm cp) ->
       Refatorado._clientes_por_cpf b' = Refatorado._clientes_por_cpf b
       /\ Refatorado._seq_cliente b' = Refatorado._seq_cliente b)
   /\ ((forall cp, snd p <> Ch_abrir_conta cp) ->
       dict_keys (Refatorado._contas_por_numero b')
       = dict_keys (Refatorado._contas_por_numero b)
       /\ Refatorado._seq_conta b' = Refatorado._seq_conta b)).
Proof.
  split; cbv zeta.
  - pose proof (OriginalFacts.corre_inv ps _ OriginalFacts.inv_novo) as Hb.
    split; [|split].
    + intros n c Hn Hc.
      rewrite (ChamadasOriginal.executa_alheia p _ n Hb Hn); [exact Hc|].
      rewrite Hc. discriminate.
    + apply ChamadasOriginal.executa_clientes. exact Hb.
    + apply ChamadasOriginal.executa_contas. exact Hb.
  - pose proof (RefatoradoFacts.corre_inv_R ps _ RefatoradoFacts.inv_novo_R) as Hb.
    split; [|split].
    + intros n c Hn Hc.
      rewrite (ChamadasRefatorado.executa_alheia_R p _ n Hb Hn); [exact Hc|].
      rewrite Hc. discriminate.
    + apply ChamadasRefatorado.executa_clientes_R. exact Hb.
    + apply ChamadasRefatorado.executa_contas_R. exact Hb.
Qed.

(** The transfer of [criar_dados_mock()], from 1003 to 1001, leaves 1002
    with its 800.00. *)
Lemma chamada_alheia_mock :
  let ps := firstn 9 criar_dados_mock in
  let p := (tique, Ch_transferir "1003" "1001" (D "300")) in
  (exists c,
     dict_get "1002" (Original._contas_por_numero
       (fst (Original.executa p (fst (Original.corre ps Original.Banco_novo)))))
     = Some c /\ Original.saldo c = Dec.Fin false 80000 (-2))
  /\
  (exists c,
     dict_get "1002" (Refatorado._contas_por_numero
       (fst (Refatorado.executa p
               (fst (Refatorado.corre ps Refatorado.Banco_novo)))))
     = Some c /\ Refatorado.saldo c = Dec.Fin false 80000 (-2)).
Proof.
  cbv zeta. split.
  - eexists. split.
    + apply (proj1 (proj1 (chamada_alheia (firstn 9 criar_dados_mock)
                             (tique, Ch_transferir "1003" "1001" (D "300")))));
        [reflexivity|vm_compute; reflexivity].
    + reflexivity.
  - eexists. split.
    + apply (proj1 (proj2 (chamada_alheia (firstn 9 criar_dados_mock)
                             (tique, Ch_transferir "1003" "1001" (D "300")))));
        [reflexivity|vm_compute; reflexivity].
    + reflexivity.
Defined.



(** X10: in both variants [_to_money] hands on a NaN, and [depositar] and
    [sacar] on an account that exists then raise [decimal.InvalidOperation],
    which is no [ErroBanco], at the test [valor <= 0]; the bank is left as
    it was. *)
Theorem quantia_nan (relogio : nat -> datetime) (n : string) (valor : Bruto)
    (neg : bool) :
  (forall (b : Original.Banco) c,
     dict_get n (Original._contas_por_numero b) = Some c ->
     Original.normaliza valor = Retorna (Dec.NaN neg false) ->
     Original.Banco.depositar relogio n valor b
     = (b, Levanta DecimalInvalidOperation)
     /\ Original.Banco.sacar relogio n valor b
        = (b, Levanta DecimalInvalidOperation))
  /\
  (forall (b : Refatorado.Banco) c,
     dict_get n (Refatorado._contas_por_numero b) = Some c ->
     Refatorado.normaliza valor = Retorna (Dec.NaN neg false) ->
     Refatorado.Banco.depositar relogio n valor b
     = (b, Levanta DecimalInvalidOperation)
     /\ Refatorado.Banco.sacar relogio n valor b
        = (b, Levanta DecimalInvalidOperation)).
Proof.
  split; intros b c Hc Hv.
  - rewrite OriginalFacts.Banco_depositar_eq, OriginalFacts.Banco_sacar_eq.
    rewrite Hc, Hv. cbv zeta.
    rewrite OriginalFacts.depositar_eq, OriginalFacts.sacar_eq. cbn [fst snd Dec.le
      Dec.is_nan orb]. rewrite (OriginalFacts.com_contas_mesma _ _ _ Hc).
    split; reflexivity.
  - rewrite RefatoradoFacts.Banco_depositar_eq_R, RefatoradoFacts.Banco_sacar_eq_R.
    rewrite Hc, Hv. cbv zeta.
    rewrite RefatoradoFacts.depositar_eq_R, RefatoradoFacts.sacar_eq_R.
    cbn [fst snd Dec.le Dec.is_nan orb].
    rewrite (RefatoradoFacts.com_contas_mesma_R _ _ _ Hc).
    split; reflexivity.
Qed.

(** [depositar("1001", "NaN")] after [criar_dados_mock()]. *)
Lemma quantia_nan_mock :
  let bo := fst (Original.corre criar_dados_mock Original.Banco_novo) in
  let br := fst (Refatorado.corre criar_dados_mock Refatorado.Banco_novo) in
  Original.Banco.depositar tique "1001" (BOutro "NaN") bo
  = (bo, Levanta DecimalInvalidOperation)
  /\ Refatorado.Banco.depositar tique "1001" (BOutro "NaN") br
     = (br, Levanta DecimalInvalidOperation).
Proof.
  cbv zeta. split.
  - edestruct (proj1 (quantia_nan tique "1001" (BOutro "NaN") false)
                 (fst (Original.corre criar_dados_mock Original.Banco_novo)))
      as [H _]; [vm_compute; reflexivity|vm_compute; reflexivity|exact H].
  - edestruct (proj2 (quantia_nan tique "1001" (BOutro "NaN") false)
                 (fst (Refatorado.corre criar_dados_mock Refatorado.Banco_novo)))
      as [H _]; [vm_compute; reflexivity|vm_compute; reflexivity|exact H].
Defined.

(** ** Deposits, withdrawals and the money of the bank *)

(** X11: on a bank in use and in both variants, [depositar] of an amount
    that [_to_money] takes to a positive [v], into an account that exists,
    returns: the balance becomes [saldo + v] in the arithmetic of the
    program, which is to the cent as long as it stays below [10^28] cents;
    the log gains one DEPOSITO entry, with [v] and the account as
    destination; the number and the owner of the account, the other
    accounts, the customers and the counters are as they were. *)
Theorem deposito_efetivado (ps : list Passo) (relogio : nat -> datetime)
    (n : string) (valor : Bruto) (v : Dec.Decimal) :
  (forall c,
     let b := fst (Original.corre ps Original.Banco_novo) in
     dict_get n (Original._contas_por_numero b) = Some c ->
     Original.normaliza valor = Retorna v ->
     Dec.le v Dec.zero_int = Dec.Valor false ->
     exists b' c' soma,
       Original.Banco.depositar relogio n valor b = (b', Retorna tt)
       /\ Dec.add (Original.saldo c) v = Dec.Valor soma
       /\ dict_get n (Original._contas_por_numero b') = Some c'
       /\ Original.numero c' = n
       /\ Original.cliente c' = Original.cliente c
       /\ Original.saldo c' = soma
       /\ Original.registro c' =
          (Original.registro c
           ++ [Build_Transacao (relogio 0%nat) "DEPOSITO" v "depósito" "" n])%list
       /\ (forall k, k <> n ->
             dict_get k (Original._contas_por_numero b')
             = dict_get k (Original._contas_por_numero b))
       /\ dict_keys (Original._contas_por_numero b')
          = dict_keys (Original._contas_por_numero b)
       /\ Original._clientes_por_cpf b' = Original._clientes_por_cpf b
       /\ Original._seq_cliente b' = Original._seq_cliente b
       /\ Original._seq_conta b' = Original._seq_conta b
       /\ (centavos (Original.saldo c) + centavos v < 10 ^ 28 ->
           centavos soma = centavos (Original.saldo c) + centavos v))
  /\
  (forall c,
     let b := fst (Refatorado.corre ps Refatorado.Banco_novo) in
     dict_get n (Refatorado._contas_por_numero b) = Some c ->
     Refatorado.normaliza valor = Retorna v ->
     Dec.le v Dec.zero_int = Dec.Valor false ->
     exists b' c' soma,
       Refatorado.Banco.depositar relogio n valor b = (b', Retorna tt)
       /\ Dec.add (Refatorado.saldo c) v = Dec.Valor soma
       /\ dict_get n (Refatorado._contas_por_numero b') = Some c'
       /\ Refatorado.numero c' = n
       /\ Refatorado.cliente c' = Refatorado.cliente c
       /\ Refatorado.saldo c' = soma
       /\ Refatorado.registro c' =
          (Refatorado.registro c
           ++ [Build_Transacao (relogio 0%nat) "DEPOSITO" v "Depósito" "" n])%list
       /\ (forall k, k <> n ->
             dict_get k (Refatorado._contas_por_numero b')
             = dict_get k (Refatorado._contas_por_numero b))
       /\ dict_keys (Refatorado._contas_por_numero b')
          = dict_keys (Refatorado._contas_por_numero b)
       /\ Refatorado._clientes_por_cpf b' = Refatorado._clientes_por_cpf b
       /\ Refatorado._seq_cliente b' = Refatorado._seq_cliente b
       /\ Refatorado._seq_conta b' = Refatorado._seq_conta b
       /\ (centavos (Refatorado.saldo c) + centavos v < 10 ^ 28 ->
           centavos soma = centavos (Refatorado.saldo c) + centavos v)).
Proof.
  split; intros c; cbv zeta.
  - apply DinheiroOriginal.Banco_depositar_efetivado.
    apply OriginalFacts.corre_inv, OriginalFacts.inv_novo.
  - apply DinheiroRefatorado.Banco_depositar_efetivado_R.
    apply RefatoradoFacts.corre_inv_R, RefatoradoFacts.inv_novo_R.
Qed.

(** The first deposit of [criar_dados_mock()]: 1500.00 into the new account
    1001, which then holds 1500.00 and has one entry in its log. *)
Lemma deposito_efetivado_mock :
  let ps := firstn 6 criar_dados_mock in
  let bo := fst (Original.corre ps Original.Banco_novo) in
  let br := fst (Refatorado.corre ps Refatorado.Banco_novo) in
  let v := Dec.Fin false 150000 (-2) in
  (exists b' c',
     Original.Banco.depositar tique "1001" (D "1500") bo = (b', Retorna tt)
     /\ dict_get "1001" (Original._contas_por_numero b') = Some c'
     /\ centavos (Original.saldo c') = 150000
     /\ Original.registro c'
        = [Build_Transacao 0 "DEPOSITO" v "depósito" "" "1001"])
  /\
  (exists b' c',
     Refatorado.Banco.depositar tique "1001" (D "1500") br = (b', Retorna tt)
     /\ dict_get "1001" (Refatorado._contas_por_numero b') = Some c'
     /\ centavos (Refatorado.saldo c') = 150000
     /\ Refatorado.registro c'
        = [Build_Transacao 0 "DEPOSITO" v "Depósito" "" "1001"]).
Proof.
  cbv zeta.
  pose proof (proj1 (deposito_efetivado (firstn 6 criar_dados_mock) tique "1001"
                       (D "1500") (Dec.Fin false 150000 (-2)))) as To.
  pose proof (proj2 (deposito_efetivado (firstn 6 criar_dados_mock) tique "1001"
                       (D "1500") (Dec.Fin false 150000 (-2)))) as Tr.
  cbv zeta in To, Tr. split.
  - edestruct To as (b' & c' & soma & H1 & _ & H2 & _ & _ & H3 & H4 & _ & _ & _
                     & _ & _ & H5);
      [vm_compute; reflexivity|vm_compute; reflexivity|vm_compute; reflexivity|].
    exists b', c'. split; [exact H1|]. split; [exact H2|]. split.
    + rewrite H3. apply H5. vm_compute. reflexivity.
    + exact H4.
  - edestruct Tr as (b' & c' & soma & H1 & _ & H2 & _ & _ & H3 & H4 & _ & _ & _
                     & _ & _ & H5);
      [vm_compute; reflexivity|vm_compute; reflexivity|vm_compute; reflexivity|].
    exists b', c'. split; [exact H1|]. split; [exact H2|]. split.
    + rewrite H3. apply H5. vm_compute. reflexivity.
    + exact H4.
Defined.

(** X12: on a bank in use and in both variants, [sacar] of an amount that
    [_to_money] takes to a positive [v] that the balance covers returns:
    the balance becomes [saldo - v] in the arithmetic of the program, which
    is to the cent as long as the balance is below [10^28] cents; the log
    gains one SAQUE entry, with [v] and the account as source; the number
    and the owner of the account, the other accounts, the customers and the
    counters are as they were. *)
Theorem saque_efetivado (ps : list Passo) (relogio : nat -> datetime)
    (n : string) (valor : Bruto) (v : Dec.Decimal) :
  (forall c,
     let b := fst (Original.corre ps Original.Banco_novo) in
     dict_get n (Original._contas_por_numero b) = Some c ->
     Original.normaliza valor = Retorna v ->
     Dec.le v Dec.zero_int = Dec.Valor false ->
     Dec.lt (Original.saldo c) v = Dec.Valor false ->
     exists b' c' resto,
       Original.Banco.sacar relogio n valor b = (b', Retorna tt)
       /\ Dec.sub (Original.saldo c) v = Dec.Valor resto
       /\ dict_get n (Original._contas_por_numero b') = Some c'
       /\ Original.numero c' = n
       /\ Original.cliente c' = Original.cliente c
       /\ Original.saldo c' = resto
       /\ Original.registro c' =
          (Original.registro c
           ++ [Build_Transacao (relogio 0%nat) "SAQUE" v "saque" n ""])%list
       /\ (forall k, k <> n ->
             dict_get k (Original._contas_por_numero b')
             = dict_get k (Original._contas_por_numero b))
       /\ dict_keys (Original._contas_por_numero b')
          = dict_keys (Original._contas_por_numero b)
       /\ Original._clientes_por_cpf b' = Original._clientes_por_cpf b
       /\ Original._seq_cliente b' = Original._seq_cliente b
       /\ Original._seq_conta b' = Original._seq_conta b
       /\ (centavos (Original.saldo c) < 10 ^ 28 ->
           centavos resto = centavos (Original.saldo c) - centavos v))
  /\
  (forall c,
     let b := fst (Refatorado.corre ps Refatorado.Banco_novo) in
     dict_get n (Refatorado._contas_por_numero b) = Some c ->
     Refatorado.normaliza valor = Retorna v ->
     Dec.le v Dec.zero_int = Dec.Valor false ->
     Dec.lt (Refatorado.saldo c) v = Dec.Valor false ->
     exists b' c' resto,
       Refatorado.Banco.sacar relogio n valor b = (b', Retorna tt)
       /\ Dec.sub (Refatorado.saldo c) v = Dec.Valor resto
       /\ dict_get n (Refatorado._contas_por_numero b') = Some c'
       /\ Refatorado.numero c' = n
       /\ Refatorado.cliente c' = Refatorado.cliente c
       /\ Refatorado.saldo c' = resto
       /\ Refatorado.registro c' =
          (Refatorado.registro c
           ++ [Build_Transacao (relogio 0%nat) "SAQUE" v "Saque" n ""])%list
       /\ (forall k, k <> n ->
             dict_get k (Refatorado._contas_por_numero b')
             = dict_get k (Refatorado._contas_por_numero b))
       /\ dict_keys (Refatorado._contas_por_numero b')
          = dict_keys (Refatorado._contas_por_numero b)
       /\ Refatorado._clientes_por_cpf b' = Refatorado._clientes_por_cpf b
       /\ Refatorado._seq_cliente b' = Refatorado._seq_cliente b
       /\ Refatorado._seq_conta b' = Refatorado._seq_conta b
       /\ (centavos (Refatorado.saldo c) < 10 ^ 28 ->
           centavos resto = centavos (Refatorado.saldo c) - centavos v)).
Proof.
  split; intros c; cbv zeta.
  - apply DinheiroOriginal.Banco_sacar_efetivado.
    apply OriginalFacts.corre_inv, OriginalFacts.inv_novo.
  - apply DinheiroRefatorado.Banco_sacar_efetivado_R.
    apply RefatoradoFacts.corre_inv_R, RefatoradoFacts.inv_novo_R.
Qed.

(** The withdrawal of [criar_dados_mock()]: 100.00 from the 800.00 of 1002,
    which then holds 700.00. *)
Lemma saque_efetivado_mock :
  let ps := firstn 10 criar_dados_mock in
  let bo := fst (Original.corre ps Original.Banco_novo) in
  let br := fst (Refatorado.corre ps Refatorado.Banco_novo) in
  (exists b' c',
     Original.Banco.sacar tique "1002" (D "100") bo = (b', Retorna tt)
     /\ dict_get "1002" (Original._contas_por_numero b') = Some c'
     /\ centavos (Original.saldo c') = 70000)
  /\
  (exists b' c',
     Refatorado.Banco.sacar tique "1002" (D "100") br = (b', Retorna tt)
     /\ dict_get "1002" (Refatorado._contas_por_numero b') = Some c'
     /\ centavos (Refatorado.saldo c') = 70000).
Proof.
  cbv zeta.
  pose proof (proj1 (saque_efetivado (firstn 10 criar_dados_mock) tique "1002"
                       (D "100") (Dec.Fin false 10000 (-2)))) as To.
  pose proof (proj2 (saque_efetivado (firstn 10 criar_dados_mock) tique "1002"
                       (D "100") (Dec.Fin false 10000 (-2)))) as Tr.
  cbv zeta in To, Tr. split.
  - edestruct To as (b' & c' & resto & H1 & _ & H2 & _ & _ & H3 & _ & _ & _ & _
                     & _ & _ & H5);
      [vm_compute; reflexivity|vm_compute; reflexivity|vm_compute; reflexivity
      |vm_compute; reflexivity|].
    exists b', c'. split; [exact H1|]. split; [exact H2|].
    rewrite H3. apply H5. vm_compute. reflexivity.
  - edestruct Tr as (b' & c' & resto & H1 & _ & H2 & _ & _ & H3 & _ & _ & _ & _
                     & _ & _ & H5);
      [vm_compute; reflexivity|vm_compute; reflexivity|vm_compute; reflexivity
      |vm_compute; reflexivity|].
    exists b', c'. split; [exact H1|]. split; [exact H2|].
    rewrite H3. apply H5. vm_compute. reflexivity.
Defined.

(** X13: on a bank in use and in both variants, what was deposited can be
    withdrawn at once.  Take an account and a positive amount that together
    stay below [10^28] cents: [depositar] of the amount and then [sacar] of
    the same amount both return, whatever the balance was; the balance is
    then, to the cent, what it was before the deposit; the log has the
    DEPOSITO and the SAQUE entries at its end, and the other accounts are as
    they were. *)
Theorem deposito_e_saque_repoem (ps : list Passo) (relogio relogio' : nat -> datetime)
    (n : string) (valor : Bruto) (v : Dec.Decimal) :
  (forall c,
     let b := fst (Original.corre ps Original.Banco_novo) in
     dict_get n (Original._contas_por_numero b) = Some c ->
     Original.normaliza valor = Retorna v ->
     Dec.le v Dec.zero_int = Dec.Valor false ->
     centavos (Original.saldo c) + centavos v < 10 ^ 28 ->
     exists b1 b2 c2,
       Original.Banco.depositar relogio n valor b = (b1, Retorna tt)
       /\ Original.Banco.sacar relogio' n valor b1 = (b2, Retorna tt)
       /\ dict_get n (Original._contas_por_numero b2) = Some c2
       /\ centavos (Original.saldo c2) = centavos (Original.saldo c)
       /\ Original.registro c2 =
          (Original.registro c
           ++ [Build_Transacao (relogio 0%nat) "DEPOSITO" v "depósito" "" n;
               Build_Transacao (relogio' 0%nat) "SAQUE" v "saque" n ""])%list
       /\ (forall k, k <> n ->
             dict_get k (Original._contas_por_numero b2)
             = dict_get k (Original._contas_por_numero b)))
  /\
  (forall c,
     let b := fst (Refatorado.corre ps Refatorado.Banco_novo) in
     dict_get n (Refatorado._contas_por_numero b) = Some c ->
     Refatorado.normaliza valor = Retorna v ->
     Dec.le v Dec.zero_int = Dec.Valor false ->
     centavos (Refatorado.saldo c) + centavos v < 10 ^ 28 ->
     exists b1 b2 c2,
       Refatorado.Banco.depositar relogio n valor b = (b1, Retorna tt)
       /\ Refatorado.Banco.sacar relogio' n valor b1 = (b2, Retorna tt)
       /\ dict_get n (Refatorado._contas_por_numero b2) = Some c2
       /\ centavos (Refatorado.saldo c2) = centavos (Refatorado.saldo c)
       /\ Refatorado.registro c2 =
          (Refatorado.registro c
           ++ [Build_Transacao (relogio 0%nat) "DEPOSITO" v "Depósito" "" n;
               Build_Transacao (relogio' 0%nat) "SAQUE" v "Saque" n ""])%list
       /\ (forall k, k <> n ->
             dict_get k (Refatorado._contas_por_numero b2)
             = dict_get k (Refatorado._contas_por_numero b))).
Proof.
  split; intros c; cbv zeta.
  - apply DinheiroOriginal.deposito_e_saque.
    apply OriginalFacts.corre_inv, OriginalFacts.inv_novo.
  - apply DinheiroRefatorado.deposito_e_saque_R.
    apply RefatoradoFacts.corre_inv_R, RefatoradoFacts.inv_novo_R.
Qed.

(** After [criar_dados_mock()], 0.01 deposited into 1002 and withdrawn
    again leaves its 700.00. *)
Lemma deposito_e_saque_repoem_mock :
  let bo := fst (Original.corre criar_dados_mock Original.Banco_novo) in
  let br := fst (Refatorado.corre criar_dados_mock Refatorado.Banco_novo) in
  (exists b1 b2 c2,
     Original.Banco.depositar tique "1002" (BOutro "0.01") bo = (b1, Retorna tt)
     /\ Original.Banco.sacar tique "1002" (BOutro "0.01") b1 = (b2, Retorna tt)
     /\ dict_get "1002" (Original._contas_por_numero b2) = Some c2
     /\ centavos (Original.saldo c2) = 70000)
  /\
  (exists b1 b2 c2,
     Refatorado.Banco.depositar tique "1002" (BOutro "0.01") br = (b1, Retorna tt)
     /\ Refatorado.Banco.sacar tique "1002" (BOutro "0.01") b1 = (b2, Retorna tt)
     /\ dict_get "1002" (Refatorado._contas_por_numero b2) = Some c2
     /\ centavos (Refatorado.saldo c2) = 70000).
Proof.
  cbv zeta.
  pose proof (proj1 (deposito_e_saque_repoem criar_dados_mock tique tique "1002"
                       (BOutro "0.01") (Dec.Fin false 1 (-2)))) as To.
  pose proof (proj2 (deposito_e_saque_repoem criar_dados_mock tique tique "1002"
                       (BOutro "0.01") (Dec.Fin false 1 (-2)))) as Tr.
  cbv zeta in To, Tr. split.
  - edestruct To as (b1 & b2 & c2 & H1 & H2 & H3 & H4 & _);
      [vm_compute; reflexivity|vm_compute; reflexivity|vm_compute; reflexivity
      |vm_compute; reflexivity|].
    exists b1, b2, c2. repeat split; assumption.
  - edestruct Tr as (b1 & b2 & c2 & H1 & H2 & H3 & H4 & _);
      [vm_compute; reflexivity|vm_compute; reflexivity|vm_compute; reflexivity
      |vm_compute; reflexivity|].
    exists b1, b2, c2. repeat split; assumption.
Defined.

(** X14: on a bank in use that holds less than [10^28] cents, and in both
    variants, money comes in by [depositar] and goes out by [sacar], and in
    no other way: a [depositar] that returns adds the amount, to the cent,
    to what the balances of the bank add up to (as long as that stays below
    [10^28] cents); a [sacar] that returns takes the amount away; every
    other call, a transfer above all, whether it goes through or raises,
    and every call that raises, leaves the sum as it was. *)
Theorem dinheiro_entra_e_sai (ps : list Passo) (p : Passo) :
  (let b := fst (Original.corre ps Original.Banco_novo) in
   PassosOriginal.total_banco b < 10 ^ 28 ->
   match snd p, snd (Original.executa p b) with
   | Ch_depositar _ valor, Retorna _ =>
       exists v,
         Original.normaliza valor = Retorna v /\ 0 < centavos v
         /\ (PassosOriginal.total_banco b + centavos v < 10 ^ 28 ->
             PassosOriginal.total_banco (fst (Original.executa p b))
             = PassosOriginal.total_banco b + centavos v)
   | Ch_sacar _ valor, Retorna _ =>
       exists v,
         Original.normaliza valor = Retorna v /\ 0 < centavos v
         /\ PassosOriginal.total_banco (fst (Original.executa p b))
            = PassosOriginal.total_banco b - centavos v
   | _, _ =>
       PassosOriginal.total_banco (fst (Original.executa p b))
       = PassosOriginal.total_banco b
   end)
  /\
  (let b := fst (Refatorado.corre ps Refatorado.Banco_novo) in
   PassosRefatorado.total_banco b < 10 ^ 28 ->
   match snd p, snd (Refatorado.executa p b) with
   | Ch_depositar _ valor, Retorna _ =>
       exists v,
         Refatorado.normaliza valor = Retorna v /\ 0 < centavos v
         /\ (PassosRefatorado.total_banco b + centavos v < 10 ^ 28 ->
             PassosRefatorado.total_banco (fst (Refatorado.executa p b))
             = PassosRefatorado.total_banco b + centavos v)
   | Ch_sacar _ valor, Retorna _ =>
       exists v,
         Refatorado.normaliza valor = Retorna v /\ 0 < centavos v
         /\ PassosRefatorado.total_banco (fst (Refatorado.executa p b))
            = PassosRefatorado.total_banco b - centavos v
   | _, _ =>
       PassosRefatorado.total_banco (fst (Refatorado.executa p b))
       = PassosRefatorado.total_banco b
   end).
Proof.
  split; cbv zeta.
  - apply DinheiroOriginal.executa_total.
    apply OriginalFacts.corre_inv, OriginalFacts.inv_novo.
  - apply DinheiroRefatorado.executa_total_R.
    apply RefatoradoFacts.corre_inv_R, RefatoradoFacts.inv_novo_R.
Qed.

(** Before the transfer of [criar_dados_mock()] the bank holds 4800.00, and
    after it. *)
Lemma dinheiro_entra_e_sai_mock :
  let ps := firstn 9 criar_dados_mock in
  let p := (tique, Ch_transferir "1003" "1001" (D "300")) in
  let bo := fst (Original.corre ps Original.Banco_novo) in
  let br := fst (Refatorado.corre ps Refatorado.Banco_novo) in
  PassosOriginal.total_banco (fst (Original.executa p bo)) = 480000
  /\ PassosRefatorado.total_banco (fst (Refatorado.executa p br)) = 480000.
Proof.
  cbv zeta. split.
  - pose proof (proj1 (dinheiro_entra_e_sai (firstn 9 criar_dados_mock)
                         (tique, Ch_transferir "1003" "1001" (D "300")))
                  ltac:(vm_compute; reflexivity)) as H.
    cbn [snd] in H.
    rewrite H. vm_compute. reflexivity.
  - pose proof (proj2 (dinheiro_entra_e_sai (firstn 9 criar_dados_mock)
                         (tique, Ch_transferir "1003" "1001" (D "300")))
                  ltac:(vm_compute; reflexivity)) as H.
    cbn [snd] in H.
    rewrite H. vm_compute. reflexivity.
Defined.

(** ** The logs *)

Lemma bem_formado_In (n : string) (h : list Transacao) (t : Transacao) :
  bem_formado n h -> In t h ->
  e_deposito n t \/ e_saque n t
  \/ (e_resumo t /\ (origem t = n \/ destino t = n)).
Proof.
  induction 1 as [|h x Hh IH Hx|h x Hh IH Hx|h s x Hh IH Hs Hx Ho Hv
                 |h s x Hh IH Hs Hx Hd Hv]; intros Hin.
  - destruct Hin.
  - apply in_app_or in Hin. destruct Hin as [Hin|[<-|[]]]; [exact (IH Hin)|].
    left. exact Hx.
  - apply in_app_or in Hin. destruct Hin as [Hin|[<-|[]]]; [exact (IH Hin)|].
    right. left. exact Hx.
  - apply in_app_or in Hin. destruct Hin as [Hin|[<-|[<-|[]]]]; [exact (IH Hin)| |].
    + right. left. exact Hs.
    + right. right. split; [exact Hx|left; exact Ho].
  - apply in_app_or in Hin. destruct Hin as [Hin|[<-|[<-|[]]]]; [exact (IH Hin)| |].
    + left. exact Hs.
    + right. right. split; [exact Hx|right; exact Hd].
Qed.

(** X15: on a bank in use and in both variants, the log of every account
    has the shape [bem_formado]: it is made of DEPOSITO entries, which have
    the account as destination and no source, of SAQUE entries, which have
    the account as source and no destination, and of TRANSFERENCIA entries,
    each of which comes right after the SAQUE (in the log of the sender) or
    the DEPOSITO (in the log of the receiver) of the same amount and names
    two distinct accounts; every amount is positive and has two places. *)
Theorem registro_tem_forma (ps : list Passo) (n : string) :
  (forall c,
     dict_get n (Original._contas_por_numero
                   (fst (Original.corre ps Original.Banco_novo))) = Some c ->
     bem_formado n (Original.registro c)
     /\ forall t, In t (Original.registro c) ->
                  e_deposito n t \/ e_saque n t
                  \/ (e_resumo t /\ (origem t = n \/ destino t = n)))
  /\
  (forall c,
     dict_get n (Refatorado._contas_por_numero
                   (fst (Refatorado.corre ps Refatorado.Banco_novo))) = Some c ->
     bem_formado n (Refatorado.registro c)
     /\ forall t, In t (Refatorado.registro c) ->
                  e_deposito n t \/ e_saque n t
                  \/ (e_resumo t /\ (origem t = n \/ destino t = n))).
Proof.
  split; intros c Hc.
  - pose proof (Forall_dict_get _ _ _ _
                  (InvariantesOriginal.registros_bem_formados_sempre ps) Hc) as H.
    cbn [fst snd] in H. split; [exact H|].
    intros t. apply bem_formado_In. exact H.
  - pose proof (Forall_dict_get _ _ _ _
                  (InvariantesRefatorado.registros_bem_formados_sempre_R ps) Hc) as H.
    cbn [fst snd] in H. split; [exact H|].
    intros t. apply bem_formado_In. exact H.
Qed.

(** The log of 1003 after [criar_dados_mock()]: the DEPOSITO of 2500.00,
    then the SAQUE and the TRANSFERENCIA of the transfer to 1001. *)
Lemma registro_tem_forma_mock :
  (exists c,
     dict_get "1003" (Original._contas_por_numero
       (fst (Original.corre criar_dados_mock Original.Banco_novo))) = Some c
     /\ map tipo (Original.registro c) = ["DEPOSITO"; "SAQUE"; "TRANSFERENCIA"]
     /\ bem_formado "1003" (Original.registro c))
  /\
  (exists c,
     dict_get "1003" (Refatorado._contas_por_numero
       (fst (Refatorado.corre criar_dados_mock Refatorado.Banco_novo))) = Some c
     /\ map tipo (Refatorado.registro c) = ["DEPOSITO"; "SAQUE"; "TRANSFERENCIA"]
     /\ bem_formado "1003" (Refatorado.registro c)).
Proof.
  split.
  - eexists. split; [vm_compute; reflexivity|]. split; [reflexivity|].
    apply (proj1 (registro_tem_forma criar_dados_mock "1003")).
    vm_compute. reflexivity.
  - eexists. split; [vm_compute; reflexivity|]. split; [reflexivity|].
    apply (proj2 (registro_tem_forma criar_dados_mock "1003")).
    vm_compute. reflexivity.
Defined.

(** X16: on a bank in use and in both variants, a TRANSFERENCIA entry in
    the log of an account names two distinct accounts of the bank, of which
    that account is one, and the same entry is in the logs of both. *)
Theorem resumo_nos_dois_registros (ps : list Passo) (k : string) (t : Transacao) :
  (forall c,
     let b := fst (Original.corre ps Original.Banco_novo) in
     dict_get k (Original._contas_por_numero b) = Some c ->
     In t (Original.registro c) -> tipo t = "TRANSFERENCIA" ->
     origem t <> destino t
     /\ (k = origem t \/ k = destino t)
     /\ exists co cd,
          dict_get (origem t) (Original._contas_por_numero b) = Some co
          /\ dict_get (destino t) (Original._contas_por_numero b) = Some cd
          /\ In t (Original.registro co) /\ In t (Original.registro cd))
  /\
  (forall c,
     let b := fst (Refatorado.corre ps Refatorado.Banco_novo) in
     dict_get k (Refatorado._contas_por_numero b) = Some c ->
     In t (Refatorado.registro c) -> tipo t = "TRANSFERENCIA" ->
     origem t <> destino t
     /\ (k = origem t \/ k = destino t)
     /\ exists co cd,
          dict_get (origem t) (Refatorado._contas_por_numero b) = Some co
          /\ dict_get (destino t) (Refatorado._contas_por_numero b) = Some cd
          /\ In t (Refatorado.registro co) /\ In t (Refatorado.registro cd)).
Proof.
  split; intros c; cbv zeta; intros Hc Hin Ht.
  - split.
    + pose proof (Forall_dict_get _ _ _ _
                    (InvariantesOriginal.registros_bem_formados_sempre ps) Hc) as H.
      destruct (bem_formado_In _ _ _ H Hin)
        as [(E & _)|[(E & _)|((_ & Hne & _) & _)]];
        [rewrite Ht in E; discriminate E|rewrite Ht in E; discriminate E|exact Hne].
    + exact (ContinuaOriginal.resumos_nos_dois_sempre ps k c t Hc Hin Ht).
  - split.
    + pose proof (Forall_dict_get _ _ _ _
                    (InvariantesRefatorado.registros_bem_formados_sempre_R ps) Hc) as H.
      destruct (bem_formado_In _ _ _ H Hin)
        as [(E & _)|[(E & _)|((_ & Hne & _) & _)]];
        [rewrite Ht in E; discriminate E|rewrite Ht in E; discriminate E|exact Hne].
    + exact (ContinuaRefatorado.resumos_nos_dois_sempre_R ps k c t Hc Hin Ht).
Qed.

(** The TRANSFERENCIA entry of [criar_dados_mock()] is in the log of 1003
    and in the log of 1001. *)
Lemma resumo_nos_dois_registros_mock :
  let t := Build_Transacao 2 "TRANSFERENCIA" (Dec.Fin false 30000 (-2)) in
  (exists co cd,
     dict_get "1003" (Original._contas_por_numero
       (fst (Original.corre criar_dados_mock Original.Banco_novo))) = Some co
     /\ dict_get "1001" (Original._contas_por_numero
       (fst (Original.corre criar_dados_mock Original.Banco_novo))) = Some cd
     /\ In (t "transferência" "1003" "1001") (Original.registro co)
     /\ In (t "transferência" "1003" "1001") (Original.registro cd))
  /\
  (exists co cd,
     dict_get "1003" (Refatorado._contas_por_numero
       (fst (Refatorado.corre criar_dados_mock Refatorado.Banco_novo))) = Some co
     /\ dict_get "1001" (Refatorado._contas_por_numero
       (fst (Refatorado.corre criar_dados_mock Refatorado.Banco_novo))) = Some cd
     /\ In (t "Transferência" "1003" "1001") (Refatorado.registro co)
     /\ In (t "Transferência" "1003" "1001") (Refatorado.registro cd)).
Proof.
  cbv zeta. split.
  - edestruct (proj1 (resumo_nos_dois_registros criar_dados_mock "1003"
                 (Build_Transacao 2 "TRANSFERENCIA" (Dec.Fin false 30000 (-2))
                    "transferência" "1003" "1001")))
      as (_ & _ & co & cd & H);
      [vm_compute; reflexivity|vm_compute; tauto|reflexivity|].
    exists co, cd. exact H.
  - edestruct (proj2 (resumo_nos_dois_registros criar_dados_mock "1003"
                 (Build_Transacao 2 "TRANSFERENCIA" (Dec.Fin false 30000 (-2))
                    "Transferência" "1003" "1001")))
      as (_ & _ & co & cd & H);
      [vm_compute; reflexivity|vm_compute; tauto|reflexivity|].
    exists co, cd. exact H.
Defined.

(** X17: on a bank in use and in both variants, every balance is a finite
    number, never a NaN or an infinity, with the sign [+], no digit below
    the cent and no more than the 28 digits of the context. *)
Theorem saldo_em_28_digitos (ps : list Passo) (n : string) :
  (forall c,
     dict_get n (Original._contas_por_numero
                   (fst (Original.corre ps Original.Banco_novo))) = Some c ->
     exists coef e,
       Original.saldo c = Dec.Fin false coef e
       /\ -2 <= e /\ Z.of_N coef < 10 ^ 28)
  /\
  (forall c,
     dict_get n (Refatorado._contas_por_numero
                   (fst (Refatorado.corre ps Refatorado.Banco_novo))) = Some c ->
     exists coef e,
       Refatorado.saldo c = Dec.Fin false coef e
       /\ -2 <= e /\ Z.of_N coef < 10 ^ 28).
Proof.
  split; intros c Hc.
  - exact (Forall_dict_get _ _ _ _
             (ContinuaOriginal.saldos_em_28_digitos_sempre ps) Hc).
  - exact (Forall_dict_get _ _ _ _
             (ContinuaRefatorado.saldos_em_28_digitos_sempre_R ps) Hc).
Qed.

(** With 99999999999999999999999999.99 and then 0.02 deposited, the
    account 1002 holds 100000000000000000000000000.0: 28 digits, the cents
    rounded away. *)
Lemma saldo_em_28_digitos_limite :
  let ps := (contas_no_limite
             ++ [(tique, Ch_depositar "1002" (BOutro "0.02"))])%list in
  (exists c coef e,
     dict_get "1002" (Original._contas_por_numero
       (fst (Original.corre ps Original.Banco_novo))) = Some c
     /\ Original.saldo c = Dec.Fin false coef e
     /\ -2 <= e /\ Z.of_N coef < 10 ^ 28)
  /\
  (exists c coef e,
     dict_get "1002" (Refatorado._contas_por_numero
       (fst (Refatorado.corre ps Refatorado.Banco_novo))) = Some c
     /\ Refatorado.saldo c = Dec.Fin false coef e
     /\ -2 <= e /\ Z.of_N coef < 10 ^ 28).
Proof.
  cbv zeta. split.
  - eexists.
    edestruct (proj1 (saldo_em_28_digitos
                 (contas_no_limite
                  ++ [(tique, Ch_depositar "1002" (BOutro "0.02"))])%list "1002"))
      as (coef & e & H); [vm_compute; reflexivity|].
    exists coef, e. split; [vm_compute; reflexivity|exact H].
  - eexists.
    edestruct (proj2 (saldo_em_28_digitos
                 (contas_no_limite
                  ++ [(tique, Ch_depositar "1002" (BOutro "0.02"))])%list "1002"))
      as (coef & e & H); [vm_compute; reflexivity|].
    exists coef, e. split; [vm_compute; reflexivity|exact H].
Defined.

(** ** The listing *)

(** X18: on a bank in use and in both variants,
    [listar_clientes_e_contas] changes nothing and returns one pair for
    each customer, in the order in which the customers were registered,
    customers without an account included; with each customer come the
    accounts whose owner has the cpf of the customer, in the order in which
    they were opened. *)
Theorem listagem_em_ordem (ps : list Passo) :
  (let b := fst (Original.corre ps Original.Banco_novo) in
   Original.Banco.listar_clientes_e_contas b
   = (b, Retorna (map (fun cl => (cl, PassosOriginal.contas_de cl b))
                      (dict_values (Original._clientes_por_cpf b)))))
  /\
  (let b := fst (Refatorado.corre ps Refatorado.Banco_novo) in
   Refatorado.Banco.listar_clientes_e_contas b
   = (b, Retorna (map (fun cl => (cl, PassosRefatorado.contas_de cl b))
                      (dict_values (Refatorado._clientes_por_cpf b))))).
Proof.
  split; cbv zeta.
  - apply ListagemOriginal.listar_eq.
    apply OriginalFacts.corre_inv, OriginalFacts.inv_novo.
  - apply ListagemRefatorado.listar_eq_R.
    apply RefatoradoFacts.corre_inv_R, RefatoradoFacts.inv_novo_R.
Qed.

(** X19: on a bank in use and in both variants, the listing shares out the
    accounts of the bank among the customers: there is one pair for each
    customer of the bank, every account that comes with a customer has that
    customer as its owner, and every account of the bank is in the listing,
    once, and nothing else is. *)
Theorem listagem_reparte_as_contas (ps : list Passo) :
  (let b := fst (Original.corre ps Original.Banco_novo) in
   exists l,
     Original.Banco.listar_clientes_e_contas b = (b, Retorna l)
     /\ map fst l = dict_values (Original._clientes_por_cpf b)
     /\ Forall (fun par => Forall (fun c => Original.cliente c = fst par)
                                  (snd par)) l
     /\ Permutation (List.concat (map snd l))
                    (dict_values (Original._contas_por_numero b)))
  /\
  (let b := fst (Refatorado.corre ps Refatorado.Banco_novo) in
   exists l,
     Refatorado.Banco.listar_clientes_e_contas b = (b, Retorna l)
     /\ map fst l = dict_values (Refatorado._clientes_por_cpf b)
     /\ Forall (fun par => Forall (fun c => Refatorado.cliente c = fst par)
                                  (snd par)) l
     /\ Permutation (List.concat (map snd l))
                    (dict_values (Refatorado._contas_por_numero b))).
Proof.
  split; cbv zeta.
  - eexists. split; [|split; [|split]].
    + apply ListagemOriginal.listar_eq.
      apply OriginalFacts.corre_inv, OriginalFacts.inv_novo.
    + rewrite map_map. cbn [fst]. apply map_id.
    + apply Forall_forall. intros par Hpar.
      apply in_map_iff in Hpar. destruct Hpar as [cl [<- Hcl]].
      cbn [fst snd]. apply Forall_forall. intros c Hc.
      exact (ListagemOriginal.contas_de_dono ps cl c Hcl Hc).
    + rewrite map_map. cbn [snd]. apply ListagemOriginal.listar_particao.
  - eexists. split; [|split; [|split]].
    + apply ListagemRefatorado.listar_eq_R.
      apply RefatoradoFacts.corre_inv_R, RefatoradoFacts.inv_novo_R.
    + rewrite map_map. cbn [fst]. apply map_id.
    + apply Forall_forall. intros par Hpar.
      apply in_map_iff in Hpar. destruct Hpar as [cl [<- Hcl]].
      cbn [fst snd]. apply Forall_forall. intros c Hc.
      exact (ListagemRefatorado.contas_de_dono_R ps cl c Hcl Hc).
    + rewrite map_map. cbn [snd]. apply ListagemRefatorado.listar_particao_R.
Qed.

(** ** The methods of [Conta] on any account *)

(** X20: in both variants and on any account, whatever its balance, also
    one that no bank holds, and for any [Decimal] as amount, quantized or
    not, finite or not: when [sacar] returns, the balance that it leaves is
    not negative; and when [depositar] returns on a balance that is not
    negative, the balance that it leaves is not negative. *)
Theorem conta_nunca_negativa (agora : datetime) (v : Dec.Decimal) (desc : string) :
  (forall c : Original.Conta,
     (snd (Original.Conta.sacar agora v desc c) = Retorna tt ->
      nao_negativo (Original.saldo (fst (Original.Conta.sacar agora v desc c))))
     /\ (nao_negativo (Original.saldo c) ->
         snd (Original.Conta.depositar agora v desc c) = Retorna tt ->
         nao_negativo
           (Original.saldo (fst (Original.Conta.depositar agora v desc c)))))
  /\
  (forall c : Refatorado.Conta,
     (snd (Refatorado.Conta.sacar agora v desc c) = Retorna tt ->
      nao_negativo
        (Refatorado.saldo (fst (Refatorado.Conta.sacar agora v desc c))))
     /\ (nao_negativo (Refatorado.saldo c) ->
         snd (Refatorado.Conta.depositar agora v desc c) = Retorna tt ->
         nao_negativo
           (Refatorado.saldo (fst (Refatorado.Conta.depositar agora v desc c))))).
Proof.
  split; intros c; split.
  - apply DinheiroOriginal.sacar_nao_negativo.
  - apply DinheiroOriginal.depositar_nao_negativo.
  - apply DinheiroRefatorado.sacar_nao_negativo_R.
  - apply DinheiroRefatorado.depositar_nao_negativo_R.
Qed.

(** An account with 0.005, an amount that no bank would hand on: [sacar]
    of 0.005 leaves 0.000, and [depositar] of infinity leaves infinity. *)
Lemma conta_nunca_negativa_meio_centavo :
  let cl := Build_Cliente 1 "Ana" "111" in
  let co := Original.Build_Conta "1" cl (Dec.Fin false 5 (-3)) [] in
  let cr := Refatorado.Build_Conta "1" cl (Dec.Fin false 5 (-3))
              (Refatorado.Build_RegistroTransacoes []) in
  nao_negativo
    (Original.saldo (fst (Original.Conta.sacar 0 (Dec.Fin false 5 (-3)) "" co)))
  /\ nao_negativo
       (Refatorado.saldo
          (fst (Refatorado.Conta.sacar 0 (Dec.Fin false 5 (-3)) "" cr)))
  /\ nao_negativo
       (Original.saldo (fst (Original.Conta.depositar 0 (Dec.Inf false) "" co)))
  /\ nao_negativo
       (Refatorado.saldo
          (fst (Refatorado.Conta.depositar 0 (Dec.Inf false) "" cr))).
Proof.
  cbv zeta. split; [|split; [|split]].
  - apply (proj1 (proj1 (conta_nunca_negativa 0 (Dec.Fin false 5 (-3)) "") _)).
    vm_compute. reflexivity.
  - apply (proj1 (proj2 (conta_nunca_negativa 0 (Dec.Fin false 5 (-3)) "") _)).
    vm_compute. reflexivity.
  - apply (proj2 (proj1 (conta_nunca_negativa 0 (Dec.Inf false) "") _));
      vm_compute; reflexivity.
  - apply (proj2 (proj2 (conta_nunca_negativa 0 (Dec.Inf false) "") _));
      vm_compute; reflexivity.
Defined.

(** ** More on money normalisation *)

(** X21: in both variants, what [_to_money] returns for a finite amount is
    the amount rounded to the cent: it has the sign of the amount and two
    places, it is within half a cent of the amount, and an amount half way
    between two cents goes to the even one; an amount with no digit below
    the cent is returned with its value. *)
Theorem _to_money_ao_centavo (valor : Bruto) (neg : bool) (c : N) (e : Z)
    (v : Dec.Decimal) :
  snd (Decimal_str valor tt) = Retorna (Dec.Fin neg c e) ->
  (forall b : Original.Banco,
     Original.Banco._to_money valor b = (b, Retorna v) ->
     exists c', v = Dec.Fin neg c' (-2) /\ ao_centavo c e c'
                /\ Z.of_N c' < 10 ^ 28)
  /\
  (forall b : Refatorado.Banco,
     Refatorado.Banco._to_money valor b = (b, Retorna v) ->
     exists c', v = Dec.Fin neg c' (-2) /\ ao_centavo c e c'
                /\ Z.of_N c' < 10 ^ 28).
Proof.
  intros Hd.
  assert (H : Original.normaliza valor = Retorna v ->
              exists c', v = Dec.Fin neg c' (-2) /\ ao_centavo c e c'
                         /\ Z.of_N c' < 10 ^ 28).
  { intros Hv. destruct (NormalizaFacts.normaliza_quantize _ _ Hv) as (d & Hd' & Hq).
    rewrite Hd in Hd'. injection Hd' as <-.
    exact (DecMais.quantize_ao_centavo _ _ _ _ Hq). }
  split; intros b Hb; apply H.
  - rewrite OriginalFacts._to_money_eq in Hb. congruence.
  - rewrite RefatoradoFacts._to_money_eq_R in Hb.
    apply NormalizaFacts.normaliza_mesmo_valor. congruence.
Qed.

(** 10.005 and 10.015 are half way: the first goes down to 10.00, the
    second up to 10.02. *)
Lemma _to_money_ao_centavo_meio :
  (exists c', Dec.Fin false 1000 (-2) = Dec.Fin false c' (-2)
              /\ ao_centavo 10005 (-3) c' /\ Z.of_N c' < 10 ^ 28)
  /\ (exists c', Dec.Fin false 1002 (-2) = Dec.Fin false c' (-2)
                 /\ ao_centavo 10015 (-3) c' /\ Z.of_N c' < 10 ^ 28).
Proof.
  split.
  - apply (proj1 (_to_money_ao_centavo (BOutro "10.005") false 10005 (-3)
                    (Dec.Fin false 1000 (-2)) ltac:(vm_compute; reflexivity))
             Original.Banco_novo).
    vm_compute. reflexivity.
  - apply (proj2 (_to_money_ao_centavo (BOutro "10.015") false 10015 (-3)
                    (Dec.Fin false 1002 (-2)) ltac:(vm_compute; reflexivity))
             Refatorado.Banco_novo).
    vm_compute. reflexivity.
Defined.

(** X22: in both variants, [_to_money] is idempotent: what it has returned
    it returns again when it is given it. *)
Theorem _to_money_idempotente (valor : Bruto) (v : Dec.Decimal) :
  (forall b : Original.Banco,
     Original.Banco._to_money valor b = (b, Retorna v) ->
     Original.Banco._to_money (BDecimal v) b = (b, Retorna v))
  /\
  (forall b : Refatorado.Banco,
     Refatorado.Banco._to_money valor b = (b, Retorna v) ->
     Refatorado.Banco._to_money (BDecimal v) b = (b, Retorna v)).
Proof.
  split; intros b Hb.
  - rewrite OriginalFacts._to_money_eq in Hb |- *. f_equal.
    apply (NormalizaFacts.normaliza_idempotente valor). congruence.
  - rewrite RefatoradoFacts._to_money_eq_R in Hb |- *. f_equal.
    apply NormalizaFacts.normaliza_mesmo_valor.
    apply (NormalizaFacts.normaliza_idempotente valor).
    apply NormalizaFacts.normaliza_mesmo_valor. congruence.
Qed.

Lemma _to_money_idempotente_dez :
  Original.Banco._to_money (BDecimal (Dec.Fin false 1000 (-2))) Original.Banco_novo
  = (Original.Banco_novo, Retorna (Dec.Fin false 1000 (-2)))
  /\ Refatorado.Banco._to_money (BDecimal (Dec.Fin false 1000 (-2)))
       Refatorado.Banco_novo
     = (Refatorado.Banco_novo, Retorna (Dec.Fin false 1000 (-2))).
Proof.
  split.
  - apply (proj1 (_to_money_idempotente (BOutro "10.001") _)).
    vm_compute. reflexivity.
  - apply (proj2 (_to_money_idempotente (BOutro "10.001") _)).
    vm_compute. reflexivity.
Defined.



(** ** The statement of an account *)


